(** * Training loop of deep symbolic optimization: the risk-seeking epoch

    A shallow embedding of [learn] as it is written in
    [dso/dso/train.py] and in [dsr/dsr/train.py], and of the properties
    its specification states about it.

    Conventions of the embedding.
    - A Python float is an exact rational ([Q]). The infinities have no
      counterpart, except [-np.inf] as the initial best reward. The
      rewards are numbers; [nan] comes up in [learn] as the mean of an
      empty array, so the mean and what is computed from it ([ewma],
      [b_train]) are of the type [Np.float], a rational or [NaN].
    - A numpy array indexed by rows is a [list] of rows.
    - A Python exception is a value of [PyError]; code that can raise
      lives in the [result] monad.
    - A local variable that may be read before it is assigned is an
      [option] in the loop state, [None] meaning unbound.
    - The collaborators that are not part of [train.py] (the controller,
      the memory queue, [weighted_quantile]) are parameters. *)

From Stdlib Require Import QArith Qround ZArith List Lia.
From stdpp Require Import gmap strings.

Local Open Scope string_scope.
Local Open Scope list_scope.

(** ** Python values, exceptions and the exception monad *)

Inductive PyVal : Type :=
| VNone
| VBool (b : bool)
| VFloat (q : Q)
| VStr (s : string).

Inductive PyError : Type :=
| NameError (name : string)       (* UnboundLocalError is a NameError *)
| TypeError (msg : string)
| ValueError (msg : string)
| IndexError (msg : string)
| AttributeError (msg : string)
| ZeroDivisionError
| AssertionError (msg : string).

Inductive result (A : Type) : Type :=
| Ok (a : A)
| Raise (e : PyError).
Arguments Ok {A} a.
Arguments Raise {A} e.

#[export] Instance result_ret : MRet result := fun A a => Ok a.
#[export] Instance result_bind : MBind result := fun A B f m =>
  match m with
  | Ok a => f a
  | Raise e => Raise e
  end.

(** Reading a local variable: unbound variables raise. *)
Definition read {A} (name : string) (v : option A) : result A :=
  match v with
  | Some a => Ok a
  | None => Raise (NameError name)
  end.

(** Truth value of an object, as [if], [any] and [and] test it. *)
Definition truthy (v : PyVal) : bool :=
  match v with
  | VNone => false
  | VBool b => b
  | VFloat q => negb (Qeq_bool q 0)
  | VStr s => negb (String.eqb s "")
  end.

(** [v == True], as [list.index(True)] tests it. *)
Definition eq_True (v : PyVal) : bool :=
  match v with
  | VBool b => b
  | VFloat q => Qeq_bool q 1
  | _ => false
  end.

(** ** numpy and itertools on lists of rationals *)

Module Np.

(** [itertools.compress(data, selectors)]: stops at the shorter one. *)
Fixpoint compress {A} (data : list A) (selectors : list bool) : list A :=
  match data, selectors with
  | x :: data', b :: selectors' =>
      if b then x :: compress data' selectors' else compress data' selectors'
  | _, _ => []
  end.

(** [a[keep]] and [a[keep, :]] for a boolean array [keep]: the mask must
    have as many entries as [a] has rows. *)
Definition mask {A} (a : list A) (keep : list bool) : result (list A) :=
  if Nat.eqb (length a) (length keep) then Ok (compress a keep)
  else Raise (IndexError "boolean index did not match indexed array").

(** [a >= x] elementwise. *)
Definition ge (a : list Q) (x : Q) : list bool :=
  map (fun v => Qle_bool x v) a.

(** [keep[n:] = False] *)
Fixpoint clear_from (n : nat) (keep : list bool) : list bool :=
  match keep, n with
  | [], _ => []
  | b :: keep', S n' => b :: clear_from n' keep'
  | _ :: keep', O => false :: clear_from O keep'
  end.

Definition clip1 (lo hi x : Q) : Q :=
  if Qle_bool x lo then lo else if Qle_bool hi x then hi else x.

(** [np.clip(a, lo, hi)] *)
Definition clip (a : list Q) (lo hi : Q) : list Q := map (clip1 lo hi) a.

Definition sum (a : list Q) : Q := fold_right Qplus 0%Q a.

(** A float that may be nan. An operation with a nan operand gives
    nan, also the product with 0. *)
Inductive float : Type :=
| Num (x : Q)
| NaN.

Definition lift2 (f : Q -> Q -> Q) (a b : float) : float :=
  match a, b with
  | Num x, Num y => Num (f x y)
  | _, _ => NaN
  end.

Definition fadd : float -> float -> float := lift2 Qplus.
Definition fsub : float -> float -> float := lift2 Qminus.
Definition fmul : float -> float -> float := lift2 Qmult.

(** [a == b] on two floats: nan is equal to nothing, not to itself
    either. *)
Definition feq (a b : float) : Prop :=
  match a, b with
  | Num x, Num y => Qeq x y
  | _, _ => False
  end.

(** [np.mean(a)]. On an empty array numpy gives nan, with a
    RuntimeWarning and no exception. *)
Definition mean (a : list Q) : float :=
  match a with
  | [] => NaN
  | _ => Num (sum a / inject_Z (Z.of_nat (length a)))
  end.

Definition Qmax (x y : Q) : Q := if Qle_bool x y then y else x.
Definition Qmin (x y : Q) : Q := if Qle_bool x y then x else y.

(** [np.max(a)] and [np.min(a)]: an empty array has no maximum. *)
Definition max (a : list Q) : result Q :=
  match a with
  | [] => Raise (ValueError "zero-size array to reduction operation maximum which has no identity")
  | x :: a' => Ok (fold_left Qmax a' x)
  end.

Definition min (a : list Q) : result Q :=
  match a with
  | [] => Raise (ValueError "zero-size array to reduction operation minimum which has no identity")
  | x :: a' => Ok (fold_left Qmin a' x)
  end.

(** [np.argmax(a)]: the first index holding the maximum. *)
Fixpoint argmax_from (a : list Q) (i : nat) (best : Q) (besti : nat) : nat :=
  match a with
  | [] => besti
  | x :: a' =>
      if Qle_bool x best then argmax_from a' (S i) best besti
      else argmax_from a' (S i) x i
  end.

Definition argmax (a : list Q) : result nat :=
  match a with
  | [] => Raise (ValueError "attempt to get argmax of an empty sequence")
  | x :: a' => Ok (argmax_from a' 1 x 0)
  end.

(** [seq[i]] *)
Definition index {A} (l : list A) (i : nat) : result A :=
  match nth_error l i with
  | Some x => Ok x
  | None => Raise (IndexError "list index out of range")
  end.

(** [np.sort(a)] *)
Fixpoint insert_sorted (x : Q) (a : list Q) : list Q :=
  match a with
  | [] => [x]
  | y :: a' => if Qle_bool x y then x :: a else y :: insert_sorted x a'
  end.

Definition sort (a : list Q) : list Q := fold_right insert_sorted [] a.

(** [np.quantile(a, q, interpolation="higher")]: the order statistic at
    the virtual index [q * (n - 1)], rounded up. *)
Definition quantile_higher (a : list Q) (q : Q) : result Q :=
  if negb (Qle_bool 0 q && Qle_bool q 1) then
    Raise (ValueError "Quantiles must be in the range [0, 1]")
  else
    let n := length a in
    let i := Qceiling (q * inject_Z (Z.of_nat (n - 1))) in
    match nth_error (sort a) (Z.to_nat i) with
    | Some x => Ok x
    | None => Raise (IndexError "index out of bounds")
    end.

End Np.

(** ** Programs, batches and the collaborators of [learn] *)

Module Program.
(** The attributes of a [Program] that [learn] reads. [base_r] exists in
    the dsr variant only; [on_policy] is [originally_on_policy] in the
    dso variant. [sympy_expr] and [repr] stand for
    [repr(p.sympy_expr)] and [repr(p)]. *)
Record t : Type := mk {
  str : string;
  r : Q;
  base_r : Q;
  traversal : list Z;
  on_policy : bool;
  invalid : bool;
  evaluate : gmap string PyVal;
  sympy_expr : string;
  repr : string;
}.

(** [p.evaluate.get("success")] *)
Definition success (p : t) : PyVal := default VNone (evaluate p !! "success").
End Program.

Abbreviation Actions := (list (list Z)).
Abbreviation Obs := (list (list (list Z))).
Abbreviation Priors := (list (list (list Q))).

Module Batch.
(** [Batch] of [memory.py], a named tuple. *)
Record t : Type := mk {
  actions : Actions;
  obs : Obs;
  priors : Priors;
  lengths : list nat;
  rewards : list Q;
  on_policy : list bool;
}.
End Batch.

(** What [controller.sample(n)] returns, together with the programs
    [from_tokens] yields for the rows of [actions], rewards computed. *)
Module Sample.
Record t : Type := mk {
  actions : Actions;
  obs : Obs;
  priors : Priors;
  programs : list Program.t;
}.
End Sample.

(** The calls [learn] makes to its collaborators and the lines it prints
    in the quantile stage, in the order they happen. Progress printing
    ([verbose], [gp_verbose], [debug]) and the statistics logger are
    left out. *)
Inductive Event : Type :=
| Print (msg : string)
| PrintMemoryWeight (w : Q)
| QuantileVariance (epoch : nat)
| PushBest (b : Batch.t) (programs : list Program.t)
| TrainStep (b_train : Np.float) (b : Batch.t).

(** The memory queue of [memory.py], as [learn] uses it. *)
Class MemoryQueue (MQ : Type) : Type := {
  make_queue : Z -> MQ;
  unique_items : MQ -> string -> bool;
  get_rewards : MQ -> list Q;
  compute_probs : MQ -> list Q;
  push_batch : MQ -> Batch.t -> list Program.t -> MQ;
}.

(** The configuration: the keyword arguments of [learn] that steer the
    loop, and what it reads off the controller ([max_length], and [pqt]:
    whether a priority queue is made) and off the task ([stochastic],
    [const_token]: whether the library has a constant token). *)
Module Config.
Record t : Type := mk {
  n_epochs : option Z;
  n_samples : option Q;
  batch_size : nat;
  alpha : Q;
  epsilon : option Q;
  baseline : string;
  b_jumpstart : bool;
  early_stopping : bool;
  eval_all : bool;
  use_memory : bool;
  memory_capacity : Q;
  memory_threshold : option Q;
  save_pareto_front : bool;
  max_length : nat;
  pqt : bool;
  stochastic : bool;
  const_token : bool;
}.
End Config.

(** A value of the dict [learn] returns. *)
Inductive ResVal : Type :=
| Val (v : PyVal)
| Obj (p : Program.t).

(** [d.update(other)] *)
Definition dict_update {V} (d other : gmap string V) : gmap string V := other ∪ d.

(** [int(x)] on a float: truncation towards zero. *)
Definition py_int (x : Q) : Z :=
  if Qle_bool 0 x then Qfloor x else Qceiling x.

(** [max(a, b)] where [b] may be [-np.inf] ([None] here). *)
Definition py_max (a : Q) (b : option Q) : Q :=
  match b with
  | None => a
  | Some b' => if Qle_bool b' a then a else b'
  end.

(** [any(l)] *)
Definition any (l : list PyVal) : bool := existsb truthy l.

(** [l.index(True)] *)
Fixpoint index_True_from (l : list PyVal) (i : nat) : result nat :=
  match l with
  | [] => Raise (ValueError "True is not in list")
  | v :: l' => if eq_True v then Ok i else index_True_from l' (S i)
  end.

Definition index_True (l : list PyVal) : result nat := index_True_from l 0.

(** ** The stages both variants share

    The memory-augmented quantile (dso lines 328-355, dsr lines 414-442)
    and the baseline (dso lines 375-388, dsr lines 505-518) are the same
    text in both files. *)

Module Quantile.
(** The local variables of the memory-augmented branch. *)
Record t : Type := mk {
  N : nat;
  combined_r : list Q;
  combined_w : list Q;
  quantile : Q;
  printed : list Event;
}.
End Quantile.

Section Shared.
Context {MQ : Type} `{MemoryQueue MQ}.
(** [weighted_quantile] of [utils.py] *)
Variable weighted_quantile : list Q -> list Q -> Q -> Q.

Definition memory_augmented_quantile (memory_queue : MQ)
    (programs : list Program.t) (epsilon : Q)
    (memory_threshold : option Q) (epoch : nat) : Quantile.t :=
  let unique_programs :=
    List.filter (fun p => negb (unique_items memory_queue (Program.str p))) programs in
  let N := length unique_programs in
  let memory_r := get_rewards memory_queue in
  let sample_r := map Program.r unique_programs in
  let combined_r := memory_r ++ sample_r in
  let memory_w := compute_probs memory_queue in
  let '(combined_w, out1) :=
    if Nat.eqb N 0 then
      (map (fun w => w / Np.sum memory_w)%Q memory_w,
       [Print "WARNING: Found no unique samples in batch!"])
    else
      let sample_w := repeat ((1 - Np.sum memory_w) / inject_Z (Z.of_nat N))%Q N in
      (memory_w ++ sample_w, [])
  in
  let out2 :=
    match memory_threshold with
    | None => []
    | Some t =>
        PrintMemoryWeight (Np.sum memory_w) ::
        (if negb (Qle_bool (Np.sum memory_w) t) then [QuantileVariance epoch] else [])
    end
  in
  Quantile.mk N combined_r combined_w
    (weighted_quantile combined_r combined_w (1 - epsilon)%Q)
    (out1 ++ out2).

(** The condition of line 326 (dso) and 412 (dsr):
    [epsilon is not None and epsilon < 1.0]. *)
Definition risk_seeking (epsilon : option Q) : bool :=
  match epsilon with
  | None => false
  | Some eps => negb (Qle_bool 1 eps)
  end.

(** The quantile of either kind, over the rewards [r] of the batch. *)
Definition compute_quantile (use_memory : bool) (memory_queue : option MQ)
    (programs : list Program.t) (r : list Q) (epsilon : Q)
    (memory_threshold : option Q) (epoch : nat) : result (Q * list Event) :=
  if use_memory then
    mq ← match memory_queue with
          | Some mq => Ok mq
          | None => Raise (AttributeError "'NoneType' object has no attribute 'unique_items'")
          end;
    let ql := memory_augmented_quantile mq programs epsilon memory_threshold epoch in
    Ok (Quantile.quantile ql, Quantile.printed ql)
  else
    q ← Np.quantile_higher r (1 - epsilon)%Q;
    Ok (q, []).

(** The baseline: the new [ewma] and [b_train]. A [baseline] that is
    none of the four names leaves both variables as they are. *)
Definition compute_baseline (baseline : string) (alpha : Q)
    (quantile : option Q) (ewma b_train : option Np.float) (r_train : list Q)
    : result (option Np.float * option Np.float) :=
  if String.eqb baseline "ewma_R" then
    let ewma' :=
      match ewma with
      | None => Np.mean r_train
      | Some e =>
          Np.fadd (Np.fmul (Np.Num alpha) (Np.mean r_train))
                  (Np.fmul (Np.Num (1 - alpha)) e)
      end in
    Ok (Some ewma', Some ewma')
  else if String.eqb baseline "R_e" then
    q ← read "quantile" quantile;
    Ok (Some (Np.Num (-1)), Some (Np.Num q))
  else if String.eqb baseline "ewma_R_e" then
    ewma' ← match ewma with
             | None =>
                 m ← Np.min r_train;
                 Ok (Np.Num m)
             | Some e =>
                 q ← read "quantile" quantile;
                 Ok (Np.fadd (Np.fmul (Np.Num alpha) (Np.Num q))
                             (Np.fmul (Np.Num (1 - alpha)) e))
             end;
    Ok (Some ewma', Some ewma')
  else if String.eqb baseline "combined" then
    ewma' ← match ewma with
             | None =>
                 q ← read "quantile" quantile;
                 Ok (Np.fsub (Np.mean r_train) (Np.Num q))
             | Some e =>
                 q ← read "quantile" quantile;
                 Ok (Np.fadd (Np.fmul (Np.Num alpha)
                                      (Np.fsub (Np.mean r_train) (Np.Num q)))
                             (Np.fmul (Np.Num (1 - alpha)) e))
             end;
    q ← read "quantile" quantile;
    Ok (Some ewma', Some (Np.fadd (Np.Num q) ewma'))
  else
    Ok (ewma, b_train).

End Shared.

(** ** The dso variant: [dso/dso/train.py] *)

Module Dso.

Module Rows.
(** The per-row local variables of an epoch. *)
Record t : Type := mk {
  l : list nat;
  s : list string;
  invalid : list bool;
  r : list Q;
  r_train : list Q;
  programs : list Program.t;
  p_train : list Program.t;
  actions : Actions;
  obs : Obs;
  priors : Priors;
  on_policy : list bool;
}.
End Rows.

Module State.
(** The variables [learn] carries from one epoch to the next. [r_best]
    is [None] for [-np.inf]; [prev_r_best] and [ewma] are [None] for
    Python's [None]; [quantile], [b_train], [p_r_best] and [epoch] are
    [None] while unbound. *)
Record t (MQ : Type) : Type := mk {
  p_final : option Program.t;
  r_best : option Q;
  prev_r_best : option Q;
  ewma : option Np.float;
  nevals : Z;
  quantile : option Q;
  b_train : option Np.float;
  p_r_best : option Program.t;
  epoch : option nat;
  memory_queue : option MQ;
  log : list Event;
}.
Arguments mk {MQ}.
Arguments p_final {MQ}.
Arguments r_best {MQ}.
Arguments prev_r_best {MQ}.
Arguments ewma {MQ}.
Arguments nevals {MQ}.
Arguments quantile {MQ}.
Arguments b_train {MQ}.
Arguments p_r_best {MQ}.
Arguments epoch {MQ}.
Arguments memory_queue {MQ}.
Arguments log {MQ}.
End State.

Module Env.
(** What the collaborators hand to one run: the warm-start sample, the
    sample of each epoch, and the dict [logger.save_results] returns. *)
Record t : Type := mk {
  warm : Sample.t;
  sample : nat -> Sample.t;
  results_add : gmap string ResVal;
}.
End Env.

Section Learn.
Context {MQ : Type} `{MemoryQueue MQ}.
Variable weighted_quantile : list Q -> list Q -> Q -> Q.

(** Lines 284-293: the metrics of the whole batch. *)
Definition metrics (smp : Sample.t) : Rows.t :=
  let programs := Sample.programs smp in
  let r := map Program.r programs in
  {| Rows.r := r;
     Rows.r_train := r;
     Rows.p_train := programs;
     Rows.l := map (fun p => length (Program.traversal p)) programs;
     Rows.s := map Program.str programs;
     Rows.on_policy := map Program.on_policy programs;
     Rows.invalid := map Program.invalid programs;
     Rows.programs := programs;
     Rows.actions := Sample.actions smp;
     Rows.obs := Sample.obs smp;
     Rows.priors := Sample.priors smp |}.

(** Line 360: [keep = r >= quantile] *)
Definition keep_mask (rows : Rows.t) (quantile : Q) : list bool :=
  Np.ge (Rows.r rows) quantile.

(** Lines 361-369 *)
Definition filter_rows (rows : Rows.t) (keep : list bool) : result Rows.t :=
  l ← Np.mask (Rows.l rows) keep;
  let s := Np.compress (Rows.s rows) keep in
  invalid ← Np.mask (Rows.invalid rows) keep;
  r ← Np.mask (Rows.r rows) keep;
  let programs := Np.compress (Rows.programs rows) keep in
  actions ← Np.mask (Rows.actions rows) keep;
  obs ← mapM (fun o => Np.mask o keep) (Rows.obs rows);
  priors ← Np.mask (Rows.priors rows) keep;
  on_policy ← Np.mask (Rows.on_policy rows) keep;
  Ok {| Rows.l := l; Rows.s := s; Rows.invalid := invalid;
        Rows.r := r; Rows.r_train := r;
        Rows.programs := programs; Rows.p_train := programs;
        Rows.actions := actions; Rows.obs := obs; Rows.priors := priors;
        Rows.on_policy := on_policy |}.

(** Lines 326-369: the risk-seeking filter. It gives the new binding of
    [quantile], the rows and what the quantile stage printed. *)
Definition risk_seeking_filter (cfg : Config.t) (epoch : nat)
    (quantile : option Q) (memory_queue : option MQ) (rows : Rows.t)
    : result (option Q * Rows.t * list Event) :=
  match Config.epsilon cfg with
  | Some epsilon =>
      if negb (Qle_bool 1 epsilon) then
        '(q, printed) ← compute_quantile weighted_quantile (Config.use_memory cfg)
                          memory_queue (Rows.programs rows) (Rows.r rows) epsilon
                          (Config.memory_threshold cfg) epoch;
        rows' ← filter_rows rows (keep_mask rows q);
        Ok (Some q, rows', printed)
      else Ok (quantile, rows, [])
  | None => Ok (quantile, rows, [])
  end.

(** Lines 372-373 *)
Definition clip_rows (rows : Rows.t) : Rows.t :=
  {| Rows.l := Rows.l rows; Rows.s := Rows.s rows; Rows.invalid := Rows.invalid rows;
     Rows.r := Np.clip (Rows.r rows) (-1000000) 1000000;
     Rows.r_train := Np.clip (Rows.r_train rows) (-1000000) 1000000;
     Rows.programs := Rows.programs rows; Rows.p_train := Rows.p_train rows;
     Rows.actions := Rows.actions rows; Rows.obs := Rows.obs rows;
     Rows.priors := Rows.priors rows; Rows.on_policy := Rows.on_policy rows |}.

(** Lines 391-396 *)
Definition make_batch (cfg : Config.t) (rows : Rows.t) : Batch.t :=
  let lengths := map (fun p => Nat.min (length (Program.traversal p)) (Config.max_length cfg))
                     (Rows.p_train rows) in
  {| Batch.actions := Rows.actions rows; Batch.obs := Rows.obs rows;
     Batch.priors := Rows.priors rows; Batch.lengths := lengths;
     Batch.rewards := Rows.r_train rows; Batch.on_policy := Rows.on_policy rows |}.

(** Lines 298-302: [p_final] after the success check. *)
Definition check_success (eval_all : bool) (programs : list Program.t)
    (p_final : option Program.t) : result (option Program.t) :=
  let success := map Program.success programs in
  if eval_all && any success then
    i ← index_True success;
    p ← Np.index programs i;
    Ok (Some p)
  else Ok p_final.

(** Lines 421-427: [p_r_best] after the update. *)
Definition update_best (prev_r_best : option Q) (r_max : Q) (rows : Rows.t)
    (p_r_best : option Program.t) : result (option Program.t) :=
  let new_r_best :=
    match prev_r_best with
    | None => true
    | Some prev => negb (Qle_bool r_max prev)
    end in
  if new_r_best then
    i ← Np.argmax (Rows.r rows);
    p ← Np.index (Rows.programs rows) i;
    Ok (Some p)
  else Ok p_r_best.

(** Lines 435-451: whether the loop breaks after this epoch. *)
Definition decide_break (cfg : Config.t) (full_programs : list Program.t)
    (p_r_best : option Program.t) (nevals : Z) : result bool :=
  if Config.eval_all cfg && any (map Program.success full_programs) then Ok true
  else
    stop ← (if Config.early_stopping cfg then
              p ← read "p_r_best" p_r_best;
              Ok (truthy (Program.success p))
            else Ok false);
    if (stop : bool) then Ok true
    else
      match Config.n_samples cfg with
      | None => Raise (TypeError "'>' not supported between instances of 'int' and 'NoneType'")
      | Some n_samples => Ok (negb (Qle_bool (inject_Z nevals) n_samples))
      end.

(** Lines 250-427: one pass through the body of the loop, up to the
    stopping tests. What only feeds the logger ([s_history],
    [r_history], the positional entropy, the wall time) is left out. *)
Definition epoch_update (cfg : Config.t) (epoch : nat) (smp : Sample.t)
    (st : State.t MQ) : result (State.t MQ) :=
  let nevals := (State.nevals st + Z.of_nat (Config.batch_size cfg))%Z in
  let rows := metrics smp in
  p_final ← check_success (Config.eval_all cfg) (Rows.programs rows) (State.p_final st);
  r_max ← Np.max (Rows.r rows);
  let r_best := py_max r_max (State.r_best st) in
  '(quantile, rows, printed) ←
    risk_seeking_filter cfg epoch (State.quantile st) (State.memory_queue st) rows;
  let rows := clip_rows rows in
  '(ewma, b_train) ←
    compute_baseline (Config.baseline cfg) (Config.alpha cfg) quantile
      (State.ewma st) (State.b_train st) (Rows.r_train rows);
  let sampled_batch := make_batch cfg rows in
  let pushed :=
    if Config.pqt cfg then [PushBest sampled_batch (Rows.programs rows)] else [] in
  b ← read "b_train" b_train;
  let memory_queue :=
    (fun mq => push_batch mq sampled_batch (Rows.programs rows)) <$> State.memory_queue st in
  p_r_best ← update_best (State.prev_r_best st) r_max rows (State.p_r_best st);
  Ok {| State.p_final := p_final; State.r_best := Some r_best;
        State.prev_r_best := Some r_best; State.ewma := ewma;
        State.nevals := nevals; State.quantile := quantile;
        State.b_train := b_train; State.p_r_best := p_r_best;
        State.epoch := Some epoch; State.memory_queue := memory_queue;
        State.log := State.log st ++ printed ++ pushed ++ [TrainStep b sampled_batch] |}.

(** Lines 250-451: one whole pass. The boolean tells whether it ended
    in [break]. *)
Definition epoch_body (cfg : Config.t) (epoch : nat) (smp : Sample.t)
    (st : State.t MQ) : result (State.t MQ * bool) :=
  st' ← epoch_update cfg epoch smp st;
  brk ← decide_break cfg (Sample.programs smp) (State.p_r_best st') (State.nevals st');
  Ok (st', brk).

(** [for epoch in range(n_epochs)], from [epoch] on, [n] passes left. *)
Fixpoint loop (cfg : Config.t) (env : Env.t) (n : nat) (epoch : nat)
    (st : State.t MQ) : result (State.t MQ) :=
  match n with
  | O => Ok st
  | S n' =>
      '(st', brk) ← epoch_body cfg epoch (Env.sample env epoch) st;
      if (brk : bool) then Ok st' else loop cfg env n' (S epoch) st'
  end.

(** Lines 203-221: the memory queue and its warm start. *)
Definition init_memory (cfg : Config.t) (warm : Sample.t) : result (option MQ) :=
  if Config.use_memory cfg then
    if risk_seeking (Config.epsilon cfg) then
      let memory_queue := make_queue (py_int (Config.memory_capacity cfg)) in
      let programs := Sample.programs warm in
      let sampled_batch :=
        {| Batch.actions := Sample.actions warm; Batch.obs := Sample.obs warm;
           Batch.priors := Sample.priors warm;
           Batch.lengths := map (fun p => length (Program.traversal p)) programs;
           Batch.rewards := map Program.r programs;
           Batch.on_policy := map Program.on_policy programs |} in
      Ok (Some (push_batch memory_queue sampled_batch programs))
    else Raise (AssertionError "Memory queue is only used with risk-seeking.")
  else Ok None.

(** Lines 242-244: the number of epochs. *)
Definition epochs (cfg : Config.t) : result Z :=
  n ← match Config.n_epochs cfg with
      | Some n => Ok n
      | None =>
          match Config.n_samples cfg with
          | None => Raise (TypeError "unsupported operand type(s) for /: 'NoneType' and 'int'")
          | Some n_samples =>
              if Nat.eqb (Config.batch_size cfg) 0 then Raise ZeroDivisionError
              else Ok (py_int (n_samples / inject_Z (Z.of_nat (Config.batch_size cfg))))
          end
      end;
  if (n <? 0)%Z then Raise (ValueError "negative dimensions are not allowed")
  else Ok n.

(** Lines 163-246: everything before the loop. *)
Definition init (cfg : Config.t) (env : Env.t) : result (State.t MQ * Z) :=
  match Config.n_samples cfg, Config.n_epochs cfg with
  | Some _, Some _ =>
      Raise (AssertionError "At least one of 'n_samples' or 'n_epochs' must be None.")
  | _, _ =>
      memory_queue ← init_memory cfg (Env.warm env);
      if Config.stochastic cfg && Config.const_token cfg then
        Raise (AssertionError "Constant tokens not yet supported with stochastic Tasks.")
      else if Config.stochastic cfg && Config.save_pareto_front cfg then
        Raise (AssertionError "Pareto front not supported with stochastic Tasks.")
      else
        n_epochs ← epochs cfg;
        Ok ({| State.p_final := None; State.r_best := None;
               State.prev_r_best := None;
               State.ewma := if Config.b_jumpstart cfg then None else Some (Np.Num 0);
               State.nevals := 0; State.quantile := None; State.b_train := None;
               State.p_r_best := None; State.epoch := None;
               State.memory_queue := memory_queue; State.log := [] |}, n_epochs)
  end.

(** Lines 470-482: the dict that is returned. *)
Definition result_dict (results_add : gmap string ResVal) (p : Program.t)
    : gmap string ResVal :=
  let result : gmap string ResVal := {[ "r" := Val (VFloat (Program.r p)) ]} in
  let result := dict_update result (Val <$> Program.evaluate p) in
  let result := dict_update result
    (<["expression" := Val (VStr (Program.sympy_expr p))]>
     (<["traversal" := Val (VStr (Program.repr p))]>
      {[ "program" := Obj p ]})) in
  dict_update result results_add.

(** Lines 453-482: after the loop. [logger.save_results] is handed
    [epoch], which is unbound when the loop made no pass. *)
Definition finish (env : Env.t) (st : State.t MQ) : result (gmap string ResVal) :=
  _ ← read "epoch" (State.epoch st);
  p ← match State.p_final st with
      | Some p => Ok p
      | None => read "p_r_best" (State.p_r_best st)
      end;
  Ok (result_dict (Env.results_add env) p).

(** The state when the loop is left. *)
Definition run (cfg : Config.t) (env : Env.t) : result (State.t MQ) :=
  '(st, n_epochs) ← init cfg env;
  loop cfg env (Z.to_nat n_epochs) 0 st.

Definition learn (cfg : Config.t) (env : Env.t) : result (gmap string ResVal) :=
  st ← run cfg env;
  finish env st.

End Learn.
End Dso.

(** ** The dsr variant: [dsr/dsr/train.py] *)

Module Dsr.

Module Rows.
(** The per-row local variables of an epoch; [base_r] is the reward
    before the complexity penalty. *)
Record t : Type := mk {
  base_r : list Q;
  l : list nat;
  s : list string;
  invalid : list bool;
  r : list Q;
  r_train : list Q;
  programs : list Program.t;
  p_train : list Program.t;
  actions : Actions;
  obs : Obs;
  priors : Priors;
  on_policy : list bool;
}.
End Rows.

Module State.
Record t (MQ : Type) : Type := mk {
  p_final : option Program.t;
  base_r_best : option Q;
  r_best : option Q;
  prev_r_best : option Q;
  prev_base_r_best : option Q;
  ewma : option Np.float;
  nevals : Z;
  quantile : option Q;
  b_train : option Np.float;
  p_r_best : option Program.t;
  p_base_r_best : option Program.t;
  epoch : option nat;
  memory_queue : option MQ;
  log : list Event;
}.
Arguments mk {MQ}.
Arguments p_final {MQ}.
Arguments base_r_best {MQ}.
Arguments r_best {MQ}.
Arguments prev_r_best {MQ}.
Arguments prev_base_r_best {MQ}.
Arguments ewma {MQ}.
Arguments nevals {MQ}.
Arguments quantile {MQ}.
Arguments b_train {MQ}.
Arguments p_r_best {MQ}.
Arguments p_base_r_best {MQ}.
Arguments epoch {MQ}.
Arguments memory_queue {MQ}.
Arguments log {MQ}.
End State.

Module Gp.
(** What one call [gp_controller(actions)] gives, and
    [gp_controller.nevals] after it. *)
Record t : Type := mk {
  deap_programs : list Program.t;
  deap_obs : Obs;
  deap_actions : Actions;
  deap_priors : Priors;
  nevals : Z;
}.
End Gp.

Module Env.
(** [gp_controller] is [None] or carries [return_gp_obs]; its
    [config_gp_meld["verbose"]] is taken to be off. [n_invalid] is the
    count the loop over [Program.cache] reaches at the end. *)
Record t : Type := mk {
  gp_controller : option bool;
  warm : Sample.t;
  sample : nat -> Sample.t;
  gp : nat -> Gp.t;
  n_invalid : nat;
}.
End Env.

Section Learn.
Context {MQ : Type} `{MemoryQueue MQ}.
Variable weighted_quantile : list Q -> list Q -> Q -> Q.

(** Lines 184-194 *)
Definition run_gp_meld (env : Env.t) : bool :=
  match Env.gp_controller env with Some _ => true | None => false end.

(** [gp_controller.return_gp_obs], read only under [run_gp_meld]. *)
Definition return_gp_obs (env : Env.t) : bool :=
  match Env.gp_controller env with Some b => b | None => false end.

(** Lines 345-351: the rows of the GP are put after the sampled ones.
    [obs] is read at its indices 0, 1 and 2. *)
Definition meld (smp : Sample.t) (g : Gp.t) : result Sample.t :=
  o0 ← Np.index (Sample.obs smp) 0; d0 ← Np.index (Gp.deap_obs g) 0;
  o1 ← Np.index (Sample.obs smp) 1; d1 ← Np.index (Gp.deap_obs g) 1;
  o2 ← Np.index (Sample.obs smp) 2; d2 ← Np.index (Gp.deap_obs g) 2;
  Ok {| Sample.programs := Sample.programs smp ++ Gp.deap_programs g;
        Sample.actions := Sample.actions smp ++ Gp.deap_actions g;
        Sample.obs := [o0 ++ d0; o1 ++ d1; o2 ++ d2];
        Sample.priors := Sample.priors smp ++ Gp.deap_priors g |}.

(** Lines 358-368 *)
Definition metrics (smp : Sample.t) : Rows.t :=
  let programs := Sample.programs smp in
  let r := map Program.r programs in
  {| Rows.base_r := map Program.base_r programs;
     Rows.r := r;
     Rows.r_train := r;
     Rows.p_train := programs;
     Rows.l := map (fun p => length (Program.traversal p)) programs;
     Rows.s := map Program.str programs;
     Rows.on_policy := map Program.on_policy programs;
     Rows.invalid := map Program.invalid programs;
     Rows.programs := programs;
     Rows.actions := Sample.actions smp;
     Rows.obs := Sample.obs smp;
     Rows.priors := Sample.priors smp |}.

(** Line 457: [keep = base_r >= quantile] *)
Definition keep_mask (rows : Rows.t) (quantile : Q) : list bool :=
  Np.ge (Rows.base_r rows) quantile.

(** Line 474: [keep[batch_size:] = False] *)
Definition train_mask (batch_size : nat) (keep : list bool) : list bool :=
  Np.clear_from batch_size keep.

(** Lines 457-499. [keep] is changed in place at line 474, so what
    comes after that line reads the changed mask. *)
Definition filter_rows (env : Env.t) (batch_size : nat) (rows : Rows.t)
    (keep : list bool) : result Rows.t :=
  base_r ← Np.mask (Rows.base_r rows) keep;
  l ← Np.mask (Rows.l rows) keep;
  let s := Np.compress (Rows.s rows) keep in
  invalid ← Np.mask (Rows.invalid rows) keep;
  '(keep, r, programs, r_train, p_train) ←
    (if run_gp_meld env && negb (return_gp_obs env) then
       _r ← Np.mask (Rows.r rows) keep;
       let _p := Np.compress (Rows.programs rows) keep in
       let keep := train_mask batch_size keep in
       r_train ← Np.mask (Rows.r rows) keep;
       let p_train := Np.compress (Rows.programs rows) keep in
       Ok (keep, _r, _p, r_train, p_train)
     else
       r ← Np.mask (Rows.r rows) keep;
       let programs := Np.compress (Rows.programs rows) keep in
       Ok (keep, r, programs, r, programs));
  actions ← Np.mask (Rows.actions rows) keep;
  obs ← mapM (fun o => Np.mask o keep) (Rows.obs rows);
  priors ← Np.mask (Rows.priors rows) keep;
  on_policy ← Np.mask (Rows.on_policy rows) keep;
  Ok {| Rows.base_r := base_r; Rows.l := l; Rows.s := s; Rows.invalid := invalid;
        Rows.r := r; Rows.r_train := r_train;
        Rows.programs := programs; Rows.p_train := p_train;
        Rows.actions := actions; Rows.obs := obs; Rows.priors := priors;
        Rows.on_policy := on_policy |}.

(** Lines 412-499 *)
Definition risk_seeking_filter (cfg : Config.t) (env : Env.t) (epoch : nat)
    (quantile : option Q) (memory_queue : option MQ) (rows : Rows.t)
    : result (option Q * Rows.t * list Event) :=
  match Config.epsilon cfg with
  | Some epsilon =>
      if negb (Qle_bool 1 epsilon) then
        '(q, printed) ← compute_quantile weighted_quantile (Config.use_memory cfg)
                          memory_queue (Rows.programs rows) (Rows.r rows) epsilon
                          (Config.memory_threshold cfg) epoch;
        rows' ← filter_rows env (Config.batch_size cfg) rows (keep_mask rows q);
        Ok (Some q, rows', printed)
      else Ok (quantile, rows, [])
  | None => Ok (quantile, rows, [])
  end.

(** Lines 502-503 *)
Definition clip_rows (rows : Rows.t) : Rows.t :=
  {| Rows.base_r := Rows.base_r rows;
     Rows.l := Rows.l rows; Rows.s := Rows.s rows; Rows.invalid := Rows.invalid rows;
     Rows.r := Np.clip (Rows.r rows) (-1000000) 1000000;
     Rows.r_train := Np.clip (Rows.r_train rows) (-1000000) 1000000;
     Rows.programs := Rows.programs rows; Rows.p_train := Rows.p_train rows;
     Rows.actions := Rows.actions rows; Rows.obs := Rows.obs rows;
     Rows.priors := Rows.priors rows; Rows.on_policy := Rows.on_policy rows |}.

(** Lines 521-526 *)
Definition make_batch (cfg : Config.t) (rows : Rows.t) : Batch.t :=
  let lengths := map (fun p => Nat.min (length (Program.traversal p)) (Config.max_length cfg))
                     (Rows.p_train rows) in
  {| Batch.actions := Rows.actions rows; Batch.obs := Rows.obs rows;
     Batch.priors := Rows.priors rows; Batch.lengths := lengths;
     Batch.rewards := Rows.r_train rows; Batch.on_policy := Rows.on_policy rows |}.

(** Lines 374-378 *)
Definition check_success (eval_all : bool) (programs : list Program.t)
    (p_final : option Program.t) : result (option Program.t) :=
  let success := map Program.success programs in
  if eval_all && any success then
    i ← index_True success;
    p ← Np.index programs i;
    Ok (Some p)
  else Ok p_final.

(** Lines 551-557, for either of the two trackers: [programs[np.argmax(a)]]
    when the maximum of the whole batch beats the previous best. *)
Definition update_best (prev_best : option Q) (a_max : Q) (a : list Q)
    (programs : list Program.t) (p_best : option Program.t)
    : result (option Program.t) :=
  let new_best :=
    match prev_best with
    | None => true
    | Some prev => negb (Qle_bool a_max prev)
    end in
  if new_best then
    i ← Np.argmax a;
    p ← Np.index programs i;
    Ok (Some p)
  else Ok p_best.

(** Lines 593-619 *)
Definition decide_break (cfg : Config.t) (env : Env.t)
    (full_programs : list Program.t) (p_base_r_best : option Program.t)
    (nevals : Z) : result bool :=
  if Config.eval_all cfg && any (map Program.success full_programs) then Ok true
  else
    stop ← (if Config.early_stopping cfg then
              p ← read "p_base_r_best" p_base_r_best;
              Ok (truthy (Program.success p))
            else Ok false);
    if (stop : bool) then Ok true
    else if run_gp_meld env then
      match Config.n_samples cfg with
      | None => Raise (TypeError "'>' not supported between instances of 'int' and 'NoneType'")
      | Some n_samples => Ok (negb (Qle_bool (inject_Z nevals) n_samples))
      end
    else Ok false.

(** Lines 300-351: the batch of the epoch, the rows of the GP melded
    in. *)
Definition full_batch (env : Env.t) (epoch : nat) : result Sample.t :=
  if run_gp_meld env then meld (Env.sample env epoch) (Env.gp env epoch)
  else Ok (Env.sample env epoch).

(** Lines 302 and 312 *)
Definition count_evals (cfg : Config.t) (env : Env.t) (epoch : nat) (nevals : Z) : Z :=
  let nevals := (nevals + Z.of_nat (Config.batch_size cfg))%Z in
  if run_gp_meld env then (nevals + Gp.nevals (Env.gp env epoch))%Z else nevals.

(** Lines 286-560: one pass through the body of the loop, up to the
    stopping tests, on the batch [smp] of [full_batch]. *)
Definition epoch_update (cfg : Config.t) (env : Env.t) (epoch : nat)
    (smp : Sample.t) (st : State.t MQ) : result (State.t MQ) :=
  let nevals := count_evals cfg env epoch (State.nevals st) in
  let rows := metrics smp in
  p_final ← check_success (Config.eval_all cfg) (Rows.programs rows) (State.p_final st);
  base_r_max ← Np.max (Rows.base_r rows);
  let base_r_best := py_max base_r_max (State.base_r_best st) in
  r_max ← Np.max (Rows.r rows);
  let r_best := py_max r_max (State.r_best st) in
  '(quantile, rows, printed) ←
    risk_seeking_filter cfg env epoch (State.quantile st) (State.memory_queue st) rows;
  let rows := clip_rows rows in
  '(ewma, b_train) ←
    compute_baseline (Config.baseline cfg) (Config.alpha cfg) quantile
      (State.ewma st) (State.b_train st) (Rows.r_train rows);
  let sampled_batch := make_batch cfg rows in
  let pushed :=
    if Config.pqt cfg then [PushBest sampled_batch (Rows.programs rows)] else [] in
  b ← read "b_train" b_train;
  let memory_queue :=
    (fun mq => push_batch mq sampled_batch (Rows.programs rows)) <$> State.memory_queue st in
  p_r_best ← update_best (State.prev_r_best st) r_max (Rows.r rows)
                (Rows.programs rows) (State.p_r_best st);
  p_base_r_best ← update_best (State.prev_base_r_best st) base_r_max (Rows.base_r rows)
                     (Rows.programs rows) (State.p_base_r_best st);
  Ok {| State.p_final := p_final; State.base_r_best := Some base_r_best;
        State.r_best := Some r_best;
        State.prev_r_best := Some r_best; State.prev_base_r_best := Some base_r_best;
        State.ewma := ewma;
        State.nevals := nevals; State.quantile := quantile;
        State.b_train := b_train; State.p_r_best := p_r_best;
        State.p_base_r_best := p_base_r_best;
        State.epoch := Some epoch; State.memory_queue := memory_queue;
        State.log := State.log st ++ printed ++ pushed ++ [TrainStep b sampled_batch] |}.

(** Lines 286-619: one whole pass. *)
Definition epoch_body (cfg : Config.t) (env : Env.t) (epoch : nat)
    (st : State.t MQ) : result (State.t MQ * bool) :=
  smp ← full_batch env epoch;
  st' ← epoch_update cfg env epoch smp st;
  brk ← decide_break cfg env (Sample.programs smp) (State.p_base_r_best st')
          (State.nevals st');
  Ok (st', brk).

Fixpoint loop (cfg : Config.t) (env : Env.t) (n : nat) (epoch : nat)
    (st : State.t MQ) : result (State.t MQ) :=
  match n with
  | O => Ok st
  | S n' =>
      '(st', brk) ← epoch_body cfg env epoch st;
      if (brk : bool) then Ok st' else loop cfg env n' (S epoch) st'
  end.

(** Lines 233-251 *)
Definition init_memory (cfg : Config.t) (warm : Sample.t) : result (option MQ) :=
  if Config.use_memory cfg then
    if risk_seeking (Config.epsilon cfg) then
      let memory_queue := make_queue (py_int (Config.memory_capacity cfg)) in
      let programs := Sample.programs warm in
      let sampled_batch :=
        {| Batch.actions := Sample.actions warm; Batch.obs := Sample.obs warm;
           Batch.priors := Sample.priors warm;
           Batch.lengths := map (fun p => length (Program.traversal p)) programs;
           Batch.rewards := map Program.r programs;
           Batch.on_policy := map Program.on_policy programs |} in
      Ok (Some (push_batch memory_queue sampled_batch programs))
    else Raise (AssertionError "Memory queue is only used with risk-seeking.")
  else Ok None.

(** Lines 274-277 *)
Definition epochs (cfg : Config.t) : result Z :=
  n ← match Config.n_epochs cfg with
      | Some n => Ok n
      | None =>
          match Config.n_samples cfg with
          | None => Raise (TypeError "unsupported operand type(s) for /: 'NoneType' and 'int'")
          | Some n_samples =>
              if Nat.eqb (Config.batch_size cfg) 0 then Raise ZeroDivisionError
              else Ok (py_int (n_samples / inject_Z (Z.of_nat (Config.batch_size cfg))))
          end
      end;
  if (n <? 0)%Z then Raise (ValueError "negative dimensions are not allowed")
  else Ok n.

(** Lines 182-284 *)
Definition init (cfg : Config.t) (env : Env.t) : result (State.t MQ * Z) :=
  match Config.n_samples cfg, Config.n_epochs cfg with
  | Some _, Some _ =>
      Raise (AssertionError "At least one of 'n_samples' or 'n_epochs' must be None.")
  | _, _ =>
      memory_queue ← init_memory cfg (Env.warm env);
      if Config.stochastic cfg && Config.const_token cfg then
        Raise (AssertionError "Constant tokens not yet supported with stochastic Tasks.")
      else if Config.stochastic cfg && Config.save_pareto_front cfg then
        Raise (AssertionError "Pareto front not supported with stochastic Tasks.")
      else
        n_epochs ← epochs cfg;
        Ok ({| State.p_final := None; State.base_r_best := None;
               State.r_best := None;
               State.prev_r_best := None; State.prev_base_r_best := None;
               State.ewma := if Config.b_jumpstart cfg then None else Some (Np.Num 0);
               State.nevals := 0; State.quantile := None; State.b_train := None;
               State.p_r_best := None; State.p_base_r_best := None;
               State.epoch := None;
               State.memory_queue := memory_queue; State.log := [] |}, n_epochs)
  end.

(** Lines 660-673 *)
Definition result_dict (p : Program.t) : gmap string ResVal :=
  let result : gmap string ResVal :=
    <["r" := Val (VFloat (Program.r p))]> {[ "base_r" := Val (VFloat (Program.base_r p)) ]} in
  let result := dict_update result (Val <$> Program.evaluate p) in
  dict_update result
    (<["expression" := Val (VStr (Program.sympy_expr p))]>
     (<["traversal" := Val (VStr (Program.repr p))]>
      {[ "program" := Obj p ]})).

(** Lines 620-673. [epoch] is read at line 639, under [n_invalid > 0]. *)
Definition finish (env : Env.t) (st : State.t MQ) : result (gmap string ResVal) :=
  _ ← (if Nat.ltb 0 (Env.n_invalid env) then read "epoch" (State.epoch st) else Ok O);
  p ← match State.p_final st with
      | Some p => Ok p
      | None => read "p_base_r_best" (State.p_base_r_best st)
      end;
  Ok (result_dict p).

Definition run (cfg : Config.t) (env : Env.t) : result (State.t MQ) :=
  '(st, n_epochs) ← init cfg env;
  loop cfg env (Z.to_nat n_epochs) 0 st.

Definition learn (cfg : Config.t) (env : Env.t) : result (gmap string ResVal) :=
  st ← run cfg env;
  finish env st.

End Learn.
End Dsr.

(** ** Evaluation of a batch: serially or through the pool

    Lines 262-281 (dso) and 322-341 (dsr) of [learn], and [work]. *)

Module Candidate.
(** Modelled from the spec: a Candidate of the cache of [program.py],
    which is not among the sources at hand; only its caller is. It keeps
    the constants once they are fitted, the reward once it is computed
    ([None]: pending, what the source tests with ["r" not in p.__dict__])
    and the count of times its traversal was sampled. *)
Record t (C : Type) : Type := mk {
  constants : option C;
  r : option Q;
  count : nat;
}.
Arguments mk {C}.
Arguments constants {C}.
Arguments r {C}.
Arguments count {C}.
End Candidate.

Module Evaluation.
Section Pool.
Context {C : Type}.
(** The constants [p.optimize()] fits to a traversal, and the reward of a
    traversal with these constants set; both are functions of their
    arguments only. *)
Variable optimize : list Z -> C.
Variable reward : list Z -> option C -> Q.
(** [list(set(l))]: the distinct elements of [l], in the order the set
    yields them. *)
Variable set_order : list (list Z) -> list (list Z).

(** The cache maps a canonical key to the one Candidate that owns it. The
    key of a traversal is the traversal; a list of programs is a list of
    keys, so that two rows with one traversal are one object. *)
Abbreviation Cache := (gmap (list Z) (Candidate.t C)).

(** Modelled from the spec: [from_tokens(a, optimize)] of [program.py].
    A key the cache holds gives the cached Candidate, its counter
    incremented, nothing computed again. A new key gives a new Candidate;
    with [optimize] its constants are fitted and its reward computed at
    construction, without it the Candidate is left pending. *)
Definition from_tokens (a : list Z) (optimize_flag : bool) (cache : Cache) : Cache :=
  match cache !! a with
  | Some p =>
      <[a := Candidate.mk (Candidate.constants p) (Candidate.r p) (S (Candidate.count p))]> cache
  | None =>
      if optimize_flag then
        <[a := Candidate.mk (Some (optimize a)) (Some (reward a (Some (optimize a)))) 1]> cache
      else
        <[a := Candidate.mk None None 1]> cache
  end.

(** [[from_tokens(a, optimize=flag) for a in actions]]: the programs are
    the keys of [actions]. *)
Definition construct (optimize_flag : bool) (actions : list (list Z)) (cache : Cache) : Cache :=
  fold_left (fun c a => from_tokens a optimize_flag c) actions cache.

(** Modelled from the spec: reading [p.r] computes the reward of a
    pending Candidate from the constants it has, and keeps it. A key the
    cache does not hold cannot be read: every program of a batch was put
    there by [from_tokens]. *)
Definition read_r (a : list Z) (cache : Cache) : Cache * Q :=
  match cache !! a with
  | Some p =>
      match Candidate.r p with
      | Some x => (cache, x)
      | None =>
          let x := reward a (Candidate.constants p) in
          (<[a := Candidate.mk (Candidate.constants p) (Some x) (Candidate.count p)]> cache, x)
      end
  | None => (cache, 0%Q)
  end.

(** [np.array([p.r for p in programs])] *)
Fixpoint retrieve (programs : list (list Z)) (cache : Cache) : Cache * list Q :=
  match programs with
  | [] => (cache, [])
  | a :: programs' =>
      let '(cache1, x) := read_r a cache in
      let '(cache2, xs) := retrieve programs' cache1 in
      (cache2, x :: xs)
  end.

(** [work(p)], run by a worker on its own copy of a pending [p]. *)
Definition work (a : list Z) : C * Q :=
  let optimized_constants := optimize a in
  (optimized_constants, reward a (Some optimized_constants)).

Definition pending (cache : Cache) (a : list Z) : bool :=
  match cache !! a with
  | Some p => match Candidate.r p with Some _ => false | None => true end
  | None => false
  end.

(** [list(set([p for p in programs if "r" not in p.__dict__]))] *)
Definition programs_to_optimize (programs : list (list Z)) (cache : Cache) : list (list Z) :=
  set_order (List.filter (pending cache) programs).

(** [p.set_constants(optimized_constants); p.r = r] *)
Definition set_result (res : C * Q) (p : Candidate.t C) : Candidate.t C :=
  Candidate.mk (Some (fst res)) (Some (snd res)) (Candidate.count p).

(** What the pool does to one Candidate in the end: a pending one gets
    the result of [work], one that has its reward is left alone. *)
Definition settle (a : list Z) (p : Candidate.t C) : Candidate.t C :=
  match Candidate.r p with
  | Some _ => p
  | None => set_result (work a) p
  end.

(** The loop over [zip(results, programs_to_optimize)] *)
Definition apply_results (results : list (C * Q)) (todo : list (list Z)) (cache : Cache) : Cache :=
  fold_left (fun c (x : (C * Q) * list Z) => alter (set_result (fst x)) (snd x) c)
            (combine results todo) cache.

(** [pool is None]: programs, rewards and the cache afterwards. *)
Definition serial (actions : list (list Z)) (cache : Cache) : Cache * list Q :=
  retrieve actions (construct true actions cache).

(** With a pool. [pool.map] gives the results in the order of its input. *)
Definition parallel (actions : list (list Z)) (cache : Cache) : Cache * list Q :=
  let cache1 := construct false actions cache in
  let todo := programs_to_optimize actions cache1 in
  let results := map work todo in
  retrieve actions (apply_results results todo cache1).

(** Every Candidate of the cache has its reward: so it is between two
    epochs, each epoch reading the reward of every program it made. *)
Definition evaluated (cache : Cache) : Prop :=
  forall a p, cache !! a = Some p -> is_Some (Candidate.r p).

(** What [set] and [list] promise of [set_order]. *)
Definition set_like : Prop :=
  forall l, NoDup (set_order l) /\ forall a, a ∈ set_order l <-> a ∈ l.

End Pool.
End Evaluation.

(** ** Stand-ins for the collaborators, to run the model *)

(** Modelled from the spec: [weighted_quantile] of [utils.py], which is
    not among the sources at hand: sort by value, take the smallest
    prefix whose cumulative weight reaches the target probability. Where
    no prefix reaches it the largest value is taken. *)
Fixpoint insert_by_value (x : Q * Q) (l : list (Q * Q)) : list (Q * Q) :=
  match l with
  | [] => [x]
  | y :: l' => if Qle_bool (fst x) (fst y) then x :: l else y :: insert_by_value x l'
  end.

Fixpoint take_prefix (l : list (Q * Q)) (acc target last : Q) : Q :=
  match l with
  | [] => last
  | (v, w) :: l' =>
      if Qle_bool target (acc + w) then v else take_prefix l' (acc + w)%Q target v
  end.

Definition weighted_quantile (values weights : list Q) (q : Q) : Q :=
  take_prefix (fold_right insert_by_value [] (combine values weights)) 0 q 0.

(** A memory queue whose entries are written in a table (key, reward,
    weight). It is a stand-in for the queue of [memory.py]: a batch
    pushed to it adds the keys it does not hold yet, with weight 0, while
    there is room. *)
Module TableQueue.
Record t : Type := mk {
  capacity : Z;
  items : list (string * Q * Q);
}.

Definition holds (q : t) (key : string) : bool :=
  existsb (fun x => String.eqb (fst (fst x)) key) (items q).

Definition push (q : t) (p : Program.t) : t :=
  if holds q (Program.str p) || (capacity q <=? Z.of_nat (length (items q)))%Z then q
  else mk (capacity q) (items q ++ [(Program.str p, Program.r p, 0%Q)]).

#[global] Instance memory_queue : MemoryQueue t := {|
  make_queue c := mk c [];
  unique_items := holds;
  get_rewards q := map (fun x => snd (fst x)) (items q);
  compute_probs q := map snd (items q);
  push_batch q _ programs := fold_left push programs q;
|}.
End TableQueue.

(** ** What [learn] keeps for the logger and prints at the end *)

Module History.
(** Lines 304-311 (dso) and 380-387 (dsr): the reward history of a
    stochastic task, a dict from the key [p.str] to the rewards seen
    under that key, oldest first; [None] for a task that is not
    stochastic. [value] is [p.r] in the dso variant and [p.base_r] in
    the dsr variant. *)
Definition record (value : Program.t -> Q) (h : gmap string (list Q)) (p : Program.t)
    : gmap string (list Q) :=
  let key := Program.str p in
  match h !! key with
  | Some rs => <[key := rs ++ [value p]]> h
  | None => <[key := [value p]]> h
  end.

(** Lines 228-235 (dso) and 258-265 (dsr) *)
Definition init (stochastic : bool) : option (gmap string (list Q)) :=
  if stochastic then Some ∅ else None.

(** [if r_history is not None: for p in programs: ...] *)
Definition update (value : Program.t -> Q) (h : option (gmap string (list Q)))
    (programs : list Program.t) : option (gmap string (list Q)) :=
  match h with
  | Some h => Some (fold_left (record value) programs h)
  | None => None
  end.

(** The history after the passes whose whole batches are [batches]. *)
Definition run (stochastic : bool) (value : Program.t -> Q)
    (batches : list (list Program.t)) : option (gmap string (list Q)) :=
  fold_left (update value) batches (init stochastic).

End History.

Module Cached.
(** The attributes of a Program of [Program.cache] that the error
    statistics of the dsr variant read. *)
Record t : Type := mk {
  invalid : bool;
  count : nat;
  error_type : string;
  error_node : string;
}.
End Cached.

Module ErrorStats.
(** Lines 629-646 of [dsr/dsr/train.py]. *)

(** [d[key] += n] on a [defaultdict(lambda : 0)]; the items are in the
    order the keys were first written. *)
Fixpoint add (d : list (string * nat)) (key : string) (n : nat) : list (string * nat) :=
  match d with
  | [] => [(key, 0 + n)]
  | (k, c) :: d' =>
      if String.eqb k key then (k, c + n) :: d' else (k, c) :: add d' key n
  end.

Record t : Type := mk {
  n_invalid : nat;
  error_types : list (string * nat);
  error_nodes : list (string * nat);
}.

(** The body of [for p in Program.cache.values()] *)
Definition count (st : t) (p : Cached.t) : t :=
  if Cached.invalid p then
    {| n_invalid := n_invalid st + Cached.count p;
       error_types := add (error_types st) (Cached.error_type p) (Cached.count p);
       error_nodes := add (error_nodes st) (Cached.error_node p) (Cached.count p) |}
  else st.

Definition collect (cache : list Cached.t) : t :=
  fold_left count cache {| n_invalid := 0; error_types := []; error_nodes := [] |}.

(** What is printed: the line of the total, the two headers and one
    line per key with its count and its share. *)
Inductive Line : Type :=
| Invalid (n_invalid total_samples : nat) (share : Q)
| Header (text : string)
| Count (key : string) (count : nat) (share : Q).

Definition share (c n : nat) : Q := (inject_Z (Z.of_nat c) / inject_Z (Z.of_nat n))%Q.

Definition count_lines (n_invalid : nat) (d : list (string * nat)) : list Line :=
  map (fun x => Count (fst x) (snd x) (share (snd x) n_invalid)) d.

Definition report (st : t) (epoch : option nat) (batch_size : nat) : result (list Line) :=
  if Nat.ltb 0 (n_invalid st) then
    e ← read "epoch" epoch;
    let total_samples := (e + 1) * batch_size in
    if Nat.eqb total_samples 0 then Raise ZeroDivisionError
    else
      Ok (Invalid (n_invalid st) total_samples (share (n_invalid st) total_samples)
          :: Header "Error type counts:"
          :: count_lines (n_invalid st) (error_types st)
          ++ Header "Error node counts:"
          :: count_lines (n_invalid st) (error_nodes st))
  else Ok [].

End ErrorStats.

(** ** The sequences and batches of [dsr/dsr/test/test_prior.py] *)

Module Library.
(** What the tests read of [Program.library]. *)
Record t : Type := mk {
  input_tokens : list Z;
  unary_tokens : list Z;
  binary_tokens : list Z;
  arities : list Z;
  parent_adjust : list Z;
}.
End Library.

(** What [make_batch] hands to [Batch], in the order of the call. *)
Module BatchArgs.
Record t (P : Type) : Type := mk {
  actions : list (list Z);
  obs : list (list (list Z));
  priors : list (list P);
  lengths : list nat;
  rewards : list Q;
}.
Arguments mk {P}.
Arguments actions {P}.
Arguments obs {P}.
Arguments priors {P}.
Arguments lengths {P}.
Arguments rewards {P}.
End BatchArgs.

Module TestPrior.

(** [a[i]] on a numpy array, [i] an int: an index below 0 counts from
    the end. *)
Definition getitem {A} (a : list A) (i : Z) : result A :=
  let j := if (i <? 0)%Z then (Z.of_nat (length a) + i)%Z else i in
  match (if (j <? 0)%Z then None else nth_error a (Z.to_nat j)) with
  | Some x => Ok x
  | None => Raise (IndexError "index is out of bounds for axis 0")
  end.

(** Lines 32-43: a sequence of the length [L]. The Python [//] and [%]
    by 2 are [Z.div] and [Z.modulo]; a list times a number below 1 is
    empty. *)
Definition make_sequence (lib : Library.t) (max_length : nat) (L : Z) : result (list Z) :=
  X ← getitem (Library.input_tokens lib) 0;
  U ← getitem (Library.unary_tokens lib) 0;
  B ← getitem (Library.binary_tokens lib) 0;
  let num_B := ((L - 1) / 2)%Z in
  let num_U := if (L mod 2 =? 0)%Z then 1%Z else 0%Z in
  let num_X := (num_B + 1)%Z in
  let case := replicate (Z.to_nat num_B) B ++ replicate (Z.to_nat num_U) U
              ++ replicate (Z.to_nat num_X) X in
  if (Z.of_nat (length case) =? L)%Z then Ok (take max_length case)
  else Raise (AssertionError "").

(** [np.max] on an array of ints. *)
Definition max_int (a : list Z) : result Z :=
  match a with
  | [] => Raise (ValueError "zero-size array to reduction operation maximum which has no identity")
  | x :: a' => Ok (fold_left Z.max a' x)
  end.

(** [np.array(rows, dtype=np.int32)]: the rows must have one length.
    An empty list of rows gives an array of one dimension, which is
    the empty list here. The bounds of [int32] are left out. *)
Definition array (rows : list (list Z)) : result (list (list Z)) :=
  match rows with
  | [] => Ok []
  | row :: rows' =>
      if forallb (fun row' => Nat.eqb (length row') (length row)) rows' then Ok rows
      else Raise (ValueError "setting an array element with a sequence")
  end.

(** A value of one entry or of [n] entries, broadcast to [n] entries. *)
Definition broadcast {A} (n : nat) (v : list A) : result (list A) :=
  if Nat.eqb (length v) n then Ok v
  else
    match v with
    | [x] => Ok (replicate n x)
    | _ => Raise (ValueError "could not broadcast input array")
    end.

(** [m[:, i] = v] *)
Definition set_column (i : nat) (v : list Z) (m : list (list Z)) : result (list (list Z)) :=
  v' ← broadcast (length m) v;
  Ok (zip_with (fun row x => <[i := x]> row) m v').

(** [a + [0] * (L - len(a))] *)
Definition pad (L : nat) (a : list Z) : list Z := a ++ replicate (L - length a) 0%Z.

(** The variables the loop of lines 80-101 assigns. A scalar is an
    array of one entry. *)
Module Loop.
Record t (P : Type) : Type := mk {
  prev_actions : list (list Z);
  parents : list (list Z);
  siblings : list (list Z);
  action : list Z;
  parent : list Z;
  sibling : list Z;
  prior : list P;
  priors : list (list P);
  lengths : list nat;
  dangling : list Z;
}.
Arguments mk {P}.
Arguments prev_actions {P}.
Arguments parents {P}.
Arguments siblings {P}.
Arguments action {P}.
Arguments parent {P}.
Arguments sibling {P}.
Arguments prior {P}.
Arguments priors {P}.
Arguments lengths {P}.
Arguments dangling {P}.
End Loop.

Section MakeBatch.
Context {P : Type}.
(** [model.prior.initial_prior()], [model.prior(...)] and
    [parents_siblings] of [dsr/subroutines.py] *)
Variable initial_prior : P.
Variable prior : list (list Z) -> list Z -> list Z -> list Z -> list P.
Variable parents_siblings : list (list Z) -> list Z -> list Z -> list Z * list Z.

(** Lines 81-101: the body of [for i in range(L)]. *)
Definition step (lib : Library.t) (actions : list (list Z)) (i : nat) (s : Loop.t P)
    : result (Loop.t P) :=
  match actions with
  | [] => Raise (IndexError "too many indices for array")
  | _ =>
      let partial_actions := map (take (S i)) actions in
      prev_actions' ← set_column i (Loop.action s) (Loop.prev_actions s);
      parents' ← set_column i (Loop.parent s) (Loop.parents s);
      siblings' ← set_column i (Loop.sibling s) (Loop.siblings s);
      let priors' := Loop.priors s ++ [Loop.prior s] in
      action' ← mapM (fun row => Np.index row i) actions;
      let ps := parents_siblings partial_actions (Library.arities lib)
                  (Library.parent_adjust lib) in
      ar ← mapM (getitem (Library.arities lib)) action';
      let dangling' := zip_with (fun d a => (d + (a - 1))%Z) (Loop.dangling s) ar in
      let prior' := prior partial_actions (fst ps) (snd ps) dangling' in
      let finished :=
        zip_with (fun d l => (d =? 0)%Z && Nat.eqb l 0) dangling' (Loop.lengths s) in
      let lengths' :=
        zip_with (fun (f : bool) l => if f then S i else l) finished (Loop.lengths s) in
      Ok {| Loop.prev_actions := prev_actions'; Loop.parents := parents';
            Loop.siblings := siblings';
            Loop.action := action'; Loop.parent := fst ps; Loop.sibling := snd ps;
            Loop.prior := prior'; Loop.priors := priors';
            Loop.lengths := lengths'; Loop.dangling := dangling' |}
  end.

(** [for i in range(L)], from [i] on, [n] passes left. *)
Fixpoint loop (lib : Library.t) (actions : list (list Z)) (n i : nat) (s : Loop.t P)
    : result (Loop.t P) :=
  match n with
  | O => Ok s
  | S n' => s' ← step lib actions i s; loop lib actions n' (S i) s'
  end.

(** [np.array(priors).swapaxes(0, 1)]: from one array per position to
    one row per case. The arrays must have one shape; the first of them
    has [batch_size] rows. An empty list gives an array of one
    dimension, which has no axis 1 (an AxisError, which is an
    IndexError). *)
Definition swapaxes (batch_size : nat) (priors : list (list P)) : result (list (list P)) :=
  match priors with
  | [] => Raise (IndexError "axis2: axis 1 is out of bounds for array of dimension 1")
  | _ =>
      if forallb (fun v => Nat.eqb (length v) batch_size) priors
      then Ok (map (fun k => omap (fun v => nth_error v k) priors) (seq 0 batch_size))
      else Raise (ValueError "setting an array element with a sequence")
  end.

(** Lines 55-79: the variables before the loop. *)
Definition start (lib : Library.t) (batch_size : nat) (actions : list (list Z))
    (empty_parent : Z) : Loop.t P :=
  let zeros := map (map (fun _ => 0%Z)) actions in
  let empty_sibling := Z.of_nat (length (Library.arities lib)) in
  {| Loop.prev_actions := zeros; Loop.parents := zeros; Loop.siblings := zeros;
     Loop.action := [empty_sibling]; Loop.parent := [empty_parent];
     Loop.sibling := [empty_sibling];
     Loop.prior := replicate batch_size initial_prior; Loop.priors := [];
     Loop.lengths := replicate batch_size 0; Loop.dangling := replicate batch_size 1%Z |}.

(** Lines 46-108 *)
Definition make_batch (lib : Library.t) (max_length : nat) (cases : list (list Z))
    : result (BatchArgs.t P) :=
  let batch_size := length cases in
  let L := max_length in
  actions ← array (map (pad L) cases);
  m ← max_int (Library.parent_adjust lib);
  s ← loop lib actions L 0 (start lib batch_size actions (m + 1)%Z);
  let lengths' := map (fun l => if Nat.eqb l 0 then L else l) (Loop.lengths s) in
  priors' ← swapaxes batch_size (Loop.priors s);
  Ok {| BatchArgs.actions := actions;
        BatchArgs.obs := [Loop.prev_actions s; Loop.parents s; Loop.siblings s];
        BatchArgs.priors := priors';
        BatchArgs.lengths := lengths';
        BatchArgs.rewards := replicate batch_size 0%Q |}.

End MakeBatch.

End TestPrior.

(** ** The vocabulary of the statements *)


(** Whether a batch has a success, as [eval_all] sees it. *)
Definition any_success (cfg : Config.t) (programs : list Program.t) : bool :=
  Config.eval_all cfg && any (map Program.success programs).

(** The baselines that read [quantile] in a pass that starts with
    [ewma]. *)
Definition reads_quantile (baseline : string) (ewma : option Np.float) : Prop :=
  baseline = "R_e" \/ baseline = "combined" \/
  (baseline = "ewma_R_e" /\ ewma <> None).

Module DsoSpec.

(** The per-row arrays that are indexed by the mask have one row count. *)
Definition aligned (rows : Dso.Rows.t) : Prop :=
  let n := length (Dso.Rows.r rows) in
  length (Dso.Rows.l rows) = n /\
  length (Dso.Rows.invalid rows) = n /\
  length (Dso.Rows.actions rows) = n /\
  Forall (fun o => length o = n) (Dso.Rows.obs rows) /\
  length (Dso.Rows.priors rows) = n /\
  length (Dso.Rows.on_policy rows) = n.

(** [rows'] is [rows] with every per-row array cut down by [keep]. *)
Definition masked (keep : list bool) (rows rows' : Dso.Rows.t) : Prop :=
  Dso.Rows.r rows' = Np.compress (Dso.Rows.r rows) keep /\
  Dso.Rows.l rows' = Np.compress (Dso.Rows.l rows) keep /\
  Dso.Rows.s rows' = Np.compress (Dso.Rows.s rows) keep /\
  Dso.Rows.invalid rows' = Np.compress (Dso.Rows.invalid rows) keep /\
  Dso.Rows.programs rows' = Np.compress (Dso.Rows.programs rows) keep /\
  Dso.Rows.actions rows' = Np.compress (Dso.Rows.actions rows) keep /\
  Dso.Rows.obs rows' = map (fun o => Np.compress o keep) (Dso.Rows.obs rows) /\
  Dso.Rows.priors rows' = Np.compress (Dso.Rows.priors rows) keep /\
  Dso.Rows.on_policy rows' = Np.compress (Dso.Rows.on_policy rows) keep /\
  Dso.Rows.r_train rows' = Np.compress (Dso.Rows.r rows) keep /\
  Dso.Rows.p_train rows' = Np.compress (Dso.Rows.programs rows) keep.

(** The two early-stopping tests of lines 436-441, on the whole batch
    and the best program so far. *)
Definition stops_early (cfg : Config.t) (programs : list Program.t)
    (p_r_best : option Program.t) : bool :=
  Config.eval_all cfg && any (map Program.success programs) ||
  Config.early_stopping cfg &&
    match p_r_best with Some p => truthy (Program.success p) | None => false end.

Section Passes.
Context {MQ : Type} `{MemoryQueue MQ}.
Variable wq : list Q -> list Q -> Q -> Q.

(** The state after [k] passes from epoch [e] on, no stopping test
    looked at. *)
Fixpoint passes (cfg : Config.t) (env : Dso.Env.t) (e k : nat) (st : Dso.State.t MQ)
    : result (Dso.State.t MQ) :=
  match k with
  | O => Ok st
  | S k' =>
      st1 ← Dso.epoch_update wq cfg e (Dso.Env.sample env e) st;
      passes cfg env (S e) k' st1
  end.

(** What the stopping tests say at the end of pass [k] (counted from
    0) of the passes from epoch [e] on. *)
Definition breaks_at (cfg : Config.t) (env : Dso.Env.t) (e k : nat) (st : Dso.State.t MQ)
    : result bool :=
  st' ← passes cfg env e (S k) st;
  Dso.decide_break cfg (Sample.programs (Dso.Env.sample env (e + k)))
    (Dso.State.p_r_best st') (Dso.State.nevals st').

End Passes.

End DsoSpec.

Module DsrSpec.

Definition aligned (rows : Dsr.Rows.t) : Prop :=
  let n := length (Dsr.Rows.base_r rows) in
  length (Dsr.Rows.r rows) = n /\
  length (Dsr.Rows.l rows) = n /\
  length (Dsr.Rows.invalid rows) = n /\
  length (Dsr.Rows.actions rows) = n /\
  Forall (fun o => length o = n) (Dsr.Rows.obs rows) /\
  length (Dsr.Rows.priors rows) = n /\
  length (Dsr.Rows.on_policy rows) = n.

(** The arrays that stay for the statistics, the best-program trackers
    and the queues are cut down by [keep]. *)
Definition masked_kept (keep : list bool) (rows rows' : Dsr.Rows.t) : Prop :=
  Dsr.Rows.base_r rows' = Np.compress (Dsr.Rows.base_r rows) keep /\
  Dsr.Rows.r rows' = Np.compress (Dsr.Rows.r rows) keep /\
  Dsr.Rows.l rows' = Np.compress (Dsr.Rows.l rows) keep /\
  Dsr.Rows.s rows' = Np.compress (Dsr.Rows.s rows) keep /\
  Dsr.Rows.invalid rows' = Np.compress (Dsr.Rows.invalid rows) keep /\
  Dsr.Rows.programs rows' = Np.compress (Dsr.Rows.programs rows) keep.

(** The arrays of the training step are cut down by [keep]. *)
Definition masked_train (keep : list bool) (rows rows' : Dsr.Rows.t) : Prop :=
  Dsr.Rows.r_train rows' = Np.compress (Dsr.Rows.r rows) keep /\
  Dsr.Rows.p_train rows' = Np.compress (Dsr.Rows.programs rows) keep /\
  Dsr.Rows.actions rows' = Np.compress (Dsr.Rows.actions rows) keep /\
  Dsr.Rows.obs rows' = map (fun o => Np.compress o keep) (Dsr.Rows.obs rows) /\
  Dsr.Rows.priors rows' = Np.compress (Dsr.Rows.priors rows) keep /\
  Dsr.Rows.on_policy rows' = Np.compress (Dsr.Rows.on_policy rows) keep.

(** The mask of the training step: [keep] itself, or [keep] with the
    rows of the GP cleared when they are not returned to the controller. *)
Definition mask_of_training (env : Dsr.Env.t) (batch_size : nat) (keep : list bool) : list bool :=
  if Dsr.run_gp_meld env && negb (Dsr.return_gp_obs env)
  then Dsr.train_mask batch_size keep else keep.

(** The batch of the training step, built from the arrays of the whole
    batch [smp] cut by the mask [m]: rewards clipped, lengths capped. *)
Definition training_batch (cfg : Config.t) (smp : Sample.t) (m : list bool) : Batch.t :=
  let programs := Sample.programs smp in
  {| Batch.actions := Np.compress (Sample.actions smp) m;
     Batch.obs := map (fun o => Np.compress o m) (Sample.obs smp);
     Batch.priors := Np.compress (Sample.priors smp) m;
     Batch.lengths :=
       map (fun p => Nat.min (length (Program.traversal p)) (Config.max_length cfg))
           (Np.compress programs m);
     Batch.rewards := Np.clip (Np.compress (map Program.r programs) m) (-1000000) 1000000;
     Batch.on_policy := Np.compress (map Program.on_policy programs) m |}.

End DsrSpec.

(** ** The vocabulary of the further properties *)

(** The arrays of a batch have one row count. *)
Definition rectangular (b : Batch.t) : Prop :=
  let n := length (Batch.rewards b) in
  length (Batch.actions b) = n /\
  Forall (fun o => length o = n) (Batch.obs b) /\
  length (Batch.priors b) = n /\
  length (Batch.lengths b) = n /\
  length (Batch.on_policy b) = n.

(** The task reports success as a boolean or not at all. *)
Definition boolean_success (programs : list Program.t) : Prop :=
  Forall (fun p => truthy (Program.success p) = eq_True (Program.success p)) programs.

(** The names of the baselines [learn] knows. *)
Definition known_baseline (baseline : string) : Prop :=
  baseline = "ewma_R" \/ baseline = "R_e" \/ baseline = "ewma_R_e" \/ baseline = "combined".

(** The rewards of the programs lie within the bounds of the clip. *)
Definition in_bounds (programs : list Program.t) : Prop :=
  Forall (fun p => (-1000000 <= Program.r p)%Q /\ (Program.r p <= 1000000)%Q) programs.

(** A float that is a number within the bounds of the clip; nan is
    not. *)
Definition within_the_clip (x : Np.float) : Prop :=
  match x with
  | Np.Num x => (-1000000 <= x)%Q /\ (x <= 1000000)%Q
  | Np.NaN => False
  end.

(** No program has a reward above its base reward. *)
Definition penalized (programs : list Program.t) : Prop :=
  Forall (fun p => (Program.r p <= Program.base_r p)%Q) programs.

(** The rewards [value] of the programs with the key [key], in the
    order of the list. *)
Definition rewards_under (value : Program.t -> Q) (key : string)
    (programs : list Program.t) : list Q :=
  map value (List.filter (fun p => String.eqb (Program.str p) key) programs).

(** The sum of the counts of a counter. *)
Definition total (d : list (string * nat)) : nat := list_sum (map snd d).

(** The count a counter holds under [key], 0 when it holds none. *)
Definition count_of (d : list (string * nat)) (key : string) : nat :=
  list_sum (map snd (List.filter (fun x => String.eqb (fst x) key) d)).

(** The sum of the shares a counter is printed with. *)
Definition shares (n_invalid : nat) (d : list (string * nat)) : Q :=
  fold_right (fun x s => (ErrorStats.share (snd x) n_invalid + s)%Q) 0%Q d.

(** The count of the invalid programs of the cache whose attribute
    [attr] is [key], each weighted by its [count]. *)
Definition invalid_count (attr : Cached.t -> string) (key : string)
    (cache : list Cached.t) : nat :=
  list_sum (map Cached.count
              (List.filter (fun p => Cached.invalid p && String.eqb (attr p) key) cache)).

Module DsoRun.
(** In the state [st] the best reward so far is [x], and the best
    program tracked is [p], whose reward is [x]. *)
Definition tracks_best {MQ : Type} (st : Dso.State.t MQ) (x : Q) (p : Program.t) : Prop :=
  Dso.State.p_r_best st = Some p /\ Dso.State.r_best st = Some x /\
  Dso.State.prev_r_best st = Some x /\ (Program.r p == x)%Q.

(** The state before the first pass. *)
Definition fresh {MQ : Type} (st : Dso.State.t MQ) : Prop :=
  Dso.State.r_best st = None /\ Dso.State.prev_r_best st = None.
End DsoRun.

Module DsrRun.
(** The same for the tracker of the base reward, whose program is the
    one [learn] returns. *)
Definition tracks_best {MQ : Type} (st : Dsr.State.t MQ) (x : Q) (p : Program.t) : Prop :=
  Dsr.State.p_base_r_best st = Some p /\ Dsr.State.base_r_best st = Some x /\
  Dsr.State.prev_base_r_best st = Some x /\ (Program.base_r p == x)%Q.

Definition fresh {MQ : Type} (st : Dsr.State.t MQ) : Prop :=
  Dsr.State.base_r_best st = None /\ Dsr.State.prev_base_r_best st = None.

Section Passes.
Context {MQ : Type} `{MemoryQueue MQ}.
Variable wq : list Q -> list Q -> Q -> Q.

(** The state of the dsr variant after [k] passes from epoch [e] on, no
    stopping test looked at. *)
Fixpoint passes (cfg : Config.t) (env : Dsr.Env.t) (e k : nat) (st : Dsr.State.t MQ)
    : result (Dsr.State.t MQ) :=
  match k with
  | O => Ok st
  | S k' =>
      smp ← Dsr.full_batch env e;
      st1 ← Dsr.epoch_update wq cfg env e smp st;
      passes cfg env (S e) k' st1
  end.

End Passes.

(** The evaluations the GP reports in the epochs from [e] on, [k] of
    them. *)
Fixpoint gp_evals (env : Dsr.Env.t) (e k : nat) : Z :=
  match k with
  | O => 0
  | S k' => (Dsr.Gp.nevals (Dsr.Env.gp env e) + gp_evals env (S e) k')%Z
  end.
End DsrRun.

Module TestPriorSpec.

(** The arity of a token, 0 for what is no index of [arities]. *)
Definition arity (lib : Library.t) (token : Z) : Z :=
  match TestPrior.getitem (Library.arities lib) token with
  | Ok a => a
  | Raise _ => 0%Z
  end.

(** The dangling nodes after the tokens [tokens], one node dangling
    before the first. *)
Definition dangling_after (lib : Library.t) (tokens : list Z) : Z :=
  fold_left (fun d token => (d + (arity lib token - 1))%Z) tokens 1%Z.

(** [n] tokens of [row] leave nothing dangling, and no fewer do, none
    being no prefix. *)
Definition first_complete (lib : Library.t) (row : list Z) (n : nat) : Prop :=
  1 <= n /\ dangling_after lib (take n row) = 0%Z /\
  forall m, 1 <= m < n -> dangling_after lib (take m row) <> 0%Z.

(** A whole expression in prefix order: every proper prefix leaves
    something dangling, the sequence itself nothing. *)
Definition complete (lib : Library.t) (tokens : list Z) : Prop :=
  dangling_after lib tokens = 0%Z /\
  forall m, m < length tokens -> (0 < dangling_after lib (take m tokens))%Z.

(** The library has the arities its lists of tokens promise. *)
Definition arities_as_named (lib : Library.t) (X U B : Z) : Prop :=
  TestPrior.getitem (Library.input_tokens lib) 0 = Ok X /\
  TestPrior.getitem (Library.unary_tokens lib) 0 = Ok U /\
  TestPrior.getitem (Library.binary_tokens lib) 0 = Ok B /\
  TestPrior.getitem (Library.arities lib) X = Ok 0%Z /\
  TestPrior.getitem (Library.arities lib) U = Ok 1%Z /\
  TestPrior.getitem (Library.arities lib) B = Ok 2%Z.

(** What the loop of [make_batch] holds as the length of [row] after
    [i] of its tokens: 0 while no prefix was whole, the length of the
    first whole prefix after that. *)
Definition lengths_ok (lib : Library.t) (row : list Z) (i l : nat) : Prop :=
  (l = 0 /\ forall m, 1 <= m <= i -> dangling_after lib (take m row) <> 0%Z) \/
  (l <= i /\ first_complete lib row l).

(** The variables of the loop of [make_batch] after [i] passes over
    the array [actions]: the dangling nodes and the lengths of every
    row, the previous actions filled in up to column [i], and the
    action to write into column [i] next. *)
Definition loop_invariant {P : Type} (lib : Library.t) (actions : list (list Z))
    (i : nat) (s : TestPrior.Loop.t P) : Prop :=
  let empty := Z.of_nat (length (Library.arities lib)) in
  length (TestPrior.Loop.dangling s) = length actions /\
  length (TestPrior.Loop.lengths s) = length actions /\
  length (TestPrior.Loop.prev_actions s) = length actions /\
  length (TestPrior.Loop.priors s) = i /\
  (forall v, TestPrior.broadcast (length actions) (TestPrior.Loop.action s) = Ok v ->
     forall k row, actions !! k = Some row -> v !! k = Some (nth i (empty :: row) 0%Z)) /\
  (forall k row, actions !! k = Some row ->
     TestPrior.Loop.dangling s !! k = Some (dangling_after lib (take i row)) /\
     (exists l, TestPrior.Loop.lengths s !! k = Some l /\ lengths_ok lib row i l) /\
     TestPrior.Loop.prev_actions s !! k
     = Some (take i (empty :: row) ++ replicate (length row - i) 0%Z)).

End TestPriorSpec.

(** ** Concrete batches and configurations *)

Module Example.

(** A program with the key [key], the reward [r], the reward before the
    penalty [base_r] and the success flag [success] of its metrics. *)
Definition program (key : string) (r base_r : Q) (success : option bool) : Program.t :=
  {| Program.str := key; Program.r := r; Program.base_r := base_r;
     Program.traversal := [1%Z; 2%Z]; Program.on_policy := true;
     Program.invalid := false;
     Program.evaluate :=
       match success with
       | Some b => {[ "success" := VBool b ]}
       | None => ∅
       end;
     Program.sympy_expr := "x1 + " +:+ key; Program.repr := "add,x1," +:+ key |}.

(** The sample whose programs are [programs]; row [i] of every array
    holds the number [i + 1]. *)
Definition sample (programs : list Program.t) : Sample.t :=
  let a := map (fun i => [Z.of_nat i]) (seq 1 (length programs)) in
  {| Sample.actions := a; Sample.obs := [a; a; a];
     Sample.priors := map (fun i => [[inject_Z (Z.of_nat i)]]) (seq 1 (length programs));
     Sample.programs := programs |}.

Definition config (n_epochs : option Z) (n_samples : option Q) (batch_size : nat)
    (alpha : Q) (epsilon : option Q) (baseline : string)
    (b_jumpstart early_stopping eval_all use_memory : bool) : Config.t :=
  {| Config.n_epochs := n_epochs; Config.n_samples := n_samples;
     Config.batch_size := batch_size; Config.alpha := alpha;
     Config.epsilon := epsilon; Config.baseline := baseline;
     Config.b_jumpstart := b_jumpstart; Config.early_stopping := early_stopping;
     Config.eval_all := eval_all; Config.use_memory := use_memory;
     Config.memory_capacity := 1000; Config.memory_threshold := None;
     Config.save_pareto_front := false; Config.max_length := 30;
     Config.pqt := true; Config.stochastic := false; Config.const_token := false |}.

(** Four programs with the rewards 0.1, 0.9, 0.4 and 0.7, no penalty. *)
Definition four : list Program.t :=
  [program "a" 0.1 0.1 None; program "b" 0.9 0.9 None;
   program "c" 0.4 0.4 None; program "d" 0.7 0.7 None].

(** Risk seeking on the upper half, 8 samples in batches of 4. *)
Definition half : Config.t :=
  config None (Some 8%Q) 4 0.5 (Some 0.5%Q) "R_e" false true false false.

(** Two sampled programs and one of the GP, which is not returned to the
    controller; [epsilon] is 0.7. *)
Definition sampled_two : list Program.t :=
  [program "a" 0.2 0.2 None; program "b" 0.8 0.8 None].

Definition gp_one : Dsr.Gp.t :=
  let s := sample [program "g" 0.9 0.9 None] in
  {| Dsr.Gp.deap_programs := Sample.programs s; Dsr.Gp.deap_obs := Sample.obs s;
     Dsr.Gp.deap_actions := Sample.actions s; Dsr.Gp.deap_priors := Sample.priors s;
     Dsr.Gp.nevals := 5 |}.

Definition gp_config : Config.t :=
  config None (Some 4%Q) 2 0.5 (Some 0.7%Q) "R_e" false false false false.

Definition gp_env (return_gp_obs : bool) : Dsr.Env.t :=
  {| Dsr.Env.gp_controller := Some return_gp_obs;
     Dsr.Env.warm := sample []; Dsr.Env.sample := fun _ => sample sampled_two;
     Dsr.Env.gp := fun _ => gp_one; Dsr.Env.n_invalid := 0 |}.

(** That batch, the row of the GP melded in, and its rows. *)
Definition gp_batch : Sample.t :=
  {| Sample.actions := [[1%Z]; [2%Z]; [1%Z]];
     Sample.obs := [[[1%Z]; [2%Z]; [1%Z]]; [[1%Z]; [2%Z]; [1%Z]]; [[1%Z]; [2%Z]; [1%Z]]];
     Sample.priors := [[[1%Q]]; [[2%Q]]; [[1%Q]]];
     Sample.programs := sampled_two ++ [program "g" 0.9 0.9 None] |}.

Definition gp_rows : Dsr.Rows.t := Dsr.metrics gp_batch.

(** A memory queue that holds the keys "a" and "b", with the weights 0.2
    and 0.3, and a batch of these two programs and one the queue does not
    hold. *)
Definition memory_ab : TableQueue.t :=
  TableQueue.mk 10 [("a", 0.2, 0.2); ("b", 0.8, 0.3)]%Q.

Definition new_c : list Program.t := sampled_two ++ [program "c" 0.5 0.5 None].

(** The state of either variant before a pass, [ewma] given. *)
Definition dso_state (ewma : option Q) : Dso.State.t TableQueue.t :=
  {| Dso.State.p_final := None; Dso.State.r_best := None; Dso.State.prev_r_best := None;
     Dso.State.ewma := Np.Num <$> ewma; Dso.State.nevals := 0; Dso.State.quantile := None;
     Dso.State.b_train := None; Dso.State.p_r_best := None; Dso.State.epoch := None;
     Dso.State.memory_queue := None; Dso.State.log := [] |}.

Definition dsr_state (ewma : option Q) : Dsr.State.t TableQueue.t :=
  {| Dsr.State.p_final := None; Dsr.State.base_r_best := None; Dsr.State.r_best := None;
     Dsr.State.prev_r_best := None; Dsr.State.prev_base_r_best := None;
     Dsr.State.ewma := Np.Num <$> ewma; Dsr.State.nevals := 0; Dsr.State.quantile := None;
     Dsr.State.b_train := None; Dsr.State.p_r_best := None;
     Dsr.State.p_base_r_best := None; Dsr.State.epoch := None;
     Dsr.State.memory_queue := None; Dsr.State.log := [] |}.

(** As [half], with the baseline [ewma_R] and [alpha] 1. *)
Definition half_ewma_R : Config.t :=
  config None (Some 8%Q) 4 1 (Some 0.5%Q) "ewma_R" false true false false.

(** Risk seeking on the upper tenth with the baseline [ewma_R] and
    [alpha] 1, in batches of 2 with a GP whose row is not returned to
    the controller and that reports no evaluation of its own. In epoch
    0 the row of the GP alone passes the filter; in the epochs after
    it a sampled row with the reward 0.95 does. *)
Definition gp_ewma_R : Config.t :=
  config None (Some 4%Q) 2 1 (Some 0.1%Q) "ewma_R" false false false false.

Definition sampled_high : list Program.t :=
  [program "a" 0.2 0.2 None; program "h" 0.95 0.95 None].

Definition gp_quiet : Dsr.Gp.t :=
  {| Dsr.Gp.deap_programs := Dsr.Gp.deap_programs gp_one;
     Dsr.Gp.deap_obs := Dsr.Gp.deap_obs gp_one;
     Dsr.Gp.deap_actions := Dsr.Gp.deap_actions gp_one;
     Dsr.Gp.deap_priors := Dsr.Gp.deap_priors gp_one;
     Dsr.Gp.nevals := 0 |}.

Definition gp_env_two : Dsr.Env.t :=
  {| Dsr.Env.gp_controller := Some false;
     Dsr.Env.warm := sample [];
     Dsr.Env.sample :=
       fun e => match e with O => sample sampled_two | S _ => sample sampled_high end;
     Dsr.Env.gp := fun _ => gp_quiet; Dsr.Env.n_invalid := 0 |}.

(** No GP, the same sample in every epoch. *)
Definition plain_env (programs : list Program.t) : Dsr.Env.t :=
  {| Dsr.Env.gp_controller := None;
     Dsr.Env.warm := sample []; Dsr.Env.sample := fun _ => sample programs;
     Dsr.Env.gp := fun _ => gp_one; Dsr.Env.n_invalid := 0 |}.

(** No risk seeking ([epsilon] is [None]), the baseline [ewma_R_e], the
    EWMA started at the first pass; one epoch of 4 samples. *)
Definition vanilla : Config.t :=
  config None (Some 4%Q) 4 0.5 None "ewma_R_e" true false false false.

Definition dso_env (programs : list Program.t) : Dso.Env.t :=
  {| Dso.Env.warm := sample []; Dso.Env.sample := fun _ => sample programs;
     Dso.Env.results_add := {[ "n_epochs" := Val (VFloat 1) ]} |}.

(** The same with the baseline [R_e], the EWMA started at 0. *)
Definition vanilla_R_e : Config.t :=
  config None (Some 4%Q) 4 0.5 None "R_e" false false false false.

(** A run set by its number of epochs: 3 epochs, no budget of samples. *)
Definition by_epochs (early_stopping : bool) : Config.t :=
  config (Some 3%Z) None 4 0.5 (Some 0.5%Q) "R_e" false early_stopping false false.

(** The four programs, the best of them a success. *)
Definition four_solved : list Program.t :=
  [program "a" 0.1 0.1 (Some false); program "b" 0.9 0.9 (Some true);
   program "c" 0.4 0.4 (Some false); program "d" 0.7 0.7 (Some false)].



(** A constant optimizer and a reward to run the evaluation with: the
    one constant fitted to a traversal is its length, the reward is
    1 / (1 + constant + first token), without constants 0. *)
Definition optimize (a : list Z) : list Q := [inject_Z (Z.of_nat (length a))].

Definition reward (a : list Z) (c : option (list Q)) : Q :=
  match c with
  | Some (x :: _) => 1 / (1 + x + inject_Z (hd 0%Z a))
  | _ => 0
  end.

(** A set that yields its elements last first. *)
Definition set_order (l : list (list Z)) : list (list Z) := reverse (remove_dups l).

(** A cache that holds the traversal 1, 2, evaluated and seen 3 times,
    and a batch of that traversal, of 3 twice and of 4, 5. *)
Definition cache_12 : gmap (list Z) (Candidate.t (list Q)) :=
  {[ [1; 2]%Z := Candidate.mk (Some [2%Q]) (Some 0.25%Q) 3 ]}.

Definition batch_12_3_3_45 : list (list Z) := [[1; 2]; [3]; [3]; [4; 5]]%Z.

End Example.

(** ** Concrete data for the further properties *)

Module Example2.

(** The library of the tokens add (0), sin (1) and x1 (2). *)
Definition library : Library.t :=
  {| Library.input_tokens := [2%Z]; Library.unary_tokens := [1%Z];
     Library.binary_tokens := [0%Z]; Library.arities := [2; 1; 0]%Z;
     Library.parent_adjust := [0; 1; -1]%Z |}.

(** A prior of one number per case, the count of dangling nodes, and
    parents and siblings that are the last token and 0. *)
Definition prior (partial_actions : list (list Z)) (parent sibling dangling : list Z)
    : list Z := dangling.

Definition parents_siblings (tokens : list (list Z)) (arities parent_adjust : list Z)
    : list Z * list Z :=
  (map (fun row => List.last row 0%Z) tokens, map (fun _ => 0%Z) tokens).

(** A cache of four programs, two of them invalid. *)
Definition cache : list Cached.t :=
  [Cached.mk false 5 "" ""; Cached.mk true 2 "true_divide" "div";
   Cached.mk true 3 "overflow" "exp"; Cached.mk true 1 "true_divide" "log"].

(** Risk seeking on the upper tenth with the memory queue, batches of
    one program; the state before the first pass, the queue of
    [Example.memory_ab] in it; and a batch of one program whose reward
    0.1 is below the rewards of the queue. *)
Definition with_memory (baseline : string) : Config.t :=
  Example.config None (Some 8%Q) 1 0.5 (Some 0.1%Q) baseline true false false true.

Definition memory_state : Dso.State.t TableQueue.t :=
  {| Dso.State.p_final := None; Dso.State.r_best := None; Dso.State.prev_r_best := None;
     Dso.State.ewma := None; Dso.State.nevals := 0; Dso.State.quantile := None;
     Dso.State.b_train := None; Dso.State.p_r_best := None; Dso.State.epoch := None;
     Dso.State.memory_queue := Some Example.memory_ab; Dso.State.log := [] |}.

Definition low : list Program.t := [Example.program "c" 0.1 0.1 None].

(** As [Example.half], with a baseline [learn] does not know. *)
Definition misspelled : Config.t :=
  Example.config None (Some 8%Q) 4 0.5 (Some 0.5%Q) "R_E" false true false false.

End Example2.

(** * Properties *)

(** ** The exception monad and the numpy operations *)

Lemma bind_Ok {A B} (a : A) (f : A -> result B) : (Ok a ≫= f) = f a.
Proof. reflexivity. Qed.

Lemma bind_Raise {A B} (e : PyError) (f : A -> result B) : (Raise e ≫= f) = Raise e.
Proof. reflexivity. Qed.

Lemma bind_Ok_inv {A B} (m : result A) (f : A -> result B) (b : B) :
  (m ≫= f) = Ok b -> exists a, m = Ok a /\ f a = Ok b.
Proof. destruct m as [a|e]; [eauto | discriminate]. Qed.

Lemma mask_ok {A} (a : list A) (keep : list bool) :
  length a = length keep -> Np.mask a keep = Ok (Np.compress a keep).
Proof.
  intros Hlen. unfold Np.mask. rewrite Hlen, Nat.eqb_refl. reflexivity.
Qed.

Lemma mask_inv {A} (a : list A) (keep : list bool) (a' : list A) :
  Np.mask a keep = Ok a' -> a' = Np.compress a keep /\ length a = length keep.
Proof.
  unfold Np.mask. destruct (Nat.eqb_spec (length a) (length keep)); [|discriminate].
  intros [= <-]. auto.
Qed.

Lemma mapM_mask_ok {A} (obs : list (list A)) (keep : list bool) :
  Forall (fun o => length o = length keep) obs ->
  mapM (fun o => Np.mask o keep) obs = Ok (map (fun o => Np.compress o keep) obs).
Proof.
  induction 1 as [|o obs Ho _ IH]; [reflexivity|].
  cbn [mapM]. change (mapM _ obs) with (mapM (fun o => Np.mask o keep) obs).
  rewrite (mask_ok o keep Ho), IH. reflexivity.
Qed.

Lemma compress_length {A} (a : list A) (keep : list bool) :
  length (Np.compress a keep) <= length a.
Proof.
  revert keep. induction a as [|x a IH]; intros [|[] keep]; simpl; try lia.
  - specialize (IH keep). lia.
  - specialize (IH keep). lia.
Qed.

Lemma ge_length (a : list Q) (x : Q) : length (Np.ge a x) = length a.
Proof. unfold Np.ge. apply length_map. Qed.

(** What passes the mask [a >= x] is at least [x]. *)
Lemma compress_ge (a : list Q) (x : Q) :
  Forall (fun v => (x <= v)%Q) (Np.compress a (Np.ge a x)).
Proof.
  induction a as [|v a IH]; simpl; [constructor|].
  destruct (Qle_bool x v) eqn:Hv; [|exact IH].
  constructor; [apply Qle_bool_iff; exact Hv | exact IH].
Qed.

(** The same, read off a second array that is cut by the mask of [a]. *)
Lemma compress_ge_other {A} (f : A -> Q) (l : list A) (x : Q) :
  Forall (fun p => (x <= f p)%Q) (Np.compress l (Np.ge (map f l) x)).
Proof.
  induction l as [|p l IH]; simpl; [constructor|].
  destruct (Qle_bool x (f p)) eqn:Hv; [|exact IH].
  constructor; [apply Qle_bool_iff; exact Hv | exact IH].
Qed.

Lemma clear_from_length (n : nat) (keep : list bool) :
  length (Np.clear_from n keep) = length keep.
Proof.
  revert n. induction keep as [|b keep IH]; intros [|n]; simpl; auto.
Qed.

(** [keep[n:] = False] entry by entry. *)
Lemma clear_from_lookup (n : nat) (keep : list bool) (i : nat) :
  nth_error (Np.clear_from n keep) i =
  option_map (fun b => b && Nat.ltb i n) (nth_error keep i).
Proof.
  revert n i. induction keep as [|b keep IH]; intros n i.
  - destruct n, i; reflexivity.
  - destruct n as [|n], i as [|i]; simpl.
    + rewrite andb_false_r. reflexivity.
    + rewrite IH. destruct (nth_error keep i); simpl; [|reflexivity].
      rewrite !andb_false_r. reflexivity.
    + rewrite andb_true_r. reflexivity.
    + rewrite IH. reflexivity.
Qed.

(** The cleared mask keeps a part of what the mask keeps. *)
Lemma compress_clear_from_length {A} (a : list A) (n : nat) (keep : list bool) :
  length (Np.compress a (Np.clear_from n keep)) <= length (Np.compress a keep).
Proof.
  revert n keep. induction a as [|x a IH]; intros n [|b keep]; simpl.
  - destruct n; simpl; lia.
  - destruct n; simpl; lia.
  - destruct n; simpl; lia.
  - destruct n as [|n]; simpl.
    + specialize (IH 0 keep). destruct b; simpl; lia.
    + specialize (IH n keep). destruct b; simpl; lia.
Qed.

(** ** The risk-seeking filter *)

Lemma dso_filter_rows_ok (rows : Dso.Rows.t) (keep : list bool) :
  DsoSpec.aligned rows -> length keep = length (Dso.Rows.r rows) ->
  exists rows', Dso.filter_rows rows keep = Ok rows' /\ DsoSpec.masked keep rows rows'.
Proof.
  intros (Hl & Hi & Ha & Ho & Hp & Hon) Hk.
  unfold Dso.filter_rows.
  rewrite (mask_ok (Dso.Rows.l rows)), bind_Ok by congruence.
  rewrite (mask_ok (Dso.Rows.invalid rows)), bind_Ok by congruence.
  rewrite (mask_ok (Dso.Rows.r rows)), bind_Ok by congruence.
  rewrite (mask_ok (Dso.Rows.actions rows)), bind_Ok by congruence.
  rewrite mapM_mask_ok, bind_Ok
    by (eapply Forall_impl; [exact Ho|]; simpl; intros; congruence).
  rewrite (mask_ok (Dso.Rows.priors rows)), bind_Ok by congruence.
  rewrite (mask_ok (Dso.Rows.on_policy rows)), bind_Ok by congruence.
  eexists; split; [reflexivity|].
  repeat split.
Qed.

Lemma dsr_filter_rows_ok (env : Dsr.Env.t) (batch_size : nat) (rows : Dsr.Rows.t)
    (keep : list bool) :
  DsrSpec.aligned rows -> length keep = length (Dsr.Rows.base_r rows) ->
  exists rows', Dsr.filter_rows env batch_size rows keep = Ok rows' /\
    DsrSpec.masked_kept keep rows rows' /\
    DsrSpec.masked_train (DsrSpec.mask_of_training env batch_size keep) rows rows'.
Proof.
  intros (Hr & Hl & Hi & Ha & Ho & Hp & Hon) Hk.
  unfold Dsr.filter_rows, DsrSpec.mask_of_training.
  rewrite (mask_ok (Dsr.Rows.base_r rows)), bind_Ok by congruence.
  rewrite (mask_ok (Dsr.Rows.l rows)), bind_Ok by congruence.
  rewrite (mask_ok (Dsr.Rows.invalid rows)), bind_Ok by congruence.
  destruct (Dsr.run_gp_meld env && negb (Dsr.return_gp_obs env)).
  - pose proof (clear_from_length batch_size keep) as Hc.
    unfold Dsr.train_mask.
    rewrite (mask_ok (Dsr.Rows.r rows) keep), bind_Ok by congruence.
    rewrite (mask_ok (Dsr.Rows.r rows)), !bind_Ok by congruence.
    rewrite (mask_ok (Dsr.Rows.actions rows)), bind_Ok by congruence.
    rewrite mapM_mask_ok, bind_Ok
      by (eapply Forall_impl; [exact Ho|]; simpl; intros; congruence).
    rewrite (mask_ok (Dsr.Rows.priors rows)), bind_Ok by congruence.
    rewrite (mask_ok (Dsr.Rows.on_policy rows)), bind_Ok by congruence.
    eexists; split; [reflexivity|]. repeat split.
  - rewrite (mask_ok (Dsr.Rows.r rows) keep), !bind_Ok by congruence.
    rewrite (mask_ok (Dsr.Rows.actions rows)), bind_Ok by congruence.
    rewrite mapM_mask_ok, bind_Ok
      by (eapply Forall_impl; [exact Ho|]; simpl; intros; congruence).
    rewrite (mask_ok (Dsr.Rows.priors rows)), bind_Ok by congruence.
    rewrite (mask_ok (Dsr.Rows.on_policy rows)), bind_Ok by congruence.
    eexists; split; [reflexivity|]. repeat split.
Qed.

Lemma Qlt_not_le_bool (x y : Q) : (x < y)%Q -> Qle_bool y x = false.
Proof.
  intros Hlt. destruct (Qle_bool y x) eqn:Hle; [|reflexivity].
  apply Qle_bool_iff in Hle. exfalso. exact (Qlt_not_le _ _ Hlt Hle).
Qed.

(** C1 as the specification words it does not hold: in the dsr variant,
    with the rows of the GP not returned to the controller, the arrays
    of the statistics keep two rows and the arrays of the training step
    one, so no single mask cuts both. *)
Lemma two_masks_in_dsr :
  Dsr.full_batch (Example.gp_env false) 0 = Ok Example.gp_batch /\
  exists rows',
    Dsr.risk_seeking_filter (MQ:=TableQueue.t) weighted_quantile Example.gp_config
      (Example.gp_env false) 0 None None Example.gp_rows = Ok (Some 0.8%Q, rows', []) /\
    Dsr.Rows.l rows' = [2; 2] /\
    Dsr.Rows.actions rows' = [[2%Z]] /\
    ~ exists keep,
        DsrSpec.masked_kept keep Example.gp_rows rows' /\
        DsrSpec.masked_train keep Example.gp_rows rows'.
Proof.
  split; [reflexivity|].
  eexists. split; [vm_compute; reflexivity|].
  split; [reflexivity|]. split; [reflexivity|].
  intros (keep & (_ & _ & Hl & _) & (_ & _ & Ha & _)).
  cbn in Hl, Ha.
  destruct keep as [|[] [|[] [|[] keep]]]; cbn in Hl, Ha; discriminate.
Qed.

(** The filter of the dso variant: one mask for every array. *)
Lemma dso_risk_seeking_filter_ok
    {MQ : Type} `{MemoryQueue MQ} (wq : list Q -> list Q -> Q -> Q)
    (cfg : Config.t) (epoch : nat) (epsilon : Q)
    (quantile : option Q) (memory_queue : option MQ)
    (rows : Dso.Rows.t) (q : Q) (printed : list Event) :
  Config.epsilon cfg = Some epsilon -> (epsilon < 1)%Q ->
  DsoSpec.aligned rows ->
  compute_quantile wq (Config.use_memory cfg) memory_queue (Dso.Rows.programs rows)
    (Dso.Rows.r rows) epsilon (Config.memory_threshold cfg) epoch = Ok (q, printed) ->
  exists rows',
    Dso.risk_seeking_filter wq cfg epoch quantile memory_queue rows
      = Ok (Some q, rows', printed) /\
    DsoSpec.masked (Np.ge (Dso.Rows.r rows) q) rows rows' /\
    length (Dso.Rows.r rows') <= length (Dso.Rows.r rows) /\
    Forall (fun x => (q <= x)%Q) (Dso.Rows.r rows').
Proof.
  intros Heps Hlt Hal Hq.
  pose proof (Qlt_not_le_bool _ _ Hlt) as Hb.
  destruct (dso_filter_rows_ok rows (Dso.keep_mask rows q) Hal) as (rows' & Hf & Hm).
  { apply ge_length. }
  exists rows'. unfold Dso.risk_seeking_filter.
  rewrite Heps, Hb. cbn [negb]. rewrite Hq, bind_Ok. cbn beta iota.
  rewrite Hf, bind_Ok. split; [reflexivity|].
  split; [exact Hm|].
  destruct Hm as (Hr & _). rewrite Hr. split.
  - apply compress_length.
  - apply compress_ge.
Qed.

Lemma compress_length_eq {A B} (a : list A) (b : list B) (m : list bool) :
  length a = length b -> length (Np.compress a m) = length (Np.compress b m).
Proof.
  revert b m. induction a as [|x a IH]; intros [|y b] m Hlen; try discriminate.
  - reflexivity.
  - destruct m as [|[] m]; simpl; [reflexivity| |];
      rewrite (IH b) by (simpl in Hlen; lia); reflexivity.
Qed.

(** The filter of the dsr variant: the mask is taken on [base_r], and
    the arrays of the training step may take a narrower one. *)
Lemma dsr_risk_seeking_filter_ok
    {MQ : Type} `{MemoryQueue MQ} (wq : list Q -> list Q -> Q -> Q)
    (cfg : Config.t) (epoch : nat) (epsilon : Q)
    (quantile : option Q) (memory_queue : option MQ)
    (env : Dsr.Env.t) (rows : Dsr.Rows.t) (q : Q) (printed : list Event) :
  Config.epsilon cfg = Some epsilon -> (epsilon < 1)%Q ->
  DsrSpec.aligned rows ->
  compute_quantile wq (Config.use_memory cfg) memory_queue (Dsr.Rows.programs rows)
    (Dsr.Rows.r rows) epsilon (Config.memory_threshold cfg) epoch = Ok (q, printed) ->
  exists rows',
    Dsr.risk_seeking_filter wq cfg env epoch quantile memory_queue rows
      = Ok (Some q, rows', printed) /\
    let keep := Np.ge (Dsr.Rows.base_r rows) q in
    DsrSpec.masked_kept keep rows rows' /\
    DsrSpec.masked_train (DsrSpec.mask_of_training env (Config.batch_size cfg) keep)
      rows rows' /\
    length (Dsr.Rows.r_train rows') <= length (Dsr.Rows.base_r rows') /\
    length (Dsr.Rows.base_r rows') <= length (Dsr.Rows.base_r rows) /\
    Forall (fun x => (q <= x)%Q) (Dsr.Rows.base_r rows').
Proof.
  intros Heps Hlt Hal Hq.
  pose proof (Qlt_not_le_bool _ _ Hlt) as Hb.
  destruct (dsr_filter_rows_ok env (Config.batch_size cfg) rows
              (Dsr.keep_mask rows q) Hal) as (rows' & Hf & Hk & Ht).
  { apply ge_length. }
  exists rows'. unfold Dsr.risk_seeking_filter.
  rewrite Heps, Hb. cbn [negb]. rewrite Hq, bind_Ok. cbn beta iota.
  rewrite Hf, bind_Ok. split; [reflexivity|].
  cbn zeta. split; [exact Hk|]. split; [exact Ht|].
  destruct Hk as (Hbr & Hr & _). destruct Ht as (Hrt & _).
  destruct Hal as (Hlen & _).
  rewrite Hbr, Hrt. split; [|split].
  - unfold DsrSpec.mask_of_training.
    rewrite (compress_length_eq (Dsr.Rows.r rows) (Dsr.Rows.base_r rows)) by exact Hlen.
    destruct (Dsr.run_gp_meld env && negb (Dsr.return_gp_obs env)); [|lia].
    apply compress_clear_from_length.
  - apply compress_length.
  - apply compress_ge.
Qed.

(** C1, amended. With risk seeking on, the quantile [q] computed:
    the dso variant cuts every per-row array by the one mask [r >= q];
    the dsr variant takes the mask on [base_r], cuts the arrays of the
    statistics by it and the arrays of the training step by it too, or,
    when the rows of the GP are not returned, by it with the rows from
    [batch_size] on cleared. No array gains rows, and every retained row
    has its reward ([base_r] in dsr) at least [q]. *)
Theorem risk_seeking_filter_masks
    {MQ : Type} `{MemoryQueue MQ} (wq : list Q -> list Q -> Q -> Q)
    (cfg : Config.t) (epoch : nat) (epsilon : Q)
    (quantile : option Q) (memory_queue : option MQ)
    (rows : Dso.Rows.t) (q : Q) (printed : list Event)
    (env : Dsr.Env.t) (rows2 : Dsr.Rows.t) (q2 : Q) (printed2 : list Event) :
  Config.epsilon cfg = Some epsilon -> (epsilon < 1)%Q ->
  DsoSpec.aligned rows ->
  compute_quantile wq (Config.use_memory cfg) memory_queue (Dso.Rows.programs rows)
    (Dso.Rows.r rows) epsilon (Config.memory_threshold cfg) epoch = Ok (q, printed) ->
  DsrSpec.aligned rows2 ->
  compute_quantile wq (Config.use_memory cfg) memory_queue (Dsr.Rows.programs rows2)
    (Dsr.Rows.r rows2) epsilon (Config.memory_threshold cfg) epoch = Ok (q2, printed2) ->
  (exists rows',
     Dso.risk_seeking_filter wq cfg epoch quantile memory_queue rows
       = Ok (Some q, rows', printed) /\
     DsoSpec.masked (Np.ge (Dso.Rows.r rows) q) rows rows' /\
     length (Dso.Rows.r rows') <= length (Dso.Rows.r rows) /\
     Forall (fun x => (q <= x)%Q) (Dso.Rows.r rows')) /\
  (exists rows',
     Dsr.risk_seeking_filter wq cfg env epoch quantile memory_queue rows2
       = Ok (Some q2, rows', printed2) /\
     let keep := Np.ge (Dsr.Rows.base_r rows2) q2 in
     DsrSpec.masked_kept keep rows2 rows' /\
     DsrSpec.masked_train (DsrSpec.mask_of_training env (Config.batch_size cfg) keep)
       rows2 rows' /\
     length (Dsr.Rows.r_train rows') <= length (Dsr.Rows.base_r rows') /\
     length (Dsr.Rows.base_r rows') <= length (Dsr.Rows.base_r rows2) /\
     Forall (fun x => (q2 <= x)%Q) (Dsr.Rows.base_r rows')).
Proof.
  intros Heps Hlt Hal Hq Hal2 Hq2. split.
  - exact (dso_risk_seeking_filter_ok wq cfg epoch epsilon quantile memory_queue
             rows q printed Heps Hlt Hal Hq).
  - exact (dsr_risk_seeking_filter_ok wq cfg epoch epsilon quantile memory_queue
             env rows2 q2 printed2 Heps Hlt Hal2 Hq2).
Qed.

Lemma risk_seeking_filter_masks_witness :
  DsoSpec.aligned (Dso.metrics (Example.sample Example.four)) /\
  DsrSpec.aligned Example.gp_rows /\
  (exists rows',
     Dso.risk_seeking_filter (MQ:=TableQueue.t) weighted_quantile Example.gp_config 0 None None
       (Dso.metrics (Example.sample Example.four)) = Ok (Some 0.4%Q, rows', []) /\
     DsoSpec.masked (Np.ge (Dso.Rows.r (Dso.metrics (Example.sample Example.four))) 0.4)
       (Dso.metrics (Example.sample Example.four)) rows' /\
     length (Dso.Rows.r rows') <= 4 /\
     Forall (fun x => (0.4 <= x)%Q) (Dso.Rows.r rows')) /\
  (exists rows',
     Dsr.risk_seeking_filter (MQ:=TableQueue.t) weighted_quantile Example.gp_config
       (Example.gp_env false) 0 None None Example.gp_rows = Ok (Some 0.8%Q, rows', []) /\
     DsrSpec.masked_kept [false; true; true] Example.gp_rows rows' /\
     DsrSpec.masked_train [false; true; false] Example.gp_rows rows' /\
     length (Dsr.Rows.r_train rows') <= length (Dsr.Rows.base_r rows') /\
     length (Dsr.Rows.base_r rows') <= 3 /\
     Forall (fun x => (0.8 <= x)%Q) (Dsr.Rows.base_r rows')).
Proof.
  assert (Ha : DsoSpec.aligned (Dso.metrics (Example.sample Example.four)))
    by (repeat split; repeat constructor).
  assert (Ha2 : DsrSpec.aligned Example.gp_rows)
    by (repeat split; repeat constructor).
  split; [exact Ha|]. split; [exact Ha2|].
  apply (risk_seeking_filter_masks (MQ:=TableQueue.t) weighted_quantile Example.gp_config 0 0.7
           None None (Dso.metrics (Example.sample Example.four)) 0.4 []
           (Example.gp_env false) Example.gp_rows 0.8 []).
  - reflexivity.
  - reflexivity.
  - exact Ha.
  - vm_compute. reflexivity.
  - exact Ha2.
  - vm_compute. reflexivity.
Defined.

(** ** The scenario of four rewards *)

(** C7. Memory off, [epsilon] 0.5, rewards 0.1, 0.9, 0.4 and 0.7: the
    quantile is 0.7, the mask keeps the second and the fourth row, the
    rewards 0.9 and 0.7 are retained. In the dsr variant the rewards
    before the penalty are the same four. *)
Theorem quantile_of_four_rewards
    {MQ : Type} `{MemoryQueue MQ} (wq : list Q -> list Q -> Q -> Q)
    (cfg : Config.t) (epoch : nat) (quantile : option Q) (memory_queue : option MQ)
    (rows : Dso.Rows.t) (env : Dsr.Env.t) (rows2 : Dsr.Rows.t) :
  Config.epsilon cfg = Some 0.5%Q -> Config.use_memory cfg = false ->
  Dso.Rows.r rows = [0.1; 0.9; 0.4; 0.7]%Q -> DsoSpec.aligned rows ->
  Dsr.Rows.r rows2 = [0.1; 0.9; 0.4; 0.7]%Q ->
  Dsr.Rows.base_r rows2 = [0.1; 0.9; 0.4; 0.7]%Q -> DsrSpec.aligned rows2 ->
  Np.quantile_higher [0.1; 0.9; 0.4; 0.7]%Q (1 - 0.5)%Q = Ok 0.7%Q /\
  (exists rows',
     Dso.risk_seeking_filter wq cfg epoch quantile memory_queue rows
       = Ok (Some 0.7%Q, rows', []) /\
     Dso.keep_mask rows 0.7 = [false; true; false; true] /\
     DsoSpec.masked [false; true; false; true] rows rows' /\
     Dso.Rows.r rows' = [0.9; 0.7]%Q) /\
  (exists rows',
     Dsr.risk_seeking_filter wq cfg env epoch quantile memory_queue rows2
       = Ok (Some 0.7%Q, rows', []) /\
     Dsr.keep_mask rows2 0.7 = [false; true; false; true] /\
     DsrSpec.masked_kept [false; true; false; true] rows2 rows' /\
     DsrSpec.masked_train
       (DsrSpec.mask_of_training env (Config.batch_size cfg) [false; true; false; true])
       rows2 rows' /\
     Dsr.Rows.r rows' = [0.9; 0.7]%Q).
Proof.
  intros Heps Hmem Hr Hal Hr2 Hbr2 Hal2.
  assert (Hq : Np.quantile_higher [0.1; 0.9; 0.4; 0.7]%Q (1 - 0.5)%Q = Ok 0.7%Q)
    by (vm_compute; reflexivity).
  split; [exact Hq|]. split.
  - destruct (dso_risk_seeking_filter_ok wq cfg epoch 0.5 quantile memory_queue
                rows 0.7 [] Heps eq_refl Hal) as (rows' & Hf & Hm & _).
    { rewrite Hmem, Hr. unfold compute_quantile. rewrite Hq. reflexivity. }
    exists rows'. split; [exact Hf|].
    assert (Hk : Dso.keep_mask rows 0.7 = [false; true; false; true])
      by (unfold Dso.keep_mask; rewrite Hr; reflexivity).
    unfold Dso.keep_mask in Hk. rewrite Hk in Hm.
    split; [exact Hk|]. split; [exact Hm|].
    destruct Hm as (Hr' & _). rewrite Hr', Hr. reflexivity.
  - destruct (dsr_risk_seeking_filter_ok wq cfg epoch 0.5 quantile memory_queue
                env rows2 0.7 [] Heps eq_refl Hal2) as (rows' & Hf & Hk' & Ht & _).
    { rewrite Hmem, Hr2. unfold compute_quantile. rewrite Hq. reflexivity. }
    exists rows'. split; [exact Hf|].
    assert (Hk : Dsr.keep_mask rows2 0.7 = [false; true; false; true])
      by (unfold Dsr.keep_mask; rewrite Hbr2; reflexivity).
    unfold Dsr.keep_mask in Hk. rewrite Hk in Hk', Ht.
    split; [exact Hk|]. split; [exact Hk'|]. split; [exact Ht|].
    destruct Hk' as (_ & Hr' & _). rewrite Hr', Hr2. reflexivity.
Qed.

Lemma quantile_of_four_rewards_witness :
  Np.quantile_higher [0.1; 0.9; 0.4; 0.7]%Q (1 - 0.5)%Q = Ok 0.7%Q /\
  (exists rows',
     Dso.risk_seeking_filter (MQ:=TableQueue.t) weighted_quantile Example.half 0 None None
       (Dso.metrics (Example.sample Example.four)) = Ok (Some 0.7%Q, rows', []) /\
     Dso.keep_mask (Dso.metrics (Example.sample Example.four)) 0.7
       = [false; true; false; true] /\
     DsoSpec.masked [false; true; false; true]
       (Dso.metrics (Example.sample Example.four)) rows' /\
     Dso.Rows.r rows' = [0.9; 0.7]%Q) /\
  (exists rows',
     Dsr.risk_seeking_filter (MQ:=TableQueue.t) weighted_quantile Example.half
       (Example.gp_env true) 0 None None
       (Dsr.metrics (Example.sample Example.four)) = Ok (Some 0.7%Q, rows', []) /\
     Dsr.keep_mask (Dsr.metrics (Example.sample Example.four)) 0.7
       = [false; true; false; true] /\
     DsrSpec.masked_kept [false; true; false; true]
       (Dsr.metrics (Example.sample Example.four)) rows' /\
     DsrSpec.masked_train [false; true; false; true]
       (Dsr.metrics (Example.sample Example.four)) rows' /\
     Dsr.Rows.r rows' = [0.9; 0.7]%Q).
Proof.
  apply (quantile_of_four_rewards (MQ:=TableQueue.t) weighted_quantile Example.half 0
           None None (Dso.metrics (Example.sample Example.four))
           (Example.gp_env true) (Dsr.metrics (Example.sample Example.four))).
  - reflexivity.
  - reflexivity.
  - reflexivity.
  - repeat split; repeat constructor.
  - reflexivity.
  - reflexivity.
  - repeat split; repeat constructor.
Defined.

(** ** One pass of the loop, taken apart *)

Lemma read_inv {A} (name : string) (v : option A) (a : A) :
  read name v = Ok a -> v = Some a.
Proof. destruct v; simpl; congruence. Qed.

Section Passes.
Context {MQ : Type} `{MemoryQueue MQ}.
Variable wq : list Q -> list Q -> Q -> Q.

(** What a pass of the dso variant that raises nothing has computed. *)
Lemma dso_epoch_update_inv (cfg : Config.t) (epoch : nat) (smp : Sample.t)
    (st st' : Dso.State.t MQ) :
  Dso.epoch_update wq cfg epoch smp st = Ok st' ->
  exists p_final r_max quantile rows0 printed ewma b p_r_best,
    Dso.check_success (Config.eval_all cfg) (Sample.programs smp) (Dso.State.p_final st)
      = Ok p_final /\
    Np.max (map Program.r (Sample.programs smp)) = Ok r_max /\
    Dso.risk_seeking_filter wq cfg epoch (Dso.State.quantile st)
      (Dso.State.memory_queue st) (Dso.metrics smp) = Ok (quantile, rows0, printed) /\
    compute_baseline (Config.baseline cfg) (Config.alpha cfg) quantile
      (Dso.State.ewma st) (Dso.State.b_train st)
      (Dso.Rows.r_train (Dso.clip_rows rows0)) = Ok (ewma, Some b) /\
    Dso.update_best (Dso.State.prev_r_best st) r_max (Dso.clip_rows rows0)
      (Dso.State.p_r_best st) = Ok p_r_best /\
    st' = {| Dso.State.p_final := p_final;
             Dso.State.r_best := Some (py_max r_max (Dso.State.r_best st));
             Dso.State.prev_r_best := Some (py_max r_max (Dso.State.r_best st));
             Dso.State.ewma := ewma;
             Dso.State.nevals := (Dso.State.nevals st + Z.of_nat (Config.batch_size cfg))%Z;
             Dso.State.quantile := quantile;
             Dso.State.b_train := Some b;
             Dso.State.p_r_best := p_r_best;
             Dso.State.epoch := Some epoch;
             Dso.State.memory_queue :=
               (fun mq => push_batch mq (Dso.make_batch cfg (Dso.clip_rows rows0))
                            (Dso.Rows.programs (Dso.clip_rows rows0)))
               <$> Dso.State.memory_queue st;
             Dso.State.log :=
               Dso.State.log st ++ printed ++
               (if Config.pqt cfg
                then [PushBest (Dso.make_batch cfg (Dso.clip_rows rows0))
                        (Dso.Rows.programs (Dso.clip_rows rows0))]
                else []) ++
               [TrainStep b (Dso.make_batch cfg (Dso.clip_rows rows0))] |}.
Proof.
  unfold Dso.epoch_update. intros Hrun.
  apply bind_Ok_inv in Hrun as (p_final & Hs & Hrun).
  apply bind_Ok_inv in Hrun as (r_max & Hmax & Hrun).
  apply bind_Ok_inv in Hrun as ([[quantile rows0] printed] & Hf & Hrun).
  apply bind_Ok_inv in Hrun as ([ewma b_train] & Hb & Hrun).
  apply bind_Ok_inv in Hrun as (b & Hread & Hrun).
  apply bind_Ok_inv in Hrun as (p_r_best & Hbest & Hrun).
  apply read_inv in Hread. subst b_train.
  exists p_final, r_max, quantile, rows0, printed, ewma, b, p_r_best.
  repeat split; try assumption. congruence.
Qed.

(** The same for the dsr variant. *)
Lemma dsr_epoch_update_inv (cfg : Config.t) (env : Dsr.Env.t) (epoch : nat)
    (smp : Sample.t) (st st' : Dsr.State.t MQ) :
  Dsr.epoch_update wq cfg env epoch smp st = Ok st' ->
  exists p_final base_r_max r_max quantile rows0 printed ewma b p_r_best p_base_r_best,
    Dsr.check_success (Config.eval_all cfg) (Sample.programs smp) (Dsr.State.p_final st)
      = Ok p_final /\
    Np.max (map Program.base_r (Sample.programs smp)) = Ok base_r_max /\
    Np.max (map Program.r (Sample.programs smp)) = Ok r_max /\
    Dsr.risk_seeking_filter wq cfg env epoch (Dsr.State.quantile st)
      (Dsr.State.memory_queue st) (Dsr.metrics smp) = Ok (quantile, rows0, printed) /\
    compute_baseline (Config.baseline cfg) (Config.alpha cfg) quantile
      (Dsr.State.ewma st) (Dsr.State.b_train st)
      (Dsr.Rows.r_train (Dsr.clip_rows rows0)) = Ok (ewma, Some b) /\
    Dsr.update_best (Dsr.State.prev_r_best st) r_max (Dsr.Rows.r (Dsr.clip_rows rows0))
      (Dsr.Rows.programs (Dsr.clip_rows rows0)) (Dsr.State.p_r_best st) = Ok p_r_best /\
    Dsr.update_best (Dsr.State.prev_base_r_best st) base_r_max
      (Dsr.Rows.base_r (Dsr.clip_rows rows0))
      (Dsr.Rows.programs (Dsr.clip_rows rows0)) (Dsr.State.p_base_r_best st)
      = Ok p_base_r_best /\
    st' = {| Dsr.State.p_final := p_final;
             Dsr.State.base_r_best := Some (py_max base_r_max (Dsr.State.base_r_best st));
             Dsr.State.r_best := Some (py_max r_max (Dsr.State.r_best st));
             Dsr.State.prev_r_best := Some (py_max r_max (Dsr.State.r_best st));
             Dsr.State.prev_base_r_best :=
               Some (py_max base_r_max (Dsr.State.base_r_best st));
             Dsr.State.ewma := ewma;
             Dsr.State.nevals := Dsr.count_evals cfg env epoch (Dsr.State.nevals st);
             Dsr.State.quantile := quantile;
             Dsr.State.b_train := Some b;
             Dsr.State.p_r_best := p_r_best;
             Dsr.State.p_base_r_best := p_base_r_best;
             Dsr.State.epoch := Some epoch;
             Dsr.State.memory_queue :=
               (fun mq => push_batch mq (Dsr.make_batch cfg (Dsr.clip_rows rows0))
                            (Dsr.Rows.programs (Dsr.clip_rows rows0)))
               <$> Dsr.State.memory_queue st;
             Dsr.State.log :=
               Dsr.State.log st ++ printed ++
               (if Config.pqt cfg
                then [PushBest (Dsr.make_batch cfg (Dsr.clip_rows rows0))
                        (Dsr.Rows.programs (Dsr.clip_rows rows0))]
                else []) ++
               [TrainStep b (Dsr.make_batch cfg (Dsr.clip_rows rows0))] |}.
Proof.
  unfold Dsr.epoch_update. intros Hrun.
  apply bind_Ok_inv in Hrun as (p_final & Hs & Hrun).
  apply bind_Ok_inv in Hrun as (base_r_max & Hbmax & Hrun).
  apply bind_Ok_inv in Hrun as (r_max & Hmax & Hrun).
  apply bind_Ok_inv in Hrun as ([[quantile rows0] printed] & Hf & Hrun).
  apply bind_Ok_inv in Hrun as ([ewma b_train] & Hb & Hrun).
  apply bind_Ok_inv in Hrun as (b & Hread & Hrun).
  apply bind_Ok_inv in Hrun as (p_r_best & Hbest & Hrun).
  apply bind_Ok_inv in Hrun as (p_base_r_best & Hbbest & Hrun).
  apply read_inv in Hread. subst b_train.
  exists p_final, base_r_max, r_max, quantile, rows0, printed, ewma, b, p_r_best, p_base_r_best.
  repeat split; try assumption. congruence.
Qed.

End Passes.

(** In the dsr variant the mask is taken on the rewards before the
    penalty: with the same four rewards and a penalty on the first
    program only, the quantile is 0.7 still and the first row stays. *)
Example mask_on_base_r :
  let rows := Dsr.metrics (Example.sample
                [Example.program "a" 0.1 0.8 None; Example.program "b" 0.9 0.9 None;
                 Example.program "c" 0.4 0.4 None; Example.program "d" 0.7 0.7 None]) in
  Dsr.Rows.r rows = [0.1; 0.9; 0.4; 0.7]%Q /\
  Np.quantile_higher (Dsr.Rows.r rows) (1 - 0.5)%Q = Ok 0.7%Q /\
  Dsr.keep_mask rows 0.7 = [true; true; false; true].
Proof. cbv zeta. repeat split. Qed.

(** ** The memory-augmented quantile *)

Lemma sum_map_div (l : list Q) (c : Q) :
  (Np.sum (map (fun w => w / c) l) == Np.sum l / c)%Q.
Proof.
  induction l as [|w l IH]; simpl.
  - unfold Qdiv. ring.
  - rewrite IH. unfold Qdiv. ring.
Qed.

Lemma renormalized_sum (l : list Q) :
  ~ (Np.sum l == 0)%Q -> (Np.sum (map (fun w => w / Np.sum l) l) == 1)%Q.
Proof.
  intros Hnz. rewrite sum_map_div. unfold Qdiv. apply Qmult_inv_r. exact Hnz.
Qed.

Section MemoryQuantile.
Context {MQ : Type} `{MemoryQueue MQ}.
Variable wq : list Q -> list Q -> Q -> Q.

(** C3. [N] programs of the batch have keys the memory queue does not
    hold. The values are the rewards of the memory followed by theirs.
    With [N > 0] the weights are those of the memory followed by [N]
    times [(1 - sum) / N], and no warning is printed; with [N = 0] the
    warning is printed and the weights are those of the memory divided by
    their sum, which then add up to 1 (the sum not being zero). Either
    way the quantile is the weighted one at [1 - epsilon]. *)
Theorem memory_augmented_weights (memory_queue : MQ) (programs : list Program.t)
    (r : list Q) (epsilon : Q) (memory_threshold : option Q) (epoch : nat) :
  let ql := memory_augmented_quantile wq memory_queue programs epsilon
              memory_threshold epoch in
  let unique_programs :=
    List.filter (fun p => negb (unique_items memory_queue (Program.str p))) programs in
  let memory_w := compute_probs memory_queue in
  let warning := Print "WARNING: Found no unique samples in batch!" in
  Quantile.N ql = length unique_programs /\
  Quantile.combined_r ql = get_rewards memory_queue ++ map Program.r unique_programs /\
  (0 < Quantile.N ql ->
     Quantile.combined_w ql =
       memory_w ++ repeat ((1 - Np.sum memory_w) / inject_Z (Z.of_nat (Quantile.N ql)))%Q
                          (Quantile.N ql) /\
     ~ In warning (Quantile.printed ql)) /\
  (Quantile.N ql = 0 ->
     In warning (Quantile.printed ql) /\
     Quantile.combined_w ql = map (fun w => w / Np.sum memory_w)%Q memory_w /\
     (~ (Np.sum memory_w == 0)%Q -> (Np.sum (Quantile.combined_w ql) == 1)%Q)) /\
  Quantile.quantile ql =
    wq (Quantile.combined_r ql) (Quantile.combined_w ql) (1 - epsilon)%Q /\
  compute_quantile wq true (Some memory_queue) programs r epsilon memory_threshold epoch
    = Ok (Quantile.quantile ql, Quantile.printed ql).
Proof.
  cbv zeta.
  assert (Hcq : compute_quantile wq true (Some memory_queue) programs r epsilon
                  memory_threshold epoch
                = Ok (Quantile.quantile (memory_augmented_quantile wq memory_queue programs
                                           epsilon memory_threshold epoch),
                      Quantile.printed (memory_augmented_quantile wq memory_queue programs
                                          epsilon memory_threshold epoch)))
    by reflexivity.
  revert Hcq. unfold memory_augmented_quantile.
  set (unique_programs :=
         List.filter (fun p => negb (unique_items memory_queue (Program.str p))) programs).
  destruct (Nat.eqb_spec (length unique_programs) 0) as [Hz|Hnz]; cbn; intros Hcq.
  - split; [reflexivity|]. split; [reflexivity|].
    split; [intros Hpos; lia|].
    split; [|split; [reflexivity | exact Hcq]].
    intros _. split; [left; reflexivity|]. split; [reflexivity|].
    apply renormalized_sum.
  - split; [reflexivity|]. split; [reflexivity|].
    split; [|split; [intros Hzero; contradiction | split; [reflexivity | exact Hcq]]].
    intros _. split; [reflexivity|].
    intros Hin. destruct memory_threshold as [t|]; cbn in Hin.
    + destruct Hin as [Hin|Hin]; [discriminate|].
      destruct (negb (Qle_bool (Np.sum (compute_probs memory_queue)) t)); cbn in Hin.
      * destruct Hin as [Hin|[]]. discriminate.
      * destruct Hin.
    + destruct Hin.
Qed.

End MemoryQuantile.

Lemma memory_augmented_weights_witness :
  let ql := memory_augmented_quantile weighted_quantile Example.memory_ab
              Example.sampled_two 0.5 None 0 in
  Quantile.N ql = 0 /\
  ~ (Np.sum (compute_probs Example.memory_ab) == 0)%Q /\
  In (Print "WARNING: Found no unique samples in batch!") (Quantile.printed ql) /\
  Quantile.combined_w ql = [0.2 / (0.2 + (0.3 + 0)); 0.3 / (0.2 + (0.3 + 0))]%Q /\
  (Np.sum (Quantile.combined_w ql) == 1)%Q.
Proof.
  cbv zeta.
  assert (Hnz : ~ (Np.sum (compute_probs Example.memory_ab) == 0)%Q) by discriminate.
  destruct (memory_augmented_weights weighted_quantile Example.memory_ab
              Example.sampled_two [] 0.5 None 0) as (HN & _ & _ & Hzero & _).
  destruct (Hzero eq_refl) as (Hwarn & Hw & Hsum).
  split; [reflexivity|]. split; [exact Hnz|]. split; [exact Hwarn|].
  split; [exact Hw|]. exact (Hsum Hnz).
Defined.

(** With one program the queue does not hold, the remaining mass goes to
    it and nothing is printed. *)
Example memory_augmented_new_program :
  let ql := memory_augmented_quantile weighted_quantile Example.memory_ab
              Example.new_c 0.5 None 0 in
  Quantile.N ql = 1 /\
  Quantile.combined_r ql = [0.2; 0.8; 0.5]%Q /\
  Quantile.combined_w ql = [0.2; 0.3; (1 - (0.2 + (0.3 + 0))) / 1]%Q /\
  Quantile.printed ql = [].
Proof. cbv zeta. repeat split. Qed.

(** ** The filter, read backwards *)

Section FilterInversion.
Context {MQ : Type} `{MemoryQueue MQ}.
Variable wq : list Q -> list Q -> Q -> Q.

Lemma risk_seeking_cases (epsilon : option Q) :
  (exists eps, epsilon = Some eps /\ Qle_bool 1 eps = false /\ risk_seeking epsilon = true) \/
  ((epsilon = None \/ exists eps, epsilon = Some eps /\ Qle_bool 1 eps = true)
   /\ risk_seeking epsilon = false).
Proof.
  destruct epsilon as [eps|]; simpl.
  - destruct (Qle_bool 1 eps) eqn:Hle; [right|left]; eauto 6.
  - right. auto.
Qed.

(** With risk seeking on, a filter of the dso variant that raises nothing
    has computed a quantile and cut the rows by its mask. *)
Lemma dso_filter_on_inv (cfg : Config.t) (epoch : nat) (quantile0 : option Q)
    (memory_queue : option MQ) (rows rows0 : Dso.Rows.t) (quantile : option Q)
    (printed : list Event) :
  risk_seeking (Config.epsilon cfg) = true ->
  Dso.risk_seeking_filter wq cfg epoch quantile0 memory_queue rows
    = Ok (quantile, rows0, printed) ->
  exists eps q,
    Config.epsilon cfg = Some eps /\ quantile = Some q /\
    compute_quantile wq (Config.use_memory cfg) memory_queue (Dso.Rows.programs rows)
      (Dso.Rows.r rows) eps (Config.memory_threshold cfg) epoch = Ok (q, printed) /\
    Dso.filter_rows rows (Dso.keep_mask rows q) = Ok rows0.
Proof.
  unfold Dso.risk_seeking_filter, risk_seeking.
  destruct (Config.epsilon cfg) as [eps|]; [|discriminate].
  intros Hon. rewrite Hon. intros Hrun.
  apply bind_Ok_inv in Hrun as ([q printed'] & Hq & Hrun).
  apply bind_Ok_inv in Hrun as (rows' & Hf & Hrun).
  injection Hrun as <- <- <-. eauto 8.
Qed.

(** With risk seeking off it leaves everything as it is. *)
Lemma dso_filter_off (cfg : Config.t) (epoch : nat) (quantile0 : option Q)
    (memory_queue : option MQ) (rows : Dso.Rows.t) :
  risk_seeking (Config.epsilon cfg) = false ->
  Dso.risk_seeking_filter wq cfg epoch quantile0 memory_queue rows
    = Ok (quantile0, rows, []).
Proof.
  unfold Dso.risk_seeking_filter, risk_seeking.
  destruct (Config.epsilon cfg) as [eps|]; [|reflexivity].
  intros ->. reflexivity.
Qed.

Lemma dsr_filter_on_inv (cfg : Config.t) (env : Dsr.Env.t) (epoch : nat)
    (quantile0 : option Q) (memory_queue : option MQ) (rows rows0 : Dsr.Rows.t)
    (quantile : option Q) (printed : list Event) :
  risk_seeking (Config.epsilon cfg) = true ->
  Dsr.risk_seeking_filter wq cfg env epoch quantile0 memory_queue rows
    = Ok (quantile, rows0, printed) ->
  exists eps q,
    Config.epsilon cfg = Some eps /\ quantile = Some q /\
    compute_quantile wq (Config.use_memory cfg) memory_queue (Dsr.Rows.programs rows)
      (Dsr.Rows.r rows) eps (Config.memory_threshold cfg) epoch = Ok (q, printed) /\
    Dsr.filter_rows env (Config.batch_size cfg) rows (Dsr.keep_mask rows q) = Ok rows0.
Proof.
  unfold Dsr.risk_seeking_filter, risk_seeking.
  destruct (Config.epsilon cfg) as [eps|]; [|discriminate].
  intros Hon. rewrite Hon. intros Hrun.
  apply bind_Ok_inv in Hrun as ([q printed'] & Hq & Hrun).
  apply bind_Ok_inv in Hrun as (rows' & Hf & Hrun).
  injection Hrun as <- <- <-. eauto 8.
Qed.

Lemma dsr_filter_off (cfg : Config.t) (env : Dsr.Env.t) (epoch : nat)
    (quantile0 : option Q) (memory_queue : option MQ) (rows : Dsr.Rows.t) :
  risk_seeking (Config.epsilon cfg) = false ->
  Dsr.risk_seeking_filter wq cfg env epoch quantile0 memory_queue rows
    = Ok (quantile0, rows, []).
Proof.
  unfold Dsr.risk_seeking_filter, risk_seeking.
  destruct (Config.epsilon cfg) as [eps|]; [|reflexivity].
  intros ->. reflexivity.
Qed.

End FilterInversion.

(** ** The baseline *)

Lemma R_e_is_the_quantile (alpha q : Q) (ewma b_train : option Np.float)
    (r_train : list Q) :
  compute_baseline "R_e" alpha (Some q) ewma b_train r_train
  = Ok (Some (Np.Num (-1)), Some (Np.Num q)).
Proof. reflexivity. Qed.

Lemma R_e_inv (alpha : Q) (quantile : option Q) (ewma b_train ewma' : option Np.float)
    (b : Np.float) (r_train : list Q) :
  compute_baseline "R_e" alpha quantile ewma b_train r_train = Ok (ewma', Some b) ->
  exists q, quantile = Some q /\ b = Np.Num q.
Proof.
  destruct quantile as [q|]; cbn; [|discriminate].
  intros [= _ <-]. exists q. split; reflexivity.
Qed.

Lemma mean_of_rewards (r_train : list Q) :
  r_train <> [] ->
  Np.mean r_train = Np.Num (Np.sum r_train / inject_Z (Z.of_nat (length r_train))).
Proof. destruct r_train; [congruence | reflexivity]. Qed.

(** The stage of the baseline [ewma_R]: the mean at [alpha] 1 when there
    is a mean and the EWMA is no nan, and nan otherwise. *)
Lemma ewma_R_stage (alpha : Q) (quantile : option Q) (ewma b_train : option Np.float)
    (r_train : list Q) :
  exists b,
    compute_baseline "ewma_R" alpha quantile ewma b_train r_train = Ok (Some b, Some b) /\
    ((alpha == 1)%Q -> r_train <> [] -> ewma <> Some Np.NaN ->
     Np.feq b (Np.mean r_train)) /\
    (r_train = [] \/ ewma = Some Np.NaN -> b = Np.NaN).
Proof.
  unfold compute_baseline. cbn [String.eqb Ascii.eqb Bool.eqb].
  eexists. split; [reflexivity|]. split.
  - intros Ha Hne Hnan. rewrite (mean_of_rewards r_train Hne).
    destruct ewma as [[e|]|]; [| congruence |]; cbn.
    + rewrite Ha. ring.
    + reflexivity.
  - intros [-> | ->]; [destruct ewma as [[e|]|]; reflexivity|].
    destruct (Np.mean r_train); reflexivity.
Qed.

Lemma last_of_log {A} (l1 l2 l3 : list A) (x : A) :
  last (l1 ++ l2 ++ l3 ++ [x]) = Some x.
Proof. rewrite !app_assoc. apply last_snoc. Qed.

(** C5. The baseline [R_e] is the quantile. The baseline [ewma_R] with
    [alpha] 1 is the mean of the clipped retained rewards when the
    training step has a row and the [ewma] carried in is [None] or a
    number; it is nan when the training step has no row (the mean of an
    empty array) and when the [ewma] carried in is nan, and the new
    [ewma] is [b_train], so that nan stays in every later pass. So it
    is for the stage, and so it is in every pass of either variant:
    [b_train], which the training step is given, is the quantile of this
    pass, or the mean of the rewards of the batch of the training step,
    or nan. *)
Theorem baseline_R_e_and_ewma_R {MQ : Type} `{MemoryQueue MQ}
    (wq : list Q -> list Q -> Q -> Q) :
  (forall alpha q ewma b_train r_train,
     compute_baseline "R_e" alpha (Some q) ewma b_train r_train
       = Ok (Some (Np.Num (-1)), Some (Np.Num q))) /\
  (forall alpha quantile ewma b_train r_train,
     exists b,
       compute_baseline "ewma_R" alpha quantile ewma b_train r_train
         = Ok (Some b, Some b) /\
       ((alpha == 1)%Q -> r_train <> [] -> ewma <> Some Np.NaN ->
        Np.feq b (Np.mean r_train)) /\
       (r_train = [] \/ ewma = Some Np.NaN -> b = Np.NaN)) /\
  (forall cfg epoch smp (st st' : Dso.State.t MQ),
     Dso.epoch_update wq cfg epoch smp st = Ok st' ->
     (Config.baseline cfg = "R_e" ->
        exists q batch,
          Dso.State.quantile st' = Some q /\ Dso.State.b_train st' = Some (Np.Num q) /\
          last (Dso.State.log st') = Some (TrainStep (Np.Num q) batch) /\
          (risk_seeking (Config.epsilon cfg) = true ->
             exists eps printed,
               Config.epsilon cfg = Some eps /\
               compute_quantile wq (Config.use_memory cfg) (Dso.State.memory_queue st)
                 (Sample.programs smp) (map Program.r (Sample.programs smp)) eps
                 (Config.memory_threshold cfg) epoch = Ok (q, printed))) /\
     (Config.baseline cfg = "ewma_R" ->
        exists b batch,
          Dso.State.b_train st' = Some b /\ Dso.State.ewma st' = Some b /\
          last (Dso.State.log st') = Some (TrainStep b batch) /\
          ((Config.alpha cfg == 1)%Q -> Batch.rewards batch <> [] ->
           Dso.State.ewma st <> Some Np.NaN ->
           Np.feq b (Np.mean (Batch.rewards batch))) /\
          (Batch.rewards batch = [] \/ Dso.State.ewma st = Some Np.NaN -> b = Np.NaN))) /\
  (forall cfg env epoch smp (st st' : Dsr.State.t MQ),
     Dsr.epoch_update wq cfg env epoch smp st = Ok st' ->
     (Config.baseline cfg = "R_e" ->
        exists q batch,
          Dsr.State.quantile st' = Some q /\ Dsr.State.b_train st' = Some (Np.Num q) /\
          last (Dsr.State.log st') = Some (TrainStep (Np.Num q) batch) /\
          (risk_seeking (Config.epsilon cfg) = true ->
             exists eps printed,
               Config.epsilon cfg = Some eps /\
               compute_quantile wq (Config.use_memory cfg) (Dsr.State.memory_queue st)
                 (Sample.programs smp) (map Program.r (Sample.programs smp)) eps
                 (Config.memory_threshold cfg) epoch = Ok (q, printed))) /\
     (Config.baseline cfg = "ewma_R" ->
        exists b batch,
          Dsr.State.b_train st' = Some b /\ Dsr.State.ewma st' = Some b /\
          last (Dsr.State.log st') = Some (TrainStep b batch) /\
          ((Config.alpha cfg == 1)%Q -> Batch.rewards batch <> [] ->
           Dsr.State.ewma st <> Some Np.NaN ->
           Np.feq b (Np.mean (Batch.rewards batch))) /\
          (Batch.rewards batch = [] \/ Dsr.State.ewma st = Some Np.NaN -> b = Np.NaN))).
Proof.
  split; [exact R_e_is_the_quantile|]. split; [exact ewma_R_stage|]. split.
  - intros cfg epoch smp st st' Hrun.
    apply dso_epoch_update_inv in Hrun
      as (p_final & r_max & quantile & rows0 & printed & ewma & b & p_r_best
          & _ & _ & Hf & Hb & _ & ->).
    cbn [Dso.State.quantile Dso.State.b_train Dso.State.ewma Dso.State.log]. split.
    + intros Hbase. rewrite Hbase in Hb. apply R_e_inv in Hb as (q0 & -> & ->).
      exists q0, (Dso.make_batch cfg (Dso.clip_rows rows0)).
      split; [reflexivity|]. split; [reflexivity|]. split; [apply last_of_log|].
      intros Hon. destruct (dso_filter_on_inv wq _ _ _ _ _ _ _ _ Hon Hf)
        as (eps & q & Heps & Hq & Hcq & _).
      injection Hq as <-. exists eps, printed. split; [exact Heps | exact Hcq].
    + intros Hbase. rewrite Hbase in Hb.
      destruct (ewma_R_stage (Config.alpha cfg) quantile (Dso.State.ewma st)
                  (Dso.State.b_train st) (Dso.Rows.r_train (Dso.clip_rows rows0)))
        as (b' & Hb' & Hmean & Hnan).
      rewrite Hb' in Hb. injection Hb as <- <-.
      exists b', (Dso.make_batch cfg (Dso.clip_rows rows0)).
      split; [reflexivity|]. split; [reflexivity|]. split; [apply last_of_log|].
      split; [exact Hmean | exact Hnan].
  - intros cfg env epoch smp st st' Hrun.
    apply dsr_epoch_update_inv in Hrun
      as (p_final & base_r_max & r_max & quantile & rows0 & printed & ewma & b & p_r_best
          & p_base_r_best & _ & _ & _ & Hf & Hb & _ & _ & ->).
    cbn [Dsr.State.quantile Dsr.State.b_train Dsr.State.ewma Dsr.State.log]. split.
    + intros Hbase. rewrite Hbase in Hb. apply R_e_inv in Hb as (q0 & -> & ->).
      exists q0, (Dsr.make_batch cfg (Dsr.clip_rows rows0)).
      split; [reflexivity|]. split; [reflexivity|]. split; [apply last_of_log|].
      intros Hon. destruct (dsr_filter_on_inv wq _ _ _ _ _ _ _ _ _ Hon Hf)
        as (eps & q & Heps & Hq & Hcq & _).
      injection Hq as <-. exists eps, printed. split; [exact Heps | exact Hcq].
    + intros Hbase. rewrite Hbase in Hb.
      destruct (ewma_R_stage (Config.alpha cfg) quantile (Dsr.State.ewma st)
                  (Dsr.State.b_train st) (Dsr.Rows.r_train (Dsr.clip_rows rows0)))
        as (b' & Hb' & Hmean & Hnan).
      rewrite Hb' in Hb. injection Hb as <- <-.
      exists b', (Dsr.make_batch cfg (Dsr.clip_rows rows0)).
      split; [reflexivity|]. split; [reflexivity|]. split; [apply last_of_log|].
      split; [exact Hmean | exact Hnan].
Qed.

Lemma baseline_R_e_and_ewma_R_witness :
  (exists st',
     Dso.epoch_update weighted_quantile Example.half 0 (Example.sample Example.four)
       (Example.dso_state (Some 0.3%Q)) = Ok st' /\
     exists q batch,
       Dso.State.quantile st' = Some q /\ Dso.State.b_train st' = Some (Np.Num q) /\
       last (Dso.State.log st') = Some (TrainStep (Np.Num q) batch)) /\
  (exists st',
     Dsr.epoch_update weighted_quantile Example.half_ewma_R (Example.plain_env Example.four)
       0 (Example.sample Example.four) (Example.dsr_state (Some 0.3%Q)) = Ok st' /\
     exists b batch,
       Dsr.State.b_train st' = Some b /\
       last (Dsr.State.log st') = Some (TrainStep b batch) /\
       Np.feq b (Np.mean (Batch.rewards batch))).
Proof.
  destruct (baseline_R_e_and_ewma_R (MQ:=TableQueue.t) weighted_quantile)
    as (_ & _ & Hdso & Hdsr).
  split.
  - destruct (Dso.epoch_update weighted_quantile Example.half 0
                (Example.sample Example.four) (Example.dso_state (Some 0.3%Q)))
      as [st'|e] eqn:Hrun; [|vm_compute in Hrun; discriminate].
    exists st'. split; [reflexivity|].
    destruct (Hdso _ _ _ _ _ Hrun) as (HRe & _).
    destruct (HRe eq_refl) as (q & batch & Hq & Hb & Hlast & _).
    exists q, batch. auto.
  - destruct (Dsr.epoch_update weighted_quantile Example.half_ewma_R
                (Example.plain_env Example.four) 0 (Example.sample Example.four)
                (Example.dsr_state (Some 0.3%Q)))
      as [st'|e] eqn:Hrun; [|vm_compute in Hrun; discriminate].
    exists st'. split; [reflexivity|].
    destruct (Hdsr _ _ _ _ _ _ Hrun) as (_ & HR).
    destruct (HR eq_refl) as (b & batch & Hb & _ & Hlast & Hmean & _).
    exists b, batch. split; [exact Hb|]. split; [exact Hlast|].
    apply Hmean; [reflexivity | | discriminate].
    vm_compute in Hrun. injection Hrun as <-.
    cbn [Dsr.State.log] in Hlast. vm_compute in Hlast. injection Hlast as _ <-.
    discriminate.
Defined.

(** The pass of the witness, computed: the mean 0.8 of the retained
    rewards 0.9 and 0.7 is the baseline, the [ewma] 0.3 carried in does
    not count. *)
Example ewma_R_forgets_the_state :
  exists st',
    Dsr.epoch_update weighted_quantile Example.half_ewma_R (Example.plain_env Example.four)
      0 (Example.sample Example.four) (Example.dsr_state (Some 0.3%Q)) = Ok st' /\
    exists b, Dsr.State.b_train st' = Some (Np.Num b) /\ (b == 0.8)%Q.
Proof.
  eexists. split; [vm_compute; reflexivity|].
  eexists. split; [reflexivity|]. reflexivity.
Qed.

(** After a pass whose training step got no row the EWMA is nan, and
    [b_train] is no longer the mean. A run of the dsr variant with the
    baseline [ewma_R], [alpha] 1 and a GP whose rows are not returned
    to the controller: in epoch 0 the row of the GP alone passes the
    filter, the training step gets no row and [b_train] is the mean of
    no reward, nan; in epoch 1 the training step gets the row with the
    reward 0.95, and [b_train] is [1 * 0.95 + 0 * nan], nan again. *)
Example ewma_R_is_nan_after_an_empty_training_batch :
  Config.baseline Example.gp_ewma_R = "ewma_R" /\
  (Config.alpha Example.gp_ewma_R == 1)%Q /\
  exists st0 st1 st2 batch0 batch1,
    Dsr.init (MQ:=TableQueue.t) Example.gp_ewma_R Example.gp_env_two = Ok (st0, 2%Z) /\
    Dsr.epoch_body weighted_quantile Example.gp_ewma_R Example.gp_env_two 0 st0
      = Ok (st1, false) /\
    last (Dsr.State.log st1) = Some (TrainStep Np.NaN batch0) /\
    Batch.rewards batch0 = [] /\
    Dsr.State.ewma st1 = Some Np.NaN /\
    Dsr.epoch_body weighted_quantile Example.gp_ewma_R Example.gp_env_two 1 st1
      = Ok (st2, false) /\
    last (Dsr.State.log st2) = Some (TrainStep Np.NaN batch1) /\
    Dsr.State.b_train st2 = Some Np.NaN /\
    Batch.rewards batch1 = [0.95%Q] /\
    (exists m, Np.mean (Batch.rewards batch1) = Np.Num m /\ (m == 0.95)%Q) /\
    ~ Np.feq Np.NaN (Np.mean (Batch.rewards batch1)) /\
    Dsr.run weighted_quantile Example.gp_ewma_R Example.gp_env_two = Ok st2.
Proof.
  split; [reflexivity|]. split; [reflexivity|].
  eexists _, _, _, _, _.
  split; [vm_compute; reflexivity|].
  split; [vm_compute; reflexivity|].
  split; [vm_compute; reflexivity|].
  split; [reflexivity|].
  split; [reflexivity|].
  split; [vm_compute; reflexivity|].
  split; [vm_compute; reflexivity|].
  split; [reflexivity|].
  split; [reflexivity|].
  split; [eexists; split; [vm_compute; reflexivity | reflexivity]|].
  split; [intros []|].
  vm_compute. reflexivity.
Qed.

(** ** The rows of the GP and the training step *)

Lemma mapM_mask_inv {A} (obs : list (list A)) (keep : list bool) (obs' : list (list A)) :
  mapM (fun o => Np.mask o keep) obs = Ok obs' ->
  obs' = map (fun o => Np.compress o keep) obs.
Proof.
  revert obs'. induction obs as [|o obs IH]; intros obs' Hrun.
  - injection Hrun as <-. reflexivity.
  - cbn [mapM] in Hrun.
    change (mapM _ obs) with (mapM (fun o => Np.mask o keep) obs) in Hrun.
    apply bind_Ok_inv in Hrun as (o' & Ho & Hrun).
    apply bind_Ok_inv in Hrun as (rest & Hrest & Hrun).
    apply mask_inv in Ho as [-> _]. apply IH in Hrest as ->.
    injection Hrun as <-. reflexivity.
Qed.

(** A filter of the dsr variant that raises nothing has cut the arrays
    as [DsrSpec] says. *)
Lemma dsr_filter_rows_inv (env : Dsr.Env.t) (batch_size : nat) (rows rows' : Dsr.Rows.t)
    (keep : list bool) :
  Dsr.filter_rows env batch_size rows keep = Ok rows' ->
  DsrSpec.masked_kept keep rows rows' /\
  DsrSpec.masked_train (DsrSpec.mask_of_training env batch_size keep) rows rows'.
Proof.
  unfold Dsr.filter_rows, DsrSpec.mask_of_training. intros Hrun.
  apply bind_Ok_inv in Hrun as (base_r & Hbr & Hrun). apply mask_inv in Hbr as [-> _].
  apply bind_Ok_inv in Hrun as (l & Hl & Hrun). apply mask_inv in Hl as [-> _].
  apply bind_Ok_inv in Hrun as (invalid & Hi & Hrun). apply mask_inv in Hi as [-> _].
  apply bind_Ok_inv in Hrun as ([[[[keep' r] programs] r_train] p_train] & Hbranch & Hrun).
  apply bind_Ok_inv in Hrun as (actions & Ha & Hrun). apply mask_inv in Ha as [-> _].
  apply bind_Ok_inv in Hrun as (obs & Ho & Hrun). apply mapM_mask_inv in Ho as ->.
  apply bind_Ok_inv in Hrun as (priors & Hp & Hrun). apply mask_inv in Hp as [-> _].
  apply bind_Ok_inv in Hrun as (on_policy & Hon & Hrun). apply mask_inv in Hon as [-> _].
  injection Hrun as <-.
  destruct (Dsr.run_gp_meld env && negb (Dsr.return_gp_obs env)).
  - apply bind_Ok_inv in Hbranch as (_r & Hr & Hbranch). apply mask_inv in Hr as [-> _].
    apply bind_Ok_inv in Hbranch as (rt & Hrt & Hbranch). apply mask_inv in Hrt as [-> _].
    injection Hbranch as <- <- <- <- <-. repeat split.
  - apply bind_Ok_inv in Hbranch as (r0 & Hr & Hbranch). apply mask_inv in Hr as [-> _].
    injection Hbranch as <- <- <- <- <-. repeat split.
Qed.

Section GpRows.
Context {MQ : Type} `{MemoryQueue MQ}.
Variable wq : list Q -> list Q -> Q -> Q.

(** C6. The rows of the GP are melded in and not returned to the
    controller, risk seeking is on. The mask of the training step is the
    mask of the filter with the entries from [batch_size] on cleared; it
    cuts [r_train], [p_train] and the arrays of the batch that the
    training step is given. The programs and rewards cut by the mask of
    the filter itself, rows of the GP among them, are what the two best
    programs are taken from and what goes, as the list of programs, to
    the pushes of the priority queue and of the memory queue. *)
Theorem gp_rows_leave_the_training_step (cfg : Config.t) (env : Dsr.Env.t) (epoch : nat)
    (st st' : Dsr.State.t MQ) (brk : bool) :
  Dsr.Env.gp_controller env = Some false ->
  risk_seeking (Config.epsilon cfg) = true ->
  Dsr.epoch_body wq cfg env epoch st = Ok (st', brk) ->
  exists smp q printed b r_max base_r_max,
    let programs := Sample.programs smp in
    let keep := Np.ge (map Program.base_r programs) q in
    let keep2 := Np.clear_from (Config.batch_size cfg) keep in
    let kept := Np.compress programs keep in
    let batch := DsrSpec.training_batch cfg smp keep2 in
    Dsr.meld (Dsr.Env.sample env epoch) (Dsr.Env.gp env epoch) = Ok smp /\
    Dsr.State.quantile st' = Some q /\
    (forall i, nth_error keep2 i
               = option_map (fun x => x && Nat.ltb i (Config.batch_size cfg))
                            (nth_error keep i)) /\
    Dsr.State.log st' =
      Dsr.State.log st ++ printed ++
      (if Config.pqt cfg then [PushBest batch kept] else []) ++ [TrainStep b batch] /\
    Dsr.State.memory_queue st' =
      (fun mq => push_batch mq batch kept) <$> Dsr.State.memory_queue st /\
    Np.max (map Program.r programs) = Ok r_max /\
    Np.max (map Program.base_r programs) = Ok base_r_max /\
    Dsr.update_best (Dsr.State.prev_r_best st) r_max
      (Np.clip (Np.compress (map Program.r programs) keep) (-1000000) 1000000) kept
      (Dsr.State.p_r_best st) = Ok (Dsr.State.p_r_best st') /\
    Dsr.update_best (Dsr.State.prev_base_r_best st) base_r_max
      (Np.compress (map Program.base_r programs) keep) kept
      (Dsr.State.p_base_r_best st) = Ok (Dsr.State.p_base_r_best st').
Proof.
  intros Hgp Hon Hrun. unfold Dsr.epoch_body in Hrun.
  apply bind_Ok_inv in Hrun as (smp & Hsmp & Hrun).
  apply bind_Ok_inv in Hrun as (st1 & Hup & Hrun).
  apply bind_Ok_inv in Hrun as (brk' & _ & Hrun). injection Hrun as <- _.
  unfold Dsr.full_batch, Dsr.run_gp_meld in Hsmp. rewrite Hgp in Hsmp.
  apply dsr_epoch_update_inv in Hup
    as (p_final & base_r_max & r_max & quantile & rows0 & printed & ewma & b & p_r_best
        & p_base_r_best & _ & Hbmax & Hmax & Hf & _ & Hbest & Hbbest & ->).
  destruct (dsr_filter_on_inv wq _ _ _ _ _ _ _ _ _ Hon Hf)
    as (eps & q & _ & -> & _ & Hrows).
  apply dsr_filter_rows_inv in Hrows as ((Hbr & Hr & _ & _ & _ & Hprog) & Htrain).
  unfold DsrSpec.mask_of_training, Dsr.run_gp_meld, Dsr.return_gp_obs in Htrain.
  rewrite Hgp in Htrain. cbn [andb negb] in Htrain.
  destruct Htrain as (Hrt & Hpt & Ha & Ho & Hp & Hop).
  assert (Hbatch : Dsr.make_batch cfg (Dsr.clip_rows rows0)
                   = DsrSpec.training_batch cfg smp
                       (Np.clear_from (Config.batch_size cfg)
                          (Np.ge (map Program.base_r (Sample.programs smp)) q))).
  { unfold Dsr.make_batch, DsrSpec.training_batch, Dsr.clip_rows.
    cbn [Dsr.Rows.actions Dsr.Rows.obs Dsr.Rows.priors Dsr.Rows.p_train
         Dsr.Rows.r_train Dsr.Rows.on_policy].
    rewrite Hrt, Hpt, Ha, Ho, Hp, Hop. reflexivity. }
  assert (Hkept : Dsr.Rows.programs (Dsr.clip_rows rows0)
                  = Np.compress (Sample.programs smp)
                      (Np.ge (map Program.base_r (Sample.programs smp)) q))
    by (cbn; rewrite Hprog; reflexivity).
  exists smp, q, printed, b, r_max, base_r_max. cbv zeta.
  cbn [Dsr.State.quantile Dsr.State.log Dsr.State.memory_queue Dsr.State.p_r_best
       Dsr.State.p_base_r_best].
  rewrite Hbatch, Hkept.
  split; [exact Hsmp|]. split; [reflexivity|].
  split; [intros i; apply clear_from_lookup|].
  split; [reflexivity|]. split; [reflexivity|].
  split; [exact Hmax|]. split; [exact Hbmax|].
  rewrite Hkept in Hbest, Hbbest. cbn in Hbest, Hbbest.
  rewrite Hr in Hbest. rewrite Hbr in Hbbest. split; [exact Hbest | exact Hbbest].
Qed.

End GpRows.

Lemma gp_rows_leave_the_training_step_witness :
  exists st' brk,
    Dsr.epoch_body weighted_quantile Example.gp_config (Example.gp_env false) 0
      (Example.dsr_state (Some 0%Q)) = Ok (st', brk) /\
    exists q printed b,
      let keep := Np.ge (map Program.base_r (Sample.programs Example.gp_batch)) q in
      let keep2 := Np.clear_from 2 keep in
      Dsr.State.quantile st' = Some q /\
      Dsr.State.log st' =
        [] ++ printed ++
        [PushBest (DsrSpec.training_batch Example.gp_config Example.gp_batch keep2)
           (Np.compress (Sample.programs Example.gp_batch) keep)] ++
        [TrainStep b (DsrSpec.training_batch Example.gp_config Example.gp_batch keep2)].
Proof.
  destruct (Dsr.epoch_body weighted_quantile Example.gp_config (Example.gp_env false) 0
              (Example.dsr_state (Some 0%Q))) as [[st' brk]|e] eqn:Hrun;
    [|vm_compute in Hrun; discriminate].
  exists st', brk. split; [reflexivity|].
  destruct (gp_rows_leave_the_training_step weighted_quantile Example.gp_config
              (Example.gp_env false) 0 (Example.dsr_state (Some 0%Q)) st' brk
              eq_refl eq_refl Hrun)
    as (smp & q & printed & b & r_max & base_r_max & Hsmp & Hq & _ & Hlog & _).
  injection Hsmp as <-.
  exists q, printed, b. split; [exact Hq | exact Hlog].
Defined.

(** The pass of the witness, computed: the quantile is 0.8, the filter
    keeps the second sampled row and the row of the GP, the training step
    is given the second sampled row alone, and the best program is that
    of the GP. The 2 + 5 evaluations exceed the budget of 4 samples, so
    the pass ends in [break]. *)
Example gp_pass_computed :
  exists st',
    Dsr.epoch_body weighted_quantile Example.gp_config (Example.gp_env false) 0
      (Example.dsr_state (Some 0%Q)) = Ok (st', true) /\
    Dsr.State.quantile st' = Some 0.8%Q /\
    Dsr.State.p_base_r_best st' = Some (Example.program "g" 0.9 0.9 None) /\
    exists batch,
      last (Dsr.State.log st') = Some (TrainStep (Np.Num 0.8) batch) /\
      Batch.actions batch = [[2%Z]] /\ Batch.rewards batch = [0.8%Q] /\
      Dsr.State.log st' =
        [PushBest batch [Example.program "b" 0.8 0.8 None; Example.program "g" 0.9 0.9 None];
         TrainStep (Np.Num 0.8) batch].
Proof.
  eexists. split; [vm_compute; reflexivity|].
  split; [reflexivity|]. split; [reflexivity|].
  eexists. split; [reflexivity|]. repeat split.
Qed.

(** ** Reading [quantile] without risk seeking *)

Lemma argmax_from_bound (a : list Q) (i : nat) (best : Q) (besti : nat) :
  besti < i -> Np.argmax_from a i best besti < i + length a.
Proof.
  revert i best besti. induction a as [|x a IH]; intros i best besti Hlt; simpl.
  - lia.
  - destruct (Qle_bool x best).
    + specialize (IH (S i) best besti). lia.
    + specialize (IH (S i) x i). lia.
Qed.

(** [programs[np.argmax(a)]] is there when [a] has a row and [programs]
    has as many. *)
Lemma argmax_index_ok {A} (a : list Q) (programs : list A) :
  a <> [] -> length programs = length a ->
  exists i p, Np.argmax a = Ok i /\ Np.index programs i = Ok p.
Proof.
  destruct a as [|x a]; [congruence|]. intros _ Hlen. simpl.
  pose proof (argmax_from_bound a 1 x 0 ltac:(lia)) as Hb.
  exists (Np.argmax_from a 1 x 0). unfold Np.index.
  destruct (nth_error programs (Np.argmax_from a 1 x 0)) as [p|] eqn:Hp.
  - exists p. split; reflexivity.
  - apply nth_error_None in Hp. simpl in Hlen. lia.
Qed.

Lemma clip_length (a : list Q) (lo hi : Q) : length (Np.clip a lo hi) = length a.
Proof. unfold Np.clip. apply length_map. Qed.

Lemma max_ok (a : list Q) : a <> [] -> exists m, Np.max a = Ok m.
Proof. destruct a; [congruence|]. simpl. eauto. Qed.

Lemma min_ok (a : list Q) : a <> [] -> exists m, Np.min a = Ok m.
Proof. destruct a; [congruence|]. simpl. eauto. Qed.

Lemma map_not_nil {A B} (f : A -> B) (l : list A) : l <> [] -> map f l <> [].
Proof. destruct l; simpl; congruence. Qed.

(** The stage: which baselines read [quantile]. *)
Lemma baseline_reads_quantile (alpha : Q) (ewma b_train : option Np.float)
    (r_train : list Q) (e : Np.float) :
  compute_baseline "R_e" alpha None ewma b_train r_train = Raise (NameError "quantile") /\
  compute_baseline "combined" alpha None ewma b_train r_train
    = Raise (NameError "quantile") /\
  compute_baseline "ewma_R_e" alpha None (Some e) b_train r_train
    = Raise (NameError "quantile") /\
  compute_baseline "ewma_R_e" alpha None None b_train r_train
    = (m ← Np.min r_train; Ok (Some (Np.Num m), Some (Np.Num m))).
Proof.
  split; [reflexivity|]. split; [destruct ewma; reflexivity|].
  split; [reflexivity|].
  unfold compute_baseline. cbn [String.eqb Ascii.eqb Bool.eqb].
  destruct (Np.min r_train); reflexivity.
Qed.

Lemma reads_quantile_raises (baseline : string) (alpha : Q)
    (ewma b_train : option Np.float) (r_train : list Q) :
  reads_quantile baseline ewma ->
  compute_baseline baseline alpha None ewma b_train r_train = Raise (NameError "quantile").
Proof.
  intros [->|[->|[-> He]]].
  - reflexivity.
  - destruct ewma; reflexivity.
  - destruct ewma; [reflexivity | congruence].
Qed.

Section Unbound.
Context {MQ : Type} `{MemoryQueue MQ}.
Variable wq : list Q -> list Q -> Q -> Q.

(** A pass of the dso variant without risk seeking, [quantile] unbound,
    that gets as far as the baseline. *)
Lemma dso_pass_raises (cfg : Config.t) (epoch : nat) (smp : Sample.t)
    (st : Dso.State.t MQ) (p_final : option Program.t) :
  risk_seeking (Config.epsilon cfg) = false ->
  Dso.State.quantile st = None ->
  Sample.programs smp <> [] ->
  Dso.check_success (Config.eval_all cfg) (Sample.programs smp) (Dso.State.p_final st)
    = Ok p_final ->
  reads_quantile (Config.baseline cfg) (Dso.State.ewma st) ->
  Dso.epoch_update wq cfg epoch smp st = Raise (NameError "quantile").
Proof.
  intros Hoff Hq Hne Hs Hreads. unfold Dso.epoch_update.
  cbn [Dso.metrics Dso.Rows.programs Dso.Rows.r]. rewrite Hs, bind_Ok.
  destruct (max_ok (map Program.r (Sample.programs smp))) as (m & Hm);
    [apply map_not_nil; exact Hne|].
  rewrite Hm, bind_Ok.
  fold (Dso.metrics smp). rewrite (dso_filter_off wq cfg epoch _ _ _ Hoff), bind_Ok.
  cbn beta iota. rewrite Hq.
  rewrite (reads_quantile_raises _ _ _ _ _ Hreads). reflexivity.
Qed.

(** With [ewma_R_e] and [ewma] still [None], the pass gives the minimum
    of the clipped rewards as the baseline, and leaves [quantile]
    unbound. *)
Lemma dso_pass_jumpstart (cfg : Config.t) (epoch : nat) (smp : Sample.t)
    (st : Dso.State.t MQ) (p_final : option Program.t) :
  risk_seeking (Config.epsilon cfg) = false ->
  Dso.State.quantile st = None ->
  Sample.programs smp <> [] ->
  Dso.check_success (Config.eval_all cfg) (Sample.programs smp) (Dso.State.p_final st)
    = Ok p_final ->
  Config.baseline cfg = "ewma_R_e" -> Dso.State.ewma st = None ->
  exists st' m,
    Dso.epoch_update wq cfg epoch smp st = Ok st' /\
    Np.min (Np.clip (map Program.r (Sample.programs smp)) (-1000000) 1000000) = Ok m /\
    Dso.State.b_train st' = Some (Np.Num m) /\ Dso.State.ewma st' = Some (Np.Num m) /\
    Dso.State.quantile st' = None.
Proof.
  intros Hoff Hq Hne Hs Hbase Hewma. unfold Dso.epoch_update.
  cbn [Dso.metrics Dso.Rows.programs Dso.Rows.r]. rewrite Hs, bind_Ok.
  destruct (max_ok (map Program.r (Sample.programs smp))) as (mx & Hmx);
    [apply map_not_nil; exact Hne|].
  rewrite Hmx, bind_Ok.
  fold (Dso.metrics smp). rewrite (dso_filter_off wq cfg epoch _ _ _ Hoff), bind_Ok.
  cbn beta iota. rewrite Hq, Hbase, Hewma.
  cbn [Dso.clip_rows Dso.Rows.r_train Dso.metrics].
  destruct (min_ok (Np.clip (map Program.r (Sample.programs smp)) (-1000000) 1000000))
    as (m & Hm).
  { unfold Np.clip. apply map_not_nil, map_not_nil. exact Hne. }
  unfold compute_baseline. cbn [String.eqb Ascii.eqb Bool.eqb].
  rewrite Hm, !bind_Ok. cbn [read]. rewrite bind_Ok.
  destruct (argmax_index_ok
              (Np.clip (map Program.r (Sample.programs smp)) (-1000000) 1000000)
              (Sample.programs smp)) as (i & p & Hi & Hp).
  { unfold Np.clip. apply map_not_nil, map_not_nil. exact Hne. }
  { rewrite clip_length, length_map. reflexivity. }
  change (Np.argmax (Dso.Rows.r (Dso.clip_rows (Dso.metrics smp))) = Ok i) in Hi.
  change (Np.index (Dso.Rows.programs (Dso.clip_rows (Dso.metrics smp))) i = Ok p) in Hp.
  unfold Dso.update_best.
  destruct (Dso.State.prev_r_best st) as [prev|].
  - destruct (negb (Qle_bool mx prev)).
    + rewrite Hi, bind_Ok, Hp, !bind_Ok. eexists _, m. repeat split; reflexivity.
    + rewrite bind_Ok. eexists _, m. repeat split; reflexivity.
  - rewrite Hi, bind_Ok, Hp, !bind_Ok. eexists _, m. repeat split; reflexivity.
Qed.

End Unbound.

Section UnboundDsr.
Context {MQ : Type} `{MemoryQueue MQ}.
Variable wq : list Q -> list Q -> Q -> Q.

Lemma dsr_pass_raises (cfg : Config.t) (env : Dsr.Env.t) (epoch : nat) (smp : Sample.t)
    (st : Dsr.State.t MQ) (p_final : option Program.t) :
  risk_seeking (Config.epsilon cfg) = false ->
  Dsr.State.quantile st = None ->
  Sample.programs smp <> [] ->
  Dsr.check_success (Config.eval_all cfg) (Sample.programs smp) (Dsr.State.p_final st)
    = Ok p_final ->
  reads_quantile (Config.baseline cfg) (Dsr.State.ewma st) ->
  Dsr.epoch_update wq cfg env epoch smp st = Raise (NameError "quantile").
Proof.
  intros Hoff Hq Hne Hs Hreads. unfold Dsr.epoch_update.
  cbn [Dsr.metrics Dsr.Rows.programs Dsr.Rows.r Dsr.Rows.base_r]. rewrite Hs, bind_Ok.
  destruct (max_ok (map Program.base_r (Sample.programs smp))) as (bm & Hbm);
    [apply map_not_nil; exact Hne|].
  destruct (max_ok (map Program.r (Sample.programs smp))) as (m & Hm);
    [apply map_not_nil; exact Hne|].
  rewrite Hbm, bind_Ok, Hm, bind_Ok.
  fold (Dsr.metrics smp). rewrite (dsr_filter_off wq cfg env epoch _ _ _ Hoff), bind_Ok.
  cbn beta iota. rewrite Hq.
  rewrite (reads_quantile_raises _ _ _ _ _ Hreads). reflexivity.
Qed.

Lemma dsr_pass_jumpstart (cfg : Config.t) (env : Dsr.Env.t) (epoch : nat) (smp : Sample.t)
    (st : Dsr.State.t MQ) (p_final : option Program.t) :
  risk_seeking (Config.epsilon cfg) = false ->
  Dsr.State.quantile st = None ->
  Sample.programs smp <> [] ->
  Dsr.check_success (Config.eval_all cfg) (Sample.programs smp) (Dsr.State.p_final st)
    = Ok p_final ->
  Config.baseline cfg = "ewma_R_e" -> Dsr.State.ewma st = None ->
  exists st' m,
    Dsr.epoch_update wq cfg env epoch smp st = Ok st' /\
    Np.min (Np.clip (map Program.r (Sample.programs smp)) (-1000000) 1000000) = Ok m /\
    Dsr.State.b_train st' = Some (Np.Num m) /\ Dsr.State.ewma st' = Some (Np.Num m) /\
    Dsr.State.quantile st' = None.
Proof.
  intros Hoff Hq Hne Hs Hbase Hewma. unfold Dsr.epoch_update.
  cbn [Dsr.metrics Dsr.Rows.programs Dsr.Rows.r Dsr.Rows.base_r]. rewrite Hs, bind_Ok.
  destruct (max_ok (map Program.base_r (Sample.programs smp))) as (bmx & Hbmx);
    [apply map_not_nil; exact Hne|].
  destruct (max_ok (map Program.r (Sample.programs smp))) as (mx & Hmx);
    [apply map_not_nil; exact Hne|].
  rewrite Hbmx, bind_Ok, Hmx, bind_Ok.
  fold (Dsr.metrics smp). rewrite (dsr_filter_off wq cfg env epoch _ _ _ Hoff), bind_Ok.
  cbn beta iota. rewrite Hq, Hbase, Hewma.
  cbn [Dsr.clip_rows Dsr.Rows.r_train Dsr.metrics].
  destruct (min_ok (Np.clip (map Program.r (Sample.programs smp)) (-1000000) 1000000))
    as (m & Hm).
  { unfold Np.clip. apply map_not_nil, map_not_nil. exact Hne. }
  unfold compute_baseline. cbn [String.eqb Ascii.eqb Bool.eqb].
  rewrite Hm, !bind_Ok. cbn [read]. rewrite bind_Ok.
  destruct (argmax_index_ok
              (Np.clip (map Program.r (Sample.programs smp)) (-1000000) 1000000)
              (Sample.programs smp)) as (i & p & Hi & Hp).
  { unfold Np.clip. apply map_not_nil, map_not_nil. exact Hne. }
  { rewrite clip_length, length_map. reflexivity. }
  destruct (argmax_index_ok (map Program.base_r (Sample.programs smp))
              (Sample.programs smp)) as (j & pb & Hj & Hpb).
  { apply map_not_nil. exact Hne. }
  { rewrite length_map. reflexivity. }
  change (Np.argmax (Dsr.Rows.r (Dsr.clip_rows (Dsr.metrics smp))) = Ok i) in Hi.
  change (Np.index (Dsr.Rows.programs (Dsr.clip_rows (Dsr.metrics smp))) i = Ok p) in Hp.
  change (Np.argmax (Dsr.Rows.base_r (Dsr.clip_rows (Dsr.metrics smp))) = Ok j) in Hj.
  change (Np.index (Dsr.Rows.programs (Dsr.clip_rows (Dsr.metrics smp))) j = Ok pb) in Hpb.
  assert (Hb1 : exists x, Dsr.update_best (Dsr.State.prev_r_best st) mx
                  (Dsr.Rows.r (Dsr.clip_rows (Dsr.metrics smp)))
                  (Dsr.Rows.programs (Dsr.clip_rows (Dsr.metrics smp)))
                  (Dsr.State.p_r_best st) = Ok x).
  { unfold Dsr.update_best.
    destruct (Dsr.State.prev_r_best st) as [prev|]; [destruct (negb (Qle_bool mx prev))|];
      try rewrite Hi, bind_Ok, Hp, bind_Ok; eauto. }
  assert (Hb2 : exists x, Dsr.update_best (Dsr.State.prev_base_r_best st) bmx
                  (Dsr.Rows.base_r (Dsr.clip_rows (Dsr.metrics smp)))
                  (Dsr.Rows.programs (Dsr.clip_rows (Dsr.metrics smp)))
                  (Dsr.State.p_base_r_best st) = Ok x).
  { unfold Dsr.update_best.
    destruct (Dsr.State.prev_base_r_best st) as [prev|];
      [destruct (negb (Qle_bool bmx prev))|];
      try rewrite Hj, bind_Ok, Hpb, bind_Ok; eauto. }
  destruct Hb1 as (x1 & Hb1). destruct Hb2 as (x2 & Hb2).
  rewrite Hb1, bind_Ok, Hb2, bind_Ok.
  eexists _, m. repeat split; reflexivity.
Qed.

End UnboundDsr.

(** ** The run: before the loop, and its first pass *)

Section Runs.
Context {MQ : Type} `{MemoryQueue MQ}.
Variable wq : list Q -> list Q -> Q -> Q.

Lemma dso_epochs_nonneg (cfg : Config.t) (n : Z) : Dso.epochs cfg = Ok n -> (0 <= n)%Z.
Proof.
  unfold Dso.epochs. intros Hrun. apply bind_Ok_inv in Hrun as (k & _ & Hrun).
  destruct (Z.ltb_spec k 0); [discriminate|]. injection Hrun as <-. lia.
Qed.

(** The state the loop of the dso variant starts from. *)
Lemma dso_init_inv (cfg : Config.t) (env : Dso.Env.t) (st0 : Dso.State.t MQ) (n : Z) :
  Dso.init cfg env = Ok (st0, n) ->
  Dso.epochs cfg = Ok n /\
  Dso.State.p_final st0 = None /\ Dso.State.quantile st0 = None /\
  Dso.State.ewma st0 = (if Config.b_jumpstart cfg then None else Some (Np.Num 0)) /\
  Dso.State.prev_r_best st0 = None /\ Dso.State.p_r_best st0 = None /\
  Dso.State.epoch st0 = None /\ Dso.State.nevals st0 = 0%Z.
Proof.
  unfold Dso.init. intros Hrun.
  assert (Hgo : (memory_queue ← Dso.init_memory cfg (Dso.Env.warm env);
                 if Config.stochastic cfg && Config.const_token cfg then
                   Raise (AssertionError "Constant tokens not yet supported with stochastic Tasks.")
                 else if Config.stochastic cfg && Config.save_pareto_front cfg then
                   Raise (AssertionError "Pareto front not supported with stochastic Tasks.")
                 else
                   n_epochs ← Dso.epochs cfg;
                   Ok ({| Dso.State.p_final := None; Dso.State.r_best := None;
                          Dso.State.prev_r_best := None;
                          Dso.State.ewma := if Config.b_jumpstart cfg then None else Some (Np.Num 0);
                          Dso.State.nevals := 0; Dso.State.quantile := None;
                          Dso.State.b_train := None;
                          Dso.State.p_r_best := None; Dso.State.epoch := None;
                          Dso.State.memory_queue := memory_queue; Dso.State.log := [] |},
                       n_epochs)) = Ok (st0, n)).
  { destruct (Config.n_samples cfg), (Config.n_epochs cfg); try discriminate; exact Hrun. }
  clear Hrun. apply bind_Ok_inv in Hgo as (mq & _ & Hgo).
  destruct (Config.stochastic cfg && Config.const_token cfg); [discriminate|].
  destruct (Config.stochastic cfg && Config.save_pareto_front cfg); [discriminate|].
  apply bind_Ok_inv in Hgo as (k & Hk & Hgo). injection Hgo as <- <-.
  repeat split. exact Hk.
Qed.

(** A run of the dso variant that enters its loop makes the pass of
    epoch 0 first. *)
Lemma dso_run_first_pass (cfg : Config.t) (env : Dso.Env.t) (st0 : Dso.State.t MQ) (n : Z) :
  Dso.init cfg env = Ok (st0, n) -> (0 < n)%Z ->
  Dso.run wq cfg env =
    (x ← Dso.epoch_body wq cfg 0 (Dso.Env.sample env 0) st0;
     if (snd x : bool) then Ok (fst x)
     else Dso.loop wq cfg env (Nat.pred (Z.to_nat n)) 1 (fst x)).
Proof.
  intros Hinit Hpos. unfold Dso.run. rewrite Hinit, bind_Ok. cbn beta iota.
  destruct (Z.to_nat n) as [|k] eqn:Hk; [lia|]. cbn [Dso.loop Nat.pred].
  destruct (Dso.epoch_body wq cfg 0 (Dso.Env.sample env 0) st0) as [[st1 brk]|e];
    reflexivity.
Qed.

Lemma dsr_init_inv (cfg : Config.t) (env : Dsr.Env.t) (st0 : Dsr.State.t MQ) (n : Z) :
  Dsr.init cfg env = Ok (st0, n) ->
  Dsr.epochs cfg = Ok n /\
  Dsr.State.p_final st0 = None /\ Dsr.State.quantile st0 = None /\
  Dsr.State.ewma st0 = (if Config.b_jumpstart cfg then None else Some (Np.Num 0)) /\
  Dsr.State.prev_r_best st0 = None /\ Dsr.State.prev_base_r_best st0 = None /\
  Dsr.State.p_base_r_best st0 = None /\
  Dsr.State.epoch st0 = None /\ Dsr.State.nevals st0 = 0%Z.
Proof.
  unfold Dsr.init. intros Hrun.
  assert (Hgo : (memory_queue ← Dsr.init_memory cfg (Dsr.Env.warm env);
                 if Config.stochastic cfg && Config.const_token cfg then
                   Raise (AssertionError "Constant tokens not yet supported with stochastic Tasks.")
                 else if Config.stochastic cfg && Config.save_pareto_front cfg then
                   Raise (AssertionError "Pareto front not supported with stochastic Tasks.")
                 else
                   n_epochs ← Dsr.epochs cfg;
                   Ok ({| Dsr.State.p_final := None; Dsr.State.base_r_best := None;
                          Dsr.State.r_best := None;
                          Dsr.State.prev_r_best := None; Dsr.State.prev_base_r_best := None;
                          Dsr.State.ewma := if Config.b_jumpstart cfg then None else Some (Np.Num 0);
                          Dsr.State.nevals := 0; Dsr.State.quantile := None;
                          Dsr.State.b_train := None;
                          Dsr.State.p_r_best := None; Dsr.State.p_base_r_best := None;
                          Dsr.State.epoch := None;
                          Dsr.State.memory_queue := memory_queue; Dsr.State.log := [] |},
                       n_epochs)) = Ok (st0, n)).
  { destruct (Config.n_samples cfg), (Config.n_epochs cfg); try discriminate; exact Hrun. }
  clear Hrun. apply bind_Ok_inv in Hgo as (mq & _ & Hgo).
  destruct (Config.stochastic cfg && Config.const_token cfg); [discriminate|].
  destruct (Config.stochastic cfg && Config.save_pareto_front cfg); [discriminate|].
  apply bind_Ok_inv in Hgo as (k & Hk & Hgo). injection Hgo as <- <-.
  repeat split. exact Hk.
Qed.

Lemma dsr_run_first_pass (cfg : Config.t) (env : Dsr.Env.t) (st0 : Dsr.State.t MQ) (n : Z) :
  Dsr.init cfg env = Ok (st0, n) -> (0 < n)%Z ->
  Dsr.run wq cfg env =
    (x ← Dsr.epoch_body wq cfg env 0 st0;
     if (snd x : bool) then Ok (fst x)
     else Dsr.loop wq cfg env (Nat.pred (Z.to_nat n)) 1 (fst x)).
Proof.
  intros Hinit Hpos. unfold Dsr.run. rewrite Hinit, bind_Ok. cbn beta iota.
  destruct (Z.to_nat n) as [|k] eqn:Hk; [lia|]. cbn [Dsr.loop Nat.pred].
  destruct (Dsr.epoch_body wq cfg env 0 st0) as [[st1 brk]|e]; reflexivity.
Qed.

End Runs.

(** C9 as the specification words it does not hold: without risk
    seeking and with the baseline [ewma_R_e], the EWMA starting at the
    first pass ([b_jumpstart]), the first pass of either variant reads no
    quantile. It gives the minimum 0.1 of the rewards as the baseline,
    and the run of one epoch returns. *)
Lemma first_pass_without_quantile :
  risk_seeking (Config.epsilon Example.vanilla) = false /\
  Config.baseline Example.vanilla = "ewma_R_e" /\
  (exists st,
     Dso.run (MQ:=TableQueue.t) weighted_quantile Example.vanilla
       (Example.dso_env Example.four) = Ok st /\
     Dso.State.epoch st = Some 0 /\ Dso.State.b_train st = Some (Np.Num 0.1) /\
     Dso.State.quantile st = None) /\
  (exists res,
     Dso.learn (MQ:=TableQueue.t) weighted_quantile Example.vanilla
       (Example.dso_env Example.four) = Ok res) /\
  (exists st,
     Dsr.run (MQ:=TableQueue.t) weighted_quantile Example.vanilla
       (Example.plain_env Example.four) = Ok st /\
     Dsr.State.epoch st = Some 0 /\ Dsr.State.b_train st = Some (Np.Num 0.1) /\
     Dsr.State.quantile st = None).
Proof.
  split; [reflexivity|]. split; [reflexivity|]. split; [|split].
  - eexists. split; [vm_compute; reflexivity|]. repeat split.
  - eexists. vm_compute. reflexivity.
  - eexists. split; [vm_compute; reflexivity|]. repeat split.
Qed.

Section UnboundQuantile.
Context {MQ : Type} `{MemoryQueue MQ}.
Variable wq : list Q -> list Q -> Q -> Q.

(** C9, amended. Without risk seeking [quantile] is never assigned. The
    baselines [R_e] and [combined] read it in every pass, [ewma_R_e]
    reads it when [ewma] is not [None]. So a run whose first pass gets as
    far as the baseline raises a NameError there with [R_e], with
    [combined], and with [ewma_R_e] when [b_jumpstart] is off. With
    [ewma_R_e] and [b_jumpstart] on, the first pass gives the minimum of
    the clipped rewards as the baseline, and every later pass that gets
    as far as the baseline raises the NameError. *)
Theorem quantile_unbound_without_risk_seeking :
  (forall alpha ewma b_train r_train e,
     compute_baseline "R_e" alpha None ewma b_train r_train
       = Raise (NameError "quantile") /\
     compute_baseline "combined" alpha None ewma b_train r_train
       = Raise (NameError "quantile") /\
     compute_baseline "ewma_R_e" alpha None (Some e) b_train r_train
       = Raise (NameError "quantile") /\
     compute_baseline "ewma_R_e" alpha None None b_train r_train
       = (m ← Np.min r_train; Ok (Some (Np.Num m), Some (Np.Num m)))) /\
  (forall cfg env (st0 : Dso.State.t MQ) n p_final,
     Dso.init cfg env = Ok (st0, n) -> (0 < n)%Z ->
     risk_seeking (Config.epsilon cfg) = false ->
     Sample.programs (Dso.Env.sample env 0) <> [] ->
     Dso.check_success (Config.eval_all cfg) (Sample.programs (Dso.Env.sample env 0)) None
       = Ok p_final ->
     (Config.baseline cfg = "R_e" \/ Config.baseline cfg = "combined" \/
      (Config.baseline cfg = "ewma_R_e" /\ Config.b_jumpstart cfg = false) ->
      Dso.run wq cfg env = Raise (NameError "quantile")) /\
     (Config.baseline cfg = "ewma_R_e" -> Config.b_jumpstart cfg = true ->
      exists st1 m,
        Dso.epoch_update wq cfg 0 (Dso.Env.sample env 0) st0 = Ok st1 /\
        Np.min (Np.clip (map Program.r (Sample.programs (Dso.Env.sample env 0)))
                  (-1000000) 1000000) = Ok m /\
        Dso.State.b_train st1 = Some (Np.Num m) /\
        forall epoch smp pf,
          Sample.programs smp <> [] ->
          Dso.check_success (Config.eval_all cfg) (Sample.programs smp)
            (Dso.State.p_final st1) = Ok pf ->
          Dso.epoch_update wq cfg epoch smp st1 = Raise (NameError "quantile"))) /\
  (forall cfg env (st0 : Dsr.State.t MQ) n smp0 p_final,
     Dsr.init cfg env = Ok (st0, n) -> (0 < n)%Z ->
     risk_seeking (Config.epsilon cfg) = false ->
     Dsr.full_batch env 0 = Ok smp0 ->
     Sample.programs smp0 <> [] ->
     Dsr.check_success (Config.eval_all cfg) (Sample.programs smp0) None = Ok p_final ->
     (Config.baseline cfg = "R_e" \/ Config.baseline cfg = "combined" \/
      (Config.baseline cfg = "ewma_R_e" /\ Config.b_jumpstart cfg = false) ->
      Dsr.run wq cfg env = Raise (NameError "quantile")) /\
     (Config.baseline cfg = "ewma_R_e" -> Config.b_jumpstart cfg = true ->
      exists st1 m,
        Dsr.epoch_update wq cfg env 0 smp0 st0 = Ok st1 /\
        Np.min (Np.clip (map Program.r (Sample.programs smp0)) (-1000000) 1000000)
          = Ok m /\
        Dsr.State.b_train st1 = Some (Np.Num m) /\
        forall epoch smp pf,
          Sample.programs smp <> [] ->
          Dsr.check_success (Config.eval_all cfg) (Sample.programs smp)
            (Dsr.State.p_final st1) = Ok pf ->
          Dsr.epoch_update wq cfg env epoch smp st1 = Raise (NameError "quantile"))).
Proof.
  split; [intros; apply baseline_reads_quantile|]. split.
  - intros cfg env st0 n p_final Hinit Hpos Hoff Hne Hs.
    pose proof (dso_init_inv cfg env st0 n Hinit)
      as (_ & Hpf & Hq & Hewma & _).
    rewrite <- Hpf in Hs. split.
    + intros Hbase. rewrite (dso_run_first_pass wq cfg env st0 n Hinit Hpos).
      unfold Dso.epoch_body.
      rewrite (dso_pass_raises wq cfg 0 _ st0 p_final Hoff Hq Hne Hs); [reflexivity|].
      destruct Hbase as [Hb|[Hb|[Hb Hj]]];
        [left; exact Hb | right; left; exact Hb | right; right].
      split; [exact Hb|]. rewrite Hewma, Hj. discriminate.
    + intros Hbase Hj. rewrite Hj in Hewma.
      destruct (dso_pass_jumpstart wq cfg 0 _ st0 p_final Hoff Hq Hne Hs Hbase Hewma)
        as (st1 & m & Hrun & Hm & Hb & He & Hq1).
      exists st1, m. repeat split; try assumption.
      intros epoch smp pf Hne' Hs'.
      apply (dso_pass_raises wq cfg epoch smp st1 pf Hoff Hq1 Hne' Hs').
      right; right. split; [exact Hbase|]. rewrite He. discriminate.
  - intros cfg env st0 n smp0 p_final Hinit Hpos Hoff Hsmp Hne Hs.
    pose proof (dsr_init_inv cfg env st0 n Hinit)
      as (_ & Hpf & Hq & Hewma & _).
    rewrite <- Hpf in Hs. split.
    + intros Hbase. rewrite (dsr_run_first_pass wq cfg env st0 n Hinit Hpos).
      unfold Dsr.epoch_body. rewrite Hsmp, bind_Ok.
      rewrite (dsr_pass_raises wq cfg env 0 _ st0 p_final Hoff Hq Hne Hs); [reflexivity|].
      destruct Hbase as [Hb|[Hb|[Hb Hj]]];
        [left; exact Hb | right; left; exact Hb | right; right].
      split; [exact Hb|]. rewrite Hewma, Hj. discriminate.
    + intros Hbase Hj. rewrite Hj in Hewma.
      destruct (dsr_pass_jumpstart wq cfg env 0 _ st0 p_final Hoff Hq Hne Hs Hbase Hewma)
        as (st1 & m & Hrun & Hm & Hb & He & Hq1).
      exists st1, m. repeat split; try assumption.
      intros epoch smp pf Hne' Hs'.
      apply (dsr_pass_raises wq cfg env epoch smp st1 pf Hoff Hq1 Hne' Hs').
      right; right. split; [exact Hbase|]. rewrite He. discriminate.
Qed.

End UnboundQuantile.

Lemma quantile_unbound_without_risk_seeking_witness :
  Dso.run (MQ:=TableQueue.t) weighted_quantile Example.vanilla_R_e
    (Example.dso_env Example.four) = Raise (NameError "quantile") /\
  Dsr.run (MQ:=TableQueue.t) weighted_quantile Example.vanilla_R_e
    (Example.plain_env Example.four) = Raise (NameError "quantile") /\
  (exists st1 m,
     Dso.epoch_update (MQ:=TableQueue.t) weighted_quantile Example.vanilla 0
       (Example.sample Example.four) (Example.dso_state None) = Ok st1 /\
     Dso.State.b_train st1 = Some (Np.Num m) /\
     Dso.epoch_update weighted_quantile Example.vanilla 1
       (Example.sample Example.four) st1 = Raise (NameError "quantile")).
Proof.
  destruct (quantile_unbound_without_risk_seeking (MQ:=TableQueue.t) weighted_quantile)
    as (_ & Hdso & Hdsr).
  split; [|split].
  - destruct (Hdso Example.vanilla_R_e (Example.dso_env Example.four)
                (Example.dso_state (Some 0%Q)) 1%Z None) as [Hraise _].
    + reflexivity.
    + reflexivity.
    + reflexivity.
    + discriminate.
    + reflexivity.
    + apply Hraise. left. reflexivity.
  - destruct (Hdsr Example.vanilla_R_e (Example.plain_env Example.four)
                (Example.dsr_state (Some 0%Q)) 1%Z (Example.sample Example.four) None)
      as [Hraise _].
    + reflexivity.
    + reflexivity.
    + reflexivity.
    + reflexivity.
    + discriminate.
    + reflexivity.
    + apply Hraise. left. reflexivity.
  - destruct (Hdso Example.vanilla (Example.dso_env Example.four)
                (Example.dso_state None) 1%Z None) as [_ Hjump].
    + reflexivity.
    + reflexivity.
    + reflexivity.
    + discriminate.
    + reflexivity.
    + destruct (Hjump eq_refl eq_refl) as (st1 & m & Hrun & _ & Hb & Hlater).
      exists st1, m. split; [exact Hrun|]. split; [exact Hb|].
      apply (Hlater 1 (Example.sample Example.four) (Dso.State.p_final st1)).
      * discriminate.
      * reflexivity.
Defined.

(** ** The budget test of the dso variant *)

(** C10 as the specification words it does not hold: a run of the dso
    variant set by [n_epochs], with no [n_samples], whose first pass
    meets the early stopping test leaves the loop before the budget
    test and returns. *)
Lemma early_stop_before_budget_test :
  Config.n_epochs (Example.by_epochs true) = Some 3%Z /\
  Config.n_samples (Example.by_epochs true) = None /\
  exists st res,
    Dso.run (MQ:=TableQueue.t) weighted_quantile (Example.by_epochs true)
      (Example.dso_env Example.four_solved) = Ok st /\
    Dso.State.epoch st = Some 0 /\
    Dso.learn (MQ:=TableQueue.t) weighted_quantile (Example.by_epochs true)
      (Example.dso_env Example.four_solved) = Ok res /\
    res !! "program" = Some (Obj (Example.program "b" 0.9 0.9 (Some true))).
Proof.
  split; [reflexivity|]. split; [reflexivity|].
  eexists _, _. split; [vm_compute; reflexivity|]. split; [reflexivity|].
  split; [vm_compute; reflexivity|]. vm_compute. reflexivity.
Qed.

Section Budget.
Context {MQ : Type} `{MemoryQueue MQ}.
Variable wq : list Q -> list Q -> Q -> Q.

Lemma dso_update_best_first (r_max : Q) (rows : Dso.Rows.t)
    (p_r_best0 p_r_best : option Program.t) :
  Dso.update_best None r_max rows p_r_best0 = Ok p_r_best ->
  exists p, p_r_best = Some p.
Proof.
  unfold Dso.update_best. intros Hrun.
  apply bind_Ok_inv in Hrun as (i & _ & Hrun).
  apply bind_Ok_inv in Hrun as (p & _ & Hrun).
  injection Hrun as <-. eauto.
Qed.

(** The stopping tests with the best program bound. *)
Lemma dso_decide_break_bound (cfg : Config.t) (programs : list Program.t)
    (p : Program.t) (nevals : Z) :
  Dso.decide_break cfg programs (Some p) nevals =
    if DsoSpec.stops_early cfg programs (Some p) then Ok true
    else match Config.n_samples cfg with
         | None => Raise (TypeError "'>' not supported between instances of 'int' and 'NoneType'")
         | Some n_samples => Ok (negb (Qle_bool (inject_Z nevals) n_samples))
         end.
Proof.
  unfold Dso.decide_break, DsoSpec.stops_early.
  destruct (Config.eval_all cfg && any (map Program.success programs)); [reflexivity|].
  destruct (Config.early_stopping cfg); cbn; [|reflexivity].
  destruct (truthy (Program.success p)); reflexivity.
Qed.

(** C10, amended. A run of the dso variant set by [n_epochs] has no
    [n_samples]. When its first pass raises nothing and meets no early
    stopping test, the budget test at the end of that pass compares an
    int with [None]: the run raises a TypeError and makes no second pass.
    When the first pass meets an early stopping test, the loop is left
    before the budget test. *)
Theorem budget_test_against_None (cfg : Config.t) (env : Dso.Env.t)
    (st0 st1 : Dso.State.t MQ) (n : Z) :
  Config.n_samples cfg = None ->
  Dso.init cfg env = Ok (st0, n) -> (0 < n)%Z ->
  Dso.epoch_update wq cfg 0 (Dso.Env.sample env 0) st0 = Ok st1 ->
  Config.n_epochs cfg = Some n /\
  Dso.run wq cfg env =
    if DsoSpec.stops_early cfg (Sample.programs (Dso.Env.sample env 0))
         (Dso.State.p_r_best st1)
    then Ok st1
    else Raise (TypeError "'>' not supported between instances of 'int' and 'NoneType'").
Proof.
  intros Hns Hinit Hpos Hrun.
  pose proof (dso_init_inv cfg env st0 n Hinit) as (Hep & _ & _ & _ & Hprev & _).
  split.
  - unfold Dso.epochs in Hep. rewrite Hns in Hep.
    destruct (Config.n_epochs cfg) as [k|]; [|discriminate].
    rewrite bind_Ok in Hep. destruct (k <? 0)%Z; [discriminate|]. congruence.
  - rewrite (dso_run_first_pass wq cfg env st0 n Hinit Hpos).
    unfold Dso.epoch_body. rewrite Hrun, bind_Ok.
    pose proof Hrun as Hinv.
    apply dso_epoch_update_inv in Hinv
      as (pf & r_max & quantile & rows0 & printed & ewma & b & p_r_best
          & _ & _ & _ & _ & Hbest & Hst).
    rewrite Hprev in Hbest. apply dso_update_best_first in Hbest as (p & ->).
    assert (Hp : Dso.State.p_r_best st1 = Some p) by (rewrite Hst; reflexivity).
    rewrite Hp, dso_decide_break_bound, Hns.
    destruct (DsoSpec.stops_early cfg (Sample.programs (Dso.Env.sample env 0)) (Some p));
      reflexivity.
Qed.

End Budget.

Lemma budget_test_against_None_witness :
  exists st1,
    Dso.epoch_update (MQ:=TableQueue.t) weighted_quantile (Example.by_epochs true) 0
      (Example.sample Example.four) (Example.dso_state (Some 0%Q)) = Ok st1 /\
    DsoSpec.stops_early (Example.by_epochs true) Example.four (Dso.State.p_r_best st1)
      = false /\
    Dso.run (MQ:=TableQueue.t) weighted_quantile (Example.by_epochs true)
      (Example.dso_env Example.four)
      = Raise (TypeError "'>' not supported between instances of 'int' and 'NoneType'").
Proof.
  destruct (Dso.epoch_update (MQ:=TableQueue.t) weighted_quantile (Example.by_epochs true) 0
              (Example.sample Example.four) (Example.dso_state (Some 0%Q)))
    as [st1|e] eqn:Hrun; [|vm_compute in Hrun; discriminate].
  exists st1. split; [reflexivity|].
  assert (Hstop : DsoSpec.stops_early (Example.by_epochs true) Example.four
                    (Dso.State.p_r_best st1) = false).
  { vm_compute in Hrun. injection Hrun as <-. reflexivity. }
  split; [exact Hstop|].
  destruct (budget_test_against_None (MQ:=TableQueue.t) weighted_quantile
              (Example.by_epochs true) (Example.dso_env Example.four)
              (Example.dso_state (Some 0%Q)) st1 3%Z eq_refl eq_refl eq_refl Hrun)
    as (_ & Hraise).
  rewrite Hraise. cbn [Example.dso_env Dso.Env.sample Example.sample Sample.programs].
  rewrite Hstop. reflexivity.
Defined.

(** ** Epochs given directly *)

(** C4, where the code departs from it. Three epochs are asked for, no
    stopping test is on and nothing in the batch is a success, yet the
    run of the dso variant ends in the first pass, at the budget test,
    with a TypeError. *)
Theorem epochs_given_directly_are_not_run :
  Config.n_epochs (Example.by_epochs false) = Some 3%Z /\
  Config.early_stopping (Example.by_epochs false) = false /\
  Config.eval_all (Example.by_epochs false) = false /\
  Dso.init (MQ:=TableQueue.t) (Example.by_epochs false) (Example.dso_env Example.four)
    = Ok (Example.dso_state (Some 0%Q), 3%Z) /\
  (exists st1,
     Dso.epoch_update (MQ:=TableQueue.t) weighted_quantile (Example.by_epochs false) 0
       (Example.sample Example.four) (Example.dso_state (Some 0%Q)) = Ok st1) /\
  Dso.learn (MQ:=TableQueue.t) weighted_quantile (Example.by_epochs false)
    (Example.dso_env Example.four)
    = Raise (TypeError "'>' not supported between instances of 'int' and 'NoneType'").
Proof.
  split; [reflexivity|]. split; [reflexivity|]. split; [reflexivity|].
  split; [reflexivity|]. split; [eexists; vm_compute; reflexivity|].
  vm_compute. reflexivity.
Qed.

(** ** The stopping tests, a budget being set *)

Lemma dsr_decide_break_bound (cfg : Config.t) (env : Dsr.Env.t)
    (programs : list Program.t) (p : Program.t) (nevals : Z) :
  Dsr.decide_break cfg env programs (Some p) nevals =
    if any_success cfg programs || Config.early_stopping cfg && truthy (Program.success p)
    then Ok true
    else if Dsr.run_gp_meld env then
      match Config.n_samples cfg with
      | None => Raise (TypeError "'>' not supported between instances of 'int' and 'NoneType'")
      | Some n_samples => Ok (negb (Qle_bool (inject_Z nevals) n_samples))
      end
    else Ok false.
Proof.
  unfold Dsr.decide_break, any_success.
  destruct (Config.eval_all cfg && any (map Program.success programs)); [reflexivity|].
  destruct (Config.early_stopping cfg); cbn; [|reflexivity].
  destruct (truthy (Program.success p)); reflexivity.
Qed.

(** With a budget of samples the pass of the dso variant ends in [break]
    exactly when a batch row is a success under [eval_all], or the best
    program is one under [early_stopping], or the count of samples
    exceeds the budget. *)
Lemma dso_break_iff (cfg : Config.t) (programs : list Program.t) (p : Program.t)
    (nevals : Z) (n_samples : Q) :
  Config.n_samples cfg = Some n_samples ->
  exists brk,
    Dso.decide_break cfg programs (Some p) nevals = Ok brk /\
    (brk = true <->
     any_success cfg programs = true \/
     (Config.early_stopping cfg = true /\ truthy (Program.success p) = true) \/
     (n_samples < inject_Z nevals)%Q).
Proof.
  intros Hns. rewrite dso_decide_break_bound, Hns. unfold DsoSpec.stops_early, any_success.
  destruct (Config.eval_all cfg && any (map Program.success programs)) eqn:Hany; cbn.
  - exists true. split; [reflexivity|]. split; auto.
  - destruct (Config.early_stopping cfg) eqn:Hes; cbn.
    + destruct (truthy (Program.success p)) eqn:Ht.
      * exists true. split; [reflexivity|]. split; auto.
      * eexists. split; [reflexivity|]. split.
        -- intros Hb. right; right. apply negb_true_iff in Hb.
           apply Qnot_le_lt. intros Hle. apply Qle_bool_iff in Hle. congruence.
        -- intros [Hf|[[_ Hf]|Hlt]]; try discriminate.
           apply negb_true_iff. apply Qlt_not_le_bool. exact Hlt.
    + eexists. split; [reflexivity|]. split.
      * intros Hb. right; right. apply negb_true_iff in Hb.
        apply Qnot_le_lt. intros Hle. apply Qle_bool_iff in Hle. congruence.
      * intros [Hf|[[Hf _]|Hlt]]; try discriminate.
        apply negb_true_iff. apply Qlt_not_le_bool. exact Hlt.
Qed.

(** ** The program the result describes *)




Section LastPass.
Context {MQ : Type} `{MemoryQueue MQ}.
Variable wq : list Q -> list Q -> Q -> Q.





End LastPass.



Section Result.
Context {MQ : Type} `{MemoryQueue MQ}.
Variable wq : list Q -> list Q -> Q -> Q.




End Result.


(** ** Evaluation through the pool and serial evaluation *)

Section PoolProofs.
Context {C : Type}.
Variable optimize : list Z -> C.
Variable reward : list Z -> option C -> Q.
Variable set_order : list (list Z) -> list (list Z).

Local Abbreviation from_tokens := (Evaluation.from_tokens optimize reward).
Local Abbreviation construct := (Evaluation.construct optimize reward).
Local Abbreviation work := (Evaluation.work optimize reward).
Local Abbreviation parallel := (Evaluation.parallel optimize reward set_order).
Local Abbreviation serial := (Evaluation.serial optimize reward).
Local Abbreviation todo_of := (Evaluation.programs_to_optimize set_order).
Local Abbreviation settle := (Evaluation.settle optimize reward).

Lemma from_tokens_other (a k : list Z) (flag : bool) (cache : gmap (list Z) (Candidate.t C)) :
  a <> k -> from_tokens a flag cache !! k = cache !! k.
Proof.
  intros Hne. unfold Evaluation.from_tokens.
  destruct (cache !! a); [|destruct flag]; apply lookup_insert_ne; exact Hne.
Qed.

Lemma construct_other (flag : bool) (actions : list (list Z)) (k : list Z) :
  forall cache : gmap (list Z) (Candidate.t C),
    k ∉ actions -> construct flag actions cache !! k = cache !! k.
Proof.
  induction actions as [|a actions IH]; intros cache Hk; [reflexivity|].
  cbn [Evaluation.construct fold_left].
  apply not_elem_of_cons in Hk as [Hne Hk].
  change (construct flag actions (from_tokens a flag cache) !! k = cache !! k).
  rewrite IH by exact Hk. apply from_tokens_other. congruence.
Qed.

(** Construction never touches a reward the cache holds. *)
Lemma construct_keeps_reward (flag : bool) (actions : list (list Z)) (k : list Z) :
  forall (cache : gmap (list Z) (Candidate.t C)) (p : Candidate.t C),
    cache !! k = Some p ->
    exists p', construct flag actions cache !! k = Some p' /\
               Candidate.r p' = Candidate.r p.
Proof.
  induction actions as [|a actions IH]; intros cache p Hp; [eauto|].
  cbn [Evaluation.construct fold_left].
  change (exists p', construct flag actions (from_tokens a flag cache) !! k = Some p'
                     /\ Candidate.r p' = Candidate.r p).
  destruct (decide (a = k)) as [->|Hne].
  - assert (Hstep : exists p1, from_tokens k flag cache !! k = Some p1
                               /\ Candidate.r p1 = Candidate.r p).
    { unfold Evaluation.from_tokens. rewrite Hp, lookup_insert_eq. eauto. }
    destruct Hstep as (p1 & Hp1 & Hr1).
    destruct (IH _ _ Hp1) as (p' & Hp' & Hr'). exists p'. split; [exact Hp'|congruence].
  - apply IH. rewrite from_tokens_other by exact Hne. exact Hp.
Qed.

(** Serial construction is construction without fitting, every pending
    Candidate settled. *)
Lemma construct_settled (actions : list (list Z)) :
  forall c1 c2 : gmap (list Z) (Candidate.t C),
    (forall k, c1 !! k = settle k <$> c2 !! k) ->
    forall k, construct true actions c1 !! k = settle k <$> construct false actions c2 !! k.
Proof.
  induction actions as [|a actions IH]; intros c1 c2 Hrel; [exact Hrel|].
  cbn [Evaluation.construct fold_left]. apply IH. intros k.
  destruct (decide (a = k)) as [->|Hne].
  - unfold Evaluation.from_tokens. rewrite (Hrel k).
    destruct (c2 !! k) as [p|]; cbn [fmap option_fmap option_map].
    + rewrite !lookup_insert_eq. cbn. f_equal. unfold Evaluation.settle.
      destruct p as [c [x|] n]; reflexivity.
    + rewrite !lookup_insert_eq. reflexivity.
  - rewrite !from_tokens_other by exact Hne. apply Hrel.
Qed.

Lemma settle_evaluated (cache : gmap (list Z) (Candidate.t C)) :
  Evaluation.evaluated cache -> forall k, cache !! k = settle k <$> cache !! k.
Proof.
  intros Hev k. destruct (cache !! k) as [p|] eqn:Hp; [|reflexivity].
  destruct (Hev k p Hp) as (x & Hx). cbn. unfold Evaluation.settle. rewrite Hx. reflexivity.
Qed.

(** The results of the workers, put back in the order of submission. *)
Lemma apply_results_lookup (todo : list (list Z)) (k : list Z) :
  forall cache : gmap (list Z) (Candidate.t C),
    Evaluation.apply_results (map work todo) todo cache !! k =
      if decide (k ∈ todo) then Evaluation.set_result (work k) <$> cache !! k
      else cache !! k.
Proof.
  unfold Evaluation.apply_results.
  induction todo as [|a todo IH]; intros cache.
  - cbn. destruct (decide (k ∈ [])) as [Hin|_]; [|reflexivity].
    apply elem_of_nil in Hin. destruct Hin.
  - cbn [map combine fold_left fst snd]. rewrite IH.
    destruct (decide (a = k)) as [->|Hne].
    + rewrite lookup_alter_eq.
      destruct (decide (k ∈ todo)), (decide (k ∈ k :: todo)) as [|Hn];
        try (exfalso; apply Hn; left);
        destruct (cache !! k); reflexivity.
    + rewrite lookup_alter_ne by exact Hne.
      destruct (decide (k ∈ todo)) as [Hin|Hnin], (decide (k ∈ a :: todo)) as [Hin'|Hnin'];
        try reflexivity.
      * exfalso. apply Hnin'. right. exact Hin.
      * exfalso. apply elem_of_cons in Hin' as [->|Hin']; [congruence | contradiction].
Qed.

Lemma settle_pending (cache : gmap (list Z) (Candidate.t C)) (k : list Z) :
  settle k <$> cache !! k =
    if Evaluation.pending cache k then Evaluation.set_result (work k) <$> cache !! k
    else cache !! k.
Proof.
  unfold Evaluation.pending, Evaluation.settle.
  destruct (cache !! k) as [p|]; [|reflexivity]. cbn.
  destruct (Candidate.r p); reflexivity.
Qed.

(** C2. The cache between two epochs holds evaluated Candidates only.
    On such a cache and any batch [actions], evaluation through the pool
    leaves the cache, and with it the constants, the reward and the
    count of every program, and the vector of rewards as serial
    evaluation leaves them, whatever the order in which the set yields
    the programs to dispatch. The programs dispatched are distinct, are
    programs of the batch, and none of them was in the cache before. *)
Theorem parallel_evaluation_as_serial (actions : list (list Z))
    (cache : gmap (list Z) (Candidate.t C)) :
  Evaluation.set_like set_order ->
  Evaluation.evaluated cache ->
  parallel actions cache = serial actions cache /\
  NoDup (todo_of actions (construct false actions cache)) /\
  forall a, a ∈ todo_of actions (construct false actions cache) ->
            a ∈ actions /\ cache !! a = None.
Proof.
  intros Hset Hev.
  set (cache1 := construct false actions cache).
  assert (Htodo : forall a, a ∈ todo_of actions cache1 <->
                            a ∈ actions /\ Evaluation.pending cache1 a = true).
  { intros a. unfold Evaluation.programs_to_optimize.
    destruct (Hset (List.filter (Evaluation.pending cache1) actions)) as [_ Hmem].
    rewrite Hmem, !list_elem_of_In, filter_In. reflexivity. }
  assert (Hnew : forall a, Evaluation.pending cache1 a = true -> cache !! a = None).
  { intros a Hpend. destruct (cache !! a) as [p|] eqn:Hp; [|reflexivity]. exfalso.
    destruct (construct_keeps_reward false actions a cache p Hp) as (p' & Hp' & Hr).
    destruct (Hev a p Hp) as (x & Hx).
    unfold Evaluation.pending in Hpend. fold cache1 in Hp'. rewrite Hp' in Hpend.
    rewrite Hr, Hx in Hpend. discriminate. }
  assert (Hpend_in : forall a, Evaluation.pending cache1 a = true -> a ∈ actions).
  { intros a Hpend. destruct (decide (a ∈ actions)) as [Hin|Hnin]; [exact Hin|]. exfalso.
    pose proof (Hnew a Hpend) as Hnone.
    unfold Evaluation.pending in Hpend. unfold cache1 in Hpend.
    rewrite construct_other, Hnone in Hpend by exact Hnin. discriminate. }
  split; [|split].
  - unfold Evaluation.parallel, Evaluation.serial. fold cache1. f_equal.
    apply map_eq. intros k. rewrite apply_results_lookup.
    rewrite (construct_settled actions cache cache (settle_evaluated cache Hev) k).
    fold cache1. rewrite settle_pending.
    destruct (Evaluation.pending cache1 k) eqn:Hpend.
    + destruct (decide (k ∈ todo_of actions cache1)) as [_|Hn]; [reflexivity|].
      exfalso. apply Hn. apply Htodo. auto.
    + destruct (decide (k ∈ todo_of actions cache1)) as [Hin|_]; [|reflexivity].
      apply Htodo in Hin as [_ Hin]. congruence.
  - unfold Evaluation.programs_to_optimize. apply Hset.
  - intros a Hin. apply Htodo in Hin as [Hin Hpend]. auto.
Qed.

End PoolProofs.

Lemma set_order_set_like : Evaluation.set_like Example.set_order.
Proof.
  intros l. unfold Example.set_order. split.
  - rewrite reverse_Permutation. apply NoDup_remove_dups.
  - intros a. rewrite elem_of_reverse, elem_of_remove_dups. reflexivity.
Qed.

Lemma cache_12_evaluated : Evaluation.evaluated Example.cache_12.
Proof.
  intros a p Hp. unfold Example.cache_12 in Hp.
  apply lookup_singleton_Some in Hp as [_ <-]. cbn. eauto.
Qed.

Lemma parallel_evaluation_as_serial_witness :
  Evaluation.parallel Example.optimize Example.reward Example.set_order
    Example.batch_12_3_3_45 Example.cache_12
  = Evaluation.serial Example.optimize Example.reward
      Example.batch_12_3_3_45 Example.cache_12 /\
  forall a,
    a ∈ Evaluation.programs_to_optimize Example.set_order Example.batch_12_3_3_45
          (Evaluation.construct Example.optimize Example.reward false
             Example.batch_12_3_3_45 Example.cache_12) ->
    a ∈ Example.batch_12_3_3_45 /\ Example.cache_12 !! a = None.
Proof.
  destruct (parallel_evaluation_as_serial Example.optimize Example.reward
              Example.set_order Example.batch_12_3_3_45 Example.cache_12
              set_order_set_like cache_12_evaluated) as (Hsame & _ & Hnew).
  split; [exact Hsame | exact Hnew].
Defined.

(** The evaluation of the witness, computed: the two new traversals are
    dispatched once each, the later first; the cached one is not, only
    its count grows; the rewards come back in the order of the rows. *)
Example pool_computed :
  Evaluation.programs_to_optimize Example.set_order Example.batch_12_3_3_45
    (Evaluation.construct Example.optimize Example.reward false
       Example.batch_12_3_3_45 Example.cache_12) = [[4; 5]; [3]]%Z /\
  snd (Evaluation.parallel Example.optimize Example.reward Example.set_order
         Example.batch_12_3_3_45 Example.cache_12)
    = [0.25; 1 / (1 + 1 + 3); 1 / (1 + 1 + 3); 1 / (1 + 2 + 4)]%Q /\
  fst (Evaluation.parallel Example.optimize Example.reward Example.set_order
         Example.batch_12_3_3_45 Example.cache_12) !! [1; 2]%Z
    = Some (Candidate.mk (Some [2%Q]) (Some 0.25%Q) 4) /\
  fst (Evaluation.parallel Example.optimize Example.reward Example.set_order
         Example.batch_12_3_3_45 Example.cache_12) !! [3]%Z
    = Some (Candidate.mk (Some [1%Q]) (Some (1 / (1 + 1 + 3))%Q) 2).
Proof.
  split; [vm_compute; reflexivity|].
  split; [vm_compute; reflexivity|].
  split; vm_compute; reflexivity.
Qed.

(** ** When the loop is left *)

Section LoopEnd.
Context {MQ : Type} `{MemoryQueue MQ}.
Variable wq : list Q -> list Q -> Q -> Q.

Lemma dso_breaks_at_step (cfg : Config.t) (env : Dso.Env.t) (e k : nat)
    (st st1 : Dso.State.t MQ) :
  Dso.epoch_update wq cfg e (Dso.Env.sample env e) st = Ok st1 ->
  DsoSpec.breaks_at wq cfg env e (S k) st = DsoSpec.breaks_at wq cfg env (S e) k st1.
Proof.
  intros Hup. unfold DsoSpec.breaks_at.
  cbn [DsoSpec.passes]. rewrite Hup, bind_Ok.
  replace (e + S k) with (S e + k) by lia. reflexivity.
Qed.

(** A loop of the dso variant that is left without an exception made
    [k + 1] of its [n] passes: no stopping test held after the passes
    before the last, and after the last one a stopping test held or the
    passes were used up. *)
Lemma dso_loop_end (cfg : Config.t) (env : Dso.Env.t) (n : nat) :
  forall (e : nat) (st st_f : Dso.State.t MQ),
    Dso.loop wq cfg env (S n) e st = Ok st_f ->
    exists k,
      k <= n /\
      DsoSpec.passes wq cfg env e (S k) st = Ok st_f /\
      (forall j, j < k -> DsoSpec.breaks_at wq cfg env e j st = Ok false) /\
      (DsoSpec.breaks_at wq cfg env e k st = Ok true \/
       (k = n /\ DsoSpec.breaks_at wq cfg env e k st = Ok false)).
Proof.
  induction n as [|n IH]; intros e st st_f Hrun.
  - cbn [Dso.loop] in Hrun.
    apply bind_Ok_inv in Hrun as ([st1 brk] & Hbody & Hrun).
    unfold Dso.epoch_body in Hbody.
    apply bind_Ok_inv in Hbody as (st1' & Hup & Hbody).
    apply bind_Ok_inv in Hbody as (brk' & Hbrk & Hbody). injection Hbody as <- <-.
    assert (Hst : st_f = st1') by (destruct brk'; congruence). subst st_f.
    assert (Hat : DsoSpec.breaks_at wq cfg env e 0 st = Ok brk').
    { unfold DsoSpec.breaks_at. cbn [DsoSpec.passes]. rewrite Hup, !bind_Ok.
      rewrite Nat.add_0_r. exact Hbrk. }
    exists 0. split; [lia|]. split.
    + cbn [DsoSpec.passes]. rewrite Hup. reflexivity.
    + split; [intros j Hj; lia|]. rewrite Hat. destruct brk'; auto.
  - cbn [Dso.loop] in Hrun.
    apply bind_Ok_inv in Hrun as ([st1 brk] & Hbody & Hrun).
    unfold Dso.epoch_body in Hbody.
    apply bind_Ok_inv in Hbody as (st1' & Hup & Hbody).
    apply bind_Ok_inv in Hbody as (brk' & Hbrk & Hbody). injection Hbody as <- <-.
    assert (Hat : DsoSpec.breaks_at wq cfg env e 0 st = Ok brk').
    { unfold DsoSpec.breaks_at. cbn [DsoSpec.passes]. rewrite Hup, !bind_Ok.
      rewrite Nat.add_0_r. exact Hbrk. }
    destruct brk'.
    + injection Hrun as <-. exists 0. split; [lia|]. split.
      * cbn [DsoSpec.passes]. rewrite Hup. reflexivity.
      * split; [intros j Hj; lia|]. left. exact Hat.
    + change (Dso.loop wq cfg env (S n) (S e) st1' = Ok st_f) in Hrun.
      destruct (IH (S e) st1' st_f Hrun) as (k & Hk & Hpass & Hbefore & Hlast).
      exists (S k). split; [lia|]. split.
      * cbn [DsoSpec.passes]. rewrite Hup, bind_Ok. exact Hpass.
      * split.
        -- intros [|j] Hj; [exact Hat|].
           rewrite (dso_breaks_at_step cfg env e j st st1' Hup). apply Hbefore. lia.
        -- rewrite (dso_breaks_at_step cfg env e k st st1' Hup).
           destruct Hlast as [Hl|[-> Hl]]; [left; exact Hl | right; auto].
Qed.

End LoopEnd.

(** * Further properties of the code

    What the claims above leave of [learn] and of its callers: the
    order statistics behind the filter, the shape of the batch handed
    to [train_step], the bookkeeping of the best program and of the
    evaluation counter, the baselines, the error statistics and the
    sequences the test-suite of the priors builds. *)

(** ** Order statistics and reductions *)

Lemma Qle_bool_false (x y : Q) : Qle_bool x y = false -> (y < x)%Q.
Proof.
  intros Hb. apply Qnot_le_lt. intros Hle.
  apply Qle_bool_iff in Hle. congruence.
Qed.

Lemma insert_sorted_In (x y : Q) (a : list Q) :
  In y (Np.insert_sorted x a) <-> x = y \/ In y a.
Proof.
  induction a as [|z a IH]; cbn; [tauto|].
  destruct (Qle_bool x z); cbn; [tauto|]. rewrite IH. tauto.
Qed.

Lemma sort_In (y : Q) (a : list Q) : In y (Np.sort a) <-> In y a.
Proof.
  induction a as [|x a IH]; [cbn; tauto|].
  change (Np.sort (x :: a)) with (Np.insert_sorted x (Np.sort a)).
  rewrite insert_sorted_In, IH. cbn. tauto.
Qed.

Lemma insert_sorted_length (x : Q) (a : list Q) :
  length (Np.insert_sorted x a) = S (length a).
Proof.
  induction a as [|z a IH]; cbn; [reflexivity|].
  destruct (Qle_bool x z); cbn; [reflexivity|]. rewrite IH. reflexivity.
Qed.

Lemma sort_length (a : list Q) : length (Np.sort a) = length a.
Proof.
  induction a as [|x a IH]; [reflexivity|].
  change (Np.sort (x :: a)) with (Np.insert_sorted x (Np.sort a)).
  rewrite insert_sorted_length, IH. reflexivity.
Qed.

(** The quantile [np.quantile(a, q, interpolation="higher")] gives is an
    entry of [a]. *)
Lemma quantile_higher_In (a : list Q) (q x : Q) :
  Np.quantile_higher a q = Ok x -> In x a.
Proof.
  unfold Np.quantile_higher.
  destruct (negb (Qle_bool 0 q && Qle_bool q 1)); [discriminate|].
  destruct (nth_error (Np.sort a) _) as [y|] eqn:Hnth; [|discriminate].
  intros [= <-]. apply sort_In. eapply nth_error_In. exact Hnth.
Qed.

(** It is defined on every array that is not empty, for [q] in [0, 1]. *)
Lemma quantile_higher_ok (a : list Q) (q : Q) :
  a <> [] -> (0 <= q)%Q -> (q <= 1)%Q -> exists x, Np.quantile_higher a q = Ok x.
Proof.
  intros Ha H0 H1. unfold Np.quantile_higher.
  apply Qle_bool_iff in H0 as H0b. apply Qle_bool_iff in H1 as H1b.
  rewrite H0b, H1b. cbn.
  destruct (nth_error (Np.sort a) _) as [y|] eqn:Hnth; [eauto|].
  exfalso. apply nth_error_None in Hnth. rewrite sort_length in Hnth.
  destruct a as [|x a]; [congruence|]. cbn [length] in Hnth.
  replace (S (length a) - 1) with (length a) in Hnth by lia.
  assert (Hc : (Qceiling (q * inject_Z (Z.of_nat (length a))) <= Z.of_nat (length a))%Z).
  { rewrite <- (Qceiling_Z (Z.of_nat (length a))) at 2.
    apply Qceiling_resp_le.
    rewrite <- (Qmult_1_l (inject_Z (Z.of_nat (length a)))) at 2.
    apply Qmult_le_compat_r; [exact H1|].
    change 0%Q with (inject_Z 0). rewrite <- Zle_Qle. lia. }
  lia.
Qed.

Lemma Qmax_cases (x y : Q) :
  (Np.Qmax x y = x \/ Np.Qmax x y = y) /\ (x <= Np.Qmax x y)%Q /\ (y <= Np.Qmax x y)%Q.
Proof.
  unfold Np.Qmax. destruct (Qle_bool x y) eqn:Hxy.
  - apply Qle_bool_iff in Hxy. repeat split; [auto | exact Hxy | apply Qle_refl].
  - apply Qle_bool_false in Hxy. repeat split; [auto | apply Qle_refl | apply Qlt_le_weak, Hxy].
Qed.

Lemma fold_Qmax_spec (a : list Q) :
  forall x, let m := fold_left Np.Qmax a x in
    (m = x \/ In m a) /\ (x <= m)%Q /\ Forall (fun v => (v <= m)%Q) a.
Proof.
  induction a as [|y a IH]; intros x; cbn.
  - repeat split; [auto | apply Qle_refl | constructor].
  - destruct (IH (Np.Qmax x y)) as (Hin & Hle & Hall).
    destruct (Qmax_cases x y) as (Hc & Hx & Hy).
    repeat split.
    + destruct Hin as [Hm|Hm]; [|auto]. rewrite Hm. destruct Hc as [->| ->]; auto.
    + eapply Qle_trans; eassumption.
    + constructor; [eapply Qle_trans; eassumption | exact Hall].
Qed.

(** [np.max(a)] is an entry of [a] that no entry exceeds. *)
Lemma max_spec (a : list Q) (m : Q) :
  Np.max a = Ok m -> In m a /\ Forall (fun v => (v <= m)%Q) a.
Proof.
  destruct a as [|x a]; [discriminate|]. intros [= <-].
  destruct (fold_Qmax_spec a x) as (Hin & Hle & Hall). split.
  - destruct Hin as [-> | Hin]; [left; reflexivity | right; exact Hin].
  - constructor; assumption.
Qed.

(** What is at least [x] passes the mask [a >= x]. *)
Lemma compress_ge_In {A} (f : A -> Q) (l : list A) (x : Q) (p : A) :
  In p l -> (x <= f p)%Q -> In p (Np.compress l (Np.ge (map f l) x)).
Proof.
  intros Hin Hle. induction l as [|p' l IH]; [contradiction|].
  cbn. destruct Hin as [->|Hin].
  - apply Qle_bool_iff in Hle. rewrite Hle. left. reflexivity.
  - destruct (Qle_bool x (f p')); [right|]; apply IH; exact Hin.
Qed.

Lemma compress_map {A B} (f : A -> B) (l : list A) (m : list bool) :
  Np.compress (map f l) m = map f (Np.compress l m).
Proof.
  revert m. induction l as [|x l IH]; intros [|[] m]; cbn; try reflexivity.
  - rewrite IH. reflexivity.
  - apply IH.
Qed.

(** ** The filter, inverted with the row counts it checks *)

Lemma mapM_mask_lengths {A} (obs : list (list A)) (keep : list bool) (obs' : list (list A)) :
  mapM (fun o => Np.mask o keep) obs = Ok obs' ->
  Forall (fun o => length o = length keep) obs.
Proof.
  revert obs'. induction obs as [|o obs IH]; intros obs' Hrun; [constructor|].
  cbn [mapM] in Hrun.
  change (mapM _ obs) with (mapM (fun o => Np.mask o keep) obs) in Hrun.
  apply bind_Ok_inv in Hrun as (o' & Ho & Hrun).
  apply bind_Ok_inv in Hrun as (rest & Hrest & Hrun).
  apply mask_inv in Ho as [_ Hlen]. constructor; [exact Hlen | eapply IH; exact Hrest].
Qed.

Lemma dso_filter_rows_inv (rows rows' : Dso.Rows.t) (keep : list bool) :
  Dso.filter_rows rows keep = Ok rows' ->
  DsoSpec.masked keep rows rows' /\
  length (Dso.Rows.r rows) = length keep /\
  length (Dso.Rows.actions rows) = length keep /\
  Forall (fun o => length o = length keep) (Dso.Rows.obs rows) /\
  length (Dso.Rows.priors rows) = length keep /\
  length (Dso.Rows.on_policy rows) = length keep.
Proof.
  unfold Dso.filter_rows. intros Hrun.
  apply bind_Ok_inv in Hrun as (l & Hl & Hrun). apply mask_inv in Hl as [-> _].
  apply bind_Ok_inv in Hrun as (invalid & Hi & Hrun). apply mask_inv in Hi as [-> _].
  apply bind_Ok_inv in Hrun as (r & Hr & Hrun). apply mask_inv in Hr as [-> Hlr].
  apply bind_Ok_inv in Hrun as (actions & Ha & Hrun). apply mask_inv in Ha as [-> Hla].
  apply bind_Ok_inv in Hrun as (obs & Ho & Hrun).
  pose proof (mapM_mask_lengths _ _ _ Ho) as Hlo. apply mapM_mask_inv in Ho as ->.
  apply bind_Ok_inv in Hrun as (priors & Hp & Hrun). apply mask_inv in Hp as [-> Hlp].
  apply bind_Ok_inv in Hrun as (on_policy & Hon & Hrun). apply mask_inv in Hon as [-> Hlon].
  injection Hrun as <-. repeat split; assumption.
Qed.

Lemma dsr_filter_rows_lengths (env : Dsr.Env.t) (batch_size : nat) (rows rows' : Dsr.Rows.t)
    (keep : list bool) :
  Dsr.filter_rows env batch_size rows keep = Ok rows' ->
  length (Dsr.Rows.base_r rows) = length keep /\
  length (Dsr.Rows.r rows) = length keep /\
  length (Dsr.Rows.actions rows) = length keep /\
  Forall (fun o => length o = length keep) (Dsr.Rows.obs rows) /\
  length (Dsr.Rows.priors rows) = length keep /\
  length (Dsr.Rows.on_policy rows) = length keep.
Proof.
  unfold Dsr.filter_rows. intros Hrun.
  apply bind_Ok_inv in Hrun as (base_r & Hbr & Hrun). apply mask_inv in Hbr as [_ Hlb].
  apply bind_Ok_inv in Hrun as (l & Hl & Hrun).
  apply bind_Ok_inv in Hrun as (invalid & Hi & Hrun).
  apply bind_Ok_inv in Hrun as ([[[[keep' r] programs] r_train] p_train] & Hbranch & Hrun).
  apply bind_Ok_inv in Hrun as (actions & Ha & Hrun). apply mask_inv in Ha as [_ Hla].
  apply bind_Ok_inv in Hrun as (obs & Ho & Hrun). apply mapM_mask_lengths in Ho.
  apply bind_Ok_inv in Hrun as (priors & Hp & Hrun). apply mask_inv in Hp as [_ Hlp].
  apply bind_Ok_inv in Hrun as (on_policy & Hon & Hrun). apply mask_inv in Hon as [_ Hlon].
  assert (Hk : length keep' = length keep /\ length (Dsr.Rows.r rows) = length keep).
  { destruct (Dsr.run_gp_meld env && negb (Dsr.return_gp_obs env)).
    - apply bind_Ok_inv in Hbranch as (_r & Hr & Hbranch). apply mask_inv in Hr as [_ Hlr].
      apply bind_Ok_inv in Hbranch as (rt & Hrt & Hbranch).
      injection Hbranch as <- _ _ _ _. split; [apply clear_from_length | exact Hlr].
    - apply bind_Ok_inv in Hbranch as (r0 & Hr & Hbranch). apply mask_inv in Hr as [_ Hlr].
      injection Hbranch as <- _ _ _ _. split; [reflexivity | exact Hlr]. }
  destruct Hk as [Hk Hlr]. rewrite Hk in *. repeat split; assumption.
Qed.

(** ** The best program survives the empirical quantile *)

Section KeepsTheBest.
Context {MQ : Type} `{MemoryQueue MQ}.
Variable wq : list Q -> list Q -> Q -> Q.

Lemma empirical_quantile_inv (memory_queue : option MQ) (programs : list Program.t)
    (r : list Q) (eps : Q) (memory_threshold : option Q) (epoch : nat) (q : Q)
    (printed : list Event) :
  compute_quantile wq false memory_queue programs r eps memory_threshold epoch
    = Ok (q, printed) ->
  Np.quantile_higher r (1 - eps) = Ok q /\ printed = [].
Proof.
  unfold compute_quantile. intros Hq.
  apply bind_Ok_inv in Hq as (q' & Hqh & Hq). injection Hq as <- <-. auto.
Qed.

Lemma dso_filter_keeps_max (cfg : Config.t) (epoch : nat)
    (quantile0 quantile : option Q) (memory_queue : option MQ) (smp : Sample.t)
    (rows0 : Dso.Rows.t) (printed : list Event) :
  risk_seeking (Config.epsilon cfg) = true ->
  Config.use_memory cfg = false ->
  Dso.risk_seeking_filter wq cfg epoch quantile0 memory_queue (Dso.metrics smp)
    = Ok (quantile, rows0, printed) ->
  exists q r_max p,
    quantile = Some q /\ In q (map Program.r (Sample.programs smp)) /\
    Np.max (map Program.r (Sample.programs smp)) = Ok r_max /\
    (q <= r_max)%Q /\
    In p (Dso.Rows.programs rows0) /\ Program.r p = r_max /\
    In r_max (Dso.Rows.r rows0) /\ In q (Dso.Rows.r rows0).
Proof.
  intros Hrisk Hmem Hrun.
  apply (dso_filter_on_inv wq) in Hrun as (eps & q & Heps & -> & Hq & Hfilter);
    [|exact Hrisk].
  rewrite Hmem in Hq. apply empirical_quantile_inv in Hq as [Hq ->].
  apply quantile_higher_In in Hq. cbn in Hq.
  assert (Hne : map Program.r (Sample.programs smp) <> []).
  { intros Hnil. rewrite Hnil in Hq. contradiction. }
  destruct (max_ok _ Hne) as (r_max & Hmax).
  destruct (max_spec _ _ Hmax) as (Hin & Hall).
  assert (Hle : (q <= r_max)%Q) by (rewrite List.Forall_forall in Hall; apply Hall, Hq).
  apply in_map_iff in Hin as (p & Hp & Hin).
  apply dso_filter_rows_inv in Hfilter as ((Hr & _ & _ & _ & Hprog & _) & _).
  unfold Dso.keep_mask in Hr, Hprog. cbn in Hr, Hprog.
  assert (Hkept : In p (Dso.Rows.programs rows0)).
  { rewrite Hprog. apply compress_ge_In; [exact Hin | rewrite Hp; exact Hle]. }
  exists q, r_max, p. repeat split; try assumption.
  - rewrite Hr, compress_map. rewrite <- Hp, <- Hprog. apply in_map. exact Hkept.
  - rewrite Hr, compress_map. apply in_map_iff in Hq as (p' & Hp' & Hin').
    apply in_map_iff. exists p'. split; [exact Hp'|].
    apply compress_ge_In; [exact Hin' | rewrite Hp'; apply Qle_refl].
Qed.

(** X1. In the dso variant, with risk seeking by the empirical quantile
    (the memory queue off), a filter that raises nothing has taken its
    quantile among the rewards of the batch, at most the maximum of the
    batch, and has kept a program that holds this maximum: the batch is
    never filtered down to nothing and never loses its best row. *)
Theorem empirical_quantile_keeps_the_best (cfg : Config.t) (epoch : nat)
    (quantile0 quantile : option Q) (memory_queue : option MQ) (smp : Sample.t)
    (rows0 : Dso.Rows.t) (printed : list Event) :
  risk_seeking (Config.epsilon cfg) = true ->
  Config.use_memory cfg = false ->
  Dso.risk_seeking_filter wq cfg epoch quantile0 memory_queue (Dso.metrics smp)
    = Ok (quantile, rows0, printed) ->
  exists q r_max p,
    quantile = Some q /\ In q (map Program.r (Sample.programs smp)) /\
    Np.max (map Program.r (Sample.programs smp)) = Ok r_max /\
    (q <= r_max)%Q /\
    In p (Dso.Rows.programs rows0) /\ Program.r p = r_max /\
    In r_max (Dso.Rows.r rows0) /\ In q (Dso.Rows.r rows0).
Proof.
  intros Hrisk Hmem Hrun.
  exact (dso_filter_keeps_max cfg epoch quantile0 quantile memory_queue smp rows0 printed
           Hrisk Hmem Hrun).
Qed.

Lemma dsr_filter_keeps_max (cfg : Config.t) (env : Dsr.Env.t)
    (epoch : nat) (quantile0 quantile : option Q) (memory_queue : option MQ)
    (smp : Sample.t) (rows0 : Dsr.Rows.t) (printed : list Event) :
  risk_seeking (Config.epsilon cfg) = true ->
  Config.use_memory cfg = false ->
  Forall (fun p => (Program.r p <= Program.base_r p)%Q) (Sample.programs smp) ->
  Dsr.risk_seeking_filter wq cfg env epoch quantile0 memory_queue (Dsr.metrics smp)
    = Ok (quantile, rows0, printed) ->
  exists q base_r_max p,
    quantile = Some q /\ In q (map Program.r (Sample.programs smp)) /\
    Np.max (map Program.base_r (Sample.programs smp)) = Ok base_r_max /\
    (q <= base_r_max)%Q /\
    In p (Dsr.Rows.programs rows0) /\ Program.base_r p = base_r_max /\
    In base_r_max (Dsr.Rows.base_r rows0).
Proof.
  intros Hrisk Hmem Hpen Hrun.
  apply (dsr_filter_on_inv wq) in Hrun as (eps & q & Heps & -> & Hq & Hfilter);
    [|exact Hrisk].
  rewrite Hmem in Hq. apply empirical_quantile_inv in Hq as [Hq ->].
  apply quantile_higher_In in Hq. cbn in Hq.
  assert (Hne : map Program.base_r (Sample.programs smp) <> []).
  { intros Hnil. apply map_eq_nil in Hnil. rewrite Hnil in Hq. contradiction. }
  destruct (max_ok _ Hne) as (b_max & Hmax).
  destruct (max_spec _ _ Hmax) as (Hin & Hall).
  assert (Hle : (q <= b_max)%Q).
  { apply in_map_iff in Hq as (p' & Hp' & Hin').
    rewrite List.Forall_forall in Hall, Hpen.
    apply Qle_trans with (Program.base_r p').
    - rewrite <- Hp'. apply Hpen, Hin'.
    - apply Hall, in_map, Hin'. }
  apply in_map_iff in Hin as (p & Hp & Hin).
  apply dsr_filter_rows_inv in Hfilter as ((Hb & _ & _ & _ & _ & Hprog) & _).
  unfold Dsr.keep_mask in Hb, Hprog. cbn in Hb, Hprog.
  assert (Hkept : In p (Dsr.Rows.programs rows0)).
  { rewrite Hprog. apply compress_ge_In; [exact Hin | rewrite Hp; exact Hle]. }
  exists q, b_max, p. repeat split; try assumption.
  rewrite Hb, compress_map. rewrite <- Hp, <- Hprog. apply in_map. exact Hkept.
Qed.

(** X2. In the dsr variant the mask is taken on [base_r] and the
    quantile on [r]. When no program has a reward above its base reward
    (the complexity penalty takes nothing negative away), a filter by
    the empirical quantile that raises nothing has kept a program that
    holds the maximum of [base_r] over the batch. *)
Theorem base_reward_maximum_survives_the_filter (cfg : Config.t) (env : Dsr.Env.t)
    (epoch : nat) (quantile0 quantile : option Q) (memory_queue : option MQ)
    (smp : Sample.t) (rows0 : Dsr.Rows.t) (printed : list Event) :
  risk_seeking (Config.epsilon cfg) = true ->
  Config.use_memory cfg = false ->
  Forall (fun p => (Program.r p <= Program.base_r p)%Q) (Sample.programs smp) ->
  Dsr.risk_seeking_filter wq cfg env epoch quantile0 memory_queue (Dsr.metrics smp)
    = Ok (quantile, rows0, printed) ->
  exists q base_r_max p,
    quantile = Some q /\ In q (map Program.r (Sample.programs smp)) /\
    Np.max (map Program.base_r (Sample.programs smp)) = Ok base_r_max /\
    (q <= base_r_max)%Q /\
    In p (Dsr.Rows.programs rows0) /\ Program.base_r p = base_r_max /\
    In base_r_max (Dsr.Rows.base_r rows0).
Proof.
  intros Hrisk Hmem Hpen Hrun.
  exact (dsr_filter_keeps_max cfg env epoch quantile0 quantile memory_queue smp rows0
           printed Hrisk Hmem Hpen Hrun).
Qed.

End KeepsTheBest.

Lemma empirical_quantile_keeps_the_best_witness :
  exists quantile rows0 printed,
    Dso.risk_seeking_filter (MQ:=TableQueue.t) weighted_quantile Example.half 0 None None
      (Dso.metrics (Example.sample Example.four)) = Ok (quantile, rows0, printed) /\
    exists q r_max p,
      quantile = Some q /\ In q (map Program.r Example.four) /\
      Np.max (map Program.r Example.four) = Ok r_max /\ (q <= r_max)%Q /\
      In p (Dso.Rows.programs rows0) /\ Program.r p = r_max /\
      In r_max (Dso.Rows.r rows0) /\ In q (Dso.Rows.r rows0).
Proof.
  destruct (Dso.risk_seeking_filter (MQ:=TableQueue.t) weighted_quantile Example.half 0
              None None (Dso.metrics (Example.sample Example.four)))
    as [[[quantile rows0] printed]|e] eqn:Hrun; [|vm_compute in Hrun; discriminate].
  exists quantile, rows0, printed. split; [reflexivity|].
  exact (empirical_quantile_keeps_the_best weighted_quantile Example.half 0 None quantile
           None (Example.sample Example.four) rows0 printed eq_refl eq_refl Hrun).
Defined.

Lemma base_reward_maximum_survives_the_filter_witness :
  exists quantile rows0 printed,
    Dsr.risk_seeking_filter (MQ:=TableQueue.t) weighted_quantile Example.half
      (Example.plain_env Example.four) 0 None None
      (Dsr.metrics (Example.sample Example.four)) = Ok (quantile, rows0, printed) /\
    exists q base_r_max p,
      quantile = Some q /\ In q (map Program.r Example.four) /\
      Np.max (map Program.base_r Example.four) = Ok base_r_max /\ (q <= base_r_max)%Q /\
      In p (Dsr.Rows.programs rows0) /\ Program.base_r p = base_r_max /\
      In base_r_max (Dsr.Rows.base_r rows0).
Proof.
  destruct (Dsr.risk_seeking_filter (MQ:=TableQueue.t) weighted_quantile Example.half
              (Example.plain_env Example.four) 0 None None
              (Dsr.metrics (Example.sample Example.four)))
    as [[[quantile rows0] printed]|e] eqn:Hrun; [|vm_compute in Hrun; discriminate].
  exists quantile, rows0, printed. split; [reflexivity|].
  apply (base_reward_maximum_survives_the_filter weighted_quantile Example.half
           (Example.plain_env Example.four) 0 None quantile None
           (Example.sample Example.four) rows0 printed eq_refl eq_refl); [|exact Hrun].
  repeat constructor; apply Qle_bool_iff; reflexivity.
Defined.

(** ** The batch handed to [train_step] *)

Lemma compress_In {A} (l : list A) (m : list bool) (x : A) :
  In x (Np.compress l m) -> In x l.
Proof.
  revert m. induction l as [|y l IH]; intros [|[] m]; cbn; try tauto.
  - intros [->|Hin]; [auto | right; eapply IH; exact Hin].
  - intros Hin. right. eapply IH; exact Hin.
Qed.

Lemma clip1_bounds (lo hi x : Q) :
  (lo <= hi)%Q -> (lo <= Np.clip1 lo hi x)%Q /\ (Np.clip1 lo hi x <= hi)%Q.
Proof.
  intros Hlh. unfold Np.clip1.
  destruct (Qle_bool x lo) eqn:Hlo; [split; [apply Qle_refl | exact Hlh]|].
  destruct (Qle_bool hi x) eqn:Hhi; [split; [exact Hlh | apply Qle_refl]|].
  apply Qle_bool_false in Hlo, Hhi. split; apply Qlt_le_weak; assumption.
Qed.

(** The rewards of the training step are clipped rewards of programs of
    the whole batch. *)
Lemma clipped_rewards (programs kept : list Program.t) :
  (forall p, In p kept -> In p programs) ->
  Forall (fun x => ((-1000000 <= x)%Q /\ (x <= 1000000)%Q) /\
                   exists p, In p programs /\
                             x = Np.clip1 (-1000000) 1000000 (Program.r p))
         (Np.clip (map Program.r kept) (-1000000) 1000000).
Proof.
  intros Hsub. unfold Np.clip. rewrite map_map. apply List.Forall_forall.
  intros x Hx. apply in_map_iff in Hx as (p & <- & Hp). split.
  - apply clip1_bounds. apply Qle_bool_iff. reflexivity.
  - exists p. split; [apply Hsub, Hp | reflexivity].
Qed.

Lemma lengths_capped (max_length : nat) (programs : list Program.t) :
  Forall (fun n => n <= max_length)
         (map (fun p => Nat.min (length (Program.traversal p)) max_length) programs).
Proof.
  apply List.Forall_forall. intros n Hn. apply in_map_iff in Hn as (p & <- & _). lia.
Qed.

Section TrainStepBatch.
Context {MQ : Type} `{MemoryQueue MQ}.
Variable wq : list Q -> list Q -> Q -> Q.

(** The rows after the filter of the dso variant: the arrays of the
    training step have one row count, and the programs are programs of
    the whole batch. *)
Lemma dso_filtered_shape (cfg : Config.t) (epoch : nat) (quantile0 quantile : option Q)
    (memory_queue : option MQ) (smp : Sample.t) (rows0 : Dso.Rows.t)
    (printed : list Event) :
  risk_seeking (Config.epsilon cfg) = true \/ DsoSpec.aligned (Dso.metrics smp) ->
  Dso.risk_seeking_filter wq cfg epoch quantile0 memory_queue (Dso.metrics smp)
    = Ok (quantile, rows0, printed) ->
  let n := length (Dso.Rows.p_train rows0) in
  Dso.Rows.r_train rows0 = map Program.r (Dso.Rows.p_train rows0) /\
  Dso.Rows.programs rows0 = Dso.Rows.p_train rows0 /\
  Dso.Rows.r rows0 = Dso.Rows.r_train rows0 /\
  (forall p, In p (Dso.Rows.p_train rows0) -> In p (Sample.programs smp)) /\
  length (Dso.Rows.actions rows0) = n /\
  Forall (fun o => length o = n) (Dso.Rows.obs rows0) /\
  length (Dso.Rows.priors rows0) = n /\
  length (Dso.Rows.on_policy rows0) = n.
Proof.
  intros Hor Hrun.
  destruct (risk_seeking_cases (Config.epsilon cfg)) as [(eps & _ & _ & Hon) | [_ Hoff]].
  - apply (dso_filter_on_inv wq) in Hrun as (eps' & q & _ & _ & _ & Hfilter);
      [|exact Hon].
    apply dso_filter_rows_inv in Hfilter
      as ((Hr & _ & _ & _ & Hprog & Ha & Ho & Hp & Hon' & Hrt & Hpt)
          & Hlr & Hla & Hlo & Hlp & Hlon).
    set (keep := Dso.keep_mask (Dso.metrics smp) q) in *.
    cbn in Hr, Hprog, Ha, Ho, Hp, Hon', Hrt, Hpt, Hlr, Hla, Hlo, Hlp, Hlon.
    rewrite length_map in Hlr.
    cbn zeta. rewrite Hrt, Hpt, Hprog, Hr, Ha, Ho, Hp, Hon'.
    repeat split.
    + apply compress_map.
    + intros p. apply compress_In.
    + apply compress_length_eq. congruence.
    + apply Forall_map. eapply Forall_impl; [exact Hlo|]. cbn. intros o Hlen.
      apply compress_length_eq. congruence.
    + apply compress_length_eq. congruence.
    + apply compress_length_eq. rewrite length_map. reflexivity.
  - rewrite (dso_filter_off wq) in Hrun by exact Hoff. injection Hrun as _ <- _.
    destruct Hor as [Hon | Hal]; [congruence|].
    destruct Hal as (_ & _ & Ha & Ho & Hp & Hon). cbn in Ha, Ho, Hp, Hon |- *.
    rewrite length_map in Ha, Ho, Hp, Hon. rewrite length_map.
    repeat split; auto.
Qed.

(** X3. In the dso variant, a pass that raises nothing hands
    [train_step] a batch whose arrays have one row count, whose lengths
    are at most [max_length] and whose rewards are rewards of programs
    of the sampled batch clipped to [-1e6, 1e6]. With risk seeking on this
    holds whatever the controller sampled (the boolean masks check the
    row counts); without it the sample must have one row count itself. *)
Theorem train_step_batch_well_formed (cfg : Config.t) (epoch : nat) (smp : Sample.t)
    (st st' : Dso.State.t MQ) :
  risk_seeking (Config.epsilon cfg) = true \/ DsoSpec.aligned (Dso.metrics smp) ->
  Dso.epoch_update wq cfg epoch smp st = Ok st' ->
  exists b batch,
    last (Dso.State.log st') = Some (TrainStep b batch) /\
    rectangular batch /\
    Forall (fun n => n <= Config.max_length cfg) (Batch.lengths batch) /\
    Forall (fun x => ((-1000000 <= x)%Q /\ (x <= 1000000)%Q) /\
                     exists p, In p (Sample.programs smp) /\
                               x = Np.clip1 (-1000000) 1000000 (Program.r p))
           (Batch.rewards batch).
Proof.
  intros Hor Hrun.
  apply dso_epoch_update_inv in Hrun
    as (pf & r_max & quantile & rows0 & printed & ewma & b & p_r_best
        & _ & _ & Hfilter & _ & _ & ->).
  destruct (dso_filtered_shape _ _ _ _ _ _ _ _ Hor Hfilter)
    as (Hrt & _ & _ & Hsub & Ha & Ho & Hp & Hon).
  exists b, (Dso.make_batch cfg (Dso.clip_rows rows0)). split; [apply last_of_log|].
  unfold rectangular, Dso.make_batch, Dso.clip_rows. cbn.
  rewrite clip_length, Hrt, !length_map. repeat split; try assumption.
  - apply lengths_capped.
  - apply clipped_rewards. exact Hsub.
Qed.

End TrainStepBatch.

Lemma train_step_batch_well_formed_witness :
  exists st',
    Dso.epoch_update (MQ:=TableQueue.t) weighted_quantile Example.half 0
      (Example.sample Example.four) (Example.dso_state (Some 0.3%Q)) = Ok st' /\
    exists b batch,
      last (Dso.State.log st') = Some (TrainStep b batch) /\
      rectangular batch /\
      Forall (fun n => n <= 30) (Batch.lengths batch) /\
      Forall (fun x => ((-1000000 <= x)%Q /\ (x <= 1000000)%Q) /\
                       exists p, In p Example.four /\
                                 x = Np.clip1 (-1000000) 1000000 (Program.r p))
             (Batch.rewards batch).
Proof.
  destruct (Dso.epoch_update (MQ:=TableQueue.t) weighted_quantile Example.half 0
              (Example.sample Example.four) (Example.dso_state (Some 0.3%Q)))
    as [st'|e] eqn:Hrun; [|vm_compute in Hrun; discriminate].
  exists st'. split; [reflexivity|].
  exact (train_step_batch_well_formed weighted_quantile Example.half 0
           (Example.sample Example.four) (Example.dso_state (Some 0.3%Q)) st'
           (or_introl eq_refl) Hrun).
Defined.

Section TrainStepBatchDsr.
Context {MQ : Type} `{MemoryQueue MQ}.
Variable wq : list Q -> list Q -> Q -> Q.

Lemma mask_of_training_length (env : Dsr.Env.t) (batch_size : nat) (keep : list bool) :
  length (DsrSpec.mask_of_training env batch_size keep) = length keep.
Proof.
  unfold DsrSpec.mask_of_training, Dsr.train_mask.
  destruct (Dsr.run_gp_meld env && negb (Dsr.return_gp_obs env));
    [apply clear_from_length | reflexivity].
Qed.

Lemma dsr_filtered_shape (cfg : Config.t) (env : Dsr.Env.t) (epoch : nat)
    (quantile0 quantile : option Q) (memory_queue : option MQ) (smp : Sample.t)
    (rows0 : Dsr.Rows.t) (printed : list Event) :
  risk_seeking (Config.epsilon cfg) = true \/ DsrSpec.aligned (Dsr.metrics smp) ->
  Dsr.risk_seeking_filter wq cfg env epoch quantile0 memory_queue (Dsr.metrics smp)
    = Ok (quantile, rows0, printed) ->
  let n := length (Dsr.Rows.p_train rows0) in
  Dsr.Rows.r_train rows0 = map Program.r (Dsr.Rows.p_train rows0) /\
  Dsr.Rows.r rows0 = map Program.r (Dsr.Rows.programs rows0) /\
  Dsr.Rows.base_r rows0 = map Program.base_r (Dsr.Rows.programs rows0) /\
  (forall p, In p (Dsr.Rows.p_train rows0) -> In p (Sample.programs smp)) /\
  (forall p, In p (Dsr.Rows.programs rows0) -> In p (Sample.programs smp)) /\
  length (Dsr.Rows.actions rows0) = n /\
  Forall (fun o => length o = n) (Dsr.Rows.obs rows0) /\
  length (Dsr.Rows.priors rows0) = n /\
  length (Dsr.Rows.on_policy rows0) = n.
Proof.
  intros Hor Hrun.
  destruct (risk_seeking_cases (Config.epsilon cfg)) as [(eps & _ & _ & Hon) | [_ Hoff]].
  - apply (dsr_filter_on_inv wq) in Hrun as (eps' & q & _ & _ & _ & Hfilter);
      [|exact Hon].
    pose proof (dsr_filter_rows_lengths _ _ _ _ _ Hfilter)
      as (Hlb & Hlr & Hla & Hlo & Hlp & Hlon).
    apply dsr_filter_rows_inv in Hfilter
      as ((Hb & Hr & _ & _ & _ & Hprog) & (Hrt & Hpt & Ha & Ho & Hp & Hon')).
    set (keep := Dsr.keep_mask (Dsr.metrics smp) q) in *.
    pose proof (mask_of_training_length env (Config.batch_size cfg) keep) as Hlm.
    set (m := DsrSpec.mask_of_training env (Config.batch_size cfg) keep) in *.
    cbn in Hb, Hr, Hprog, Ha, Ho, Hp, Hon', Hrt, Hpt, Hlb, Hlr, Hla, Hlo, Hlp, Hlon.
    rewrite length_map in Hlr.
    cbn zeta. rewrite Hrt, Hpt, Hprog, Hr, Hb, Ha, Ho, Hp, Hon'.
    repeat split.
    + apply compress_map.
    + apply compress_map.
    + apply compress_map.
    + intros p. apply compress_In.
    + intros p. apply compress_In.
    + apply compress_length_eq. congruence.
    + apply Forall_map. eapply Forall_impl; [exact Hlo|]. cbn. intros o Hlen.
      apply compress_length_eq. congruence.
    + apply compress_length_eq. congruence.
    + apply compress_length_eq. rewrite length_map. reflexivity.
  - rewrite (dsr_filter_off wq) in Hrun by exact Hoff. injection Hrun as _ <- _.
    destruct Hor as [Hon | Hal]; [congruence|].
    destruct Hal as (_ & _ & _ & Ha & Ho & Hp & Hon). cbn in Ha, Ho, Hp, Hon |- *.
    rewrite length_map in Ha, Ho, Hp, Hon. rewrite length_map.
    repeat split; auto.
Qed.

(** X4. In the dsr variant too, a pass that raises nothing hands
    [train_step] a batch whose arrays have one row count, also when the
    rows of the GP are cut out of the training step by the second mask;
    its lengths are at most [max_length] and its rewards are rewards of
    programs of the whole batch (the rows of the GP melded in) clipped
    to [-1e6, 1e6]. *)
Theorem dsr_training_batch_is_well_formed (cfg : Config.t) (env : Dsr.Env.t) (epoch : nat)
    (smp : Sample.t) (st st' : Dsr.State.t MQ) :
  risk_seeking (Config.epsilon cfg) = true \/ DsrSpec.aligned (Dsr.metrics smp) ->
  Dsr.epoch_update wq cfg env epoch smp st = Ok st' ->
  exists b batch,
    last (Dsr.State.log st') = Some (TrainStep b batch) /\
    rectangular batch /\
    Forall (fun n => n <= Config.max_length cfg) (Batch.lengths batch) /\
    Forall (fun x => ((-1000000 <= x)%Q /\ (x <= 1000000)%Q) /\
                     exists p, In p (Sample.programs smp) /\
                               x = Np.clip1 (-1000000) 1000000 (Program.r p))
           (Batch.rewards batch).
Proof.
  intros Hor Hrun.
  apply dsr_epoch_update_inv in Hrun
    as (pf & base_r_max & r_max & quantile & rows0 & printed & ewma & b & p_r_best
        & p_base_r_best & _ & _ & _ & Hfilter & _ & _ & _ & ->).
  destruct (dsr_filtered_shape _ _ _ _ _ _ _ _ _ Hor Hfilter)
    as (Hrt & _ & _ & Hsub & _ & Ha & Ho & Hp & Hon).
  exists b, (Dsr.make_batch cfg (Dsr.clip_rows rows0)). split; [apply last_of_log|].
  unfold rectangular, Dsr.make_batch, Dsr.clip_rows. cbn.
  rewrite clip_length, Hrt, !length_map. repeat split; try assumption.
  - apply lengths_capped.
  - apply clipped_rewards. exact Hsub.
Qed.

End TrainStepBatchDsr.

Lemma dsr_training_batch_is_well_formed_witness :
  exists st',
    Dsr.epoch_update (MQ:=TableQueue.t) weighted_quantile Example.gp_config
      (Example.gp_env false) 0 Example.gp_batch (Example.dsr_state (Some 0%Q)) = Ok st' /\
    exists b batch,
      last (Dsr.State.log st') = Some (TrainStep b batch) /\
      rectangular batch /\
      Forall (fun n => n <= 30) (Batch.lengths batch) /\
      Forall (fun x => ((-1000000 <= x)%Q /\ (x <= 1000000)%Q) /\
                       exists p, In p (Sample.programs Example.gp_batch) /\
                                 x = Np.clip1 (-1000000) 1000000 (Program.r p))
             (Batch.rewards batch).
Proof.
  destruct (Dsr.epoch_update (MQ:=TableQueue.t) weighted_quantile Example.gp_config
              (Example.gp_env false) 0 Example.gp_batch (Example.dsr_state (Some 0%Q)))
    as [st'|e] eqn:Hrun; [|vm_compute in Hrun; discriminate].
  exists st'. split; [reflexivity|].
  exact (dsr_training_batch_is_well_formed weighted_quantile Example.gp_config
           (Example.gp_env false) 0 Example.gp_batch (Example.dsr_state (Some 0%Q)) st'
           (or_introl eq_refl) Hrun).
Defined.

(** ** The best program that is tracked *)

Lemma argmax_from_spec (a : list Q) :
  forall (pre : list Q) (best : Q) (besti : nat),
    nth_error pre besti = Some best ->
    Forall (fun v => (v <= best)%Q) pre ->
    exists x, nth_error (pre ++ a) (Np.argmax_from a (length pre) best besti) = Some x /\
              Forall (fun v => (v <= x)%Q) (pre ++ a).
Proof.
  induction a as [|y a IH]; intros pre best besti Hnth Hall.
  - rewrite app_nil_r. cbn. eauto.
  - cbn [Np.argmax_from].
    assert (Hlt : besti < length pre) by (apply nth_error_Some; congruence).
    destruct (Qle_bool y best) eqn:Hy.
    + destruct (IH (pre ++ [y]) best besti) as (x & Hx & Hallx).
      * rewrite nth_error_app1 by exact Hlt. exact Hnth.
      * apply Forall_app. split; [exact Hall|].
        constructor; [apply Qle_bool_iff; exact Hy | constructor].
      * rewrite length_app, Nat.add_1_r, <- app_assoc in Hx.
        rewrite <- app_assoc in Hallx. eauto.
    + apply Qle_bool_false in Hy.
      destruct (IH (pre ++ [y]) y (length pre)) as (x & Hx & Hallx).
      * rewrite nth_error_app2 by lia. rewrite Nat.sub_diag. reflexivity.
      * apply Forall_app. split; [|constructor; [apply Qle_refl | constructor]].
        eapply Forall_impl; [exact Hall|]. cbn. intros v Hv.
        apply Qle_trans with best; [exact Hv | apply Qlt_le_weak, Hy].
      * rewrite length_app, Nat.add_1_r, <- app_assoc in Hx.
        rewrite <- app_assoc in Hallx. eauto.
Qed.

(** [np.argmax(a)] is the index of an entry that no entry exceeds. *)
Lemma argmax_spec (a : list Q) (i : nat) :
  Np.argmax a = Ok i ->
  exists x, nth_error a i = Some x /\ Forall (fun v => (v <= x)%Q) a.
Proof.
  destruct a as [|y a]; [discriminate|]. intros [= <-].
  apply (argmax_from_spec a [y] y 0); [reflexivity|].
  constructor; [apply Qle_refl | constructor].
Qed.

Lemma index_inv {A} (l : list A) (i : nat) (x : A) :
  Np.index l i = Ok x -> nth_error l i = Some x.
Proof.
  unfold Np.index. destruct (nth_error l i); [intros [= ->]; reflexivity | discriminate].
Qed.

(** [programs[np.argmax(a)]], where [a] holds the values [f] of the
    programs: a program of the list whose value no other exceeds. *)
Lemma best_of_programs (f : Program.t -> Q) (programs : list Program.t) (i : nat)
    (p : Program.t) :
  Np.argmax (map f programs) = Ok i -> Np.index programs i = Ok p ->
  In p programs /\ Forall (fun p' => (f p' <= f p)%Q) programs.
Proof.
  intros Harg Hidx. apply index_inv in Hidx.
  apply argmax_spec in Harg as (x & Hx & Hall).
  rewrite nth_error_map, Hidx in Hx. injection Hx as <-. split.
  - eapply nth_error_In. exact Hidx.
  - apply List.Forall_forall. intros p' Hp'. rewrite List.Forall_forall in Hall.
    apply Hall, in_map, Hp'.
Qed.

Lemma clip1_inside (lo hi x : Q) :
  (lo <= x)%Q -> (x <= hi)%Q -> (Np.clip1 lo hi x == x)%Q.
Proof.
  intros Hlo Hhi. unfold Np.clip1.
  destruct (Qle_bool x lo) eqn:H1.
  - apply Qle_bool_iff in H1. apply Qle_antisym; assumption.
  - destruct (Qle_bool hi x) eqn:H2; [|reflexivity].
    apply Qle_bool_iff in H2. apply Qle_antisym; assumption.
Qed.

Lemma clip1_monotone_inside (lo hi x y : Q) :
  (lo <= hi)%Q -> (lo <= x)%Q -> (x <= hi)%Q ->
  (Np.clip1 lo hi x <= Np.clip1 lo hi y)%Q -> (lo <= y)%Q -> (y <= hi)%Q -> (x <= y)%Q.
Proof.
  intros _ Hx1 Hx2 Hle Hy1 Hy2.
  rewrite (clip1_inside lo hi x Hx1 Hx2), (clip1_inside lo hi y Hy1 Hy2) in Hle.
  exact Hle.
Qed.

(** [max(a, b)], with [b] the best so far. *)
Lemma py_max_cases (a : Q) (b : option Q) :
  match b with
  | None => py_max a b = a
  | Some b' =>
      ((b' <= a)%Q /\ py_max a b = a) \/ ((a < b')%Q /\ py_max a b = b')
  end.
Proof.
  destruct b as [b'|]; [|reflexivity]. cbn.
  destruct (Qle_bool b' a) eqn:Hb.
  - left. split; [apply Qle_bool_iff; exact Hb | reflexivity].
  - right. split; [apply Qle_bool_false; exact Hb | reflexivity].
Qed.

Section BestProgram.
Context {MQ : Type} `{MemoryQueue MQ}.
Variable wq : list Q -> list Q -> Q -> Q.

(** With the memory queue off, the programs the filter of the dso
    variant keeps are programs of the batch, one of which holds the
    maximum of the batch. *)
Lemma dso_kept_programs (cfg : Config.t) (epoch : nat) (quantile0 quantile : option Q)
    (memory_queue : option MQ) (smp : Sample.t) (rows0 : Dso.Rows.t)
    (printed : list Event) (r_max : Q) :
  Config.use_memory cfg = false ->
  Dso.risk_seeking_filter wq cfg epoch quantile0 memory_queue (Dso.metrics smp)
    = Ok (quantile, rows0, printed) ->
  Np.max (map Program.r (Sample.programs smp)) = Ok r_max ->
  Dso.Rows.r rows0 = map Program.r (Dso.Rows.programs rows0) /\
  (forall p, In p (Dso.Rows.programs rows0) -> In p (Sample.programs smp)) /\
  exists p, In p (Dso.Rows.programs rows0) /\ Program.r p = r_max.
Proof.
  intros Hmem Hrun Hmax.
  destruct (risk_seeking_cases (Config.epsilon cfg)) as [(eps & _ & _ & Hon) | [_ Hoff]].
  - destruct (dso_filter_keeps_max wq cfg epoch quantile0 quantile memory_queue smp rows0
                printed Hon Hmem Hrun)
      as (q & r_max' & p & _ & _ & Hmax' & _ & Hp & Hrp & _).
    rewrite Hmax in Hmax'. injection Hmax' as <-.
    apply (dso_filter_on_inv wq) in Hrun as (eps' & q' & _ & _ & _ & Hfilter);
      [|exact Hon].
    apply dso_filter_rows_inv in Hfilter as ((Hr & _ & _ & _ & Hprog & _) & _).
    cbn in Hr, Hprog. repeat split.
    + rewrite Hr, Hprog. apply compress_map.
    + rewrite Hprog. intros p'. apply compress_In.
    + eauto.
  - rewrite (dso_filter_off wq) in Hrun by exact Hoff. injection Hrun as _ <- _.
    cbn. repeat split; [auto|].
    apply max_spec in Hmax as [Hin _]. apply in_map_iff in Hin as (p & Hp & Hin). eauto.
Qed.

(** One pass of the dso variant keeps the tracker right. *)
Lemma dso_pass_tracks_best (cfg : Config.t) (epoch : nat) (smp : Sample.t)
    (st st' : Dso.State.t MQ) :
  Config.use_memory cfg = false ->
  in_bounds (Sample.programs smp) ->
  DsoRun.fresh st \/ (exists x p, DsoRun.tracks_best st x p) ->
  Dso.epoch_update wq cfg epoch smp st = Ok st' ->
  exists x p,
    DsoRun.tracks_best st' x p /\
    Dso.State.epoch st' = Some epoch /\
    (forall p', In p' (Sample.programs smp) -> (Program.r p' <= x)%Q) /\
    (In p (Sample.programs smp) \/ Dso.State.p_r_best st = Some p) /\
    (forall x0, Dso.State.r_best st = Some x0 -> (x0 <= x)%Q).
Proof.
  intros Hmem Hb Hinv Hrun.
  apply dso_epoch_update_inv in Hrun
    as (pf & r_max & quantile & rows0 & printed & ewma & b & p_r_best
        & _ & Hmax & Hfilter & _ & Hbest & ->).
  destruct (dso_kept_programs _ _ _ _ _ _ _ _ _ Hmem Hfilter Hmax)
    as (Hr & Hsub & (pm & Hpm & Hrpm)).
  destruct (max_spec _ _ Hmax) as (_ & Hall).
  assert (Hle : forall p', In p' (Sample.programs smp) -> (Program.r p' <= r_max)%Q).
  { intros p' Hp'. rewrite List.Forall_forall in Hall. apply Hall, in_map, Hp'. }
  unfold in_bounds in Hb. rewrite List.Forall_forall in Hb.
  (* what a new best is *)
  assert (Hnew : forall i p,
            Np.argmax (Dso.Rows.r (Dso.clip_rows rows0)) = Ok i ->
            Np.index (Dso.Rows.programs (Dso.clip_rows rows0)) i = Ok p ->
            In p (Sample.programs smp) /\ (Program.r p == r_max)%Q).
  { intros i p Harg Hidx. cbn in Harg, Hidx.
    rewrite Hr in Harg. unfold Np.clip in Harg. rewrite map_map in Harg.
    destruct (best_of_programs _ _ _ _ Harg Hidx) as (Hin & Hbestall).
    split; [apply Hsub, Hin|].
    apply Qle_antisym; [apply Hle, Hsub, Hin|].
    rewrite List.Forall_forall in Hbestall. specialize (Hbestall pm Hpm). cbn in Hbestall.
    rewrite <- Hrpm.
    destruct (Hb pm (Hsub pm Hpm)) as [Hm1 Hm2].
    destruct (Hb p (Hsub p Hin)) as [Hp1 Hp2].
    rewrite (clip1_inside _ _ _ Hm1 Hm2), (clip1_inside _ _ _ Hp1 Hp2) in Hbestall.
    exact Hbestall. }
  unfold Dso.update_best in Hbest. unfold DsoRun.tracks_best. cbn.
  destruct Hinv as [[Hrb Hprev] | (x0 & p0 & Hp0 & Hrb & Hprev & Hx0)].
  - rewrite Hprev in Hbest. rewrite Hrb. cbn.
    apply bind_Ok_inv in Hbest as (i & Harg & Hbest).
    apply bind_Ok_inv in Hbest as (p & Hidx & Hbest). injection Hbest as <-.
    destruct (Hnew i p Harg Hidx) as [Hin Heq].
    exists r_max, p. repeat split; auto. discriminate.
  - rewrite Hprev in Hbest. rewrite Hrb.
    destruct (py_max_cases r_max (Some x0)) as [[Hge Hpm'] | [Hlt Hpm']]; rewrite Hpm'.
    + destruct (Qle_bool r_max x0) eqn:Hcmp; cbn in Hbest.
      * injection Hbest as <-. apply Qle_bool_iff in Hcmp.
        exists r_max, p0. repeat split; auto.
        -- rewrite Hx0. apply Qle_antisym; assumption.
        -- intros x1 [= <-]. exact Hge.
      * apply bind_Ok_inv in Hbest as (i & Harg & Hbest).
        apply bind_Ok_inv in Hbest as (p & Hidx & Hbest). injection Hbest as <-.
        destruct (Hnew i p Harg Hidx) as [Hin Heq].
        exists r_max, p. repeat split; auto.
        intros x1 [= <-]. exact Hge.
    + apply Qlt_le_weak in Hlt as Hle0. apply Qle_bool_iff in Hle0 as Hcmp.
      rewrite Hcmp in Hbest. cbn in Hbest. injection Hbest as <-.
      exists x0, p0. repeat split; auto.
      * intros p' Hp'. apply Qle_trans with r_max; [apply Hle, Hp' | exact Hle0].
      * intros x1 [= <-]. apply Qle_refl.
Qed.

(** The passes of the dso variant from a state whose tracker is right,
    or fresh. *)
Lemma dso_passes_track_best (cfg : Config.t) (env : Dso.Env.t) (k : nat) :
  forall (e : nat) (st st' : Dso.State.t MQ),
    Config.use_memory cfg = false ->
    (forall e', e <= e' < e + S k -> in_bounds (Sample.programs (Dso.Env.sample env e'))) ->
    DsoRun.fresh st \/ (exists x p, DsoRun.tracks_best st x p) ->
    DsoSpec.passes wq cfg env e (S k) st = Ok st' ->
    exists x p,
      DsoRun.tracks_best st' x p /\
      Dso.State.epoch st' = Some (e + k) /\
      (forall e' p', e <= e' < e + S k ->
         In p' (Sample.programs (Dso.Env.sample env e')) -> (Program.r p' <= x)%Q) /\
      ((exists e', e <= e' < e + S k /\ In p (Sample.programs (Dso.Env.sample env e')))
       \/ Dso.State.p_r_best st = Some p) /\
      (forall x0, Dso.State.r_best st = Some x0 -> (x0 <= x)%Q).
Proof.
  induction k as [|k IH]; intros e st st' Hmem Hb Hinv Hrun.
  - cbn in Hrun. apply bind_Ok_inv in Hrun as (st1 & Hstep & Hrun). injection Hrun as <-.
    destruct (dso_pass_tracks_best cfg e (Dso.Env.sample env e) st st1 Hmem
                ltac:(apply Hb; lia) Hinv Hstep)
      as (x & p & Htr & Hep & Hle & Hin & Hmono).
    exists x, p. repeat split; try apply Htr.
    + rewrite Nat.add_0_r. exact Hep.
    + intros e' p' He'. replace e' with e by lia. apply Hle.
    + destruct Hin as [Hin|Hin]; [left; exists e; split; [lia | exact Hin] | right; exact Hin].
    + exact Hmono.
  - change (DsoSpec.passes wq cfg env e (S (S k)) st)
      with (st1 ← Dso.epoch_update wq cfg e (Dso.Env.sample env e) st;
            DsoSpec.passes wq cfg env (S e) (S k) st1) in Hrun.
    apply bind_Ok_inv in Hrun as (st1 & Hstep & Hrun).
    destruct (dso_pass_tracks_best cfg e (Dso.Env.sample env e) st st1 Hmem
                ltac:(apply Hb; lia) Hinv Hstep)
      as (x1 & p1 & Htr1 & Hep1 & Hle1 & Hin1 & Hmono1).
    destruct (IH (S e) st1 st' Hmem ltac:(intros e' He'; apply Hb; lia)
                (or_intror (ex_intro _ x1 (ex_intro _ p1 Htr1))) Hrun)
      as (x & p & Htr & Hep & Hle & Hin & Hmono).
    assert (Hx1 : (x1 <= x)%Q) by (apply Hmono, Htr1).
    exists x, p. repeat split; try apply Htr.
    + rewrite Hep. f_equal. lia.
    + intros e' p' He' Hp'. destruct (Nat.eq_dec e' e) as [->|Hne].
      * apply Qle_trans with x1; [apply Hle1, Hp' | exact Hx1].
      * apply (Hle e' p'); [lia | exact Hp'].
    + destruct Hin as [(e' & He' & Hin) | Hin].
      * left. exists e'. split; [lia | exact Hin].
      * destruct Htr1 as (Hp1 & _). rewrite Hp1 in Hin. injection Hin as <-.
        destruct Hin1 as [Hin1|Hin1];
          [left; exists e; split; [lia | exact Hin1] | right; exact Hin1].
    + intros x0 Hx0. apply Qle_trans with x1; [apply Hmono1, Hx0 | exact Hx1].
Qed.

End BestProgram.

Section BestProgramRun.
Context {MQ : Type} `{MemoryQueue MQ}.
Variable wq : list Q -> list Q -> Q -> Q.

(** More of the state the loop starts from. *)
Lemma dso_init_state (cfg : Config.t) (env : Dso.Env.t) (st0 : Dso.State.t MQ) (n : Z) :
  Dso.init cfg env = Ok (st0, n) ->
  Dso.State.r_best st0 = None /\ Dso.State.prev_r_best st0 = None /\
  Dso.State.b_train st0 = None /\ Dso.State.nevals st0 = 0%Z /\
  Dso.State.log st0 = [] /\
  Dso.init_memory cfg (Dso.Env.warm env) = Ok (Dso.State.memory_queue st0).
Proof.
  unfold Dso.init. intros Hrun.
  destruct (Config.n_samples cfg), (Config.n_epochs cfg); try discriminate;
    apply bind_Ok_inv in Hrun as (mq & Hmq & Hrun);
    destruct (Config.stochastic cfg && Config.const_token cfg); try discriminate;
    destruct (Config.stochastic cfg && Config.save_pareto_front cfg); try discriminate;
    apply bind_Ok_inv in Hrun as (k & _ & Hrun); injection Hrun as <- <-;
    repeat split; exact Hmq.
Qed.

Lemma dsr_init_state (cfg : Config.t) (env : Dsr.Env.t) (st0 : Dsr.State.t MQ) (n : Z) :
  Dsr.init cfg env = Ok (st0, n) ->
  Dsr.State.base_r_best st0 = None /\ Dsr.State.prev_base_r_best st0 = None /\
  Dsr.State.b_train st0 = None /\ Dsr.State.nevals st0 = 0%Z /\
  Dsr.State.log st0 = [] /\
  Dsr.init_memory cfg (Dsr.Env.warm env) = Ok (Dsr.State.memory_queue st0).
Proof.
  unfold Dsr.init. intros Hrun.
  destruct (Config.n_samples cfg), (Config.n_epochs cfg); try discriminate;
    apply bind_Ok_inv in Hrun as (mq & Hmq & Hrun);
    destruct (Config.stochastic cfg && Config.const_token cfg); try discriminate;
    destruct (Config.stochastic cfg && Config.save_pareto_front cfg); try discriminate;
    apply bind_Ok_inv in Hrun as (k & _ & Hrun); injection Hrun as <- <-;
    repeat split; exact Hmq.
Qed.

(** A run that returns has made a number of passes from the state of
    [init], at least one when there is an epoch to run. *)
Lemma dso_run_passes (cfg : Config.t) (env : Dso.Env.t) (n : Z) (st : Dso.State.t MQ) :
  Dso.epochs cfg = Ok n -> (0 < n)%Z ->
  Dso.run wq cfg env = Ok st ->
  exists st0 k,
    Dso.init cfg env = Ok (st0, n) /\ (Z.of_nat k < n)%Z /\
    DsoSpec.passes wq cfg env 0 (S k) st0 = Ok st.
Proof.
  intros Hep Hpos Hrun. unfold Dso.run in Hrun.
  apply bind_Ok_inv in Hrun as ([st0 n'] & Hinit & Hrun).
  pose proof (dso_init_inv cfg env st0 n' Hinit) as (Hep' & _).
  rewrite Hep in Hep'. injection Hep' as <-.
  destruct (Z.to_nat n) as [|m] eqn:Hm; [lia|].
  apply (dso_loop_end wq) in Hrun as (k & Hk & Hpass & _).
  exists st0, k. repeat split; [exact Hinit | lia | exact Hpass].
Qed.

Lemma dsr_loop_passes (cfg : Config.t) (env : Dsr.Env.t) (n : nat) :
  forall (e : nat) (st st_f : Dsr.State.t MQ),
    Dsr.loop wq cfg env (S n) e st = Ok st_f ->
    exists k, k <= n /\ DsrRun.passes wq cfg env e (S k) st = Ok st_f.
Proof.
  induction n as [|n IH]; intros e st st_f Hrun;
    cbn [Dsr.loop] in Hrun;
    apply bind_Ok_inv in Hrun as ([st1 brk] & Hbody & Hrun);
    unfold Dsr.epoch_body in Hbody;
    apply bind_Ok_inv in Hbody as (smp & Hsmp & Hbody);
    apply bind_Ok_inv in Hbody as (st1' & Hup & Hbody);
    apply bind_Ok_inv in Hbody as (brk' & Hbrk & Hbody); injection Hbody as <- <-.
  - assert (Hst : st_f = st1') by (destruct brk'; congruence). subst st_f.
    exists 0. split; [lia|]. cbn [DsrRun.passes]. rewrite Hsmp, bind_Ok, Hup. reflexivity.
  - destruct brk'.
    + injection Hrun as <-. exists 0. split; [lia|].
      cbn [DsrRun.passes]. rewrite Hsmp, bind_Ok, Hup. reflexivity.
    + change (Dsr.loop wq cfg env (S n) (S e) st1' = Ok st_f) in Hrun.
      destruct (IH (S e) st1' st_f Hrun) as (k & Hk & Hpass).
      exists (S k). split; [lia|].
      change (DsrRun.passes wq cfg env e (S (S k)) st)
        with (smp ← Dsr.full_batch env e;
              st1 ← Dsr.epoch_update wq cfg env e smp st;
              DsrRun.passes wq cfg env (S e) (S k) st1).
      rewrite Hsmp, bind_Ok, Hup, bind_Ok. exact Hpass.
Qed.

Lemma dsr_run_passes (cfg : Config.t) (env : Dsr.Env.t) (n : Z) (st : Dsr.State.t MQ) :
  Dsr.epochs cfg = Ok n -> (0 < n)%Z ->
  Dsr.run wq cfg env = Ok st ->
  exists st0 k,
    Dsr.init cfg env = Ok (st0, n) /\ (Z.of_nat k < n)%Z /\
    DsrRun.passes wq cfg env 0 (S k) st0 = Ok st.
Proof.
  intros Hep Hpos Hrun. unfold Dsr.run in Hrun.
  apply bind_Ok_inv in Hrun as ([st0 n'] & Hinit & Hrun).
  pose proof (dsr_init_inv cfg env st0 n' Hinit) as (Hep' & _).
  rewrite Hep in Hep'. injection Hep' as <-.
  destruct (Z.to_nat n) as [|m] eqn:Hm; [lia|].
  apply dsr_loop_passes in Hrun as (k & Hk & Hpass).
  exists st0, k. repeat split; [exact Hinit | lia | exact Hpass].
Qed.

(** X5. A run of the dso variant with the memory queue off, every
    reward within the bounds of the clip, that makes a pass and returns:
    the program it tracks as the best ([p_r_best], the one [learn]
    describes when no success was met) was sampled in the run and holds
    the best reward of the run, [r_best], which no program of any batch
    of the run exceeds. *)
Theorem best_program_holds_the_best_reward (cfg : Config.t) (env : Dso.Env.t) (n : Z)
    (st : Dso.State.t MQ) :
  Dso.epochs cfg = Ok n -> (0 < n)%Z ->
  Config.use_memory cfg = false ->
  (forall e, in_bounds (Sample.programs (Dso.Env.sample env e))) ->
  Dso.run wq cfg env = Ok st ->
  exists e_last x p,
    Dso.State.epoch st = Some e_last /\ (Z.of_nat e_last < n)%Z /\
    Dso.State.p_r_best st = Some p /\ Dso.State.r_best st = Some x /\
    (Program.r p == x)%Q /\
    (exists e, e <= e_last /\ In p (Sample.programs (Dso.Env.sample env e))) /\
    (forall e p', e <= e_last -> In p' (Sample.programs (Dso.Env.sample env e)) ->
                  (Program.r p' <= x)%Q).
Proof.
  intros Hep Hpos Hmem Hb Hrun.
  destruct (dso_run_passes cfg env n st Hep Hpos Hrun) as (st0 & k & Hinit & Hk & Hpass).
  pose proof (dso_init_state cfg env st0 n Hinit) as (Hrb & Hprev & _).
  pose proof (dso_init_inv cfg env st0 n Hinit) as (_ & _ & _ & _ & _ & Hp0 & _).
  destruct (dso_passes_track_best wq cfg env k 0 st0 st Hmem
              ltac:(intros e' _; apply Hb) (or_introl (conj Hrb Hprev)) Hpass)
    as (x & p & (Hp & Hx & _ & Heq) & Hepoch & Hle & Hin & _).
  exists k, x, p. repeat split; try assumption.
  - destruct Hin as [(e' & He' & Hin) | Hin]; [|congruence].
    exists e'. split; [lia | exact Hin].
  - intros e p' He. apply Hle. lia.
Qed.

End BestProgramRun.

Lemma best_program_holds_the_best_reward_witness :
  exists st,
    Dso.run (MQ:=TableQueue.t) weighted_quantile Example.half (Example.dso_env Example.four)
      = Ok st /\
    exists e_last x p,
    Dso.State.epoch st = Some e_last /\ (Z.of_nat e_last < 2)%Z /\
    Dso.State.p_r_best st = Some p /\ Dso.State.r_best st = Some x /\
    (Program.r p == x)%Q /\
    (exists e, e <= e_last /\ In p Example.four) /\
    (forall e p', e <= e_last -> In p' Example.four -> (Program.r p' <= x)%Q).
Proof.
  destruct (Dso.run (MQ:=TableQueue.t) weighted_quantile Example.half
              (Example.dso_env Example.four)) as [st|e] eqn:Hrun;
    [|vm_compute in Hrun; discriminate].
  exists st. split; [reflexivity|].
  apply (best_program_holds_the_best_reward weighted_quantile Example.half
           (Example.dso_env Example.four) 2 st).
  - reflexivity.
  - reflexivity.
  - reflexivity.
  - intros e. repeat constructor; apply Qle_bool_iff; reflexivity.
  - exact Hrun.
Defined.

Section BestBaseProgram.
Context {MQ : Type} `{MemoryQueue MQ}.
Variable wq : list Q -> list Q -> Q -> Q.

Lemma dsr_kept_programs (cfg : Config.t) (env : Dsr.Env.t) (epoch : nat)
    (quantile0 quantile : option Q) (memory_queue : option MQ) (smp : Sample.t)
    (rows0 : Dsr.Rows.t) (printed : list Event) (b_max : Q) :
  Config.use_memory cfg = false ->
  (risk_seeking (Config.epsilon cfg) = true -> penalized (Sample.programs smp)) ->
  Dsr.risk_seeking_filter wq cfg env epoch quantile0 memory_queue (Dsr.metrics smp)
    = Ok (quantile, rows0, printed) ->
  Np.max (map Program.base_r (Sample.programs smp)) = Ok b_max ->
  Dsr.Rows.base_r rows0 = map Program.base_r (Dsr.Rows.programs rows0) /\
  (forall p, In p (Dsr.Rows.programs rows0) -> In p (Sample.programs smp)) /\
  exists p, In p (Dsr.Rows.programs rows0) /\ Program.base_r p = b_max.
Proof.
  intros Hmem Hpen Hrun Hmax.
  destruct (risk_seeking_cases (Config.epsilon cfg)) as [(eps & _ & _ & Hon) | [_ Hoff]].
  - destruct (dsr_filter_keeps_max wq cfg env epoch quantile0 quantile memory_queue smp
                rows0 printed Hon Hmem (Hpen Hon) Hrun)
      as (q & b_max' & p & _ & _ & Hmax' & _ & Hp & Hrp & _).
    rewrite Hmax in Hmax'. injection Hmax' as <-.
    apply (dsr_filter_on_inv wq) in Hrun as (eps' & q' & _ & _ & _ & Hfilter);
      [|exact Hon].
    apply dsr_filter_rows_inv in Hfilter as ((Hb & _ & _ & _ & _ & Hprog) & _).
    cbn in Hb, Hprog. repeat split.
    + rewrite Hb, Hprog. apply compress_map.
    + rewrite Hprog. intros p'. apply compress_In.
    + eauto.
  - rewrite (dsr_filter_off wq) in Hrun by exact Hoff. injection Hrun as _ <- _.
    cbn. repeat split; [auto|].
    apply max_spec in Hmax as [Hin _]. apply in_map_iff in Hin as (p & Hp & Hin). eauto.
Qed.

Lemma dsr_pass_tracks_best (cfg : Config.t) (env : Dsr.Env.t) (epoch : nat)
    (smp : Sample.t) (st st' : Dsr.State.t MQ) :
  Config.use_memory cfg = false ->
  (risk_seeking (Config.epsilon cfg) = true -> penalized (Sample.programs smp)) ->
  DsrRun.fresh st \/ (exists x p, DsrRun.tracks_best st x p) ->
  Dsr.epoch_update wq cfg env epoch smp st = Ok st' ->
  exists x p,
    DsrRun.tracks_best st' x p /\
    Dsr.State.epoch st' = Some epoch /\
    (forall p', In p' (Sample.programs smp) -> (Program.base_r p' <= x)%Q) /\
    (In p (Sample.programs smp) \/ Dsr.State.p_base_r_best st = Some p) /\
    (forall x0, Dsr.State.base_r_best st = Some x0 -> (x0 <= x)%Q).
Proof.
  intros Hmem Hpen Hinv Hrun.
  apply dsr_epoch_update_inv in Hrun
    as (pf & b_max & r_max & quantile & rows0 & printed & ewma & b & p_r_best & p_best
        & _ & Hmax & _ & Hfilter & _ & _ & Hbest & ->).
  destruct (dsr_kept_programs _ _ _ _ _ _ _ _ _ _ Hmem Hpen Hfilter Hmax)
    as (Hr & Hsub & (pm & Hpm & Hrpm)).
  destruct (max_spec _ _ Hmax) as (_ & Hall).
  assert (Hle : forall p', In p' (Sample.programs smp) -> (Program.base_r p' <= b_max)%Q).
  { intros p' Hp'. rewrite List.Forall_forall in Hall. apply Hall, in_map, Hp'. }
  assert (Hnew : forall i p,
            Np.argmax (Dsr.Rows.base_r (Dsr.clip_rows rows0)) = Ok i ->
            Np.index (Dsr.Rows.programs (Dsr.clip_rows rows0)) i = Ok p ->
            In p (Sample.programs smp) /\ (Program.base_r p == b_max)%Q).
  { intros i p Harg Hidx. cbn in Harg, Hidx. rewrite Hr in Harg.
    destruct (best_of_programs _ _ _ _ Harg Hidx) as (Hin & Hbestall).
    split; [apply Hsub, Hin|].
    apply Qle_antisym; [apply Hle, Hsub, Hin|].
    rewrite List.Forall_forall in Hbestall. specialize (Hbestall pm Hpm). cbn in Hbestall.
    rewrite <- Hrpm. exact Hbestall. }
  unfold Dsr.update_best in Hbest. unfold DsrRun.tracks_best. cbn.
  destruct Hinv as [[Hrb Hprev] | (x0 & p0 & Hp0 & Hrb & Hprev & Hx0)].
  - rewrite Hprev in Hbest. rewrite Hrb. cbn.
    apply bind_Ok_inv in Hbest as (i & Harg & Hbest).
    apply bind_Ok_inv in Hbest as (p & Hidx & Hbest). injection Hbest as <-.
    destruct (Hnew i p Harg Hidx) as [Hin Heq].
    exists b_max, p. repeat split; auto. discriminate.
  - rewrite Hprev in Hbest. rewrite Hrb.
    destruct (py_max_cases b_max (Some x0)) as [[Hge Hpm'] | [Hlt Hpm']]; rewrite Hpm'.
    + destruct (Qle_bool b_max x0) eqn:Hcmp; cbn in Hbest.
      * injection Hbest as <-. apply Qle_bool_iff in Hcmp.
        exists b_max, p0. repeat split; auto.
        -- rewrite Hx0. apply Qle_antisym; assumption.
        -- intros x1 [= <-]. exact Hge.
      * apply bind_Ok_inv in Hbest as (i & Harg & Hbest).
        apply bind_Ok_inv in Hbest as (p & Hidx & Hbest). injection Hbest as <-.
        destruct (Hnew i p Harg Hidx) as [Hin Heq].
        exists b_max, p. repeat split; auto.
        intros x1 [= <-]. exact Hge.
    + apply Qlt_le_weak in Hlt as Hle0. apply Qle_bool_iff in Hle0 as Hcmp.
      rewrite Hcmp in Hbest. cbn in Hbest. injection Hbest as <-.
      exists x0, p0. repeat split; auto.
      * intros p' Hp'. apply Qle_trans with b_max; [apply Hle, Hp' | exact Hle0].
      * intros x1 [= <-]. apply Qle_refl.
Qed.

Lemma dsr_passes_track_best (cfg : Config.t) (env : Dsr.Env.t) (k : nat) :
  forall (e : nat) (st st' : Dsr.State.t MQ),
    Config.use_memory cfg = false ->
    (risk_seeking (Config.epsilon cfg) = true ->
     forall e' smp, Dsr.full_batch env e' = Ok smp -> penalized (Sample.programs smp)) ->
    DsrRun.fresh st \/ (exists x p, DsrRun.tracks_best st x p) ->
    DsrRun.passes wq cfg env e (S k) st = Ok st' ->
    exists x p,
      DsrRun.tracks_best st' x p /\
      Dsr.State.epoch st' = Some (e + k) /\
      (forall e' smp p', e <= e' < e + S k -> Dsr.full_batch env e' = Ok smp ->
         In p' (Sample.programs smp) -> (Program.base_r p' <= x)%Q) /\
      ((exists e' smp, e <= e' < e + S k /\ Dsr.full_batch env e' = Ok smp /\
                       In p (Sample.programs smp))
       \/ Dsr.State.p_base_r_best st = Some p) /\
      (forall x0, Dsr.State.base_r_best st = Some x0 -> (x0 <= x)%Q).
Proof.
  induction k as [|k IH]; intros e st st' Hmem Hpen Hinv Hrun.
  - cbn in Hrun. apply bind_Ok_inv in Hrun as (smp & Hsmp & Hrun).
    apply bind_Ok_inv in Hrun as (st1 & Hstep & Hrun). injection Hrun as <-.
    destruct (dsr_pass_tracks_best cfg env e smp st st1 Hmem
                ltac:(intros Hon; exact (Hpen Hon e smp Hsmp)) Hinv Hstep)
      as (x & p & Htr & Hep & Hle & Hin & Hmono).
    exists x, p. repeat split; try apply Htr.
    + rewrite Nat.add_0_r. exact Hep.
    + intros e' smp' p' He' Hsmp'. replace e' with e in Hsmp' by lia.
      rewrite Hsmp in Hsmp'. injection Hsmp' as <-. apply Hle.
    + destruct Hin as [Hin|Hin]; [left; exists e, smp; repeat split; [lia | lia | exact Hsmp | exact Hin] | right; exact Hin].
    + exact Hmono.
  - change (DsrRun.passes wq cfg env e (S (S k)) st)
      with (smp ← Dsr.full_batch env e;
            st1 ← Dsr.epoch_update wq cfg env e smp st;
            DsrRun.passes wq cfg env (S e) (S k) st1) in Hrun.
    apply bind_Ok_inv in Hrun as (smp & Hsmp & Hrun).
    apply bind_Ok_inv in Hrun as (st1 & Hstep & Hrun).
    destruct (dsr_pass_tracks_best cfg env e smp st st1 Hmem
                ltac:(intros Hon; exact (Hpen Hon e smp Hsmp)) Hinv Hstep)
      as (x1 & p1 & Htr1 & Hep1 & Hle1 & Hin1 & Hmono1).
    destruct (IH (S e) st1 st' Hmem Hpen
                (or_intror (ex_intro _ x1 (ex_intro _ p1 Htr1))) Hrun)
      as (x & p & Htr & Hep & Hle & Hin & Hmono).
    assert (Hx1 : (x1 <= x)%Q) by (apply Hmono, Htr1).
    exists x, p. repeat split; try apply Htr.
    + rewrite Hep. f_equal. lia.
    + intros e' smp' p' He' Hsmp' Hp'. destruct (Nat.eq_dec e' e) as [->|Hne].
      * rewrite Hsmp in Hsmp'. injection Hsmp' as <-.
        apply Qle_trans with x1; [apply Hle1, Hp' | exact Hx1].
      * apply (Hle e' smp' p'); [lia | exact Hsmp' | exact Hp'].
    + destruct Hin as [(e' & smp' & He' & Hsmp' & Hin) | Hin].
      * left. exists e', smp'. repeat split; [lia | lia | exact Hsmp' | exact Hin].
      * destruct Htr1 as (Hp1 & _). rewrite Hp1 in Hin. injection Hin as <-.
        destruct Hin1 as [Hin1|Hin1];
          [left; exists e, smp; repeat split; [lia | lia | exact Hsmp | exact Hin1]
          | right; exact Hin1].
    + intros x0 Hx0. apply Qle_trans with x1; [apply Hmono1, Hx0 | exact Hx1].
Qed.

(** X6. A run of the dsr variant with the memory queue off that makes
    a pass and returns: the program it tracks in [p_base_r_best] (the
    one [learn] describes when no success was met) is a program of a
    batch of the run, the rows of the GP counted in, and holds the best
    base reward of the run, [base_r_best], which no program of any batch
    exceeds. With risk seeking on this needs that no program has a
    reward above its base reward, since the quantile is taken on [r] and
    the mask on [base_r]. *)
Theorem best_base_program_is_returned (cfg : Config.t) (env : Dsr.Env.t) (n : Z)
    (st : Dsr.State.t MQ) :
  Dsr.epochs cfg = Ok n -> (0 < n)%Z ->
  Config.use_memory cfg = false ->
  (risk_seeking (Config.epsilon cfg) = true ->
   forall e smp, Dsr.full_batch env e = Ok smp -> penalized (Sample.programs smp)) ->
  Dsr.run wq cfg env = Ok st ->
  exists e_last x p,
    Dsr.State.epoch st = Some e_last /\ (Z.of_nat e_last < n)%Z /\
    Dsr.State.p_base_r_best st = Some p /\ Dsr.State.base_r_best st = Some x /\
    (Program.base_r p == x)%Q /\
    (exists e smp, e <= e_last /\ Dsr.full_batch env e = Ok smp /\
                   In p (Sample.programs smp)) /\
    (forall e smp p', e <= e_last -> Dsr.full_batch env e = Ok smp ->
                      In p' (Sample.programs smp) -> (Program.base_r p' <= x)%Q).
Proof.
  intros Hep Hpos Hmem Hpen Hrun.
  destruct (dsr_run_passes wq cfg env n st Hep Hpos Hrun) as (st0 & k & Hinit & Hk & Hpass).
  pose proof (dsr_init_state cfg env st0 n Hinit) as (Hrb & Hprev & _).
  pose proof (dsr_init_inv cfg env st0 n Hinit) as (_ & _ & _ & _ & _ & _ & Hp0 & _).
  destruct (dsr_passes_track_best cfg env k 0 st0 st Hmem Hpen
              (or_introl (conj Hrb Hprev)) Hpass)
    as (x & p & (Hp & Hx & _ & Heq) & Hepoch & Hle & Hin & _).
  exists k, x, p. repeat split; try assumption.
  - destruct Hin as [(e' & smp & He' & Hsmp & Hin) | Hin]; [|congruence].
    exists e', smp. repeat split; [lia | exact Hsmp | exact Hin].
  - intros e smp p' He. apply Hle. lia.
Qed.

End BestBaseProgram.

Lemma best_base_program_is_returned_witness :
  exists st,
    Dsr.run (MQ:=TableQueue.t) weighted_quantile Example.gp_config (Example.gp_env true)
      = Ok st /\
    exists e_last x p,
      Dsr.State.epoch st = Some e_last /\ (Z.of_nat e_last < 2)%Z /\
      Dsr.State.p_base_r_best st = Some p /\ Dsr.State.base_r_best st = Some x /\
      (Program.base_r p == x)%Q /\
      (exists e smp, e <= e_last /\ Dsr.full_batch (Example.gp_env true) e = Ok smp /\
                     In p (Sample.programs smp)) /\
      (forall e smp p', e <= e_last -> Dsr.full_batch (Example.gp_env true) e = Ok smp ->
                        In p' (Sample.programs smp) -> (Program.base_r p' <= x)%Q).
Proof.
  destruct (Dsr.run (MQ:=TableQueue.t) weighted_quantile Example.gp_config
              (Example.gp_env true)) as [st|e] eqn:Hrun;
    [|vm_compute in Hrun; discriminate].
  exists st. split; [reflexivity|].
  apply (best_base_program_is_returned weighted_quantile Example.gp_config
           (Example.gp_env true) 2 st).
  - reflexivity.
  - reflexivity.
  - reflexivity.
  - intros _ e smp Hsmp. vm_compute in Hsmp. injection Hsmp as <-.
    repeat constructor; apply Qle_bool_iff; reflexivity.
  - exact Hrun.
Defined.

(** ** A pass that raises nothing *)

Lemma index_True_ok (programs : list Program.t) :
  boolean_success programs -> any (map Program.success programs) = true ->
  forall k, exists i p,
    index_True_from (map Program.success programs) k = Ok (k + i) /\
    nth_error programs i = Some p.
Proof.
  induction programs as [|p0 l IH]; intros Hb Hany k; [discriminate|].
  apply Forall_cons in Hb as [Hp0 Hl]. cbn in Hany |- *.
  destruct (eq_True (Program.success p0)) eqn:Het.
  - exists 0, p0. rewrite Nat.add_0_r. auto.
  - rewrite Hp0 in Hany. cbn in Hany.
    destruct (IH Hl Hany (S k)) as (i & p & Hi & Hp).
    exists (S i), p. rewrite Hi. split; [f_equal; lia | exact Hp].
Qed.

Lemma dso_check_success_ok (eval_all : bool) (programs : list Program.t)
    (p_final : option Program.t) :
  (eval_all = true -> boolean_success programs) ->
  exists pf, Dso.check_success eval_all programs p_final = Ok pf.
Proof.
  intros Hb. unfold Dso.check_success.
  destruct eval_all; cbn; [|eauto].
  destruct (any (map Program.success programs)) eqn:Hany; [|eauto].
  destruct (index_True_ok programs (Hb eq_refl) Hany 0) as (i & p & Hi & Hp).
  unfold index_True. rewrite Hi. cbn. unfold Np.index. rewrite Hp. cbn. eauto.
Qed.

Lemma dsr_check_success_ok (eval_all : bool) (programs : list Program.t)
    (p_final : option Program.t) :
  (eval_all = true -> boolean_success programs) ->
  exists pf, Dsr.check_success eval_all programs p_final = Ok pf.
Proof.
  intros Hb. unfold Dsr.check_success.
  destruct eval_all; cbn; [|eauto].
  destruct (any (map Program.success programs)) eqn:Hany; [|eauto].
  destruct (index_True_ok programs (Hb eq_refl) Hany 0) as (i & p & Hi & Hp).
  unfold index_True. rewrite Hi. cbn. unfold Np.index. rewrite Hp. cbn. eauto.
Qed.

(** With the quantile bound, every baseline [learn] knows gives a
    [b_train], when the rewards of the training step are not empty. *)
Lemma known_baseline_ok (baseline : string) (alpha q : Q) (ewma b_train : option Np.float)
    (r_train : list Q) :
  known_baseline baseline -> r_train <> [] ->
  exists ewma' b,
    compute_baseline baseline alpha (Some q) ewma b_train r_train = Ok (ewma', Some b).
Proof.
  intros [-> | [-> | [-> | ->]]] Hne; unfold compute_baseline; cbn.
  - eauto.
  - eauto.
  - destruct ewma as [e|]; cbn; [eauto|].
    destruct (min_ok r_train Hne) as (m & ->). cbn. eauto.
  - destruct ewma as [e|]; cbn; eauto.
Qed.

Section PassReturns.
Context {MQ : Type} `{MemoryQueue MQ}.
Variable wq : list Q -> list Q -> Q -> Q.

Lemma dso_pass_ok (cfg : Config.t) (epoch : nat) (smp : Sample.t) (st : Dso.State.t MQ)
    (eps : Q) :
  Config.epsilon cfg = Some eps -> (0 <= eps)%Q -> (eps < 1)%Q ->
  Config.use_memory cfg = false ->
  known_baseline (Config.baseline cfg) ->
  Sample.programs smp <> [] ->
  DsoSpec.aligned (Dso.metrics smp) ->
  (Config.eval_all cfg = true -> boolean_success (Sample.programs smp)) ->
  exists st',
    Dso.epoch_update wq cfg epoch smp st = Ok st' /\
    Dso.State.epoch st' = Some epoch /\
    (Dso.State.prev_r_best st = None \/ is_Some (Dso.State.p_r_best st) ->
     is_Some (Dso.State.p_r_best st')).
Proof.
  intros Heps H0 H1 Hmem Hbase Hne Hal Hflags.
  destruct (dso_check_success_ok (Config.eval_all cfg) (Sample.programs smp)
              (Dso.State.p_final st) Hflags) as (pf & Hcs).
  destruct (max_ok (map Program.r (Sample.programs smp)) (map_not_nil _ _ Hne))
    as (r_max & Hmax).
  destruct (quantile_higher_ok (map Program.r (Sample.programs smp)) (1 - eps)
              (map_not_nil _ _ Hne)) as (q & Hq).
  { apply (proj1 (Qle_minus_iff eps 1)). apply Qlt_le_weak. exact H1. }
  { apply Qle_minus_iff.
    assert (Heq : (1 + - (1 - eps) == eps)%Q) by ring. rewrite Heq. exact H0. }
  assert (Hcq : compute_quantile wq (Config.use_memory cfg) (Dso.State.memory_queue st)
                  (Dso.Rows.programs (Dso.metrics smp)) (Dso.Rows.r (Dso.metrics smp)) eps
                  (Config.memory_threshold cfg) epoch = Ok (q, [])).
  { rewrite Hmem. unfold compute_quantile. cbn. rewrite Hq. reflexivity. }
  destruct (dso_risk_seeking_filter_ok wq cfg epoch eps (Dso.State.quantile st)
              (Dso.State.memory_queue st) (Dso.metrics smp) q [] Heps H1 Hal Hcq)
    as (rows0 & Hfilter & _).
  assert (Hon : risk_seeking (Config.epsilon cfg) = true).
  { rewrite Heps. cbn. rewrite (Qlt_not_le_bool _ _ H1). reflexivity. }
  destruct (dso_filter_keeps_max wq cfg epoch _ _ _ smp rows0 [] Hon Hmem Hfilter)
    as (q' & r_max' & p & _ & _ & _ & _ & _ & _ & Hin & _).
  destruct (dso_kept_programs wq cfg epoch _ _ _ smp rows0 [] r_max Hmem Hfilter Hmax)
    as (Hr & _ & _).
  destruct (dso_filtered_shape wq cfg epoch _ _ _ smp rows0 [] (or_introl Hon) Hfilter)
    as (Hrt & Hprog & Hrr & _).
  assert (Hrne : Dso.Rows.r rows0 <> []) by (intros Hnil; rewrite Hnil in Hin; contradiction).
  assert (Hcne : Dso.Rows.r_train (Dso.clip_rows rows0) <> []).
  { cbn. unfold Np.clip. apply map_not_nil. rewrite <- Hrr. exact Hrne. }
  destruct (known_baseline_ok (Config.baseline cfg) (Config.alpha cfg) q
              (Dso.State.ewma st) (Dso.State.b_train st) _ Hbase Hcne)
    as (ewma' & b & Hb).
  assert (Hbest : exists pb,
            Dso.update_best (Dso.State.prev_r_best st) r_max (Dso.clip_rows rows0)
              (Dso.State.p_r_best st) = Ok pb /\
            (Dso.State.prev_r_best st = None \/ is_Some (Dso.State.p_r_best st) ->
             is_Some pb)).
  { unfold Dso.update_best.
    destruct (argmax_index_ok (Dso.Rows.r (Dso.clip_rows rows0))
                (Dso.Rows.programs (Dso.clip_rows rows0))) as (i & pi & Hi & Hpi).
    - cbn. unfold Np.clip. apply map_not_nil. exact Hrne.
    - cbn. rewrite clip_length, Hr, length_map. reflexivity.
    - destruct (Dso.State.prev_r_best st) as [prev|].
      + destruct (negb (Qle_bool r_max prev)).
        * rewrite Hi, bind_Ok, Hpi, bind_Ok. eexists. split; [reflexivity | eauto].
        * eexists. split; [reflexivity|]. intros [Hc|Hs]; [discriminate | exact Hs].
      + rewrite Hi, bind_Ok, Hpi, bind_Ok. eexists. split; [reflexivity | eauto]. }
  destruct Hbest as (pb & Hbest & Hsome).
  unfold Dso.epoch_update.
  change (Dso.Rows.programs (Dso.metrics smp)) with (Sample.programs smp).
  change (Dso.Rows.r (Dso.metrics smp)) with (map Program.r (Sample.programs smp)).
  rewrite Hcs, bind_Ok, Hmax, bind_Ok, Hfilter, bind_Ok. cbn match.
  rewrite Hb, bind_Ok. cbn match. cbn [read]. rewrite bind_Ok, Hbest, bind_Ok.
  eexists. split; [reflexivity|]. cbn. split; [reflexivity | exact Hsome].
Qed.

(** The number of epochs that is derived from the budget of samples. *)
Lemma derived_epochs (ns : Q) (b : nat) :
  (0 <= ns)%Q -> 0 < b ->
  let n := py_int (ns / inject_Z (Z.of_nat b)) in
  (0 <= n)%Z /\
  (inject_Z (n * Z.of_nat b) <= ns)%Q /\ (ns < inject_Z ((n + 1) * Z.of_nat b))%Q.
Proof.
  intros Hns Hb. cbn zeta.
  assert (Hbq : (0 < inject_Z (Z.of_nat b))%Q).
  { change 0%Q with (inject_Z 0). rewrite <- Zlt_Qlt. lia. }
  assert (Hx : (0 <= ns / inject_Z (Z.of_nat b))%Q).
  { apply Qle_shift_div_l; [exact Hbq|]. rewrite Qmult_0_l. exact Hns. }
  unfold py_int. apply Qle_bool_iff in Hx as Hxb. rewrite Hxb.
  set (x := (ns / inject_Z (Z.of_nat b))%Q) in *.
  assert (Hmul : (x * inject_Z (Z.of_nat b) == ns)%Q).
  { unfold x. field. intros Hc. rewrite Hc in Hbq. apply (Qlt_irrefl _ Hbq). }
  repeat split.
  - rewrite <- (Qfloor_Z 0). apply Qfloor_resp_le. exact Hx.
  - rewrite inject_Z_mult, <- Hmul.
    apply Qmult_le_compat_r; [apply Qfloor_le | apply Qlt_le_weak, Hbq].
  - rewrite inject_Z_mult, <- Hmul.
    apply Qmult_lt_compat_r; [exact Hbq | apply Qlt_floor].
Qed.

Lemma dso_epochs_derived (cfg : Config.t) (ns : Q) :
  Config.n_epochs cfg = None -> Config.n_samples cfg = Some ns ->
  (0 <= ns)%Q -> 0 < Config.batch_size cfg ->
  Dso.epochs cfg = Ok (py_int (ns / inject_Z (Z.of_nat (Config.batch_size cfg)))).
Proof.
  intros He Hs Hns Hb. unfold Dso.epochs. rewrite He, Hs.
  destruct (Nat.eqb_spec (Config.batch_size cfg) 0) as [Hz|_]; [lia|].
  rewrite bind_Ok.
  destruct (derived_epochs ns (Config.batch_size cfg) Hns Hb) as (Hn & _).
  destruct (Z.ltb_spec (py_int (ns / inject_Z (Z.of_nat (Config.batch_size cfg)))) 0);
    [lia | reflexivity].
Qed.

Lemma dsr_epochs_derived (cfg : Config.t) (ns : Q) :
  Config.n_epochs cfg = None -> Config.n_samples cfg = Some ns ->
  (0 <= ns)%Q -> 0 < Config.batch_size cfg ->
  Dsr.epochs cfg = Ok (py_int (ns / inject_Z (Z.of_nat (Config.batch_size cfg)))).
Proof.
  intros He Hs Hns Hb. unfold Dsr.epochs. rewrite He, Hs.
  destruct (Nat.eqb_spec (Config.batch_size cfg) 0) as [Hz|_]; [lia|].
  rewrite bind_Ok.
  destruct (derived_epochs ns (Config.batch_size cfg) Hns Hb) as (Hn & _).
  destruct (Z.ltb_spec (py_int (ns / inject_Z (Z.of_nat (Config.batch_size cfg)))) 0);
    [lia | reflexivity].
Qed.

End PassReturns.

(** ** The number of epochs and the budget of samples *)

(** X7. When [n_epochs] is not given, the budget [n_samples] is not
    negative and the batch is not empty, both variants derive the same
    number of epochs, [int(n_samples / batch_size)]: the number of whole
    batches within the budget. *)
Theorem epochs_fill_the_budget (cfg : Config.t) (ns : Q) :
  Config.n_epochs cfg = None -> Config.n_samples cfg = Some ns ->
  (0 <= ns)%Q -> 0 < Config.batch_size cfg ->
  exists n,
    Dso.epochs cfg = Ok n /\ Dsr.epochs cfg = Ok n /\ (0 <= n)%Z /\
    (inject_Z (n * Z.of_nat (Config.batch_size cfg)) <= ns)%Q /\
    (ns < inject_Z ((n + 1) * Z.of_nat (Config.batch_size cfg)))%Q.
Proof.
  intros He Hs Hns Hb.
  exists (py_int (ns / inject_Z (Z.of_nat (Config.batch_size cfg)))).
  split; [apply dso_epochs_derived; assumption|].
  split; [apply dsr_epochs_derived; assumption|].
  apply derived_epochs; assumption.
Qed.

Lemma epochs_fill_the_budget_witness :
  exists n,
    Dso.epochs Example.half = Ok n /\ Dsr.epochs Example.half = Ok n /\ (0 <= n)%Z /\
    (inject_Z (n * 4) <= 8)%Q /\ (8 < inject_Z ((n + 1) * 4))%Q.
Proof.
  apply (epochs_fill_the_budget Example.half 8).
  - reflexivity.
  - reflexivity.
  - apply Qle_bool_iff. reflexivity.
  - cbn. lia.
Defined.

Section Budget2.
Context {MQ : Type} `{MemoryQueue MQ}.
Variable wq : list Q -> list Q -> Q -> Q.

Lemma dso_update_best_some (prev : option Q) (r_max : Q) (rows : Dso.Rows.t)
    (p0 pb : option Program.t) :
  Dso.update_best prev r_max rows p0 = Ok pb ->
  prev = None \/ is_Some p0 -> is_Some pb.
Proof.
  unfold Dso.update_best. intros Hrun Hinv.
  destruct prev as [prev|].
  - destruct (negb (Qle_bool r_max prev)).
    + apply bind_Ok_inv in Hrun as (i & _ & Hrun).
      apply bind_Ok_inv in Hrun as (p & _ & Hrun). injection Hrun as <-. eauto.
    + injection Hrun as <-. destruct Hinv as [Hc|Hs]; [discriminate | exact Hs].
  - apply bind_Ok_inv in Hrun as (i & _ & Hrun).
    apply bind_Ok_inv in Hrun as (p & _ & Hrun). injection Hrun as <-. eauto.
Qed.

(** What the passes of the dso variant count. *)
Lemma dso_passes_count (cfg : Config.t) (env : Dso.Env.t) (k : nat) :
  forall (e : nat) (st st' : Dso.State.t MQ),
    DsoSpec.passes wq cfg env e (S k) st = Ok st' ->
    Dso.State.prev_r_best st = None \/ is_Some (Dso.State.p_r_best st) ->
    Dso.State.nevals st'
      = (Dso.State.nevals st + Z.of_nat (S k) * Z.of_nat (Config.batch_size cfg))%Z /\
    Dso.State.epoch st' = Some (e + k) /\
    is_Some (Dso.State.p_r_best st').
Proof.
  induction k as [|k IH]; intros e st st' Hrun Hinv.
  - cbn in Hrun. apply bind_Ok_inv in Hrun as (st1 & Hstep & Hrun). injection Hrun as <-.
    apply dso_epoch_update_inv in Hstep
      as (pf & r_max & quantile & rows0 & printed & ewma & b & pb
          & _ & _ & _ & _ & Hbest & ->).
    cbn. repeat split; [lia | f_equal; lia |].
    eapply dso_update_best_some; eassumption.
  - change (DsoSpec.passes wq cfg env e (S (S k)) st)
      with (st1 ← Dso.epoch_update wq cfg e (Dso.Env.sample env e) st;
            DsoSpec.passes wq cfg env (S e) (S k) st1) in Hrun.
    apply bind_Ok_inv in Hrun as (st1 & Hstep & Hrun).
    apply dso_epoch_update_inv in Hstep
      as (pf & r_max & quantile & rows0 & printed & ewma & b & pb
          & _ & _ & _ & _ & Hbest & Hst1).
    assert (Hsome : is_Some (Dso.State.p_r_best st1)).
    { rewrite Hst1. cbn. eapply dso_update_best_some; eassumption. }
    destruct (IH (S e) st1 st' Hrun (or_intror Hsome)) as (Hn & Hep & Hp).
    repeat split; [|rewrite Hep; f_equal; lia | exact Hp].
    rewrite Hn, Hst1. cbn [Dso.State.nevals]. lia.
Qed.

(** X8. In the dso variant with the number of epochs derived from the
    budget, the count of evaluations after a pass is the number of
    passes times [batch_size] and never exceeds [n_samples]: the test
    [nevals > n_samples] at the end of the loop body is never true, and
    a run that returns has left its loop by one of the two early
    stopping tests or after the last of the derived epochs. *)
Theorem budget_is_never_exceeded (cfg : Config.t) (env : Dso.Env.t) (ns : Q) (n : Z)
    (st : Dso.State.t MQ) :
  Config.n_epochs cfg = None -> Config.n_samples cfg = Some ns ->
  (0 <= ns)%Q -> 0 < Config.batch_size cfg ->
  Dso.epochs cfg = Ok n -> (0 < n)%Z ->
  Dso.run wq cfg env = Ok st ->
  exists e_last p,
    Dso.State.epoch st = Some e_last /\ (Z.of_nat e_last < n)%Z /\
    Dso.State.nevals st = (Z.of_nat (S e_last) * Z.of_nat (Config.batch_size cfg))%Z /\
    (inject_Z (Dso.State.nevals st) <= ns)%Q /\
    Dso.State.p_r_best st = Some p /\
    Dso.decide_break cfg (Sample.programs (Dso.Env.sample env e_last)) (Some p)
      (Dso.State.nevals st)
      = Ok (DsoSpec.stops_early cfg (Sample.programs (Dso.Env.sample env e_last)) (Some p)) /\
    (DsoSpec.stops_early cfg (Sample.programs (Dso.Env.sample env e_last)) (Some p) = true
     \/ Z.of_nat e_last = (n - 1)%Z).
Proof.
  intros He Hs Hns Hb Hep Hpos Hrun.
  pose proof (dso_epochs_derived cfg ns He Hs Hns Hb) as Hep'.
  rewrite Hep in Hep'. injection Hep' as Hn.
  destruct (derived_epochs ns (Config.batch_size cfg) Hns Hb) as (_ & Hlow & _).
  cbn zeta in Hlow. rewrite <- Hn in Hlow.
  unfold Dso.run in Hrun.
  apply bind_Ok_inv in Hrun as ([st0 n'] & Hinit & Hrun).
  pose proof (dso_init_inv cfg env st0 n' Hinit) as (Hep' & _ & _ & _ & Hprev & _).
  rewrite Hep in Hep'. injection Hep' as <-.
  pose proof (dso_init_state cfg env st0 n Hinit) as (_ & _ & _ & Hnev0 & _).
  destruct (Z.to_nat n) as [|m] eqn:Hm; [lia|].
  apply (dso_loop_end wq) in Hrun as (k & Hk & Hpass & _ & Hlast).
  destruct (dso_passes_count cfg env k 0 st0 st Hpass (or_introl Hprev))
    as (Hnev & Hepoch & [p Hp]).
  rewrite Hnev0 in Hnev. cbn [Z.add] in Hnev.
  assert (Hle : (inject_Z (Dso.State.nevals st) <= ns)%Q).
  { eapply Qle_trans; [|exact Hlow]. rewrite <- Zle_Qle. rewrite Hnev. nia. }
  assert (Hbrk : Dso.decide_break cfg (Sample.programs (Dso.Env.sample env k)) (Some p)
                   (Dso.State.nevals st)
                 = Ok (DsoSpec.stops_early cfg (Sample.programs (Dso.Env.sample env k))
                         (Some p))).
  { rewrite dso_decide_break_bound, Hs.
    apply Qle_bool_iff in Hle. rewrite Hle. cbn.
    destruct (DsoSpec.stops_early cfg _ (Some p)); reflexivity. }
  exists k, p. repeat split; try assumption; [lia|].
  unfold DsoSpec.breaks_at in Hlast. rewrite Hpass, bind_Ok, Hp in Hlast.
  cbn [Nat.add] in Hlast. rewrite Hbrk in Hlast.
  destruct Hlast as [Hl | [-> Hl]]; [left; congruence | right; lia].
Qed.

End Budget2.

Lemma budget_is_never_exceeded_witness :
  exists st,
    Dso.run (MQ:=TableQueue.t) weighted_quantile Example.half (Example.dso_env Example.four)
      = Ok st /\
    exists e_last p,
      Dso.State.epoch st = Some e_last /\ (Z.of_nat e_last < 2)%Z /\
      Dso.State.nevals st = (Z.of_nat (S e_last) * 4)%Z /\
      (inject_Z (Dso.State.nevals st) <= 8)%Q /\
      Dso.State.p_r_best st = Some p /\
      Dso.decide_break Example.half Example.four (Some p) (Dso.State.nevals st)
        = Ok (DsoSpec.stops_early Example.half Example.four (Some p)) /\
      (DsoSpec.stops_early Example.half Example.four (Some p) = true
       \/ Z.of_nat e_last = (2 - 1)%Z).
Proof.
  destruct (Dso.run (MQ:=TableQueue.t) weighted_quantile Example.half
              (Example.dso_env Example.four)) as [st|e] eqn:Hrun;
    [|vm_compute in Hrun; discriminate].
  exists st. split; [reflexivity|].
  apply (budget_is_never_exceeded weighted_quantile Example.half
           (Example.dso_env Example.four) 8 2 st).
  - reflexivity.
  - reflexivity.
  - apply Qle_bool_iff. reflexivity.
  - cbn. lia.
  - reflexivity.
  - reflexivity.
  - exact Hrun.
Defined.

(** ** A run that returns *)

Section LearnReturns.
Context {MQ : Type} `{MemoryQueue MQ}.
Variable wq : list Q -> list Q -> Q -> Q.
Variable cfg : Config.t.
Variable env : Dso.Env.t.
Variable eps ns : Q.
Hypothesis Hepochs : Config.n_epochs cfg = None.
Hypothesis Hsamples : Config.n_samples cfg = Some ns.
Hypothesis Heps : Config.epsilon cfg = Some eps.
Hypothesis Heps0 : (0 <= eps)%Q.
Hypothesis Heps1 : (eps < 1)%Q.
Hypothesis Hmem : Config.use_memory cfg = false.
Hypothesis Hbase : known_baseline (Config.baseline cfg).
Hypothesis Hsample : forall e,
  Sample.programs (Dso.Env.sample env e) <> [] /\
  DsoSpec.aligned (Dso.metrics (Dso.Env.sample env e)) /\
  (Config.eval_all cfg = true -> boolean_success (Sample.programs (Dso.Env.sample env e))).

Lemma dso_body_ok (e : nat) (st : Dso.State.t MQ) :
  Dso.State.prev_r_best st = None \/ is_Some (Dso.State.p_r_best st) ->
  exists st' brk,
    Dso.epoch_body wq cfg e (Dso.Env.sample env e) st = Ok (st', brk) /\
    is_Some (Dso.State.p_r_best st') /\ is_Some (Dso.State.epoch st').
Proof.
  intros Hinv. destruct (Hsample e) as (Hne & Hal & Hflags).
  destruct (dso_pass_ok wq cfg e (Dso.Env.sample env e) st eps Heps Heps0 Heps1 Hmem Hbase
              Hne Hal Hflags) as (st' & Hup & Hep & Hsome).
  specialize (Hsome Hinv). destruct Hsome as [p Hp].
  unfold Dso.epoch_body. rewrite Hup, bind_Ok, Hp, dso_decide_break_bound, Hsamples.
  exists st'. rewrite Hp, Hep.
  destruct (DsoSpec.stops_early cfg _ (Some p)); eexists; (split; [reflexivity | eauto]).
Qed.

Lemma dso_loop_ok (n : nat) :
  forall (e : nat) (st : Dso.State.t MQ),
    is_Some (Dso.State.p_r_best st) -> is_Some (Dso.State.epoch st) ->
    exists st', Dso.loop wq cfg env n e st = Ok st' /\
                is_Some (Dso.State.p_r_best st') /\ is_Some (Dso.State.epoch st').
Proof.
  induction n as [|n IH]; intros e st Hp He; [cbn; eauto|].
  destruct (dso_body_ok e st (or_intror Hp)) as (st1 & brk & Hbody & Hp1 & He1).
  cbn [Dso.loop]. rewrite Hbody, bind_Ok. destruct brk; [eauto|].
  apply IH; assumption.
Qed.

Lemma dso_learn_ok (n : Z) :
  Config.stochastic cfg = false ->
  Dso.epochs cfg = Ok n -> (0 < n)%Z ->
  exists st res,
    Dso.run wq cfg env = Ok st /\ Dso.learn wq cfg env = Ok res /\
    is_Some (Dso.State.epoch st) /\ is_Some (Dso.State.p_r_best st).
Proof.
  intros Hst Hep Hpos.
  assert (Hrun : exists st, Dso.run wq cfg env = Ok st /\
                            is_Some (Dso.State.p_r_best st) /\
                            is_Some (Dso.State.epoch st)).
  { unfold Dso.run, Dso.init, Dso.init_memory.
    rewrite Hsamples, Hepochs, Hmem, Hst, bind_Ok. cbn. rewrite Hep, !bind_Ok.
    destruct (Z.to_nat n) as [|m] eqn:Hm; [lia|].
    cbn [Dso.loop].
    match goal with
    | |- context [Dso.epoch_body wq cfg 0 _ ?s] =>
        destruct (dso_body_ok 0 s (or_introl eq_refl)) as (st1 & brk & Hbody & Hp1 & He1)
    end.
    rewrite Hbody, bind_Ok. destruct brk; [eauto|].
    apply dso_loop_ok; assumption. }
  destruct Hrun as (st & Hrun & [p Hp] & [e He]).
  exists st. unfold Dso.learn, Dso.finish. rewrite Hrun, bind_Ok, He. cbn [read].
  rewrite bind_Ok, Hp.
  destruct (Dso.State.p_final st); cbn; eexists; repeat split; eauto.
Qed.

End LearnReturns.

(** X9. [learn] of the dso variant returns its dict, no exception
    raised, when the run is set by a budget of at least one batch
    ([n_epochs] not given), risk seeking is on with [epsilon] in
    [0, 1), the quantile is the empirical one, the baseline is one of
    the four names, the task is not stochastic and every batch the
    controller samples is not empty, has one row count in all its arrays
    and reports success as booleans when [eval_all] is set. *)
Theorem learn_returns {MQ : Type} `{MemoryQueue MQ} (wq : list Q -> list Q -> Q -> Q)
    (cfg : Config.t) (env : Dso.Env.t) (eps ns : Q) :
  Config.n_epochs cfg = None -> Config.n_samples cfg = Some ns ->
  0 < Config.batch_size cfg -> (inject_Z (Z.of_nat (Config.batch_size cfg)) <= ns)%Q ->
  Config.epsilon cfg = Some eps -> (0 <= eps)%Q -> (eps < 1)%Q ->
  Config.use_memory cfg = false -> Config.stochastic cfg = false ->
  known_baseline (Config.baseline cfg) ->
  (forall e,
     Sample.programs (Dso.Env.sample env e) <> [] /\
     DsoSpec.aligned (Dso.metrics (Dso.Env.sample env e)) /\
     (Config.eval_all cfg = true ->
      boolean_success (Sample.programs (Dso.Env.sample env e)))) ->
  exists (st : Dso.State.t MQ) res,
    Dso.run wq cfg env = Ok st /\ Dso.learn wq cfg env = Ok res /\
    is_Some (Dso.State.epoch st) /\ is_Some (Dso.State.p_r_best st).
Proof.
  intros He Hs Hb Hbudget Heps H0 H1 Hmem Hst Hbase Hsample.
  assert (Hns : (0 <= ns)%Q).
  { eapply Qle_trans; [|exact Hbudget]. change 0%Q with (inject_Z 0).
    rewrite <- Zle_Qle. lia. }
  destruct (derived_epochs ns (Config.batch_size cfg) Hns Hb) as (Hn0 & _ & Hup).
  cbn zeta in Hn0, Hup.
  apply (dso_learn_ok wq cfg env eps ns He Hs Heps H0 H1 Hmem Hbase Hsample
           (py_int (ns / inject_Z (Z.of_nat (Config.batch_size cfg)))) Hst).
  - apply dso_epochs_derived; assumption.
  - pose proof (Qle_lt_trans _ _ _ Hbudget Hup) as Hlt. rewrite <- Zlt_Qlt in Hlt. nia.
Qed.

Lemma learn_returns_witness :
  exists st res,
    Dso.run (MQ:=TableQueue.t) weighted_quantile Example.half (Example.dso_env Example.four)
      = Ok st /\
    Dso.learn (MQ:=TableQueue.t) weighted_quantile Example.half
      (Example.dso_env Example.four) = Ok res /\
    is_Some (Dso.State.epoch st) /\ is_Some (Dso.State.p_r_best st).
Proof.
  apply (learn_returns (MQ:=TableQueue.t) weighted_quantile Example.half
           (Example.dso_env Example.four) 0.5 8).
  - reflexivity.
  - reflexivity.
  - cbn. lia.
  - apply Qle_bool_iff. reflexivity.
  - reflexivity.
  - apply Qle_bool_iff. reflexivity.
  - reflexivity.
  - reflexivity.
  - reflexivity.
  - right. left. reflexivity.
  - intros e. split; [discriminate|]. split.
    + repeat split; repeat constructor.
    + intros _. repeat constructor.
Defined.

(** ** A batch filtered down to nothing *)

Lemma compress_ge_nil {A} (f : A -> Q) (l : list A) (q : Q) :
  Forall (fun p => (f p < q)%Q) l -> Np.compress l (Np.ge (map f l) q) = [].
Proof.
  induction 1 as [|p l Hp _ IH]; [reflexivity|].
  cbn. rewrite (Qlt_not_le_bool _ _ Hp). exact IH.
Qed.

Section EmptyBatch.
Context {MQ : Type} `{MemoryQueue MQ}.
Variable wq : list Q -> list Q -> Q -> Q.

(** X10. With the memory queue the quantile can lie above every reward
    of the batch (without it it cannot, X1). Then the filter of the dso
    variant keeps no row, and the first pass (nothing tracked as best
    yet) raises a ValueError: with the baseline "R_e" from [np.argmax]
    on the empty rewards when the best program is looked up, with
    "ewma_R_e" and the EWMA not started from [np.min] on the empty
    training rewards. *)
Theorem memory_quantile_above_the_batch (cfg : Config.t) (epoch : nat) (smp : Sample.t)
    (st : Dso.State.t MQ) (eps q : Q) (printed : list Event) (pf : option Program.t) :
  Config.epsilon cfg = Some eps -> (eps < 1)%Q ->
  compute_quantile wq (Config.use_memory cfg) (Dso.State.memory_queue st)
    (Sample.programs smp) (map Program.r (Sample.programs smp)) eps
    (Config.memory_threshold cfg) epoch = Ok (q, printed) ->
  Forall (fun p => (Program.r p < q)%Q) (Sample.programs smp) ->
  Sample.programs smp <> [] ->
  DsoSpec.aligned (Dso.metrics smp) ->
  Dso.check_success (Config.eval_all cfg) (Sample.programs smp) (Dso.State.p_final st)
    = Ok pf ->
  Dso.State.prev_r_best st = None ->
  (exists rows0,
     Dso.risk_seeking_filter wq cfg epoch (Dso.State.quantile st)
       (Dso.State.memory_queue st) (Dso.metrics smp) = Ok (Some q, rows0, printed) /\
     Dso.Rows.programs rows0 = [] /\ Dso.Rows.r_train rows0 = []) /\
  (Config.baseline cfg = "R_e" ->
   Dso.epoch_update wq cfg epoch smp st
     = Raise (ValueError "attempt to get argmax of an empty sequence")) /\
  (Config.baseline cfg = "ewma_R_e" -> Dso.State.ewma st = None ->
   Dso.epoch_update wq cfg epoch smp st
     = Raise (ValueError "zero-size array to reduction operation minimum which has no identity")).
Proof.
  intros Heps H1 Hq Hlow Hne Hal Hcs Hprev.
  destruct (dso_risk_seeking_filter_ok wq cfg epoch eps (Dso.State.quantile st)
              (Dso.State.memory_queue st) (Dso.metrics smp) q printed Heps H1 Hal Hq)
    as (rows0 & Hfilter & Hmasked & _).
  destruct Hmasked as (Hr & _ & _ & _ & Hprog & _ & _ & _ & _ & Hrt & _).
  cbn in Hr, Hprog, Hrt.
  assert (Hpnil : Dso.Rows.programs rows0 = []).
  { rewrite Hprog. apply compress_ge_nil. exact Hlow. }
  assert (Hrnil : Dso.Rows.r rows0 = []).
  { rewrite Hr, compress_map. fold (Np.ge (map Program.r (Sample.programs smp)) q).
    rewrite compress_ge_nil by exact Hlow. reflexivity. }
  assert (Hrtnil : Dso.Rows.r_train rows0 = []) by (rewrite Hrt, <- Hr; exact Hrnil).
  destruct (max_ok (map Program.r (Sample.programs smp)) (map_not_nil _ _ Hne))
    as (r_max & Hmax).
  split; [eauto|].
  split.
  - intros Hbase. unfold Dso.epoch_update.
    change (Dso.Rows.programs (Dso.metrics smp)) with (Sample.programs smp).
    change (Dso.Rows.r (Dso.metrics smp)) with (map Program.r (Sample.programs smp)).
    rewrite Hcs, bind_Ok, Hmax, bind_Ok, Hfilter, bind_Ok. cbn match.
    rewrite Hbase, R_e_is_the_quantile, bind_Ok. cbn match. cbn [read].
    rewrite bind_Ok, Hprev. unfold Dso.update_best. cbn [Dso.clip_rows Dso.Rows.r].
    rewrite Hrnil. reflexivity.
  - intros Hbase Hewma. unfold Dso.epoch_update.
    change (Dso.Rows.programs (Dso.metrics smp)) with (Sample.programs smp).
    change (Dso.Rows.r (Dso.metrics smp)) with (map Program.r (Sample.programs smp)).
    rewrite Hcs, bind_Ok, Hmax, bind_Ok, Hfilter, bind_Ok. cbn match.
    rewrite Hbase, Hewma. cbn [Dso.clip_rows Dso.Rows.r_train]. rewrite Hrtnil.
    reflexivity.
Qed.

End EmptyBatch.

Lemma memory_quantile_above_the_batch_witness :
  (exists rows0,
     Dso.risk_seeking_filter weighted_quantile (Example2.with_memory "R_e") 0 None
       (Some Example.memory_ab) (Dso.metrics (Example.sample Example2.low))
       = Ok (Some 0.8%Q, rows0, []) /\
     Dso.Rows.programs rows0 = [] /\ Dso.Rows.r_train rows0 = []) /\
  Dso.epoch_update weighted_quantile (Example2.with_memory "R_e") 0
    (Example.sample Example2.low) Example2.memory_state
    = Raise (ValueError "attempt to get argmax of an empty sequence").
Proof.
  destruct (memory_quantile_above_the_batch weighted_quantile (Example2.with_memory "R_e") 0
              (Example.sample Example2.low) Example2.memory_state 0.1 0.8 [] None)
    as (Hfilter & HRe & _).
  - reflexivity.
  - reflexivity.
  - vm_compute. reflexivity.
  - repeat constructor.
  - discriminate.
  - repeat split; repeat constructor.
  - reflexivity.
  - reflexivity.
  - split; [exact Hfilter | exact (HRe eq_refl)].
Defined.

(** ** A baseline that [learn] does not know *)

Lemma unknown_baseline (baseline : string) (alpha : Q) (quantile : option Q)
    (ewma b_train : option Np.float)
    (r_train : list Q) :
  ~ known_baseline baseline ->
  compute_baseline baseline alpha quantile ewma b_train r_train = Ok (ewma, b_train).
Proof.
  intros Hun. unfold compute_baseline, known_baseline in *.
  destruct (String.eqb_spec baseline "ewma_R"); [tauto|].
  destruct (String.eqb_spec baseline "R_e"); [tauto|].
  destruct (String.eqb_spec baseline "ewma_R_e"); [tauto|].
  destruct (String.eqb_spec baseline "combined"); [tauto|].
  reflexivity.
Qed.

Section UnknownBaseline.
Context {MQ : Type} `{MemoryQueue MQ}.
Variable wq : list Q -> list Q -> Q -> Q.

Lemma dso_unknown_baseline_pass (cfg : Config.t) (epoch : nat) (smp : Sample.t)
    (st : Dso.State.t MQ) :
  ~ known_baseline (Config.baseline cfg) -> Dso.State.b_train st = None ->
  (forall st', Dso.epoch_update wq cfg epoch smp st <> Ok st') /\
  (forall pf r_max quantile rows0 printed,
     Dso.check_success (Config.eval_all cfg) (Sample.programs smp) (Dso.State.p_final st)
       = Ok pf ->
     Np.max (map Program.r (Sample.programs smp)) = Ok r_max ->
     Dso.risk_seeking_filter wq cfg epoch (Dso.State.quantile st)
       (Dso.State.memory_queue st) (Dso.metrics smp) = Ok (quantile, rows0, printed) ->
     Dso.epoch_update wq cfg epoch smp st = Raise (NameError "b_train")).
Proof.
  intros Hun Hb. split.
  - intros st' Hrun.
    apply dso_epoch_update_inv in Hrun
      as (pf & r_max & quantile & rows0 & printed & ewma & b & p_r_best
          & _ & _ & _ & Hbase & _).
    rewrite unknown_baseline, Hb in Hbase by exact Hun. discriminate.
  - intros pf r_max quantile rows0 printed Hcs Hmax Hfilter.
    unfold Dso.epoch_update.
    change (Dso.Rows.programs (Dso.metrics smp)) with (Sample.programs smp).
    change (Dso.Rows.r (Dso.metrics smp)) with (map Program.r (Sample.programs smp)).
    rewrite Hcs, bind_Ok, Hmax, bind_Ok, Hfilter, bind_Ok. cbn match.
    rewrite unknown_baseline, Hb by exact Hun. reflexivity.
Qed.

Lemma dsr_unknown_baseline_pass (cfg : Config.t) (env : Dsr.Env.t) (epoch : nat)
    (smp : Sample.t) (st : Dsr.State.t MQ) :
  ~ known_baseline (Config.baseline cfg) -> Dsr.State.b_train st = None ->
  (forall st', Dsr.epoch_update wq cfg env epoch smp st <> Ok st') /\
  (forall pf base_r_max r_max quantile rows0 printed,
     Dsr.check_success (Config.eval_all cfg) (Sample.programs smp) (Dsr.State.p_final st)
       = Ok pf ->
     Np.max (map Program.base_r (Sample.programs smp)) = Ok base_r_max ->
     Np.max (map Program.r (Sample.programs smp)) = Ok r_max ->
     Dsr.risk_seeking_filter wq cfg env epoch (Dsr.State.quantile st)
       (Dsr.State.memory_queue st) (Dsr.metrics smp) = Ok (quantile, rows0, printed) ->
     Dsr.epoch_update wq cfg env epoch smp st = Raise (NameError "b_train")).
Proof.
  intros Hun Hb. split.
  - intros st' Hrun.
    apply dsr_epoch_update_inv in Hrun
      as (pf & base_r_max & r_max & quantile & rows0 & printed & ewma & b & p_r_best
          & p_best & _ & _ & _ & _ & Hbase & _).
    rewrite unknown_baseline, Hb in Hbase by exact Hun. discriminate.
  - intros pf base_r_max r_max quantile rows0 printed Hcs Hbmax Hmax Hfilter.
    unfold Dsr.epoch_update.
    change (Dsr.Rows.programs (Dsr.metrics smp)) with (Sample.programs smp).
    change (Dsr.Rows.r (Dsr.metrics smp)) with (map Program.r (Sample.programs smp)).
    change (Dsr.Rows.base_r (Dsr.metrics smp))
      with (map Program.base_r (Sample.programs smp)).
    rewrite Hcs, bind_Ok, Hbmax, bind_Ok, Hmax, bind_Ok, Hfilter, bind_Ok. cbn match.
    rewrite unknown_baseline, Hb by exact Hun. reflexivity.
Qed.

(** X11. The chain of [if]/[elif] on [baseline] has no [else]: with a
    name that is none of "ewma_R", "R_e", "ewma_R_e" and "combined",
    [b_train] is never assigned. In both variants a run with such a
    name that has an epoch to run never returns, and a first pass whose
    stages up to the filter raise nothing raises a NameError for
    [b_train] where [train_step] is called with it. *)
Theorem unknown_baseline_is_unbound (cfg : Config.t) (n : Z) :
  ~ known_baseline (Config.baseline cfg) -> (0 < n)%Z ->
  (forall env (st : Dso.State.t MQ),
     Dso.epochs cfg = Ok n -> Dso.run wq cfg env <> Ok st) /\
  (forall env (st : Dsr.State.t MQ),
     Dsr.epochs cfg = Ok n -> Dsr.run wq cfg env <> Ok st) /\
  (forall epoch smp (st : Dso.State.t MQ) pf r_max quantile rows0 printed,
     Dso.State.b_train st = None ->
     Dso.check_success (Config.eval_all cfg) (Sample.programs smp) (Dso.State.p_final st)
       = Ok pf ->
     Np.max (map Program.r (Sample.programs smp)) = Ok r_max ->
     Dso.risk_seeking_filter wq cfg epoch (Dso.State.quantile st)
       (Dso.State.memory_queue st) (Dso.metrics smp) = Ok (quantile, rows0, printed) ->
     Dso.epoch_update wq cfg epoch smp st = Raise (NameError "b_train")) /\
  (forall env epoch smp (st : Dsr.State.t MQ) pf base_r_max r_max quantile rows0 printed,
     Dsr.State.b_train st = None ->
     Dsr.check_success (Config.eval_all cfg) (Sample.programs smp) (Dsr.State.p_final st)
       = Ok pf ->
     Np.max (map Program.base_r (Sample.programs smp)) = Ok base_r_max ->
     Np.max (map Program.r (Sample.programs smp)) = Ok r_max ->
     Dsr.risk_seeking_filter wq cfg env epoch (Dsr.State.quantile st)
       (Dsr.State.memory_queue st) (Dsr.metrics smp) = Ok (quantile, rows0, printed) ->
     Dsr.epoch_update wq cfg env epoch smp st = Raise (NameError "b_train")).
Proof.
  intros Hun Hpos. repeat split.
  - intros env st Hep Hrun. pose proof Hrun as Hrun0. unfold Dso.run in Hrun0.
    apply bind_Ok_inv in Hrun0 as ([st0 n'] & Hinit & _).
    pose proof (dso_init_inv cfg env st0 n' Hinit) as (Hep' & _).
    rewrite Hep in Hep'. injection Hep' as <-.
    pose proof (dso_init_state cfg env st0 n Hinit) as (_ & _ & Hb & _).
    rewrite (dso_run_first_pass wq cfg env st0 n Hinit Hpos) in Hrun.
    apply bind_Ok_inv in Hrun as ([st1 brk] & Hbody & _).
    unfold Dso.epoch_body in Hbody. apply bind_Ok_inv in Hbody as (st1' & Hup & _).
    exact (proj1 (dso_unknown_baseline_pass cfg 0 _ st0 Hun Hb) st1' Hup).
  - intros env st Hep Hrun. pose proof Hrun as Hrun0. unfold Dsr.run in Hrun0.
    apply bind_Ok_inv in Hrun0 as ([st0 n'] & Hinit & _).
    pose proof (dsr_init_inv cfg env st0 n' Hinit) as (Hep' & _).
    rewrite Hep in Hep'. injection Hep' as <-.
    pose proof (dsr_init_state cfg env st0 n Hinit) as (_ & _ & Hb & _).
    rewrite (dsr_run_first_pass wq cfg env st0 n Hinit Hpos) in Hrun.
    apply bind_Ok_inv in Hrun as ([st1 brk] & Hbody & _).
    unfold Dsr.epoch_body in Hbody. apply bind_Ok_inv in Hbody as (smp & _ & Hbody).
    apply bind_Ok_inv in Hbody as (st1' & Hup & _).
    exact (proj1 (dsr_unknown_baseline_pass cfg env 0 smp st0 Hun Hb) st1' Hup).
  - intros epoch smp st pf r_max quantile rows0 printed Hb.
    apply (proj2 (dso_unknown_baseline_pass cfg epoch smp st Hun Hb)).
  - intros env epoch smp st pf base_r_max r_max quantile rows0 printed Hb.
    apply (proj2 (dsr_unknown_baseline_pass cfg env epoch smp st Hun Hb)).
Qed.

End UnknownBaseline.

Lemma unknown_baseline_is_unbound_witness :
  Dso.run (MQ:=TableQueue.t) weighted_quantile Example2.misspelled
    (Example.dso_env Example.four) = Raise (NameError "b_train") /\
  Dsr.run (MQ:=TableQueue.t) weighted_quantile Example2.misspelled
    (Example.plain_env Example.four) = Raise (NameError "b_train").
Proof.
  assert (Hun : ~ known_baseline (Config.baseline Example2.misspelled)).
  { intros [Hc | [Hc | [Hc | Hc]]]; discriminate. }
  destruct (unknown_baseline_is_unbound (MQ:=TableQueue.t) weighted_quantile
              Example2.misspelled 2 Hun eq_refl) as (Hdso & Hdsr & _).
  split.
  - destruct (Dso.run (MQ:=TableQueue.t) weighted_quantile Example2.misspelled
                (Example.dso_env Example.four)) as [st|e] eqn:Hrun.
    + destruct (Hdso _ st eq_refl Hrun).
    + vm_compute in Hrun. injection Hrun as <-. reflexivity.
  - destruct (Dsr.run (MQ:=TableQueue.t) weighted_quantile Example2.misspelled
                (Example.plain_env Example.four)) as [st|e] eqn:Hrun.
    + destruct (Hdsr _ st eq_refl Hrun).
    + vm_compute in Hrun. injection Hrun as <-. reflexivity.
Defined.

(** ** The memory queue exists when it is used *)

Section MemoryQueueInvariant.
Context {MQ : Type} `{MemoryQueue MQ}.
Variable wq : list Q -> list Q -> Q -> Q.

Lemma dso_init_memory_spec (cfg : Config.t) (warm : Sample.t) (mq : option MQ) :
  Dso.init_memory cfg warm = Ok mq ->
  (is_Some mq <-> Config.use_memory cfg = true) /\
  (Config.use_memory cfg = true -> risk_seeking (Config.epsilon cfg) = true).
Proof.
  unfold Dso.init_memory. destruct (Config.use_memory cfg).
  - destruct (risk_seeking (Config.epsilon cfg)); [|discriminate].
    intros [= <-]. repeat split; eauto.
  - intros [= <-]. repeat split; try discriminate. intros [x Hx]. discriminate.
Qed.

Lemma dsr_init_memory_spec (cfg : Config.t) (warm : Sample.t) (mq : option MQ) :
  Dsr.init_memory cfg warm = Ok mq ->
  (is_Some mq <-> Config.use_memory cfg = true) /\
  (Config.use_memory cfg = true -> risk_seeking (Config.epsilon cfg) = true).
Proof.
  unfold Dsr.init_memory. destruct (Config.use_memory cfg).
  - destruct (risk_seeking (Config.epsilon cfg)); [|discriminate].
    intros [= <-]. repeat split; eauto.
  - intros [= <-]. repeat split; try discriminate. intros [x Hx]. discriminate.
Qed.

Lemma dso_passes_memory (cfg : Config.t) (env : Dso.Env.t) (k : nat) :
  forall (e : nat) (st st' : Dso.State.t MQ),
    DsoSpec.passes wq cfg env e k st = Ok st' ->
    (is_Some (Dso.State.memory_queue st') <-> is_Some (Dso.State.memory_queue st)).
Proof.
  induction k as [|k IH]; intros e st st' Hrun.
  - injection Hrun as <-. reflexivity.
  - cbn [DsoSpec.passes] in Hrun. apply bind_Ok_inv in Hrun as (st1 & Hstep & Hrun).
    rewrite (IH _ _ _ Hrun).
    apply dso_epoch_update_inv in Hstep
      as (pf & r_max & quantile & rows0 & printed & ewma & b & pb & _ & _ & _ & _ & _ & ->).
    cbn. destruct (Dso.State.memory_queue st); cbn; split; intros [x Hx];
      try discriminate; eauto.
Qed.

Lemma dsr_passes_memory (cfg : Config.t) (env : Dsr.Env.t) (k : nat) :
  forall (e : nat) (st st' : Dsr.State.t MQ),
    DsrRun.passes wq cfg env e k st = Ok st' ->
    (is_Some (Dsr.State.memory_queue st') <-> is_Some (Dsr.State.memory_queue st)).
Proof.
  induction k as [|k IH]; intros e st st' Hrun.
  - injection Hrun as <-. reflexivity.
  - cbn [DsrRun.passes] in Hrun. apply bind_Ok_inv in Hrun as (smp & Hsmp & Hrun).
    apply bind_Ok_inv in Hrun as (st1 & Hstep & Hrun).
    rewrite (IH _ _ _ Hrun).
    apply dsr_epoch_update_inv in Hstep
      as (pf & bm & r_max & quantile & rows0 & printed & ewma & b & pb & pbb
          & _ & _ & _ & _ & _ & _ & _ & ->).
    cbn. destruct (Dsr.State.memory_queue st); cbn; split; intros [x Hx];
      try discriminate; eauto.
Qed.

Lemma quantile_stage_finds_the_queue (use_memory : bool) (memory_queue : option MQ)
    (programs : list Program.t) (r : list Q) (eps : Q) (memory_threshold : option Q)
    (epoch : nat) (msg : string) :
  (use_memory = true -> is_Some memory_queue) ->
  compute_quantile wq use_memory memory_queue programs r eps memory_threshold epoch
    <> Raise (AttributeError msg).
Proof.
  intros Hmq. unfold compute_quantile. destruct use_memory.
  - destruct (Hmq eq_refl) as [mq ->]. discriminate.
  - unfold Np.quantile_higher.
    destruct (negb (Qle_bool 0 (1 - eps) && Qle_bool (1 - eps) 1)); [discriminate|].
    destruct (nth_error (Np.sort r) _); discriminate.
Qed.

(** X12. In both variants the memory queue is made before the loop
    exactly when [use_memory] is set (which [learn] asserts to come with
    risk seeking), and every pass keeps it: after any number of passes
    from the state of [init] there is a queue exactly when [use_memory]
    is set. So the quantile stage of a pass of a run never finds [None]
    where it reads the queue: it raises no AttributeError. *)
Theorem memory_queue_follows_use_memory (cfg : Config.t) :
  (forall (env : Dso.Env.t) (st0 st : Dso.State.t MQ) n k,
     Dso.init cfg env = Ok (st0, n) ->
     DsoSpec.passes wq cfg env 0 k st0 = Ok st ->
     (is_Some (Dso.State.memory_queue st) <-> Config.use_memory cfg = true) /\
     (Config.use_memory cfg = true -> risk_seeking (Config.epsilon cfg) = true) /\
     forall programs r eps epoch msg,
       compute_quantile wq (Config.use_memory cfg) (Dso.State.memory_queue st) programs r
         eps (Config.memory_threshold cfg) epoch <> Raise (AttributeError msg)) /\
  (forall (env : Dsr.Env.t) (st0 st : Dsr.State.t MQ) n k,
     Dsr.init cfg env = Ok (st0, n) ->
     DsrRun.passes wq cfg env 0 k st0 = Ok st ->
     (is_Some (Dsr.State.memory_queue st) <-> Config.use_memory cfg = true) /\
     (Config.use_memory cfg = true -> risk_seeking (Config.epsilon cfg) = true) /\
     forall programs r eps epoch msg,
       compute_quantile wq (Config.use_memory cfg) (Dsr.State.memory_queue st) programs r
         eps (Config.memory_threshold cfg) epoch <> Raise (AttributeError msg)).
Proof.
  split.
  - intros env st0 st n k Hinit Hpass.
    pose proof (dso_init_state cfg env st0 n Hinit) as (_ & _ & _ & _ & _ & Hmq).
    apply dso_init_memory_spec in Hmq as [Hiff Hrisk].
    pose proof (dso_passes_memory cfg env k 0 st0 st Hpass) as Hkeep.
    assert (Hst : is_Some (Dso.State.memory_queue st) <-> Config.use_memory cfg = true)
      by (rewrite Hkeep; exact Hiff).
    repeat split; try apply Hst; [exact Hrisk|].
    intros programs r eps epoch msg. apply quantile_stage_finds_the_queue. apply Hst.
  - intros env st0 st n k Hinit Hpass.
    pose proof (dsr_init_state cfg env st0 n Hinit) as (_ & _ & _ & _ & _ & Hmq).
    apply dsr_init_memory_spec in Hmq as [Hiff Hrisk].
    pose proof (dsr_passes_memory cfg env k 0 st0 st Hpass) as Hkeep.
    assert (Hst : is_Some (Dsr.State.memory_queue st) <-> Config.use_memory cfg = true)
      by (rewrite Hkeep; exact Hiff).
    repeat split; try apply Hst; [exact Hrisk|].
    intros programs r eps epoch msg. apply quantile_stage_finds_the_queue. apply Hst.
Qed.

End MemoryQueueInvariant.

(** ** The rows of the GP stand after the sampled rows *)

Lemma compress_clear_all {A} (b : list A) (keep : list bool) :
  Np.compress b (Np.clear_from 0 keep) = [].
Proof.
  revert keep. induction b as [|x b IH]; intros [|k keep]; cbn; auto.
Qed.

Lemma compress_app_clear {A} (a b : list A) (keep : list bool) :
  Np.compress (a ++ b) (Np.clear_from (length a) keep) = Np.compress a keep.
Proof.
  revert keep. induction a as [|x a IH]; intros keep.
  - cbn [app length]. rewrite compress_clear_all. destruct keep; reflexivity.
  - destruct keep as [|k keep]; [reflexivity|]. cbn. rewrite IH. reflexivity.
Qed.

Lemma compress_In_nth {A} (l : list A) (m : list bool) (i : nat) (x : A) :
  nth_error l i = Some x -> nth_error m i = Some true -> In x (Np.compress l m).
Proof.
  revert m i. induction l as [|y l IH]; intros [|k m] [|i]; cbn; try discriminate.
  - intros [= ->] [= ->]. left. reflexivity.
  - intros Hl Hm. destruct k; [right|]; eapply IH; eassumption.
Qed.

(** X13. The dsr variant puts the rows of the GP after the sampled
    rows, and takes them out of the training step by clearing the mask
    from [batch_size] on. When the controller gave [batch_size] rows the
    training step gets exactly the sampled rows that pass the filter;
    when it gave fewer, a row of the GP that stands before [batch_size]
    and passes the filter enters the training step. *)
Theorem gp_rows_stand_after_the_sampled_rows (smp : Sample.t) (g : Dsr.Gp.t)
    (full : Sample.t) :
  Dsr.meld smp g = Ok full ->
  Sample.programs full = Sample.programs smp ++ Dsr.Gp.deap_programs g /\
  Sample.actions full = Sample.actions smp ++ Dsr.Gp.deap_actions g /\
  Sample.priors full = Sample.priors smp ++ Dsr.Gp.deap_priors g /\
  length (Sample.obs full) = 3 /\
  (forall keep,
     Np.compress (Sample.programs full)
       (Dsr.train_mask (length (Sample.programs smp)) keep)
     = Np.compress (Sample.programs smp) keep /\
     Np.compress (Sample.actions full)
       (Dsr.train_mask (length (Sample.actions smp)) keep)
     = Np.compress (Sample.actions smp) keep) /\
  (forall batch_size keep g0,
     length (Sample.programs smp) < batch_size ->
     nth_error (Dsr.Gp.deap_programs g) 0 = Some g0 ->
     nth_error keep (length (Sample.programs smp)) = Some true ->
     In g0 (Np.compress (Sample.programs full) (Dsr.train_mask batch_size keep))).
Proof.
  unfold Dsr.meld. intros Hrun.
  apply bind_Ok_inv in Hrun as (o0 & _ & Hrun). apply bind_Ok_inv in Hrun as (d0 & _ & Hrun).
  apply bind_Ok_inv in Hrun as (o1 & _ & Hrun). apply bind_Ok_inv in Hrun as (d1 & _ & Hrun).
  apply bind_Ok_inv in Hrun as (o2 & _ & Hrun). apply bind_Ok_inv in Hrun as (d2 & _ & Hrun).
  injection Hrun as <-. cbn. repeat split.
  - apply compress_app_clear.
  - apply compress_app_clear.
  - intros batch_size keep g0 Hlt Hg0 Hkeep.
    apply compress_In_nth with (i := length (Sample.programs smp)).
    + rewrite nth_error_app2 by lia. rewrite Nat.sub_diag. exact Hg0.
    + unfold Dsr.train_mask. rewrite clear_from_lookup, Hkeep. unfold option_map.
      apply Nat.ltb_lt in Hlt. rewrite Hlt. reflexivity.
Qed.

Lemma gp_rows_stand_after_the_sampled_rows_witness :
  Sample.programs Example.gp_batch
    = Example.sampled_two ++ Dsr.Gp.deap_programs Example.gp_one /\
  Np.compress (Sample.programs Example.gp_batch) (Dsr.train_mask 2 [false; true; true])
    = Np.compress Example.sampled_two [false; true; true] /\
  In (Example.program "g" 0.9 0.9 None)
     (Np.compress (Sample.programs Example.gp_batch) (Dsr.train_mask 3 [false; true; true])).
Proof.
  destruct (gp_rows_stand_after_the_sampled_rows (Example.sample Example.sampled_two)
              Example.gp_one Example.gp_batch eq_refl)
    as (Hp & _ & _ & _ & Hcut & Hleak).
  split; [exact Hp|]. split.
  - exact (proj1 (Hcut [false; true; true])).
  - apply (Hleak 3 [false; true; true]); [cbn; lia | reflexivity | reflexivity].
Defined.

(** ** The count of evaluations of the dsr variant *)

Section CountEvals.
Context {MQ : Type} `{MemoryQueue MQ}.
Variable wq : list Q -> list Q -> Q -> Q.

Lemma dsr_passes_count (cfg : Config.t) (env : Dsr.Env.t) (k : nat) :
  forall (e : nat) (st st' : Dsr.State.t MQ),
    DsrRun.passes wq cfg env e k st = Ok st' ->
    Dsr.State.nevals st'
      = (Dsr.State.nevals st + Z.of_nat k * Z.of_nat (Config.batch_size cfg)
         + (if Dsr.run_gp_meld env then DsrRun.gp_evals env e k else 0))%Z.
Proof.
  induction k as [|k IH]; intros e st st' Hrun.
  - injection Hrun as <-. cbn. destruct (Dsr.run_gp_meld env); lia.
  - cbn [DsrRun.passes] in Hrun. apply bind_Ok_inv in Hrun as (smp & Hsmp & Hrun).
    apply bind_Ok_inv in Hrun as (st1 & Hstep & Hrun).
    rewrite (IH _ _ _ Hrun).
    apply dsr_epoch_update_inv in Hstep
      as (pf & bm & r_max & quantile & rows0 & printed & ewma & b & pb & pbb
          & _ & _ & _ & _ & _ & _ & _ & ->).
    cbn [Dsr.State.nevals DsrRun.gp_evals]. unfold Dsr.count_evals.
    destruct (Dsr.run_gp_meld env); lia.
Qed.

(** X14. The dsr variant counts [batch_size] evaluations for every
    pass and, with a GP, what the GP reports for that epoch on top:
    after [k] passes from the state of [init] the counter holds
    [k * batch_size] plus the evaluations of the GP in these epochs.
    Without a GP the loop never looks at the counter: the stopping
    decision of a pass is that of the two early stopping tests. *)
Theorem evaluations_counted_with_the_gp (cfg : Config.t) (env : Dsr.Env.t)
    (st0 st : Dsr.State.t MQ) (n : Z) (k : nat) :
  Dsr.init cfg env = Ok (st0, n) ->
  DsrRun.passes wq cfg env 0 k st0 = Ok st ->
  Dsr.State.nevals st
    = (Z.of_nat k * Z.of_nat (Config.batch_size cfg)
       + (if Dsr.run_gp_meld env then DsrRun.gp_evals env 0 k else 0))%Z /\
  (Dsr.Env.gp_controller env = None ->
   forall programs p nevals,
     Dsr.decide_break cfg env programs (Some p) nevals
     = Ok (any_success cfg programs
           || Config.early_stopping cfg && truthy (Program.success p))).
Proof.
  intros Hinit Hpass. split.
  - rewrite (dsr_passes_count cfg env k 0 st0 st Hpass).
    pose proof (dsr_init_state cfg env st0 n Hinit) as (_ & _ & _ & Hn0 & _).
    rewrite Hn0. lia.
  - intros Hgp programs p nevals. rewrite dsr_decide_break_bound.
    unfold Dsr.run_gp_meld. rewrite Hgp.
    destruct (any_success cfg programs
              || Config.early_stopping cfg && truthy (Program.success p)); reflexivity.
Qed.

End CountEvals.

Lemma evaluations_counted_with_the_gp_witness :
  exists st,
    DsrRun.passes (MQ:=TableQueue.t) weighted_quantile Example.gp_config
      (Example.gp_env false) 0 2 (Example.dsr_state (Some 0%Q)) = Ok st /\
    Dsr.State.nevals st = (2 * 2 + (5 + (5 + 0)))%Z.
Proof.
  destruct (DsrRun.passes (MQ:=TableQueue.t) weighted_quantile Example.gp_config
              (Example.gp_env false) 0 2 (Example.dsr_state (Some 0%Q)))
    as [st|e] eqn:Hrun; [|vm_compute in Hrun; discriminate].
  exists st. split; [reflexivity|].
  exact (proj1 (evaluations_counted_with_the_gp weighted_quantile Example.gp_config
                  (Example.gp_env false) (Example.dsr_state (Some 0%Q)) st 2 2
                  eq_refl Hrun)).
Defined.

(** ** The baselines *)

Lemma sum_bounds (lo hi : Q) (l : list Q) :
  Forall (fun x => (lo <= x)%Q /\ (x <= hi)%Q) l ->
  (inject_Z (Z.of_nat (length l)) * lo <= Np.sum l)%Q /\
  (Np.sum l <= inject_Z (Z.of_nat (length l)) * hi)%Q.
Proof.
  induction 1 as [|x l [Hlo Hhi] _ [IHlo IHhi]].
  - cbn. rewrite !Qmult_0_l. split; apply Qle_refl.
  - cbn [length Np.sum fold_right]. fold (Np.sum l).
    rewrite Nat2Z.inj_succ, <- Z.add_1_l, inject_Z_plus.
    rewrite !Qmult_plus_distr_l, !Qmult_1_l.
    split; apply Qplus_le_compat; assumption.
Qed.

(** The mean of rewards within bounds is a number within these bounds,
    when there is a reward. *)
Lemma mean_bounds (lo hi : Q) (l : list Q) :
  l <> [] -> Forall (fun x => (lo <= x)%Q /\ (x <= hi)%Q) l ->
  exists m, Np.mean l = Np.Num m /\ (lo <= m)%Q /\ (m <= hi)%Q.
Proof.
  intros Hne Hall. destruct (sum_bounds lo hi l Hall) as [Hlo Hhi].
  assert (Hn : (0 < inject_Z (Z.of_nat (length l)))%Q).
  { change 0%Q with (inject_Z 0). rewrite <- Zlt_Qlt.
    destruct l; [congruence | cbn [length]; lia]. }
  rewrite (mean_of_rewards l Hne). eexists. split; [reflexivity|]. split.
  - apply Qle_shift_div_l; [exact Hn|]. rewrite Qmult_comm. exact Hlo.
  - apply Qle_shift_div_r; [exact Hn|]. rewrite Qmult_comm. exact Hhi.
Qed.

(** A convex combination lies between its ends. *)
Lemma convex_bounds (lo hi alpha x y : Q) :
  (0 <= alpha)%Q -> (alpha <= 1)%Q ->
  (lo <= x)%Q -> (x <= hi)%Q -> (lo <= y)%Q -> (y <= hi)%Q ->
  (lo <= alpha * x + (1 - alpha) * y)%Q /\ (alpha * x + (1 - alpha) * y <= hi)%Q.
Proof.
  intros Ha0 Ha1 Hx1 Hx2 Hy1 Hy2.
  assert (Hb : (0 <= 1 - alpha)%Q).
  { apply (proj1 (Qle_minus_iff alpha 1)). exact Ha1. }
  split.
  - assert (Heq : (lo == alpha * lo + (1 - alpha) * lo)%Q) by ring.
    rewrite Heq. apply Qplus_le_compat.
    + rewrite !(Qmult_comm alpha). apply Qmult_le_compat_r; assumption.
    + rewrite !(Qmult_comm (1 - alpha)). apply Qmult_le_compat_r; assumption.
  - assert (Heq : (hi == alpha * hi + (1 - alpha) * hi)%Q) by ring.
    rewrite Heq. apply Qplus_le_compat.
    + rewrite !(Qmult_comm alpha). apply Qmult_le_compat_r; assumption.
    + rewrite !(Qmult_comm (1 - alpha)). apply Qmult_le_compat_r; assumption.
Qed.

(** The baseline [ewma_R] on clipped rewards, one at least, and an EWMA
    that is not started or is a number within the bounds of the clip. *)
Lemma ewma_R_within (alpha : Q) (quantile : option Q) (ewma b_train : option Np.float)
    (r : list Q) :
  (0 <= alpha)%Q -> (alpha <= 1)%Q -> r <> [] ->
  match ewma with
  | Some e => within_the_clip e
  | None => True
  end ->
  exists b,
    compute_baseline "ewma_R" alpha quantile ewma b_train (Np.clip r (-1000000) 1000000)
      = Ok (Some b, Some b) /\
    within_the_clip b /\
    (ewma = None -> b = Np.mean (Np.clip r (-1000000) 1000000)).
Proof.
  intros Ha0 Ha1 Hne Hewma.
  assert (Hall : Forall (fun x => (-1000000 <= x)%Q /\ (x <= 1000000)%Q)
                   (Np.clip r (-1000000) 1000000)).
  { unfold Np.clip. apply List.Forall_forall. intros x Hx.
    apply in_map_iff in Hx as (y & <- & _). apply clip1_bounds.
    apply Qle_bool_iff. reflexivity. }
  assert (Hne' : Np.clip r (-1000000) 1000000 <> []) by (apply map_not_nil; exact Hne).
  destruct (mean_bounds _ _ _ Hne' Hall) as (m & Hm & Hm1 & Hm2).
  unfold compute_baseline. cbn [String.eqb Ascii.eqb Bool.eqb]. rewrite Hm.
  destruct ewma as [[e|]|].
  - eexists. split; [reflexivity|]. destruct Hewma as [He1 He2].
    split; [|discriminate].
    exact (convex_bounds (-1000000) 1000000 alpha m e Ha0 Ha1 Hm1 Hm2 He1 He2).
  - destruct Hewma.
  - eexists. split; [reflexivity|]. split; [split; assumption | reflexivity].
Qed.

(** The baseline [ewma_R] of no reward, or on an EWMA that is nan. *)
Lemma ewma_R_nan (alpha : Q) (quantile : option Q) (ewma b_train : option Np.float)
    (r_train : list Q) :
  r_train = [] \/ ewma = Some Np.NaN ->
  compute_baseline "ewma_R" alpha quantile ewma b_train r_train
  = Ok (Some Np.NaN, Some Np.NaN).
Proof.
  unfold compute_baseline. cbn [String.eqb Ascii.eqb Bool.eqb].
  intros [-> | ->]; [destruct ewma as [[e|]|]; reflexivity|].
  destruct (Np.mean r_train); reflexivity.
Qed.

(** The baseline [combined] of the first pass of an EWMA not started. *)
Lemma combined_first (alpha q : Q) (b_train : option Np.float) (r_train : list Q) :
  exists w b,
    compute_baseline "combined" alpha (Some q) None b_train r_train
      = Ok (Some w, Some b) /\
    (r_train <> [] -> Np.feq b (Np.mean r_train)) /\
    (r_train = [] -> b = Np.NaN).
Proof.
  unfold compute_baseline. cbn [String.eqb Ascii.eqb Bool.eqb read].
  rewrite !bind_Ok. eexists. eexists. split; [reflexivity|]. split.
  - intros Hne. rewrite (mean_of_rewards r_train Hne). cbn. ring.
  - intros ->. reflexivity.
Qed.

Section NanStays.
Context {MQ : Type} `{MemoryQueue MQ}.
Variable wq : list Q -> list Q -> Q -> Q.

Lemma dso_nan_stays (cfg : Config.t) (env : Dso.Env.t) (k : nat) :
  forall (e : nat) (st st' : Dso.State.t MQ),
    Config.baseline cfg = "ewma_R" -> Dso.State.ewma st = Some Np.NaN ->
    DsoSpec.passes wq cfg env e k st = Ok st' ->
    Dso.State.ewma st' = Some Np.NaN /\
    (0 < k -> Dso.State.b_train st' = Some Np.NaN).
Proof.
  induction k as [|k IH]; intros e st st' Hbase Hewma Hrun.
  - injection Hrun as <-. split; [exact Hewma | lia].
  - cbn [DsoSpec.passes] in Hrun. apply bind_Ok_inv in Hrun as (st1 & Hstep & Hrun).
    apply dso_epoch_update_inv in Hstep
      as (pf & r_max & quantile & rows0 & printed & ewma & b & pb & _ & _ & _ & Hb & _ & ->).
    rewrite Hbase, ewma_R_nan in Hb by (right; exact Hewma). injection Hb as <- <-.
    pose proof (fun Hx => IH _ _ _ Hbase Hx Hrun) as Hih.
    destruct (Hih eq_refl) as [He Hbt]. split; [exact He|].
    intros _. destruct k as [|k]; [|apply Hbt; lia].
    injection Hrun as <-. reflexivity.
Qed.

Lemma dsr_nan_stays (cfg : Config.t) (env : Dsr.Env.t) (k : nat) :
  forall (e : nat) (st st' : Dsr.State.t MQ),
    Config.baseline cfg = "ewma_R" -> Dsr.State.ewma st = Some Np.NaN ->
    DsrRun.passes wq cfg env e k st = Ok st' ->
    Dsr.State.ewma st' = Some Np.NaN /\
    (0 < k -> Dsr.State.b_train st' = Some Np.NaN).
Proof.
  induction k as [|k IH]; intros e st st' Hbase Hewma Hrun.
  - injection Hrun as <-. split; [exact Hewma | lia].
  - cbn [DsrRun.passes] in Hrun. apply bind_Ok_inv in Hrun as (smp & Hsmp & Hrun).
    apply bind_Ok_inv in Hrun as (st1 & Hstep & Hrun).
    apply dsr_epoch_update_inv in Hstep
      as (pf & bm & r_max & quantile & rows0 & printed & ewma & b & pb & pbb
          & _ & _ & _ & _ & Hb & _ & _ & ->).
    rewrite Hbase, ewma_R_nan in Hb by (right; exact Hewma). injection Hb as <- <-.
    pose proof (fun Hx => IH _ _ _ Hbase Hx Hrun) as Hih.
    destruct (Hih eq_refl) as [He Hbt]. split; [exact He|].
    intros _. destruct k as [|k]; [|apply Hbt; lia].
    injection Hrun as <-. reflexivity.
Qed.

(** X15. The baseline "ewma_R" of a pass is the mean of the rewards of
    the training step when the EWMA is not started, and
    [alpha * mean + (1 - alpha) * ewma] after that. With [alpha] in
    [0, 1] and rewards that are clipped as [learn] clips them:
    when the training step has a row and the EWMA is not started or is
    a number within the bounds of the clip, the baseline handed to
    [train_step] and the new EWMA are one number within these bounds
    again; when the training step has no row, or the EWMA is nan, both
    are nan, and with this baseline they are nan after every later
    pass of either variant, whatever the rewards. The baseline
    "combined" of the first pass of an EWMA not started is the mean of
    the rewards, the quantile cancelling out, and nan when the training
    step has no row. *)
Theorem ewma_baseline_within_the_clip_or_nan (alpha : Q) (quantile : option Q)
    (ewma b_train : option Np.float) (r : list Q) :
  (0 <= alpha)%Q -> (alpha <= 1)%Q ->
  let r_train := Np.clip r (-1000000) 1000000 in
  (r <> [] ->
   match ewma with
   | Some e => within_the_clip e
   | None => True
   end ->
   exists b,
     compute_baseline "ewma_R" alpha quantile ewma b_train r_train = Ok (Some b, Some b) /\
     within_the_clip b /\
     (ewma = None -> b = Np.mean r_train)) /\
  (r = [] \/ ewma = Some Np.NaN ->
   compute_baseline "ewma_R" alpha quantile ewma b_train r_train
   = Ok (Some Np.NaN, Some Np.NaN)) /\
  (forall q, exists w b,
     compute_baseline "combined" alpha (Some q) None b_train r_train
       = Ok (Some w, Some b) /\
     (r <> [] -> Np.feq b (Np.mean r_train)) /\
     (r = [] -> b = Np.NaN)) /\
  (forall cfg k,
     Config.baseline cfg = "ewma_R" -> 0 < k ->
     (forall env e (st st' : Dso.State.t MQ),
        Dso.State.ewma st = Some Np.NaN ->
        DsoSpec.passes wq cfg env e k st = Ok st' ->
        Dso.State.ewma st' = Some Np.NaN /\ Dso.State.b_train st' = Some Np.NaN) /\
     (forall env e (st st' : Dsr.State.t MQ),
        Dsr.State.ewma st = Some Np.NaN ->
        DsrRun.passes wq cfg env e k st = Ok st' ->
        Dsr.State.ewma st' = Some Np.NaN /\ Dsr.State.b_train st' = Some Np.NaN)).
Proof.
  intros Ha0 Ha1 r_train. split; [|split; [|split]].
  - intros Hne Hewma. exact (ewma_R_within alpha quantile ewma b_train r Ha0 Ha1 Hne Hewma).
  - intros Hcase. apply ewma_R_nan. destruct Hcase as [-> | Hnan]; [left | right].
    + reflexivity.
    + exact Hnan.
  - intros q. destruct (combined_first alpha q b_train r_train) as (w & b & Hb & Hmean & Hnan).
    exists w, b. split; [exact Hb|]. split.
    + intros Hne. apply Hmean. apply map_not_nil. exact Hne.
    + intros ->. apply Hnan. reflexivity.
  - intros cfg k Hbase Hk. split.
    + intros env e st st' Hewma Hrun.
      destruct (dso_nan_stays cfg env k e st st' Hbase Hewma Hrun) as [He Hb].
      split; [exact He | exact (Hb Hk)].
    + intros env e st st' Hewma Hrun.
      destruct (dsr_nan_stays cfg env k e st st' Hbase Hewma Hrun) as [He Hb].
      split; [exact He | exact (Hb Hk)].
Qed.

End NanStays.

Lemma ewma_baseline_within_the_clip_or_nan_witness :
  (exists b,
     compute_baseline "ewma_R" 0.5 None (Some (Np.Num 0.3)) None
       (Np.clip [0.9; 2000000]%Q (-1000000) 1000000) = Ok (Some b, Some b) /\
     within_the_clip b) /\
  compute_baseline "ewma_R" 0.5 None (Some (Np.Num 0.3)) None
    (Np.clip [] (-1000000) 1000000) = Ok (Some Np.NaN, Some Np.NaN) /\
  (exists st1 st2,
     DsrRun.passes (MQ:=TableQueue.t) weighted_quantile Example.gp_ewma_R
       Example.gp_env_two 0 1 (Example.dsr_state (Some 0%Q)) = Ok st1 /\
     Dsr.State.ewma st1 = Some Np.NaN /\
     DsrRun.passes weighted_quantile Example.gp_ewma_R Example.gp_env_two 1 1 st1
       = Ok st2 /\
     Dsr.State.b_train st2 = Some Np.NaN).
Proof.
  assert (H0 : (0 <= 0.5)%Q) by (apply Qle_bool_iff; reflexivity).
  assert (H1 : (0.5 <= 1)%Q) by (apply Qle_bool_iff; reflexivity).
  split; [|split].
  - destruct (ewma_baseline_within_the_clip_or_nan (MQ:=TableQueue.t) weighted_quantile
                0.5 None (Some (Np.Num 0.3)) None [0.9; 2000000]%Q H0 H1)
      as (Hin & _).
    destruct Hin as (b & Hb & Hw & _).
    + discriminate.
    + split; apply Qle_bool_iff; reflexivity.
    + exists b. split; [exact Hb | exact Hw].
  - destruct (ewma_baseline_within_the_clip_or_nan (MQ:=TableQueue.t) weighted_quantile
                0.5 None (Some (Np.Num 0.3)) None [] H0 H1) as (_ & Hnan & _).
    apply Hnan. left. reflexivity.
  - destruct (DsrRun.passes (MQ:=TableQueue.t) weighted_quantile Example.gp_ewma_R
                Example.gp_env_two 0 1 (Example.dsr_state (Some 0%Q)))
      as [st1|err] eqn:Hrun1; [|vm_compute in Hrun1; discriminate].
    assert (He1 : Dsr.State.ewma st1 = Some Np.NaN).
    { vm_compute in Hrun1. injection Hrun1 as <-. reflexivity. }
    destruct (DsrRun.passes (MQ:=TableQueue.t) weighted_quantile Example.gp_ewma_R
                Example.gp_env_two 1 1 st1)
      as [st2|err] eqn:Hrun2.
    + exists st1, st2. split; [reflexivity|]. split; [exact He1|].
      split; [exact Hrun2|].
      destruct (ewma_baseline_within_the_clip_or_nan (MQ:=TableQueue.t) weighted_quantile
                  0.5 None None None [] H0 H1) as (_ & _ & _ & Hstay).
      destruct (Hstay Example.gp_ewma_R 1 eq_refl ltac:(lia)) as [_ Hdsr].
      exact (proj2 (Hdsr Example.gp_env_two 1 st1 st2 He1 Hrun2)).
    + exfalso. vm_compute in Hrun1. injection Hrun1 as <-.
      vm_compute in Hrun2. discriminate.
Defined.

(** ** The reward history of a stochastic task *)

Lemma history_fold (value : Program.t -> Q) (programs : list Program.t) (key : string) :
  forall h : gmap string (list Q),
    fold_left (History.record value) programs h !! key =
      match rewards_under value key programs with
      | [] => h !! key
      | rs => Some (default [] (h !! key) ++ rs)
      end.
Proof.
  induction programs as [|p l IH]; intros h; [reflexivity|].
  cbn [fold_left]. rewrite IH. unfold rewards_under. cbn [List.filter].
  unfold History.record.
  destruct (String.eqb_spec (Program.str p) key) as [Heq|Hne].
  - rewrite Heq. cbn [map].
    assert (Hh : (match h !! key with
                  | Some rs => <[key := rs ++ [value p]]> h
                  | None => <[key := [value p]]> h
                  end) !! key = Some (default [] (h !! key) ++ [value p])).
    { destruct (h !! key); rewrite lookup_insert_eq; reflexivity. }
    rewrite Hh. cbn [default].
    destruct (map value (List.filter (fun p0 => String.eqb (Program.str p0) key) l));
      [reflexivity|].
    unfold id. rewrite <- app_assoc. reflexivity.
  - assert (Hh : (match h !! Program.str p with
                  | Some rs => <[Program.str p := rs ++ [value p]]> h
                  | None => <[Program.str p := [value p]]> h
                  end) !! key = h !! key).
    { destruct (h !! Program.str p); apply lookup_insert_ne; exact Hne. }
    rewrite Hh. reflexivity.
Qed.

Lemma history_batches (value : Program.t -> Q) (batches : list (list Program.t)) :
  forall h : gmap string (list Q),
    fold_left (History.update value) batches (Some h)
    = Some (fold_left (History.record value) (concat batches) h).
Proof.
  induction batches as [|b batches IH]; intros h; [reflexivity|].
  cbn [fold_left concat History.update]. rewrite IH, fold_left_app. reflexivity.
Qed.

(** X16. The reward history that [learn] keeps for a stochastic task
    holds, after any number of passes, under the key of every program
    seen the rewards of all the rows with this key, in the order they
    were sampled (a key that was sampled twice in one batch gets two
    entries), and holds no other key; for a task that is not stochastic
    it stays [None]. It is the rewards [value] that are kept: [p.r] in
    the dso variant, [p.base_r] in the dsr variant. *)
Theorem history_keeps_every_reward (value : Program.t -> Q)
    (batches : list (list Program.t)) :
  History.run false value batches = None /\
  exists h,
    History.run true value batches = Some h /\
    forall key,
      h !! key = match rewards_under value key (concat batches) with
                 | [] => None
                 | rs => Some rs
                 end.
Proof.
  split.
  - unfold History.run, History.init. induction batches as [|b batches IH]; [reflexivity|].
    exact IH.
  - unfold History.run, History.init. rewrite history_batches. eexists. split; [reflexivity|].
    intros key. rewrite history_fold, lookup_empty. reflexivity.
Qed.

(** ** The error statistics *)

Lemma total_cons (k : string) (c : nat) (d : list (string * nat)) :
  total ((k, c) :: d) = c + total d.
Proof. reflexivity. Qed.

Lemma count_of_cons (k : string) (c : nat) (d : list (string * nat)) (key : string) :
  count_of ((k, c) :: d) key = (if String.eqb k key then c else 0) + count_of d key.
Proof. unfold count_of. cbn. destruct (String.eqb k key); reflexivity. Qed.

Lemma add_total (d : list (string * nat)) (key : string) (n : nat) :
  total (ErrorStats.add d key n) = total d + n.
Proof.
  induction d as [|[k c] d IH]; [cbn; lia|].
  cbn [ErrorStats.add]. destruct (String.eqb k key); rewrite !total_cons; [lia|].
  rewrite IH. lia.
Qed.

Lemma add_keys (d : list (string * nat)) (key : string) (n : nat) :
  map fst (ErrorStats.add d key n)
  = if existsb (fun x => String.eqb (fst x) key) d then map fst d
    else map fst d ++ [key].
Proof.
  induction d as [|[k c] d IH]; cbn; [reflexivity|].
  destruct (String.eqb k key); cbn; [reflexivity|]. rewrite IH.
  destruct (existsb _ d); reflexivity.
Qed.

Lemma add_NoDup (d : list (string * nat)) (key : string) (n : nat) :
  NoDup (map fst d) -> NoDup (map fst (ErrorStats.add d key n)).
Proof.
  intros Hnd. rewrite add_keys.
  destruct (existsb (fun x => String.eqb (fst x) key) d) eqn:Hex; [exact Hnd|].
  apply NoDup_app. split; [exact Hnd|]. split; [|apply NoDup_singleton].
  intros k Hk Hk'. apply list_elem_of_singleton in Hk'. subst k.
  apply list_elem_of_fmap in Hk as (x & Hx & Hin).
  assert (Hc : existsb (fun x => String.eqb (fst x) key) d = true).
  { apply existsb_exists. exists x. split; [apply list_elem_of_In; exact Hin|].
    rewrite <- Hx. apply String.eqb_refl. }
  congruence.
Qed.

Lemma add_count_of (d : list (string * nat)) (key k : string) (n : nat) :
  count_of (ErrorStats.add d key n) k
  = count_of d k + (if String.eqb key k then n else 0).
Proof.
  induction d as [|[k0 c] d IH].
  - cbn [ErrorStats.add]. rewrite count_of_cons. unfold count_of. cbn.
    destruct (String.eqb key k); lia.
  - cbn [ErrorStats.add]. destruct (String.eqb_spec k0 key) as [->|Hne].
    + rewrite !count_of_cons. destruct (String.eqb key k); lia.
    + rewrite !count_of_cons, IH. lia.
Qed.

Lemma shares_total (n : nat) (d : list (string * nat)) :
  (shares n d == inject_Z (Z.of_nat (total d)) / inject_Z (Z.of_nat n))%Q.
Proof.
  induction d as [|[k c] d IH].
  - unfold shares, total. cbn. unfold Qdiv. rewrite Qmult_0_l. reflexivity.
  - rewrite total_cons. change (shares n ((k, c) :: d))
      with (ErrorStats.share c n + shares n d)%Q.
    rewrite IH. unfold ErrorStats.share.
    rewrite Nat2Z.inj_add, inject_Z_plus. unfold Qdiv. ring.
Qed.

(** What the loop over the cache has counted after the programs
    [cache]. *)
Lemma collect_spec (cache : list Cached.t) :
  forall st : ErrorStats.t,
    let st' := fold_left ErrorStats.count cache st in
    ErrorStats.n_invalid st'
      = ErrorStats.n_invalid st
        + list_sum (map Cached.count (List.filter Cached.invalid cache)) /\
    total (ErrorStats.error_types st') + ErrorStats.n_invalid st
      = total (ErrorStats.error_types st) + ErrorStats.n_invalid st' /\
    total (ErrorStats.error_nodes st') + ErrorStats.n_invalid st
      = total (ErrorStats.error_nodes st) + ErrorStats.n_invalid st' /\
    (NoDup (map fst (ErrorStats.error_types st)) ->
     NoDup (map fst (ErrorStats.error_types st'))) /\
    (NoDup (map fst (ErrorStats.error_nodes st)) ->
     NoDup (map fst (ErrorStats.error_nodes st'))) /\
    (forall key,
       count_of (ErrorStats.error_types st') key
       = count_of (ErrorStats.error_types st) key
         + invalid_count Cached.error_type key cache) /\
    (forall key,
       count_of (ErrorStats.error_nodes st') key
       = count_of (ErrorStats.error_nodes st) key
         + invalid_count Cached.error_node key cache).
Proof.
  induction cache as [|p cache IH]; intros st.
  - cbn. unfold invalid_count. cbn. repeat split; auto; intros; lia.
  - cbn [fold_left]. cbn zeta.
    destruct (IH (ErrorStats.count st p)) as (Hn & Ht & Hd & Hnt & Hnn & Hct & Hcn).
    set (st' := fold_left ErrorStats.count cache (ErrorStats.count st p)) in *.
    clearbody st'. unfold invalid_count in *. cbn [List.filter].
    unfold ErrorStats.count in Hn, Ht, Hd, Hnt, Hnn, Hct, Hcn.
    destruct (Cached.invalid p); cbn [andb].
    + cbn [ErrorStats.n_invalid ErrorStats.error_types ErrorStats.error_nodes]
        in Hn, Ht, Hd, Hnt, Hnn, Hct, Hcn.
      rewrite add_total in Ht, Hd.
      change (list_sum (map Cached.count (p :: List.filter Cached.invalid cache)))
        with (Cached.count p + list_sum (map Cached.count (List.filter Cached.invalid cache))).
      repeat split.
      * lia.
      * lia.
      * lia.
      * intros Hnd. apply Hnt, add_NoDup, Hnd.
      * intros Hnd. apply Hnn, add_NoDup, Hnd.
      * intros key. rewrite Hct, add_count_of.
        destruct (String.eqb (Cached.error_type p) key);
          unfold list_sum; cbn [map fold_right]; lia.
      * intros key. rewrite Hcn, add_count_of.
        destruct (String.eqb (Cached.error_node p) key);
          unfold list_sum; cbn [map fold_right]; lia.
    + repeat split; auto.
Qed.

(** X17. The error statistics the dsr variant prints at the end: the
    counts of the error types add up to [n_invalid], and so do the
    counts of the error nodes; every key is printed once, with the sum
    of the counts of the invalid programs that have it; the shares
    printed for the error types add up to 1 when something is printed.
    Nothing is printed, and [epoch] is not read, when no invalid
    program was counted; otherwise [epoch] is read, which raises a
    NameError after a loop of no pass, and a [batch_size] of 0 gives a
    division by zero. *)
Theorem error_counts_add_up (cache : list Cached.t) :
  let st := ErrorStats.collect cache in
  ErrorStats.n_invalid st = list_sum (map Cached.count (List.filter Cached.invalid cache)) /\
  total (ErrorStats.error_types st) = ErrorStats.n_invalid st /\
  total (ErrorStats.error_nodes st) = ErrorStats.n_invalid st /\
  NoDup (map fst (ErrorStats.error_types st)) /\
  NoDup (map fst (ErrorStats.error_nodes st)) /\
  (forall key,
     count_of (ErrorStats.error_types st) key = invalid_count Cached.error_type key cache /\
     count_of (ErrorStats.error_nodes st) key = invalid_count Cached.error_node key cache) /\
  (ErrorStats.n_invalid st = 0 ->
   forall epoch batch_size, ErrorStats.report st epoch batch_size = Ok []) /\
  (0 < ErrorStats.n_invalid st ->
   (shares (ErrorStats.n_invalid st) (ErrorStats.error_types st) == 1)%Q /\
   (forall batch_size, ErrorStats.report st None batch_size = Raise (NameError "epoch")) /\
   (forall e, ErrorStats.report st (Some e) 0 = Raise ZeroDivisionError) /\
   (forall e batch_size, 0 < batch_size ->
      ErrorStats.report st (Some e) batch_size
      = Ok (ErrorStats.Invalid (ErrorStats.n_invalid st) ((e + 1) * batch_size)
              (ErrorStats.share (ErrorStats.n_invalid st) ((e + 1) * batch_size))
            :: ErrorStats.Header "Error type counts:"
            :: ErrorStats.count_lines (ErrorStats.n_invalid st) (ErrorStats.error_types st)
            ++ ErrorStats.Header "Error node counts:"
            :: ErrorStats.count_lines (ErrorStats.n_invalid st)
                 (ErrorStats.error_nodes st)))).
Proof.
  cbn zeta. unfold ErrorStats.collect.
  destruct (collect_spec cache {| ErrorStats.n_invalid := 0; ErrorStats.error_types := [];
                                  ErrorStats.error_nodes := [] |})
    as (Hn & Ht & Hd & Hnt & Hnn & Hct & Hcn).
  cbn zeta in *. cbn [ErrorStats.n_invalid ErrorStats.error_types ErrorStats.error_nodes] in *.
  set (st := fold_left ErrorStats.count cache _) in *.
  change (total []) with 0 in Ht, Hd.
  repeat split.
  - exact Hn.
  - lia.
  - lia.
  - apply Hnt. constructor.
  - apply Hnn. constructor.
  - rewrite Hct. reflexivity.
  - rewrite Hcn. reflexivity.
  - intros Hz epoch batch_size. unfold ErrorStats.report. rewrite Hz. reflexivity.
  - rewrite shares_total.
    replace (total (ErrorStats.error_types st)) with (ErrorStats.n_invalid st) by lia.
    apply Qmult_inv_r. intros Hc.
    assert (Hq : (0 < inject_Z (Z.of_nat (ErrorStats.n_invalid st)))%Q).
    { change 0%Q with (inject_Z 0). rewrite <- Zlt_Qlt. lia. }
    rewrite Hc in Hq. apply (Qlt_irrefl _ Hq).
  - intros batch_size. unfold ErrorStats.report.
    destruct (Nat.ltb_spec 0 (ErrorStats.n_invalid st)); [reflexivity | lia].
  - intros e. unfold ErrorStats.report.
    destruct (Nat.ltb_spec 0 (ErrorStats.n_invalid st)); [|lia].
    cbn [read]. rewrite bind_Ok, Nat.mul_0_r. reflexivity.
  - intros e batch_size Hb. unfold ErrorStats.report.
    destruct (Nat.ltb_spec 0 (ErrorStats.n_invalid st)); [|lia].
    cbn [read]. rewrite bind_Ok.
    destruct (Nat.eqb_spec ((e + 1) * batch_size) 0) as [Hz|_]; [nia | reflexivity].
Qed.

Lemma error_counts_add_up_witness :
  ErrorStats.n_invalid (ErrorStats.collect Example2.cache) = 6 /\
  ErrorStats.error_types (ErrorStats.collect Example2.cache)
    = [("true_divide", 3); ("overflow", 3)] /\
  (shares 6 (ErrorStats.error_types (ErrorStats.collect Example2.cache)) == 1)%Q /\
  ErrorStats.report (ErrorStats.collect Example2.cache) None 4 = Raise (NameError "epoch").
Proof.
  destruct (error_counts_add_up Example2.cache) as (Hn & _ & _ & _ & _ & _ & _ & Hpos).
  destruct (Hpos ltac:(cbn; lia)) as (Hshares & Hname & _).
  split; [reflexivity|]. split; [reflexivity|]. split; [exact Hshares | exact (Hname 4)].
Defined.

(** ** Evaluation through the pool leaves nothing pending *)

Section PoolInvariant.
Context {C : Type}.
Variable optimize : list Z -> C.
Variable reward : list Z -> option C -> Q.
Variable set_order : list (list Z) -> list (list Z).

Local Abbreviation construct := (Evaluation.construct optimize reward).
Local Abbreviation work := (Evaluation.work optimize reward).
Local Abbreviation todo_of := (Evaluation.programs_to_optimize set_order).

Lemma construct_has (flag : bool) (actions : list (list Z)) (k : list Z) :
  forall cache : gmap (list Z) (Candidate.t C),
    k ∈ actions -> is_Some (construct flag actions cache !! k).
Proof.
  induction actions as [|a actions IH]; intros cache Hk.
  - apply elem_of_nil in Hk. destruct Hk.
  - cbn [Evaluation.construct fold_left].
    change (is_Some (construct flag actions
                       (Evaluation.from_tokens optimize reward a flag cache) !! k)).
    destruct (decide (a = k)) as [->|Hne].
    + assert (Hstep : is_Some (Evaluation.from_tokens optimize reward k flag cache !! k)).
      { unfold Evaluation.from_tokens.
        destruct (cache !! k); [|destruct flag]; rewrite lookup_insert_eq; eauto. }
      destruct Hstep as [p Hp].
      destruct (construct_keeps_reward optimize reward flag actions k _ p Hp)
        as (p' & Hp' & _).
      eauto.
    + apply IH. apply elem_of_cons in Hk as [->|Hk]; [congruence | exact Hk].
Qed.

(** Reading the rewards of programs that all have one changes nothing. *)
Lemma retrieve_settled (programs : list (list Z)) :
  forall cache : gmap (list Z) (Candidate.t C),
    (forall a, a ∈ programs -> Evaluation.pending cache a = false) ->
    fst (Evaluation.retrieve reward programs cache) = cache.
Proof.
  induction programs as [|a programs IH]; intros cache Hnp; [reflexivity|].
  cbn [Evaluation.retrieve].
  assert (Hread : Evaluation.read_r reward a cache
                  = (cache, snd (Evaluation.read_r reward a cache))).
  { specialize (Hnp a ltac:(left)). unfold Evaluation.pending in Hnp.
    unfold Evaluation.read_r. destruct (cache !! a) as [p|]; [|reflexivity].
    destruct (Candidate.r p); [reflexivity | discriminate]. }
  rewrite Hread.
  specialize (IH cache ltac:(intros a' Ha'; apply Hnp; right; exact Ha')).
  destruct (Evaluation.retrieve reward programs cache) as [c2 xs]. cbn in IH |- *.
  exact IH.
Qed.

(** X18. The pool branch of [learn] (programs built without fitting,
    the pending ones of the batch dispatched, the results set on the
    parent's objects) leaves no program of the batch pending, whatever
    the cache held before: every program of the batch is in the cache
    with its reward, so that reading the rewards afterwards computes
    nothing in the parent. A cache of evaluated Candidates is again one
    after the epoch, which is the state the comparison with serial
    evaluation (C2) starts from. The cache and [from_tokens] are the
    model of [program.py] that C2 uses; the branch is the source's. *)
Theorem pool_leaves_nothing_pending (actions : list (list Z))
    (cache : gmap (list Z) (Candidate.t C)) :
  Evaluation.set_like set_order ->
  let cache1 := construct false actions cache in
  let todo := todo_of actions cache1 in
  let cache2 := Evaluation.apply_results (map work todo) todo cache1 in
  (forall a, a ∈ actions ->
     exists p, cache2 !! a = Some p /\ is_Some (Candidate.r p)) /\
  fst (Evaluation.parallel optimize reward set_order actions cache) = cache2 /\
  (Evaluation.evaluated cache ->
   Evaluation.evaluated
     (fst (Evaluation.parallel optimize reward set_order actions cache))).
Proof.
  intros Hset cache1 todo cache2.
  assert (Htodo : forall a, a ∈ todo <->
                            a ∈ actions /\ Evaluation.pending cache1 a = true).
  { intros a. unfold todo, Evaluation.programs_to_optimize.
    destruct (Hset (List.filter (Evaluation.pending cache1) actions)) as [_ Hmem].
    rewrite Hmem, !list_elem_of_In, filter_In. reflexivity. }
  assert (Hlook : forall k, cache2 !! k =
            if decide (k ∈ todo) then Evaluation.set_result (work k) <$> cache1 !! k
            else cache1 !! k).
  { intros k. unfold cache2. apply apply_results_lookup. }
  assert (Hbatch : forall a, a ∈ actions ->
            exists p, cache2 !! a = Some p /\ is_Some (Candidate.r p)).
  { intros a Ha. destruct (construct_has false actions a cache Ha) as [p Hp].
    fold cache1 in Hp. rewrite Hlook.
    destruct (decide (a ∈ todo)) as [Hin|Hnin].
    - rewrite Hp. cbn. eexists. split; [reflexivity|]. cbn. eauto.
    - exists p. split; [exact Hp|].
      destruct (Candidate.r p) as [x|] eqn:Hr; [eauto|]. exfalso. apply Hnin.
      apply Htodo. split; [exact Ha|]. unfold Evaluation.pending. rewrite Hp, Hr.
      reflexivity. }
  assert (Hfst : fst (Evaluation.parallel optimize reward set_order actions cache) = cache2).
  { unfold Evaluation.parallel. fold cache1. fold todo. fold cache2.
    apply retrieve_settled. intros a Ha. destruct (Hbatch a Ha) as (p & Hp & [x Hx]).
    unfold Evaluation.pending. rewrite Hp, Hx. reflexivity. }
  split; [exact Hbatch|]. split; [exact Hfst|].
  intros Hev. rewrite Hfst. intros k p Hp.
  destruct (decide (k ∈ actions)) as [Hin|Hnin].
  - destruct (Hbatch k Hin) as (p' & Hp' & Hr). congruence.
  - rewrite Hlook in Hp. destruct (decide (k ∈ todo)) as [Hint|_].
    + apply Htodo in Hint as [Hin _]. contradiction.
    + unfold cache1 in Hp. rewrite construct_other in Hp by exact Hnin.
      exact (Hev k p Hp).
Qed.

End PoolInvariant.

Lemma pool_leaves_nothing_pending_witness :
  (forall a, a ∈ Example.batch_12_3_3_45 ->
     exists p,
       fst (Evaluation.parallel Example.optimize Example.reward Example.set_order
              Example.batch_12_3_3_45 Example.cache_12) !! a = Some p /\
       is_Some (Candidate.r p)) /\
  Evaluation.evaluated
    (fst (Evaluation.parallel Example.optimize Example.reward Example.set_order
            Example.batch_12_3_3_45 Example.cache_12)).
Proof.
  destruct (pool_leaves_nothing_pending Example.optimize Example.reward Example.set_order
              Example.batch_12_3_3_45 Example.cache_12 set_order_set_like)
    as (Hbatch & Hfst & Hev).
  split.
  - intros a Ha. rewrite Hfst. apply Hbatch, Ha.
  - apply Hev, cache_12_evaluated.
Defined.

(** ** The sequences of the tests of the priors *)

Lemma nth_error_lookup {A} (l : list A) (i : nat) : nth_error l i = l !! i.
Proof. revert i. induction l as [|x l IH]; intros [|i]; cbn; auto. Qed.

Lemma getitem_ok {A} (a : list A) (i : nat) (x : A) :
  a !! i = Some x -> TestPrior.getitem a (Z.of_nat i) = Ok x.
Proof.
  intros Hx. unfold TestPrior.getitem.
  assert (Hi : (Z.of_nat i <? 0)%Z = false) by (apply Z.ltb_ge; lia).
  rewrite Hi. cbn zeta. rewrite Hi, Nat2Z.id, nth_error_lookup, Hx. reflexivity.
Qed.

(** The tokens of [make_sequence] before the cut. *)
Lemma sequence_length (L : Z) (X U B : Z) :
  (1 <= L)%Z ->
  Z.of_nat (length (replicate (Z.to_nat ((L - 1) / 2)) B
                    ++ replicate (Z.to_nat (if (L mod 2 =? 0)%Z then 1 else 0)) U
                    ++ replicate (Z.to_nat ((L - 1) / 2 + 1)) X)) = L.
Proof.
  intros HL. rewrite !length_app, !length_replicate.
  destruct (Z.eqb_spec (L mod 2) 0) as [He|Ho];
    Z.div_mod_to_equations; lia.
Qed.

Lemma sequence_too_short (L : Z) (X U B : Z) :
  (L <= 0)%Z ->
  Z.of_nat (length (replicate (Z.to_nat ((L - 1) / 2)) B
                    ++ replicate (Z.to_nat (if (L mod 2 =? 0)%Z then 1 else 0)) U
                    ++ replicate (Z.to_nat ((L - 1) / 2 + 1)) X)) <> L.
Proof.
  intros HL. rewrite !length_app, !length_replicate.
  destruct (Z.eqb_spec (L mod 2) 0) as [He|Ho];
    Z.div_mod_to_equations; lia.
Qed.

(** X19. [make_sequence] of the tests of the priors: for a length
    [L] of at least 1 the assertion on the length holds and the sequence
    is [(L - 1) // 2] binary tokens, one unary token when [L] is even,
    and one input token more than binary tokens, cut to [max_length]
    tokens; for [L] below 1 the assertion fails (for [L = 0] the floor
    division gives -1 binary tokens, that is none, and the one unary
    token makes the length 1); and a library without an input token
    makes it raise an IndexError. *)
Theorem make_sequence_has_the_length (lib : Library.t) (max_length : nat) (L X U B : Z) :
  TestPrior.getitem (Library.input_tokens lib) 0 = Ok X ->
  TestPrior.getitem (Library.unary_tokens lib) 0 = Ok U ->
  TestPrior.getitem (Library.binary_tokens lib) 0 = Ok B ->
  ((1 <= L)%Z ->
   let case := replicate (Z.to_nat ((L - 1) / 2)) B
               ++ replicate (if Z.even L then 1 else 0) U
               ++ replicate (S (Z.to_nat ((L - 1) / 2))) X in
   length case = Z.to_nat L /\
   TestPrior.make_sequence lib max_length L = Ok (take max_length case) /\
   length (take max_length case) = Nat.min max_length (Z.to_nat L)) /\
  ((L <= 0)%Z -> TestPrior.make_sequence lib max_length L = Raise (AssertionError "")) /\
  (forall lib', Library.input_tokens lib' = [] ->
     TestPrior.make_sequence lib' max_length L
     = Raise (IndexError "index is out of bounds for axis 0")).
Proof.
  intros HX HU HB. repeat split.
  - pose proof (sequence_length L X U B H) as Hlen.
    assert (Hu : Z.to_nat (if (L mod 2 =? 0)%Z then 1 else 0) = if Z.even L then 1 else 0).
    { rewrite Zeven_mod. destruct (L mod 2 =? 0)%Z; reflexivity. }
    assert (Hx : Z.to_nat ((L - 1) / 2 + 1) = S (Z.to_nat ((L - 1) / 2))).
    { Z.div_mod_to_equations; lia. }
    rewrite Hu, Hx in Hlen. lia.
  - pose proof (sequence_length L X U B H) as Hlen.
    unfold TestPrior.make_sequence. rewrite HX, HU, HB, !bind_Ok. cbn zeta.
    apply Z.eqb_eq in Hlen. rewrite Hlen.
    assert (Hu : Z.to_nat (if (L mod 2 =? 0)%Z then 1 else 0) = if Z.even L then 1 else 0).
    { rewrite Zeven_mod. destruct (L mod 2 =? 0)%Z; reflexivity. }
    assert (Hx : Z.to_nat ((L - 1) / 2 + 1) = S (Z.to_nat ((L - 1) / 2))).
    { Z.div_mod_to_equations; lia. }
    rewrite Hu, Hx. reflexivity.
  - pose proof (sequence_length L X U B H) as Hlen.
    assert (Hu : Z.to_nat (if (L mod 2 =? 0)%Z then 1 else 0) = if Z.even L then 1 else 0).
    { rewrite Zeven_mod. destruct (L mod 2 =? 0)%Z; reflexivity. }
    assert (Hx : Z.to_nat ((L - 1) / 2 + 1) = S (Z.to_nat ((L - 1) / 2))).
    { Z.div_mod_to_equations; lia. }
    rewrite Hu, Hx in Hlen. rewrite length_take. lia.
  - intros HL. pose proof (sequence_too_short L X U B HL) as Hlen.
    unfold TestPrior.make_sequence. rewrite HX, HU, HB, !bind_Ok. cbn zeta.
    apply Z.eqb_neq in Hlen. rewrite Hlen. reflexivity.
  - intros lib' Hnil. unfold TestPrior.make_sequence, TestPrior.getitem.
    rewrite Hnil. reflexivity.
Qed.

Lemma make_sequence_has_the_length_witness :
  TestPrior.make_sequence Example2.library 30 4 = Ok [0; 1; 2; 2]%Z /\
  TestPrior.make_sequence Example2.library 4 5 = Ok [0; 0; 2; 2]%Z /\
  TestPrior.make_sequence Example2.library 30 0 = Raise (AssertionError "").
Proof.
  destruct (make_sequence_has_the_length Example2.library 30 4 2 1 0 eq_refl eq_refl eq_refl)
    as (H4 & _).
  destruct (make_sequence_has_the_length Example2.library 4 5 2 1 0 eq_refl eq_refl eq_refl)
    as (H5 & _).
  destruct (make_sequence_has_the_length Example2.library 30 0 2 1 0 eq_refl eq_refl eq_refl)
    as (_ & H0 & _).
  split; [exact (proj1 (proj2 (H4 ltac:(lia))))|].
  split; [exact (proj1 (proj2 (H5 ltac:(lia)))) | exact (H0 ltac:(lia))].
Defined.

Lemma dangling_after_app (lib : Library.t) (l1 l2 : list Z) :
  TestPriorSpec.dangling_after lib (l1 ++ l2)
  = fold_left (fun d token => (d + (TestPriorSpec.arity lib token - 1))%Z) l2
      (TestPriorSpec.dangling_after lib l1).
Proof. unfold TestPriorSpec.dangling_after. apply fold_left_app. Qed.

Lemma dangling_replicate (lib : Library.t) (token : Z) (n : nat) (d : Z) :
  fold_left (fun d token => (d + (TestPriorSpec.arity lib token - 1))%Z)
    (replicate n token) d
  = (d + Z.of_nat n * (TestPriorSpec.arity lib token - 1))%Z.
Proof.
  revert d. induction n as [|n IH]; intros d; [cbn; lia|].
  cbn [replicate fold_left]. rewrite IH. lia.
Qed.

Lemma arity_ok (lib : Library.t) (token a : Z) :
  TestPrior.getitem (Library.arities lib) token = Ok a -> TestPriorSpec.arity lib token = a.
Proof. unfold TestPriorSpec.arity. intros ->. reflexivity. Qed.

(** The dangling nodes after binary, unary and input tokens, in this
    order. *)
Lemma dangling_of_sequence (lib : Library.t) (X U B : Z) (a b c : nat) :
  TestPriorSpec.arities_as_named lib X U B ->
  TestPriorSpec.dangling_after lib (replicate a B ++ replicate b U ++ replicate c X)
  = (1 + Z.of_nat a - Z.of_nat c)%Z.
Proof.
  intros (_ & _ & _ & HX & HU & HB).
  apply arity_ok in HX, HU, HB.
  unfold TestPriorSpec.dangling_after.
  rewrite !fold_left_app, !dangling_replicate, HX, HU, HB. lia.
Qed.

Lemma take_sequence (X U B : Z) (a b c m : nat) :
  take m (replicate a B ++ replicate b U ++ replicate c X)
  = replicate (Nat.min m a) B ++ replicate (Nat.min (m - a) b) U
    ++ replicate (Nat.min (m - a - b) c) X.
Proof.
  rewrite !take_app, !take_replicate, !length_replicate. reflexivity.
Qed.

Lemma make_sequence_ok (lib : Library.t) (max_length : nat) (L X U B : Z) :
  TestPrior.getitem (Library.input_tokens lib) 0 = Ok X ->
  TestPrior.getitem (Library.unary_tokens lib) 0 = Ok U ->
  TestPrior.getitem (Library.binary_tokens lib) 0 = Ok B ->
  (1 <= L)%Z ->
  exists a b,
    b <= 1 /\ Z.of_nat (a + b + S a) = L /\
    TestPrior.make_sequence lib max_length L
    = Ok (take max_length (replicate a B ++ replicate b U ++ replicate (S a) X)).
Proof.
  intros HX HU HB HL. pose proof (sequence_length L X U B HL) as Hlen.
  exists (Z.to_nat ((L - 1) / 2)), (Z.to_nat (if (L mod 2 =? 0)%Z then 1 else 0)).
  assert (Hx : Z.to_nat ((L - 1) / 2 + 1) = S (Z.to_nat ((L - 1) / 2))).
  { Z.div_mod_to_equations; lia. }
  repeat split.
  - destruct (L mod 2 =? 0)%Z; cbn; lia.
  - rewrite !length_app, !length_replicate, Hx in Hlen. lia.
  - unfold TestPrior.make_sequence. rewrite HX, HU, HB, !bind_Ok. cbn zeta.
    apply Z.eqb_eq in Hlen. rewrite Hlen, Hx. reflexivity.
Qed.

(** X20. With a library whose first input, unary and binary tokens
    have the arities 0, 1 and 2, [make_sequence] of a length from 1 to
    [max_length] is a whole expression in prefix order: it leaves no
    node dangling, and each of its proper prefixes leaves one at least.
    The sequence of the length [max_length + 1], cut to [max_length]
    tokens, is no expression: it leaves exactly one node dangling (what
    the comment in [test_length] says of the case that is one token too
    long, when the [max_] of the test is the [max_length] of the
    controller), and none of its prefixes leaves none. *)
Theorem make_sequence_is_an_expression (lib : Library.t) (max_length : nat) (L X U B : Z) :
  TestPriorSpec.arities_as_named lib X U B -> (1 <= L)%Z ->
  ((L <= Z.of_nat max_length)%Z ->
   exists case,
     TestPrior.make_sequence lib max_length L = Ok case /\
     length case = Z.to_nat L /\ TestPriorSpec.complete lib case) /\
  (L = (Z.of_nat max_length + 1)%Z ->
   exists case,
     TestPrior.make_sequence lib max_length L = Ok case /\
     length case = max_length /\
     TestPriorSpec.dangling_after lib case = 1%Z /\
     forall m, (0 < TestPriorSpec.dangling_after lib (take m case))%Z).
Proof.
  intros Har HL. pose proof Har as (HX & HU & HB & _).
  destruct (make_sequence_ok lib max_length L X U B HX HU HB HL) as (a & b & Hb & Hlen & Hrun).
  split.
  - intros Hmax. eexists. split; [exact Hrun|].
    assert (Hfull : length (replicate a B ++ replicate b U ++ replicate (S a) X)
                    = a + b + S a) by (rewrite !length_app, !length_replicate; lia).
    rewrite take_ge by (rewrite Hfull; lia).
    split; [rewrite Hfull; lia|]. split.
    + rewrite (dangling_of_sequence lib X U B) by exact Har. lia.
    + intros m Hm. rewrite Hfull in Hm.
      rewrite take_sequence, (dangling_of_sequence lib X U B) by exact Har. lia.
  - intros Hmax. eexists. split; [exact Hrun|].
    assert (Hfull : length (replicate a B ++ replicate b U ++ replicate (S a) X)
                    = a + b + S a) by (rewrite !length_app, !length_replicate; lia).
    split; [rewrite length_take, Hfull; lia|]. split.
    + rewrite take_sequence, (dangling_of_sequence lib X U B) by exact Har. lia.
    + intros m. rewrite take_take, take_sequence,
        (dangling_of_sequence lib X U B) by exact Har. lia.
Qed.

Lemma make_sequence_is_an_expression_witness :
  (exists case,
     TestPrior.make_sequence Example2.library 30 4 = Ok case /\
     length case = 4 /\ TestPriorSpec.complete Example2.library case) /\
  (exists case,
     TestPrior.make_sequence Example2.library 4 5 = Ok case /\
     length case = 4 /\ TestPriorSpec.dangling_after Example2.library case = 1%Z).
Proof.
  assert (Har : TestPriorSpec.arities_as_named Example2.library 2 1 0)
    by (repeat split; reflexivity).
  split.
  - destruct (make_sequence_is_an_expression Example2.library 30 4 2 1 0 Har ltac:(lia))
      as (Hin & _).
    exact (Hin ltac:(lia)).
  - destruct (make_sequence_is_an_expression Example2.library 4 5 2 1 0 Har ltac:(lia))
      as (_ & Hout).
    destruct (Hout eq_refl) as (case & Hrun & Hlen & Hd & _). eauto.
Defined.

(** ** The batches of the tests of the priors *)

Lemma mapM_inv {A B} (f : A -> result B) (l : list A) (k : list B) :
  mapM f l = Ok k -> Forall2 (fun x y => f x = Ok y) l k.
Proof.
  revert k. induction l as [|x l IH]; intros k Hrun.
  - injection Hrun as <-. constructor.
  - cbn [mapM] in Hrun.
    apply bind_Ok_inv in Hrun as (y & Hy & Hrun).
    apply bind_Ok_inv in Hrun as (rest & Hrest & Hrun).
    injection Hrun as <-. constructor; [exact Hy | apply IH; exact Hrest].
Qed.

Lemma broadcast_inv {A} (n : nat) (v v' : list A) :
  TestPrior.broadcast n v = Ok v' ->
  length v' = n /\
  forall k, k < n -> v' !! k = (if Nat.eqb (length v) n then v !! k else v !! 0).
Proof.
  unfold TestPrior.broadcast. destruct (Nat.eqb_spec (length v) n) as [Hn|Hn].
  - intros [= <-]. auto.
  - destruct v as [|x [|y v]]; try discriminate. intros [= <-].
    split; [apply length_replicate|]. intros k Hk. apply lookup_replicate_2. exact Hk.
Qed.

Lemma set_column_inv (i : nat) (v : list Z) (m m' : list (list Z)) :
  TestPrior.set_column i v m = Ok m' ->
  exists v', TestPrior.broadcast (length m) v = Ok v' /\
             m' = zip_with (fun row x => <[i := x]> row) m v'.
Proof.
  unfold TestPrior.set_column. intros Hrun.
  apply bind_Ok_inv in Hrun as (v' & Hv & Hrun). injection Hrun as <-. eauto.
Qed.

Lemma map_zero (row : list Z) : map (fun _ => 0%Z) row = replicate (length row) 0%Z.
Proof. induction row as [|x row IH]; cbn; [reflexivity | rewrite IH; reflexivity]. Qed.

Lemma array_inv (rows actions : list (list Z)) :
  TestPrior.array rows = Ok actions ->
  actions = rows /\ forall r1 r2, r1 ∈ rows -> r2 ∈ rows -> length r1 = length r2.
Proof.
  unfold TestPrior.array. destruct rows as [|row rows].
  - intros [= <-]. split; [reflexivity|]. intros r1 r2 Hr1. apply elem_of_nil in Hr1.
    destruct Hr1.
  - destruct (forallb _ rows) eqn:Hall; [|discriminate]. intros [= <-].
    split; [reflexivity|].
    assert (Hlen : forall r, r ∈ row :: rows -> length r = length row).
    { intros r Hr. apply elem_of_cons in Hr as [->|Hr]; [reflexivity|].
      rewrite forallb_forall in Hall. apply Nat.eqb_eq, Hall, list_elem_of_In, Hr. }
    intros r1 r2 Hr1 Hr2. rewrite (Hlen r1 Hr1), (Hlen r2 Hr2). reflexivity.
Qed.

Lemma omap_column_length {A} (priors : list (list A)) (n k : nat) :
  Forall (fun v => length v = n) priors -> k < n ->
  length (omap (fun v => nth_error v k) priors) = length priors.
Proof.
  intros Hall Hk. induction Hall as [|v priors Hv _ IH]; [reflexivity|].
  cbn [omap list_omap].
  destruct (nth_error v k) eqn:Hnth.
  - cbn [length]. f_equal. exact IH.
  - apply nth_error_None in Hnth. lia.
Qed.

Lemma swapaxes_inv {A} (n : nat) (priors out : list (list A)) :
  TestPrior.swapaxes n priors = Ok out ->
  priors <> [] /\ length out = n /\ Forall (fun r => length r = length priors) out.
Proof.
  unfold TestPrior.swapaxes. destruct priors as [|v0 priors]; [discriminate|].
  destruct (forallb _ (v0 :: priors)) eqn:Hall; [|discriminate]. intros [= <-].
  split; [discriminate|]. split; [rewrite length_map, length_seq; reflexivity|].
  assert (Hlen : Forall (fun v => length v = n) (v0 :: priors)).
  { apply List.Forall_forall. intros v Hv. rewrite forallb_forall in Hall.
    apply Nat.eqb_eq, Hall, Hv. }
  apply List.Forall_forall. intros r Hr. apply in_map_iff in Hr as (k & <- & Hk).
  apply in_seq in Hk. exact (omap_column_length (v0 :: priors) n k Hlen ltac:(lia)).
Qed.

Section MakeBatchProofs.
Context {P : Type}.
Variable initial_prior : P.
Variable prior : list (list Z) -> list Z -> list Z -> list Z -> list P.
Variable parents_siblings : list (list Z) -> list Z -> list Z -> list Z * list Z.

Lemma step_inv (lib : Library.t) (actions : list (list Z)) (i : nat)
    (s s' : TestPrior.Loop.t P) :
  TestPrior.step prior parents_siblings lib actions i s = Ok s' ->
  actions <> [] /\
  exists prev' parents' siblings' action' ar,
    TestPrior.set_column i (TestPrior.Loop.action s) (TestPrior.Loop.prev_actions s)
      = Ok prev' /\
    TestPrior.set_column i (TestPrior.Loop.parent s) (TestPrior.Loop.parents s)
      = Ok parents' /\
    TestPrior.set_column i (TestPrior.Loop.sibling s) (TestPrior.Loop.siblings s)
      = Ok siblings' /\
    mapM (fun row => Np.index row i) actions = Ok action' /\
    mapM (TestPrior.getitem (Library.arities lib)) action' = Ok ar /\
    TestPrior.Loop.prev_actions s' = prev' /\
    TestPrior.Loop.action s' = action' /\
    TestPrior.Loop.priors s' = TestPrior.Loop.priors s ++ [TestPrior.Loop.prior s] /\
    TestPrior.Loop.dangling s'
      = zip_with (fun d a => (d + (a - 1))%Z) (TestPrior.Loop.dangling s) ar /\
    TestPrior.Loop.lengths s'
      = zip_with (fun (f : bool) l => if f then S i else l)
          (zip_with (fun d l => (d =? 0)%Z && Nat.eqb l 0)
             (TestPrior.Loop.dangling s') (TestPrior.Loop.lengths s))
          (TestPrior.Loop.lengths s).
Proof.
  unfold TestPrior.step. destruct actions as [|row0 rows]; [discriminate|].
  intros Hrun. split; [discriminate|].
  apply bind_Ok_inv in Hrun as (prev' & Hprev & Hrun).
  apply bind_Ok_inv in Hrun as (parents' & Hpar & Hrun).
  apply bind_Ok_inv in Hrun as (siblings' & Hsib & Hrun).
  apply bind_Ok_inv in Hrun as (action' & Hact & Hrun).
  apply bind_Ok_inv in Hrun as (ar & Har & Hrun).
  injection Hrun as <-. exists prev', parents', siblings', action', ar.
  repeat split; assumption.
Qed.

Lemma start_invariant (lib : Library.t) (actions : list (list Z)) (empty_parent : Z) :
  TestPriorSpec.loop_invariant lib actions 0
    (TestPrior.start initial_prior lib (length actions) actions empty_parent).
Proof.
  unfold TestPriorSpec.loop_invariant, TestPrior.start. cbn.
  rewrite !length_replicate, length_map. repeat split.
  - intros v Hv k row Hrow.
    assert (Hk : k < length actions) by (apply lookup_lt_is_Some; eauto).
    apply broadcast_inv in Hv as [_ Hv]. rewrite (Hv k Hk). cbn [length].
    destruct (Nat.eqb_spec 1 (length actions)) as [H1|_]; [|reflexivity].
    replace k with 0 by lia. reflexivity.
  - apply lookup_replicate_2. apply lookup_lt_is_Some. eauto.
  - exists 0. split; [apply lookup_replicate_2, lookup_lt_is_Some; eauto|].
    left. split; [reflexivity|]. intros m Hm. lia.
  - rewrite list_lookup_fmap, H. cbn. rewrite Nat.sub_0_r, map_zero. reflexivity.
Qed.

Lemma step_invariant (lib : Library.t) (actions : list (list Z)) (i : nat)
    (s s' : TestPrior.Loop.t P) :
  TestPriorSpec.loop_invariant lib actions i s ->
  TestPrior.step prior parents_siblings lib actions i s = Ok s' ->
  TestPriorSpec.loop_invariant lib actions (S i) s' /\
  forall row, row ∈ actions -> i < length row.
Proof.
  intros (Hld & Hll & Hlp & Hlpr & Hact & Hrows) Hstep.
  apply step_inv in Hstep
    as (Hne & prev' & parents' & siblings' & action' & ar & Hprev & _ & _ & Hcol & Har
        & Hs_prev & Hs_act & Hs_pri & Hs_dang & Hs_len).
  apply set_column_inv in Hprev as (v' & Hv' & Hprev'). rewrite Hlp in Hv'.
  pose proof (broadcast_inv _ _ _ Hv') as [Hlv' _].
  apply mapM_inv in Hcol. apply mapM_inv in Har.
  pose proof (Forall2_length _ _ _ Hcol) as Hlcol.
  pose proof (Forall2_length _ _ _ Har) as Hlar.
  assert (Hcolumn : forall k row, actions !! k = Some row ->
            exists t a, row !! i = Some t /\ action' !! k = Some t /\ ar !! k = Some a /\
                        TestPriorSpec.arity lib t = a).
  { intros k row Hrow.
    destruct (Forall2_lookup_l _ _ _ _ _ Hcol Hrow) as (t & Ht & Hidx).
    destruct (Forall2_lookup_l _ _ _ _ _ Har Ht) as (a & Ha & Hget).
    apply index_inv in Hidx. rewrite nth_error_lookup in Hidx.
    exists t, a. repeat split; try assumption. apply arity_ok. exact Hget. }
  split.
  - unfold TestPriorSpec.loop_invariant.
    rewrite Hs_len, Hs_dang, Hs_prev, Hs_act, Hs_pri, Hprev'.
    rewrite !length_zip_with, length_app. cbn [length].
    repeat split; try lia.
    + intros v Hv k row Hrow.
      destruct (Hcolumn k row Hrow) as (t & a & Ht & Hat & _).
      unfold TestPrior.broadcast in Hv.
      rewrite <- Hlcol, Nat.eqb_refl in Hv. injection Hv as <-.
      rewrite Hat. f_equal. symmetry. cbn [nth]. apply nth_lookup_Some. exact Ht.
    + destruct (Hcolumn k row H) as (t & a & Ht & Hat & Ha & Harity).
      destruct (Hrows k row H) as (Hd & _).
      rewrite lookup_zip_with, Hd, Ha. cbn.
      rewrite (take_S_r _ _ _ Ht), dangling_after_app. cbn [fold_left].
      rewrite Harity. reflexivity.
    + destruct (Hcolumn k row H) as (t & a & Ht & Hat & Ha & Harity).
      destruct (Hrows k row H) as (Hd & (l & Hl & Hok) & _).
      assert (Hd' : TestPriorSpec.dangling_after lib (take (S i) row)
                    = (TestPriorSpec.dangling_after lib (take i row) + (a - 1))%Z).
      { rewrite (take_S_r _ _ _ Ht), dangling_after_app. cbn [fold_left].
        rewrite Harity. reflexivity. }
      eexists. split.
      * rewrite !lookup_zip_with, Hd, Ha, Hl. cbn. reflexivity.
      * rewrite <- Hd'.
        destruct Hok as [[-> Hnone] | [Hle Hfirst]].
        -- cbn [Nat.eqb]. rewrite andb_true_r.
           destruct (Z.eqb_spec (TestPriorSpec.dangling_after lib (take (S i) row)) 0)
             as [Hz|Hnz].
           ++ right. split; [lia|]. split; [lia|]. split; [exact Hz|].
              intros m Hm. apply Hnone. lia.
           ++ left. split; [reflexivity|]. intros m Hm.
              destruct (Nat.eq_dec m (S i)) as [->|Hne']; [exact Hnz | apply Hnone; lia].
        -- destruct Hfirst as (H1 & Hfirst).
           destruct (Nat.eqb_spec l 0) as [Hl0|_]; [lia|]. rewrite andb_false_r.
           right. split; [lia|]. split; assumption.
    + destruct (Hcolumn k row H) as (t & a & Ht & _).
      destruct (Hrows k row H) as (_ & _ & Hp).
      assert (Hk : k < length actions) by (apply lookup_lt_is_Some; eauto).
      assert (Hi : i < length row) by (apply lookup_lt_is_Some; eauto).
      pose proof (Hact v' Hv' k row H) as Hx.
      rewrite lookup_zip_with, Hp, Hx. cbn -[nth take].
      assert (Hlook : (Z.of_nat (length (Library.arities lib)) :: row) !! i
                      = Some (nth i (Z.of_nat (length (Library.arities lib)) :: row) 0%Z)).
      { destruct (nth_lookup_or_length
                    (Z.of_nat (length (Library.arities lib)) :: row) i 0%Z) as [Hs|Hge];
          [exact Hs | cbn [length] in Hge; lia]. }
      rewrite (take_S_r _ _ _ Hlook), <- app_assoc. f_equal. f_equal.
      rewrite insert_app_r_alt by (rewrite length_take; cbn [length]; lia).
      rewrite length_take. cbn [length].
      replace (i - Nat.min i (S (length row))) with 0 by lia.
      replace (length row - i) with (S (length row - S i)) by lia.
      reflexivity.
  - intros row Hrow. apply list_elem_of_lookup in Hrow as (k & Hk).
    destruct (Hcolumn k row Hk) as (t & a & Ht & _).
    apply lookup_lt_is_Some. eauto.
Qed.

Lemma loop_invariant_kept (lib : Library.t) (actions : list (list Z)) (n : nat) :
  forall (i : nat) (s s' : TestPrior.Loop.t P),
    TestPriorSpec.loop_invariant lib actions i s ->
    TestPrior.loop prior parents_siblings lib actions n i s = Ok s' ->
    TestPriorSpec.loop_invariant lib actions (i + n) s' /\
    (0 < n -> actions <> [] /\ forall row, row ∈ actions -> i + n <= length row).
Proof.
  induction n as [|n IH]; intros i s s' Hinv Hrun.
  - injection Hrun as <-. rewrite Nat.add_0_r. split; [exact Hinv | lia].
  - cbn [TestPrior.loop] in Hrun. apply bind_Ok_inv in Hrun as (s1 & Hstep & Hrun).
    pose proof (proj1 (step_inv _ _ _ _ _ Hstep)) as Hne.
    destruct (step_invariant lib actions i s s1 Hinv Hstep) as [Hinv1 Hlen1].
    destruct (IH (S i) s1 s' Hinv1 Hrun) as [Hinv' Hlen'].
    replace (i + S n) with (S i + n) by lia. split; [exact Hinv'|].
    intros _. split; [exact Hne|]. intros row Hrow.
    destruct n as [|n]; [specialize (Hlen1 row Hrow); lia|].
    apply Hlen'; [lia | exact Hrow].
Qed.

(** What a [make_batch] that returns has built. *)
Lemma make_batch_inv (lib : Library.t) (L : nat) (cases : list (list Z))
    (b : BatchArgs.t P) :
  TestPrior.make_batch initial_prior prior parents_siblings lib L cases = Ok b ->
  exists s : TestPrior.Loop.t P,
    1 <= L /\ cases <> [] /\
    BatchArgs.actions b = map (TestPrior.pad L) cases /\
    BatchArgs.obs b
      = [TestPrior.Loop.prev_actions s; TestPrior.Loop.parents s; TestPrior.Loop.siblings s] /\
    BatchArgs.lengths b
      = map (fun l => if Nat.eqb l 0 then L else l) (TestPrior.Loop.lengths s) /\
    BatchArgs.rewards b = replicate (length cases) 0%Q /\
    length (BatchArgs.priors b) = length cases /\
    Forall (fun r => length r = L) (BatchArgs.priors b) /\
    TestPriorSpec.loop_invariant lib (map (TestPrior.pad L) cases) L s /\
    (forall row, row ∈ map (TestPrior.pad L) cases -> L <= length row).
Proof.
  unfold TestPrior.make_batch. intros Hrun.
  apply bind_Ok_inv in Hrun as (actions & Harr & Hrun).
  apply array_inv in Harr as [-> _].
  apply bind_Ok_inv in Hrun as (m & _ & Hrun).
  apply bind_Ok_inv in Hrun as (s & Hloop & Hrun).
  apply bind_Ok_inv in Hrun as (priors' & Hswap & Hrun). injection Hrun as <-.
  cbn [BatchArgs.actions BatchArgs.obs BatchArgs.lengths BatchArgs.rewards
       BatchArgs.priors].
  apply swapaxes_inv in Hswap as (Hpne & Hlen & Hrows).
  assert (Hstart : TestPriorSpec.loop_invariant lib (map (TestPrior.pad L) cases) 0
                     (TestPrior.start initial_prior lib (length cases)
                        (map (TestPrior.pad L) cases) (m + 1)%Z)).
  { pose proof (start_invariant lib (map (TestPrior.pad L) cases) (m + 1)%Z) as Hst.
    rewrite length_map in Hst. exact Hst. }
  destruct (loop_invariant_kept lib _ L 0 _ s Hstart Hloop) as [Hinv Hpos].
  cbn [Nat.add] in Hinv, Hpos.
  pose proof Hinv as (_ & _ & _ & Hlpr & _).
  assert (HL : 1 <= L).
  { destruct L; [|lia]. destruct (TestPrior.Loop.priors s); [congruence | discriminate]. }
  destruct (Hpos ltac:(lia)) as [Hne Hlong].
  exists s. rewrite Hlpr in Hrows. split_and!; try assumption; try reflexivity.
  intros Hnil. apply Hne. rewrite Hnil. reflexivity.
Qed.

(** X21. The batch [make_batch] of the tests builds, when it returns:
    the actions are the cases, each filled up with the token 0 to
    [max_length] tokens; there is one length, one reward 0 and one row
    of [max_length] priors per case; the length of a row is the
    length of its first prefix that leaves no node dangling, and
    [max_length] when no prefix up to [max_length] tokens does (the
    padding counted as tokens); and the previous actions of a row are
    the row moved by one place, the number of tokens of the library
    (the action of no token) in front. It never returns for no case at
    all or for a [max_length] of 0. *)
Theorem make_batch_lengths_and_previous_actions (lib : Library.t) (L : nat)
    (cases : list (list Z)) (b : BatchArgs.t P) :
  TestPrior.make_batch initial_prior prior parents_siblings lib L cases = Ok b ->
  1 <= L /\ cases <> [] /\
  BatchArgs.actions b = map (TestPrior.pad L) cases /\
  length (BatchArgs.lengths b) = length cases /\
  BatchArgs.rewards b = replicate (length cases) 0%Q /\
  length (BatchArgs.priors b) = length cases /\
  Forall (fun r => length r = L) (BatchArgs.priors b) /\
  length (BatchArgs.obs b) = 3 /\
  forall k row, BatchArgs.actions b !! k = Some row ->
    L <= length row /\
    (exists n,
       BatchArgs.lengths b !! k = Some n /\ 1 <= n <= L /\
       (TestPriorSpec.first_complete lib row n \/
        (n = L /\
         forall m, 1 <= m <= L -> TestPriorSpec.dangling_after lib (take m row) <> 0%Z))) /\
    (exists prev_actions,
       BatchArgs.obs b !! 0 = Some prev_actions /\
       prev_actions !! k
       = Some (take L (Z.of_nat (length (Library.arities lib)) :: row)
               ++ replicate (length row - L) 0%Z)).
Proof.
  intros Hrun.
  apply make_batch_inv in Hrun
    as (s & HL & Hne & Hact & Hobs & Hlen & Hrew & Hlp & Hpr & Hinv & Hlong).
  destruct Hinv as (_ & Hll & _ & _ & _ & Hrows).
  rewrite length_map in Hll.
  repeat split; try assumption.
  - rewrite Hlen, length_map. exact Hll.
  - rewrite Hobs. reflexivity.
  - apply Hlong. rewrite Hact in H. apply list_elem_of_lookup. eauto.
  - rewrite Hact in H. destruct (Hrows k row H) as (_ & (l & Hl & Hok) & _).
    rewrite Hlen, list_lookup_fmap, Hl. cbn.
    destruct Hok as [[-> Hnone] | [Hle (H1 & Hfirst)]].
    + exists L. cbn [Nat.eqb]. repeat split; try lia. right. split; [reflexivity | exact Hnone].
    + destruct (Nat.eqb_spec l 0) as [Hz|_]; [lia|].
      exists l. repeat split; try lia. left. split; [exact H1 | exact Hfirst].
  - rewrite Hact in H. destruct (Hrows k row H) as (_ & _ & Hp).
    exists (TestPrior.Loop.prev_actions s). rewrite Hobs. split; [reflexivity | exact Hp].
Qed.

(** X22. What the lengths of [make_batch] say of the cases of
    [test_length]: a case that is a whole expression of at most
    [max_length] tokens gets its own length, whatever the padding after
    it; a case of [max_length] tokens of which no prefix is whole (the
    sequence that is one token too long, cut) gets [max_length] too, so
    that the length alone does not tell the two apart. *)
Theorem make_batch_measures_expressions (lib : Library.t) (L : nat)
    (cases : list (list Z)) (b : BatchArgs.t P) :
  TestPrior.make_batch initial_prior prior parents_siblings lib L cases = Ok b ->
  (forall k case,
     cases !! k = Some case -> length case <= L -> TestPriorSpec.complete lib case ->
     BatchArgs.lengths b !! k = Some (length case)) /\
  (forall k case,
     cases !! k = Some case -> length case = L ->
     (forall m, (0 < TestPriorSpec.dangling_after lib (take m case))%Z) ->
     BatchArgs.lengths b !! k = Some L).
Proof.
  intros Hrun.
  apply make_batch_inv in Hrun
    as (s & HL & Hne & Hact & Hobs & Hlen & Hrew & Hlp & Hpr & Hinv & Hlong).
  destruct Hinv as (_ & _ & _ & _ & _ & Hrows).
  assert (Hrow : forall k case, cases !! k = Some case ->
            exists l, BatchArgs.lengths b !! k = Some (if Nat.eqb l 0 then L else l) /\
                      TestPriorSpec.lengths_ok lib (TestPrior.pad L case) L l).
  { intros k case Hcase.
    assert (Hpad : map (TestPrior.pad L) cases !! k = Some (TestPrior.pad L case)).
    { rewrite list_lookup_fmap, Hcase. reflexivity. }
    destruct (Hrows k _ Hpad) as (_ & (l & Hl & Hok) & _).
    exists l. rewrite Hlen, list_lookup_fmap, Hl. split; [reflexivity | exact Hok]. }
  assert (Htake : forall case m, m <= length case ->
            take m (TestPrior.pad L case) = take m case).
  { intros case m Hm. unfold TestPrior.pad. rewrite take_app.
    replace (m - length case) with 0 by lia. cbn [take]. apply app_nil_r. }
  split.
  - intros k case Hcase Hshort [Hzero Hpos].
    destruct (Hrow k case Hcase) as (l & Hl & Hok). rewrite Hl. f_equal.
    assert (Hn : 1 <= length case).
    { destruct case; [|cbn [length]; lia]. cbn in Hzero. discriminate. }
    destruct Hok as [[-> Hnone] | [Hle (H1 & Hz & Hfirst)]].
    + exfalso. apply (Hnone (length case)); [lia|].
      rewrite Htake, take_ge by lia. exact Hzero.
    + destruct (Nat.eqb_spec l 0) as [Hl0|_]; [lia|].
      destruct (Nat.lt_trichotomy l (length case)) as [Hlt | [Heq | Hgt]].
      * exfalso. rewrite Htake in Hz by lia. specialize (Hpos l Hlt). lia.
      * exact Heq.
      * exfalso. apply (Hfirst (length case)); [lia|].
        rewrite Htake, take_ge by lia. exact Hzero.
  - intros k case Hcase Hfull Hpos.
    destruct (Hrow k case Hcase) as (l & Hl & Hok). rewrite Hl. f_equal.
    destruct Hok as [[-> _] | [Hle (H1 & Hz & _)]]; [reflexivity|].
    exfalso. rewrite Htake in Hz by lia. specialize (Hpos l). lia.
Qed.

End MakeBatchProofs.

Lemma make_batch_lengths_and_previous_actions_witness :
  exists b,
    TestPrior.make_batch 1%Z Example2.prior Example2.parents_siblings Example2.library 4
      [[0; 2; 2]; [1; 0]]%Z = Ok b /\
    BatchArgs.actions b = [[0; 2; 2; 0]; [1; 0; 0; 0]]%Z /\
    BatchArgs.lengths b = [3; 4] /\
    BatchArgs.obs b !! 0 = Some [[3; 0; 2; 2]; [3; 1; 0; 0]]%Z.
Proof.
  destruct (TestPrior.make_batch 1%Z Example2.prior Example2.parents_siblings
              Example2.library 4 [[0; 2; 2]; [1; 0]]%Z) as [b|e] eqn:Hrun;
    [|vm_compute in Hrun; discriminate].
  exists b. split; [reflexivity|].
  destruct (make_batch_lengths_and_previous_actions 1%Z Example2.prior
              Example2.parents_siblings Example2.library 4 [[0; 2; 2]; [1; 0]]%Z b Hrun)
    as (_ & _ & Hact & _).
  split; [exact Hact|].
  vm_compute in Hrun. injection Hrun as <-. split; reflexivity.
Defined.

Lemma make_batch_measures_expressions_witness :
  exists b,
    TestPrior.make_batch 1%Z Example2.prior Example2.parents_siblings Example2.library 4
      [[0; 2; 2]; [0; 0; 2; 2]]%Z = Ok b /\
    BatchArgs.lengths b !! 0 = Some 3 /\ BatchArgs.lengths b !! 1 = Some 4.
Proof.
  destruct (TestPrior.make_batch 1%Z Example2.prior Example2.parents_siblings
              Example2.library 4 [[0; 2; 2]; [0; 0; 2; 2]]%Z) as [b|e] eqn:Hrun;
    [|vm_compute in Hrun; discriminate].
  exists b. split; [reflexivity|].
  destruct (make_batch_measures_expressions 1%Z Example2.prior Example2.parents_siblings
              Example2.library 4 [[0; 2; 2]; [0; 0; 2; 2]]%Z b Hrun) as (Hwhole & Hcut).
  split.
  - apply (Hwhole 0 [0; 2; 2]%Z); [reflexivity | cbn; lia |].
    split; [reflexivity|]. intros m Hm. cbn [length] in Hm.
    destruct m as [|[|[|m]]]; [reflexivity | reflexivity | reflexivity | lia].
  - apply (Hcut 1 [0; 0; 2; 2]%Z); [reflexivity | reflexivity |].
    intros m. destruct m as [|[|[|[|[|m]]]]]; reflexivity.
Defined.
